(** * Pupil-diameter pipeline: validity filters, derived fields, phase metrics

    A shallow embedding of the analysis code of the repository, and the
    properties that its specification states about it.

    The code:

    - [src/filtered_data.py] and [src/raw_data_filter.py]
      (module [Main]);
    - their notebook snapshots under [src/.ipynb_checkpoints/]
      (module [Checkpoint]), which add the averaged, windowed and smoothed
      columns and two more filter passes;
    - [src/calibration_processor.py] (module [CalibrationProcessor]);
    - [src/.ipynb_checkpoints/calibration_data-checkpoint.py]
      (module [CalibrationData]);
    - [src/.ipynb_checkpoints/raw_data-checkpoint.py] (module [RawData]).

    Conventions of the embedding.

    - A float is an exact rational, or one of [+inf], [-inf], [NaN]; the
      rounding of IEEE arithmetic is not part of it and zero carries no
      sign.  The finite results of the operations are in lowest terms;
      inputs are taken as they are written.
    - A pandas DataFrame is a list of rows of a fixed record shape together
      with the list of the column names that are present; the cells of an
      absent column carry no meaning.  Row labels are the positions
      0..n-1 (a RangeIndex).
    - A Python exception is a [Raise] result of the error monad.
    - [numpy.sqrt], [time.time], [datetime.strptime], the sorting routine
      behind [sort_values] and the [json] codec belong to the environment
      and are parameters of what uses them.
    - The text column 'timestamp_readable' is tracked by name only.

    The file has three parts: the code, the definitions that the
    statements need (views of the code, the specification's own words,
    concrete tables), and the properties with their proofs. *)

From Stdlib Require Import QArith Qabs ZArith Lia String List Bool Sorted.
From stdpp Require Import gmap strings list fin_maps pretty.

Open Scope string_scope.

(* ===================================================================== *)
(** ** Floats *)
(* ===================================================================== *)

Module Float.

Inductive float : Type :=
| Fin (q : Q)
| PInf
| NInf
| NaN.

(** A finite result, in lowest terms. *)
Definition fin (q : Q) : float := Fin (Qred q).

Definition of_Z (z : Z) : float := Fin (z # 1).

Definition Qlt_bool (a b : Q) : bool := negb (Qle_bool b a).

Definition isnan (x : float) : bool :=
  match x with NaN => true | _ => false end.

Definition isfinite (x : float) : bool :=
  match x with Fin _ => true | _ => false end.

Definition fneg (x : float) : float :=
  match x with
  | Fin q => fin (- q)
  | PInf => NInf
  | NInf => PInf
  | NaN => NaN
  end.

Definition fadd (x y : float) : float :=
  match x, y with
  | NaN, _ | _, NaN => NaN
  | Fin a, Fin b => fin (a + b)
  | PInf, NInf | NInf, PInf => NaN
  | PInf, _ | _, PInf => PInf
  | NInf, _ | _, NInf => NInf
  end.

Definition fsub (x y : float) : float := fadd x (fneg y).

(** Sign of a float that is not NaN: [Lt], [Eq] or [Gt] against zero. *)
Definition fsign (x : float) : option comparison :=
  match x with
  | Fin q => Some (q ?= 0)%Q
  | PInf => Some Gt
  | NInf => Some Lt
  | NaN => None
  end.

Definition signed_inf (s t : comparison) : float :=
  match s, t with
  | Eq, _ | _, Eq => NaN
  | Gt, Gt | Lt, Lt => PInf
  | Gt, Lt | Lt, Gt => NInf
  end.

Definition fmul (x y : float) : float :=
  match x, y with
  | Fin a, Fin b => fin (a * b)
  | _, _ =>
      match fsign x, fsign y with
      | Some s, Some t => signed_inf s t
      | _, _ => NaN
      end
  end.

(** Division as numpy does it on float64 scalars: a zero divisor gives an
    infinity of the sign of the dividend, or NaN for 0/0, and raises
    nothing. *)
Definition fdiv (x y : float) : float :=
  match x, y with
  | NaN, _ | _, NaN => NaN
  | Fin a, Fin b =>
      if Qeq_bool b 0 then
        match (a ?= 0)%Q with Eq => NaN | Gt => PInf | Lt => NInf end
      else fin (a / b)
  | Fin _, (PInf | NInf) => Fin 0
  | (PInf | NInf), (PInf | NInf) => NaN
  | PInf, Fin b => if Qlt_bool b 0 then NInf else PInf
  | NInf, Fin b => if Qlt_bool b 0 then PInf else NInf
  end.

Definition fabs (x : float) : float :=
  match x with
  | Fin q => fin (Qabs q)
  | PInf | NInf => PInf
  | NaN => NaN
  end.

(** Comparisons: false as soon as one side is NaN. *)
Definition flt (x y : float) : bool :=
  match x, y with
  | NaN, _ | _, NaN => false
  | Fin a, Fin b => Qlt_bool a b
  | NInf, NInf | PInf, _ => false
  | NInf, _ => true
  | Fin _, PInf => true
  | Fin _, NInf => false
  end.

Definition fle (x y : float) : bool :=
  match x, y with
  | NaN, _ | _, NaN => false
  | Fin a, Fin b => Qle_bool a b
  | NInf, _ | _, PInf => true
  | _, NInf | PInf, _ => false
  end.

Definition fgt (x y : float) : bool := flt y x.
Definition fge (x y : float) : bool := fle y x.

Definition sum (l : list float) : float := fold_left fadd l (Fin 0).

(** [numpy.mean]: the sum over the count; NaN for an empty array. *)
Definition mean (l : list float) : float :=
  fdiv (sum l) (of_Z (Z.of_nat (length l))).

Definition dropna (l : list float) : list float :=
  List.filter (fun x => negb (isnan x)) l.

(** Minimum and maximum of a list without NaN; NaN for the empty list. *)
Definition min_list (l : list float) : float :=
  match l with
  | [] => NaN
  | x :: l' => fold_left (fun m y => if flt y m then y else m) l' x
  end.

Definition max_list (l : list float) : float :=
  match l with
  | [] => NaN
  | x :: l' => fold_left (fun m y => if flt m y then y else m) l' x
  end.

End Float.

Import Float.

(* ===================================================================== *)
(** ** Exceptions *)
(* ===================================================================== *)

Inductive exn : Type :=
| KeyError (key : string)
| ValueError (msg : string)
| TypeError (msg : string)
| OutOfBoundsDatetime (msg : string).

Inductive result (A : Type) : Type :=
| Ok (a : A)
| Raise (e : exn).

Arguments Ok {A} a.
Arguments Raise {A} e.

Definition bind {A B : Type} (m : result A) (k : A -> result B) : result B :=
  match m with
  | Ok a => k a
  | Raise e => Raise e
  end.

Notation "x <- m ;; k" := (bind m (fun x => k))
  (at level 100, m at next level, right associativity).

Definition is_Ok {A : Type} (m : result A) : bool :=
  match m with Ok _ => true | Raise _ => false end.

(* ===================================================================== *)
(** ** Data frames *)
(* ===================================================================== *)

Record Row : Type := mkRow {
  timestamp : float;                 (* 'timestamp' *)
  type_ : option string;             (* 'type'; None is a missing value *)
  eyeleft_pupildiameter : float;     (* 'eyeleft.pupildiameter' *)
  eyeright_pupildiameter : float;    (* 'eyeright.pupildiameter' *)
  is_valid : bool;                   (* 'is_valid' *)
  relative_timestamp : float;        (* 'relative_timestamp' *)
  avg_pupildiameter : float;         (* 'avg_pupildiameter' *)
  std_pupildiameter : float;         (* 'std_pupildiameter' *)
  avg_pupildiameter_smooth : float   (* 'avg_pupildiameter_smooth' *)
}.

Record DataFrame : Type := mkDF {
  columns : list string;
  rows : list Row
}.

Definition set_is_valid (b : bool) (r : Row) : Row :=
  mkRow (timestamp r) (type_ r) (eyeleft_pupildiameter r)
        (eyeright_pupildiameter r) b (relative_timestamp r)
        (avg_pupildiameter r) (std_pupildiameter r)
        (avg_pupildiameter_smooth r).

Definition set_relative_timestamp (v : float) (r : Row) : Row :=
  mkRow (timestamp r) (type_ r) (eyeleft_pupildiameter r)
        (eyeright_pupildiameter r) (is_valid r) v
        (avg_pupildiameter r) (std_pupildiameter r)
        (avg_pupildiameter_smooth r).

Definition set_avg_pupildiameter (v : float) (r : Row) : Row :=
  mkRow (timestamp r) (type_ r) (eyeleft_pupildiameter r)
        (eyeright_pupildiameter r) (is_valid r) (relative_timestamp r)
        v (std_pupildiameter r) (avg_pupildiameter_smooth r).

Definition set_std_pupildiameter (v : float) (r : Row) : Row :=
  mkRow (timestamp r) (type_ r) (eyeleft_pupildiameter r)
        (eyeright_pupildiameter r) (is_valid r) (relative_timestamp r)
        (avg_pupildiameter r) v (avg_pupildiameter_smooth r).

Definition set_avg_pupildiameter_smooth (v : float) (r : Row) : Row :=
  mkRow (timestamp r) (type_ r) (eyeleft_pupildiameter r)
        (eyeright_pupildiameter r) (is_valid r) (relative_timestamp r)
        (avg_pupildiameter r) (std_pupildiameter r) v.

(** The columns a filter reads but never writes. *)
Definition raw_cells (r : Row) : float * option string * float * float :=
  (timestamp r, type_ r, eyeleft_pupildiameter r, eyeright_pupildiameter r).

(** Writing a float into the cell of a named calculated column; a name
    outside the record shape has no cell. *)
Definition set_float_cell (c : string) (v : float) (r : Row) : Row :=
  if String.eqb c "relative_timestamp" then set_relative_timestamp v r
  else if String.eqb c "avg_pupildiameter" then set_avg_pupildiameter v r
  else if String.eqb c "std_pupildiameter" then set_std_pupildiameter v r
  else if String.eqb c "avg_pupildiameter_smooth"
       then set_avg_pupildiameter_smooth v r
  else r.

(** ['c' in df.columns] *)
Definition has_column (c : string) (df : DataFrame) : bool :=
  existsb (String.eqb c) (columns df).

Definition add_column (c : string) (df : DataFrame) : DataFrame :=
  if has_column c df then df else mkDF (columns df ++ [c]) (rows df).

(** [df['c']] for a column held in the field [f]. *)
Definition getitem {A : Type} (c : string) (f : Row -> A) (df : DataFrame)
  : result (list A) :=
  if has_column c df then Ok (map f (rows df)) else Raise (KeyError c).

(** [df['c'] = v] for a scalar [v]: the column is created when absent. *)
Definition setitem_scalar (c : string) (upd : Row -> Row) (df : DataFrame)
  : DataFrame :=
  add_column c (mkDF (columns df) (map upd (rows df))).

(** Rows taken by a boolean mask, the rest by another function. *)
Fixpoint map_where (mask : list bool) (f : Row -> Row) (rs : list Row)
  : list Row :=
  match mask, rs with
  | b :: mask', r :: rs' =>
      (if b then f r else r) :: map_where mask' f rs'
  | _, _ => rs
  end.

(** [df.loc[mask, 'is_valid'] = False] *)
Definition loc_set_is_valid_false (mask : list bool) (df : DataFrame)
  : DataFrame :=
  add_column "is_valid"
    (mkDF (columns df) (map_where mask (set_is_valid false) (rows df))).

(** [df.loc[df['is_valid'] == True, 'c'] = values], where [values] is
    aligned with the whole frame. *)
Fixpoint assign_valid (upd : float -> Row -> Row) (values : list float)
  (rs : list Row) : list Row :=
  match values, rs with
  | v :: values', r :: rs' =>
      (if is_valid r then upd v r else r) :: assign_valid upd values' rs'
  | _, _ => rs
  end.

(** [s.diff()]: NaN first, then each element minus the one before. *)
Definition diff (s : list float) : list float :=
  match s with
  | [] => []
  | x :: s' => NaN :: map (fun p => fsub (snd p) (fst p)) (combine s s')
  end.

(** [s.min()], which skips missing values. *)
Definition series_min (s : list float) : float := min_list (dropna s).

(** [s.mean()], which skips missing values. *)
Definition series_mean (s : list float) : float := mean (dropna s).

(** [str.replace(old, '')]: every non-overlapping occurrence of [old],
    scanning from the left, is removed. *)
Fixpoint remove_all_from (old : string) (skip : nat) (s : string) : string :=
  match s with
  | EmptyString => EmptyString
  | String c s' =>
      match skip with
      | S k => remove_all_from old k s'
      | O =>
          if andb (negb (String.eqb old "")) (String.prefix old s)
          then remove_all_from old (String.length old - 1) s'
          else String c (remove_all_from old 0 s')
      end
  end.

Definition str_remove (old s : string) : string := remove_all_from old 0 s.

(** [df.columns = [col.replace('data.', '') for col in df.columns]] *)
Definition strip_data_prefix (df : DataFrame) : DataFrame :=
  mkDF (map (str_remove "data.") (columns df)) (rows df).

(** [pd.to_datetime(s, unit='s').dt.strftime("%Y-%m-%d %H:%M:%S")] on a
    column of floats. The dates are held in nanoseconds as 64-bit integers:
    a timestamp beyond that range (about the years 1677 to 2262), an
    infinite one included, raises OutOfBoundsDatetime; a missing timestamp
    gives a missing date and raises nothing. Of the text that comes out
    nothing is kept. *)
Definition datetime_max_ns : Z := 9223372036854775807.

Definition in_datetime_range (t : float) : bool :=
  match t with
  | Fin q =>
      Qle_bool (- datetime_max_ns # 1) (q * (1000000000 # 1))
      && Qle_bool (q * (1000000000 # 1)) (datetime_max_ns # 1)
  | PInf | NInf => false
  | NaN => true
  end.

Definition to_datetime_strftime (s : list float) : result unit :=
  if forallb in_datetime_range s then Ok tt
  else Raise (OutOfBoundsDatetime "cannot convert input with unit 's'").

(* ===================================================================== *)
(** ** class FilteredData: attributes and accessors

    The two versions of the class, [src/filtered_data.py] and its notebook
    snapshot, have the same attributes and the same accessors; they differ
    in [_prepare_data] and in what it calls. *)
(* ===================================================================== *)

Record FilteredData : Type := mkFD {
  _data : option DataFrame;          (* None when built without a table *)
  _start_timestamp : option float;   (* None is Python's None *)
  _user_id : option Z
}.

Definition get_user_id (self : FilteredData) : option Z := _user_id self.

Definition set_user_id (self : FilteredData) (new_user_id : option Z)
  : FilteredData :=
  mkFD (_data self) (_start_timestamp self) new_user_id.

Definition get_data (self : FilteredData) : option DataFrame := _data self.

Definition get_start_timestamp (self : FilteredData) : option float :=
  _start_timestamp self.

(** What subscripting the value of [get_data()] does when it is None. *)
Definition subscriptable (d : option DataFrame) : result DataFrame :=
  match d with
  | Some df => Ok df
  | None => Raise (TypeError "'NoneType' object is not subscriptable")
  end.

(* ===================================================================== *)
(** ** src/.ipynb_checkpoints/raw_data-checkpoint.py: class RawData

    Reading the gzip file, parsing its JSON lines and flattening them with
    [pandas.json_normalize] belong to the environment: [read_table] is the
    table that these steps give for a path, or the exception they raise. *)
(* ===================================================================== *)

Module RawData.

Record RawData : Type := mkRawData {
  _user_id : option Z;
  _raw_data : option DataFrame
}.

Section Files.

Variable read_table : string -> result DataFrame.

Definition read_gz (self : RawData) (gz_file_path : string) : result RawData :=
  df <- read_table gz_file_path ;;
  Ok (mkRawData (_user_id self) (Some df)).

Definition __init__ (gz_file_path : string) (user_id : option Z)
  : result RawData :=
  read_gz (mkRawData user_id None) gz_file_path.

End Files.

Definition get_raw_data (self : RawData) : option DataFrame := _raw_data self.

Definition get_user_id (self : RawData) : option Z := _user_id self.

End RawData.

(* ===================================================================== *)
(** ** src/filtered_data.py and src/raw_data_filter.py *)
(* ===================================================================== *)

Module Main.

(** *** class FilteredData *)

Definition _calculated_fields : list string := ["relative_timestamp"].

(** Every calculated field is overwritten with NaN, created if absent. *)
Definition _reset_calculated_fields (df : DataFrame) : DataFrame :=
  fold_left
    (fun d field => setitem_scalar field (set_float_cell field NaN) d)
    _calculated_fields df.

Definition _prepare_data (self : FilteredData) : result FilteredData :=
  match _data self with
  | None => Raise (TypeError "'NoneType' object has no attribute 'columns'")
  | Some df0 =>
      let df1 := strip_data_prefix df0 in
      let df2 :=
        if negb (has_column "is_valid" df1)
        then setitem_scalar "is_valid" (set_is_valid true) df1
        else df1 in
      let df3 := _reset_calculated_fields df2 in
      let valid_data := List.filter is_valid (rows df3) in
      st <- (if negb (Nat.eqb (length valid_data) 0) then
               ts_valid <- getitem "timestamp" timestamp
                             (mkDF (columns df3) valid_data) ;;
               let start := series_min ts_valid in
               ts <- getitem "timestamp" timestamp df3 ;;
               Ok (mkDF (columns df3)
                        (assign_valid set_relative_timestamp
                           (map (fun t => fsub t start) ts) (rows df3)),
                   Some start)
             else Ok (df3, None)) ;;
      let '(df4, start_timestamp) := st in
      df5 <- (if negb (has_column "timestamp_readable" df4) then
                ts <- getitem "timestamp" timestamp df4 ;;
                _ <- to_datetime_strftime ts ;;
                Ok (add_column "timestamp_readable" df4)
              else Ok df4) ;;
      Ok (mkFD (Some df5) start_timestamp (_user_id self))
  end.

Definition __init__ (raw_df : option DataFrame) (user_id : option Z)
  : result FilteredData :=
  match raw_df with
  | Some df =>
      self <- _prepare_data (mkFD (Some df) None None) ;;
      Ok (mkFD (_data self) (_start_timestamp self) user_id)
  | None => Ok (mkFD None None user_id)
  end.

Definition set_data (self : FilteredData) (new_data : DataFrame)
  : result FilteredData :=
  _prepare_data (mkFD (Some new_data) (_start_timestamp self) (_user_id self)).

(** *** class RawDataFilter *)

Definition DEFAULT_TOLERANCE : float := Fin (1 # 50).

Definition create_filtered_data (raw_data : RawData.RawData)
  : result FilteredData :=
  __init__ (RawData.get_raw_data raw_data) (RawData.get_user_id raw_data).

Definition filter_only_gaze (filtered_data : FilteredData)
  : result FilteredData :=
  df <- subscriptable (get_data filtered_data) ;;
  types <- getitem "type" type_ df ;;
  let mask :=
    map (fun t => match t with
                  | Some s => negb (String.eqb s "gaze")
                  | None => true
                  end) types in
  set_data filtered_data (loc_set_is_valid_false mask df).

Definition filter_invalid_pupils (filtered_data : FilteredData)
  (min_size max_size : float) : result FilteredData :=
  df <- subscriptable (get_data filtered_data) ;;
  left <- getitem "eyeleft.pupildiameter" eyeleft_pupildiameter df ;;
  right <- getitem "eyeright.pupildiameter" eyeright_pupildiameter df ;;
  let mask :=
    map (fun p => flt (fst p) min_size || fgt (fst p) max_size
                  || flt (snd p) min_size || fgt (snd p) max_size)
        (combine left right) in
  set_data filtered_data (loc_set_is_valid_false mask df).

Definition filter_missing_data (filtered_data : FilteredData)
  : result FilteredData :=
  df <- subscriptable (get_data filtered_data) ;;
  left <- getitem "eyeleft.pupildiameter" eyeleft_pupildiameter df ;;
  right <- getitem "eyeright.pupildiameter" eyeright_pupildiameter df ;;
  ts <- getitem "timestamp" timestamp df ;;
  let mask :=
    map (fun p => isnan (fst (fst p)) || isnan (snd (fst p)) || isnan (snd p))
        (combine (combine left right) ts) in
  set_data filtered_data (loc_set_is_valid_false mask df).

Section Environment.

(** [datetime.strptime(s, "%d/%m/%Y").timestamp()], which raises on a
    string of another shape. *)
Variable strptime_timestamp : string -> result float.

(** [current_time] is what [time.time()] returns during the call. *)
Definition filter_by_timestamp (current_time : float)
  (filtered_data : FilteredData) (min_timestamp : float + string)
  : result FilteredData :=
  let df := get_data filtered_data in
  min_timestamp <- match min_timestamp with
                   | inl x => Ok x
                   | inr s => strptime_timestamp s
                   end ;;
  df <- subscriptable df ;;
  ts <- getitem "timestamp" timestamp df ;;
  let mask := map (fun t => flt t min_timestamp || fgt t current_time) ts in
  set_data filtered_data (loc_set_is_valid_false mask df).

End Environment.

Definition filter_unrealistic_event_spacing (filtered_data : FilteredData)
  (min_interval : float) : result FilteredData :=
  df <- subscriptable (get_data filtered_data) ;;
  ts <- getitem "timestamp" timestamp df ;;
  let mask := map (fun d => flt d min_interval) (diff ts) in
  set_data filtered_data (loc_set_is_valid_false mask df).

(** [s.shift()]: every value moves one row down, the first is missing. *)
Definition shift {A : Type} (s : list A) : list (option A) :=
  match s with
  | [] => []
  | _ :: _ => None :: map Some (removelast s)
  end.

(** [s != s.shift()] on booleans: a missing value differs from both. *)
Definition ne_shift (s : list bool) : list bool :=
  map (fun p => match snd p with
                | None => true
                | Some b => xorb (fst p) b
                end)
      (combine s (shift s)).

(** [s.cumsum()] on booleans counted as 0 and 1. *)
Fixpoint cumsum_from (acc : nat) (s : list bool) : list nat :=
  match s with
  | [] => []
  | b :: s' =>
      let acc' := if b then S acc else acc in
      acc' :: cumsum_from acc' s'
  end.

Definition cumsum (s : list bool) : list nat := cumsum_from 0 s.

(** [s.groupby(keys).transform('size')]: each row gets the number of rows
    that share its key. *)
Definition groupby_transform_size (keys : list nat) : list nat :=
  map (fun k => count_occ Nat.eq_dec keys k) keys.

Definition filter_constant_pupil (filtered_data : FilteredData)
  (max_static_steps : Z) (tolerance : option float) : result FilteredData :=
  df <- subscriptable (get_data filtered_data) ;;
  let tolerance :=
    match tolerance with None => DEFAULT_TOLERANCE | Some t => t end in
  left <- getitem "eyeleft.pupildiameter" eyeleft_pupildiameter df ;;
  let left_diff := map fabs (diff left) in
  right <- getitem "eyeright.pupildiameter" eyeright_pupildiameter df ;;
  let right_diff := map fabs (diff right) in
  let stable_left := map (fun d => flt d tolerance) left_diff in
  let stable_right := map (fun d => flt d tolerance) right_diff in
  let stable :=
    map (fun p => fst p && snd p) (combine stable_left stable_right) in
  let stable_streak := groupby_transform_size (cumsum (ne_shift stable)) in
  let mask :=
    map (fun p => fst p && (max_static_steps <=? Z.of_nat (snd p))%Z)
        (combine stable stable_streak) in
  set_data filtered_data (loc_set_is_valid_false mask df).

Definition filter_async_pupil_size (filtered_data : FilteredData)
  (tolerance : option float) : result FilteredData :=
  df <- subscriptable (get_data filtered_data) ;;
  let tolerance :=
    match tolerance with None => DEFAULT_TOLERANCE | Some t => t end in
  left <- getitem "eyeleft.pupildiameter" eyeleft_pupildiameter df ;;
  let left_diff := diff left in
  right <- getitem "eyeright.pupildiameter" eyeright_pupildiameter df ;;
  let right_diff := diff right in
  let mask :=
    map (fun p => flt (fmul (fst p) (snd p)) (Fin 0)
                  && fgt (fabs (fst p)) tolerance
                  && fgt (fabs (snd p)) tolerance)
        (combine left_diff right_diff) in
  set_data filtered_data (loc_set_is_valid_false mask df).

(** *** The filter chain

    One call of a filter method, with its arguments; the timestamp-bounds
    pass also records the clock reading taken during the call. *)
Inductive filter_call : Type :=
| OnlyGaze
| InvalidPupils (min_size max_size : float)
| MissingData
| ByTimestamp (min_timestamp : float + string) (current_time : float)
| UnrealisticEventSpacing (min_interval : float)
| ConstantPupil (max_static_steps : Z) (tolerance : option float)
| AsyncPupilSize (tolerance : option float).

Section Chain.

Variable strptime_timestamp : string -> result float.

Definition call (c : filter_call) (filtered_data : FilteredData)
  : result FilteredData :=
  match c with
  | OnlyGaze => filter_only_gaze filtered_data
  | InvalidPupils lo hi => filter_invalid_pupils filtered_data lo hi
  | MissingData => filter_missing_data filtered_data
  | ByTimestamp m now =>
      filter_by_timestamp strptime_timestamp now filtered_data m
  | UnrealisticEventSpacing d =>
      filter_unrealistic_event_spacing filtered_data d
  | ConstantPupil n tol => filter_constant_pupil filtered_data n tol
  | AsyncPupilSize tol => filter_async_pupil_size filtered_data tol
  end.

(** The calls of a chain, run in order; the first exception ends it. *)
Fixpoint call_all (cs : list filter_call) (filtered_data : FilteredData)
  : result FilteredData :=
  match cs with
  | [] => Ok filtered_data
  | c :: cs' =>
      filtered_data' <- call c filtered_data ;;
      call_all cs' filtered_data'
  end.

End Chain.

End Main.

(* ===================================================================== *)
(** ** The notebook snapshots: src/.ipynb_checkpoints/ *)
(* ===================================================================== *)

(** [a[mask]] on numpy arrays: the elements whose mask bit is set. *)
Fixpoint compress {A : Type} (mask : list bool) (a : list A) : list A :=
  match mask, a with
  | b :: mask', x :: a' =>
      if b then x :: compress mask' a' else compress mask' a'
  | _, _ => []
  end.

(** [df.loc[df['is_valid'] == True, 'c'] = values], where [values] has one
    element for each valid row, in order. *)
Fixpoint assign_valid_list (upd : float -> Row -> Row) (values : list float)
  (rs : list Row) : list Row :=
  match rs with
  | [] => []
  | r :: rs' =>
      if is_valid r then
        match values with
        | v :: values' => upd v r :: assign_valid_list upd values' rs'
        | [] => r :: rs'
        end
      else r :: assign_valid_list upd values rs'
  end.

(** The rows of a frame with their labels. *)
Definition labelled (rs : list Row) : list (nat * Row) :=
  combine (seq 0 (length rs)) rs.

(** [df.at[label, 'is_valid'] = False] for a label of the frame. *)
Definition at_set_is_valid_false (label : nat) (df : DataFrame) : DataFrame :=
  mkDF (columns df)
       (map (fun p => if Nat.eqb (fst p) label
                      then set_is_valid false (snd p) else snd p)
            (labelled (rows df))).

(** [df.loc[labels, 'is_valid'] = False] for a list of labels: a label
    that the frame does not have is a KeyError. *)
Definition loc_labels_set_is_valid_false (labels : list Z) (df : DataFrame)
  : result DataFrame :=
  let n := Z.of_nat (length (rows df)) in
  if forallb (fun l => (0 <=? l)%Z && (l <? n)%Z) labels then
    Ok (mkDF (columns df)
             (map (fun p =>
                     if existsb (Z.eqb (Z.of_nat (fst p))) labels
                     then set_is_valid false (snd p) else snd p)
                  (labelled (rows df))))
  else Raise (KeyError "not in index").

Section Roots.

(** [numpy.sqrt] on the finite values that are not negative. *)
Variable sqrt_Q : Q -> Q.

Definition np_sqrt (x : float) : float :=
  match x with
  | Fin q => if Qlt_bool q 0 then NaN else fin (sqrt_Q q)
  | PInf => PInf
  | NInf | NaN => NaN
  end.

(** [numpy.std(a, ddof=ddof)]: the root of the sum of squared deviations
    from the mean over [max(n - ddof, 0)]. *)
Definition np_std (a : list float) (ddof : Z) : float :=
  let arrmean := mean a in
  let x := map (fun v => fsub v arrmean) a in
  let x := map (fun v => fmul v v) x in
  np_sqrt (fdiv (sum x) (of_Z (Z.max (Z.of_nat (length a) - ddof) 0))).

(** [numpy.nanmean] and [numpy.nanstd]: the same over the values that are
    not NaN; NaN when there is none. *)
Definition np_nanmean (a : list float) : float := mean (dropna a).

Definition np_nanstd (a : list float) : float := np_std (dropna a) 0.

(** [s.std(ddof=ddof)] of pandas: missing values are skipped, and the
    result is missing when no more than [ddof] values are left. *)
Definition series_std (s : list float) (ddof : Z) : float :=
  let values := dropna s in
  if (Z.of_nat (length values) <=? ddof)%Z then NaN
  else np_std values ddof.

End Roots.

Module Checkpoint.

Section Numpy.

(** [df.sort_values('timestamp')] on the rows of a frame: ascending, the
    rows without a timestamp last. The method sorts with numpy's
    'quicksort', which may leave rows of equal timestamps in any order, so
    the routine is a parameter here. *)
Variable sort_values : list Row -> list Row.

Variable sqrt_Q : Q -> Q.

(** *** class FilteredData *)

Definition _calculated_fields : list string :=
  ["relative_timestamp"; "avg_pupildiameter"; "std_pupildiameter";
   "avg_pupildiameter_smooth"].

(** A calculated field is created with NaN only when it is absent. *)
Definition _reset_calculated_fields (df : DataFrame) : DataFrame :=
  fold_left
    (fun d field =>
       if negb (has_column field d)
       then setitem_scalar field (set_float_cell field NaN) d
       else d)
    _calculated_fields df.

(** The mask of a closed time window around [t]. *)
Definition window_mask (timestamps : list float) (t w : float) : list bool :=
  map (fun u => fge u (fsub t w) && fle u (fadd t w)) timestamps.

Definition _smooth_avg_pupildiameter (self : FilteredData)
  (time_window_smooth : float) : result FilteredData :=
  df <- subscriptable (_data self) ;;
  if negb (has_column "timestamp" df)
     || negb (has_column "avg_pupildiameter" df)
  then Raise (ValueError
         "В данных должны быть колонки 'timestamp' и 'avg_pupildiameter'.")
  else
    let df := mkDF (columns df) (sort_values (rows df)) in
    let df := setitem_scalar "avg_pupildiameter_smooth"
                (set_avg_pupildiameter_smooth NaN) df in
    let valid_rows := List.filter is_valid (rows df) in
    let timestamps := map timestamp valid_rows in
    let values := map avg_pupildiameter valid_rows in
    let smoothed_values :=
      map (fun p =>
             let mask := window_mask timestamps (fst p) time_window_smooth in
             if existsb id mask then mean (compress mask values)
             else snd p)
          (combine timestamps values) in
    Ok (mkFD (Some (mkDF (columns df)
                         (assign_valid_list set_avg_pupildiameter_smooth
                            smoothed_values (rows df))))
             (_start_timestamp self) (_user_id self)).

Definition _prepare_data (self : FilteredData) (time_window_smooth : float)
  : result FilteredData :=
  match _data self with
  | None => Raise (TypeError "'NoneType' object has no attribute 'columns'")
  | Some df0 =>
      let df1 := strip_data_prefix df0 in
      let df2 :=
        if negb (has_column "is_valid" df1)
        then setitem_scalar "is_valid" (set_is_valid true) df1
        else df1 in
      let df3 := _reset_calculated_fields df2 in
      (* a copy of the valid rows, as they are at this point *)
      let valid_data := List.filter is_valid (rows df3) in
      st <- (if negb (Nat.eqb (length valid_data) 0) then
               ts_valid <- getitem "timestamp" timestamp
                             (mkDF (columns df3) valid_data) ;;
               let start := series_min ts_valid in
               ts <- getitem "timestamp" timestamp df3 ;;
               Ok (mkDF (columns df3)
                        (assign_valid set_relative_timestamp
                           (map (fun t => fsub t start) ts) (rows df3)),
                   Some start)
             else Ok (df3, None)) ;;
      let '(df4, start_timestamp) := st in
      df5 <- (if negb (has_column "timestamp_readable" df4) then
                ts <- getitem "timestamp" timestamp df4 ;;
                _ <- to_datetime_strftime ts ;;
                Ok (add_column "timestamp_readable" df4)
              else Ok df4) ;;
      let df6 :=
        if has_column "eyeleft.pupildiameter" df5
           && has_column "eyeright.pupildiameter" df5
        then mkDF (columns df5)
               (map (fun r =>
                       set_avg_pupildiameter
                         (fdiv (fadd (eyeleft_pupildiameter r)
                                     (eyeright_pupildiameter r))
                               (Fin 2)) r)
                    (rows df5))
        else setitem_scalar "avg_pupildiameter"
               (set_avg_pupildiameter NaN) df5 in
      let df7 :=
        if negb (Nat.eqb (length valid_data) 0) then
          let time_window := Fin (1 # 2) in
          (* read from the copy taken above *)
          let timestamps := map relative_timestamp valid_data in
          let pupils := map avg_pupildiameter valid_data in
          let std_pupil_list :=
            map (fun current_time =>
                   let mask :=
                     window_mask timestamps current_time time_window in
                   let window_pupils := compress mask pupils in
                   if (2 <=? length window_pupils)%nat
                   then np_std sqrt_Q window_pupils 1
                   else NaN)
                timestamps in
          mkDF (columns df6)
               (assign_valid_list set_std_pupildiameter std_pupil_list
                  (rows df6))
        else setitem_scalar "std_pupildiameter"
               (set_std_pupildiameter NaN) df6 in
      _smooth_avg_pupildiameter
        (mkFD (Some df7) start_timestamp (_user_id self))
        time_window_smooth
  end.

Definition default_time_window_smooth : float := Fin (3 # 10).

Definition __init__ (raw_df : option DataFrame) (user_id : option Z)
  : result FilteredData :=
  match raw_df with
  | Some df =>
      self <- _prepare_data (mkFD (Some df) None None)
                default_time_window_smooth ;;
      Ok (mkFD (_data self) (_start_timestamp self) user_id)
  | None => Ok (mkFD None None user_id)
  end.

Definition set_data (self : FilteredData) (new_data : DataFrame)
  : result FilteredData :=
  _prepare_data (mkFD (Some new_data) (_start_timestamp self) (_user_id self))
    default_time_window_smooth.

(** What [validate_filters] raises: the ValueError of a table without the
    validity column, a RuntimeError, or the AttributeError of an object
    built without a table. *)
Inductive validate_error : Type :=
| Exn (e : exn)
| RuntimeError (msg : string)
| AttributeError (msg : string).

(** [validate_filters]: an exception, or the three counts of the message it
    prints (valid, invalid, total). The flags of a frame are booleans, so
    none of them is missing and the second check never fires. *)
Definition validate_filters (self : FilteredData)
  : validate_error + (Z * Z * Z) :=
  match _data self with
  | None =>
      inl (AttributeError "'NoneType' object has no attribute 'columns'")
  | Some df =>
      if negb (has_column "is_valid" df) then
        inl (Exn (ValueError
               "Фильтры не применялись: нет колонки 'is_valid'."))
      else
        let total := Z.of_nat (length (rows df)) in
        let valid_count :=
          Z.of_nat (length (List.filter is_valid (rows df))) in
        let invalid_count := (total - valid_count)%Z in
        if (invalid_count =? 0)%Z then
          inl (RuntimeError
            "Ни одна строка не была отфильтрована: проверьте работу фильтров.")
        else if (valid_count =? 0)%Z then
          inl (RuntimeError
            "Все строки оказались невалидными: слишком жёсткие фильтры или ошибка.")
        else inr (valid_count, invalid_count, total)
  end.

(** *** class RawDataFilter *)

Definition create_filtered_data (raw_data : RawData.RawData)
  : result FilteredData :=
  __init__ (RawData.get_raw_data raw_data) (RawData.get_user_id raw_data).

(** Both rows of a close pair are marked: the current one and, through its
    label minus one, the one before it. *)
Definition filter_unrealistic_event_spacing (filtered_data : FilteredData)
  (min_interval : float) : result FilteredData :=
  df <- subscriptable (get_data filtered_data) ;;
  ts <- getitem "timestamp" timestamp df ;;
  let delta_time := diff ts in
  let outlier_mask := map (fun d => flt d min_interval) delta_time in
  let bad_indexes :=
    compress outlier_mask (map Z.of_nat (seq 0 (length (rows df)))) in
  df <- loc_labels_set_is_valid_false bad_indexes df ;;
  df <- loc_labels_set_is_valid_false
          (map (fun i => (i - 1)%Z) bad_indexes) df ;;
  set_data filtered_data df.

(** The loop of [filter_pupil_speed] from row [i] on: [prev] is row [i-1]
    of the copy of the valid rows, [df] the frame as marked so far. *)
Fixpoint pupil_speed_loop (max_speed_mm_per_sec : float)
  (prev : nat * Row) (rest : list (nat * Row)) (df : DataFrame) : DataFrame :=
  match rest with
  | [] => df
  | cur :: rest' =>
      let delta_pupil :=
        fabs (fsub (avg_pupildiameter (snd cur))
                   (avg_pupildiameter (snd prev))) in
      let delta_time :=
        fsub (relative_timestamp (snd cur))
             (relative_timestamp (snd prev)) in
      let df' :=
        if fgt delta_time (Fin 0) then
          let speed := fdiv delta_pupil delta_time in
          if fgt speed max_speed_mm_per_sec then
            at_set_is_valid_false (fst prev)
              (at_set_is_valid_false (fst cur) df)
          else df
        else df in
      pupil_speed_loop max_speed_mm_per_sec cur rest' df'
  end.

Definition filter_pupil_speed (filtered_data : FilteredData)
  (max_speed_mm_per_sec : float) : result FilteredData :=
  df <- subscriptable (get_data filtered_data) ;;
  if negb (has_column "avg_pupildiameter" df)
     || negb (has_column "relative_timestamp" df)
  then Raise (ValueError "Нет необходимых колонок")
  else
    let valid_data :=
      List.filter (fun p => is_valid (snd p)) (labelled (rows df)) in
    let df :=
      match valid_data with
      | [] => df
      | first :: rest =>
          pupil_speed_loop max_speed_mm_per_sec first rest df
      end in
    set_data filtered_data df.

Definition filter_by_std_outliers (fFilterData : FilteredData)
  (time_window sigma_threshold : float) : result FilteredData :=
  df <- subscriptable (get_data fFilterData) ;;
  if negb (has_column "std_pupildiameter" df)
  then Raise (ValueError
    "std_pupildiameter не рассчитан. Сначала рассчитайте стандартное отклонение.")
  else
    let valid_data :=
      List.filter (fun p => is_valid (snd p)) (labelled (rows df)) in
    timestamps <- getitem "relative_timestamp" relative_timestamp
                    (mkDF (columns df) (map snd valid_data)) ;;
    let stds := map std_pupildiameter (map snd valid_data) in
    let outlier_mask :=
      map (fun p =>
             let current_time := fst p in
             let mask := window_mask timestamps current_time time_window in
             let local_stds := compress mask stds in
             if (2 <=? length local_stds)%nat then
               let mean_std := np_nanmean local_stds in
               let std_std := np_nanstd sqrt_Q local_stds in
               let lower_bound :=
                 fsub mean_std (fmul sigma_threshold std_std) in
               let upper_bound :=
                 fadd mean_std (fmul sigma_threshold std_std) in
               negb (fle lower_bound (snd p) && fle (snd p) upper_bound)
             else false)
          (combine timestamps stds) in
    let valid_indices := map fst valid_data in
    df <- loc_labels_set_is_valid_false
            (map Z.of_nat (compress outlier_mask valid_indices)) df ;;
    set_data fFilterData df.

(** The other five methods read as in src/raw_data_filter.py; they hand
    the frame to the [set_data] of this module. *)

Definition DEFAULT_TOLERANCE : float := Fin (1 # 50).

Definition filter_only_gaze (filtered_data : FilteredData)
  : result FilteredData :=
  df <- subscriptable (get_data filtered_data) ;;
  types <- getitem "type" type_ df ;;
  let mask :=
    map (fun t => match t with
                  | Some s => negb (String.eqb s "gaze")
                  | None => true
                  end) types in
  set_data filtered_data (loc_set_is_valid_false mask df).

Definition filter_invalid_pupils (filtered_data : FilteredData)
  (min_size max_size : float) : result FilteredData :=
  df <- subscriptable (get_data filtered_data) ;;
  left <- getitem "eyeleft.pupildiameter" eyeleft_pupildiameter df ;;
  right <- getitem "eyeright.pupildiameter" eyeright_pupildiameter df ;;
  let mask :=
    map (fun p => flt (fst p) min_size || fgt (fst p) max_size
                  || flt (snd p) min_size || fgt (snd p) max_size)
        (combine left right) in
  set_data filtered_data (loc_set_is_valid_false mask df).

Definition filter_missing_data (filtered_data : FilteredData)
  : result FilteredData :=
  df <- subscriptable (get_data filtered_data) ;;
  left <- getitem "eyeleft.pupildiameter" eyeleft_pupildiameter df ;;
  right <- getitem "eyeright.pupildiameter" eyeright_pupildiameter df ;;
  ts <- getitem "timestamp" timestamp df ;;
  let mask :=
    map (fun p => isnan (fst (fst p)) || isnan (snd (fst p)) || isnan (snd p))
        (combine (combine left right) ts) in
  set_data filtered_data (loc_set_is_valid_false mask df).

(** [datetime.strptime(s, "%d/%m/%Y").timestamp()] *)
Variable strptime_timestamp : string -> result float.

Definition filter_by_timestamp (current_time : float)
  (filtered_data : FilteredData) (min_timestamp : float + string)
  : result FilteredData :=
  let df := get_data filtered_data in
  min_timestamp <- match min_timestamp with
                   | inl x => Ok x
                   | inr s => strptime_timestamp s
                   end ;;
  df <- subscriptable df ;;
  ts <- getitem "timestamp" timestamp df ;;
  let mask := map (fun t => flt t min_timestamp || fgt t current_time) ts in
  set_data filtered_data (loc_set_is_valid_false mask df).

Definition filter_constant_pupil (filtered_data : FilteredData)
  (max_static_steps : Z) (tolerance : option float) : result FilteredData :=
  df <- subscriptable (get_data filtered_data) ;;
  let tolerance :=
    match tolerance with None => DEFAULT_TOLERANCE | Some t => t end in
  left <- getitem "eyeleft.pupildiameter" eyeleft_pupildiameter df ;;
  let left_diff := map fabs (diff left) in
  right <- getitem "eyeright.pupildiameter" eyeright_pupildiameter df ;;
  let right_diff := map fabs (diff right) in
  let stable_left := map (fun d => flt d tolerance) left_diff in
  let stable_right := map (fun d => flt d tolerance) right_diff in
  let stable :=
    map (fun p => fst p && snd p) (combine stable_left stable_right) in
  let stable_streak :=
    Main.groupby_transform_size (Main.cumsum (Main.ne_shift stable)) in
  let mask :=
    map (fun p => fst p && (max_static_steps <=? Z.of_nat (snd p))%Z)
        (combine stable stable_streak) in
  set_data filtered_data (loc_set_is_valid_false mask df).

Definition filter_async_pupil_size (filtered_data : FilteredData)
  (tolerance : option float) : result FilteredData :=
  df <- subscriptable (get_data filtered_data) ;;
  let tolerance :=
    match tolerance with None => DEFAULT_TOLERANCE | Some t => t end in
  left <- getitem "eyeleft.pupildiameter" eyeleft_pupildiameter df ;;
  let left_diff := diff left in
  right <- getitem "eyeright.pupildiameter" eyeright_pupildiameter df ;;
  let right_diff := diff right in
  let mask :=
    map (fun p => flt (fmul (fst p) (snd p)) (Fin 0)
                  && fgt (fabs (fst p)) tolerance
                  && fgt (fabs (snd p)) tolerance)
        (combine left_diff right_diff) in
  set_data filtered_data (loc_set_is_valid_false mask df).

(** *** The filter chain of the snapshot: nine passes *)
Inductive filter_call : Type :=
| OnlyGaze
| InvalidPupils (min_size max_size : float)
| MissingData
| ByTimestamp (min_timestamp : float + string) (current_time : float)
| UnrealisticEventSpacing (min_interval : float)
| ConstantPupil (max_static_steps : Z) (tolerance : option float)
| AsyncPupilSize (tolerance : option float)
| PupilSpeed (max_speed_mm_per_sec : float)
| ByStdOutliers (time_window sigma_threshold : float).

Definition call (c : filter_call) (filtered_data : FilteredData)
  : result FilteredData :=
  match c with
  | OnlyGaze => filter_only_gaze filtered_data
  | InvalidPupils lo hi => filter_invalid_pupils filtered_data lo hi
  | MissingData => filter_missing_data filtered_data
  | ByTimestamp m now => filter_by_timestamp now filtered_data m
  | UnrealisticEventSpacing d =>
      filter_unrealistic_event_spacing filtered_data d
  | ConstantPupil n tol => filter_constant_pupil filtered_data n tol
  | AsyncPupilSize tol => filter_async_pupil_size filtered_data tol
  | PupilSpeed v => filter_pupil_speed filtered_data v
  | ByStdOutliers w k => filter_by_std_outliers filtered_data w k
  end.

Fixpoint call_all (cs : list filter_call) (filtered_data : FilteredData)
  : result FilteredData :=
  match cs with
  | [] => Ok filtered_data
  | c :: cs' =>
      filtered_data' <- call c filtered_data ;;
      call_all cs' filtered_data'
  end.

End Numpy.

End Checkpoint.

(* ===================================================================== *)
(** ** src/.ipynb_checkpoints/calibration_data-checkpoint.py *)
(* ===================================================================== *)

(** A Python scalar as JSON writes it. *)
Inductive scalar : Type :=
| PyInt (z : Z)
| PyFloat (x : float)
| PyNone.

(** [d[k]] on a dict. *)
Definition dict_getitem {V : Type} (d : gmap string V) (k : string)
  : result V :=
  match d !! k with
  | Some v => Ok v
  | None => Raise (KeyError k)
  end.

Module CalibrationData.

(** The object keeps what its constructor receives; nothing is checked or
    converted. *)
Record CalibrationData : Type := __init__ {
  user_id : scalar;
  baseline_mean : scalar;
  baseline_std : scalar;
  positive_rise_speed : scalar;
  negative_rise_speed : scalar;
  positive_fall_speed : scalar;
  negative_fall_speed : scalar;
  neutral2_recovery_speed : scalar;
  positive_mean_ratio : scalar;
  negative_mean_ratio : scalar
}.

(** The items of the dict literal of [to_dict], in the order of the
    source. *)
Definition to_dict_items (self : CalibrationData) : list (string * scalar) :=
  [ ("user_id", user_id self);
    ("baseline_mean", baseline_mean self);
    ("baseline_std", baseline_std self);
    ("positive_rise_speed", positive_rise_speed self);
    ("negative_rise_speed", negative_rise_speed self);
    ("positive_fall_speed", positive_fall_speed self);
    ("negative_fall_speed", negative_fall_speed self);
    ("neutral2_recovery_speed", neutral2_recovery_speed self);
    ("positive_mean_ratio", positive_mean_ratio self);
    ("negative_mean_ratio", negative_mean_ratio self) ].

Definition to_dict (self : CalibrationData) : gmap string scalar :=
  list_to_map (to_dict_items self).

Section Json.

(** The text of a file, with [json.dump] and [json.load] on flat dicts. *)
Variable text : Type.
Variable json_dump : gmap string scalar -> text.
Variable json_load : text -> result (gmap string scalar).


Definition load (path : string) (fs : gmap string text)
  : result CalibrationData :=
  match fs !! path with
  | None => Raise (ValueError "No such file or directory")
  | Some f =>
      data <- json_load f ;;
      a0 <- dict_getitem data "user_id" ;;
      a1 <- dict_getitem data "baseline_mean" ;;
      a2 <- dict_getitem data "baseline_std" ;;
      a3 <- dict_getitem data "positive_rise_speed" ;;
      a4 <- dict_getitem data "negative_rise_speed" ;;
      a5 <- dict_getitem data "positive_fall_speed" ;;
      a6 <- dict_getitem data "negative_fall_speed" ;;
      a7 <- dict_getitem data "neutral2_recovery_speed" ;;
      a8 <- dict_getitem data "positive_mean_ratio" ;;
      a9 <- dict_getitem data "negative_mean_ratio" ;;
      Ok (__init__ a0 a1 a2 a3 a4 a5 a6 a7 a8 a9)
  end.

End Json.

End CalibrationData.

(* ===================================================================== *)
(** ** src/calibration_processor.py *)
(* ===================================================================== *)

Module CalibrationProcessor.

(** One entry of a subject's list in the timing file. *)
Record timing_item : Type := mkItem {
  shelf : string;
  time_range : list float
}.

(** [all_timings] is the parsed content of the file at [json_path]. *)
Definition load_time_ranges (all_timings : gmap string (list timing_item))
  (user_id : Z) : result (gmap string (list float)) :=
  match all_timings !! pretty user_id with
  | None => Raise (ValueError ("No timings for user " ++ pretty user_id))
  | Some items =>
      Ok (fold_left (fun d item => <[shelf item := time_range item]> d)
            items ∅)
  end.

(** [t0, t1 = v] *)
Definition unpack2 (v : list float) : result (float * float) :=
  match v with
  | [t0; t1] => Ok (t0, t1)
  | _ => Raise (ValueError "wrong number of values to unpack")
  end.

(** [df.loc[(df['is_valid']) & (df['relative_timestamp'] >= t0) &
    (df['relative_timestamp'] <= t1), ...'avg_pupildiameter_smooth'...]]:
    the selected rows with their labels. *)
Definition loc_phase (df : DataFrame) (t0 t1 : float)
  : result (list (nat * Row)) :=
  valid <- getitem "is_valid" is_valid df ;;
  rel <- getitem "relative_timestamp" relative_timestamp df ;;
  let mask :=
    map (fun p => fst p && fge (snd p) t0 && fle (snd p) t1)
        (combine valid rel) in
  if has_column "avg_pupildiameter_smooth" df
  then Ok (compress mask (labelled (rows df)))
  else Raise (KeyError "avg_pupildiameter_smooth").

(** [seg[c].idxmax()] and [seg[c].idxmin()]: the label of the first row
    holding the extreme value, missing values skipped; an exception when no
    value is left. *)
Definition idx_extreme (better : float -> float -> bool)
  (f : Row -> float) (seg : list (nat * Row)) : result nat :=
  match List.filter (fun p => negb (isnan (f (snd p)))) seg with
  | [] => Raise (ValueError "Encountered all NA values")
  | p :: l =>
      Ok (fst (fold_left
                 (fun best q =>
                    if better (f (snd q)) (f (snd best)) then q else best)
                 l p))
  end.

Definition idxmax := idx_extreme fgt.
Definition idxmin := idx_extreme flt.

(** [seg.loc[label, c]] *)
Definition seg_loc (seg : list (nat * Row)) (label : nat) (f : Row -> float)
  : result float :=
  match List.find (fun p => Nat.eqb (fst p) label) seg with
  | Some p => Ok (f (snd p))
  | None => Raise (KeyError "label")
  end.

Section Baseline.

Variable sqrt_Q : Q -> Q.

Definition compute_baseline (filtered_data : FilteredData)
  (time_ranges : gmap string (list float)) : result (float * float) :=
  let df := get_data filtered_data in
  v <- dict_getitem time_ranges "Baseline" ;;
  t <- unpack2 v ;;
  let '(t0, t1) := t in
  df <- subscriptable df ;;
  segment <- loc_phase df t0 t1 ;;
  if Nat.eqb (length segment) 0
  then Raise (ValueError "No valid data in baseline")
  else
    let segment := map (fun p => avg_pupildiameter_smooth (snd p)) segment in
    Ok (series_mean segment, series_std sqrt_Q segment 1).

End Baseline.

Definition compute_positive_rise_speed (filtered_data : FilteredData)
  (time_ranges : gmap string (list float)) (baseline_mean : float)
  : result float :=
  let df := get_data filtered_data in
  v <- dict_getitem time_ranges "Positive" ;;
  t <- unpack2 v ;;
  let '(t0, t1) := t in
  df <- subscriptable df ;;
  seg <- loc_phase df t0 t1 ;;
  if Nat.eqb (length seg) 0
  then Raise (ValueError "No valid data in positive")
  else
    idx_peak <- idxmax avg_pupildiameter_smooth seg ;;
    t_peak <- seg_loc seg idx_peak relative_timestamp ;;
    val_peak <- seg_loc seg idx_peak avg_pupildiameter_smooth ;;
    Ok (fdiv (fsub val_peak baseline_mean) (fsub t_peak t0)).

Definition compute_positive_fall_speed (filtered_data : FilteredData)
  (time_ranges : gmap string (list float)) (baseline_mean : float)
  : result float :=
  let df := get_data filtered_data in
  v <- dict_getitem time_ranges "Positive" ;;
  t <- unpack2 v ;;
  let '(t0, t1) := t in
  df <- subscriptable df ;;
  seg <- loc_phase df t0 t1 ;;
  if Nat.eqb (length seg) 0
  then Raise (ValueError "No valid data in positive")
  else
    idx_peak <- idxmax avg_pupildiameter_smooth seg ;;
    t_peak <- seg_loc seg idx_peak relative_timestamp ;;
    val_peak <- seg_loc seg idx_peak avg_pupildiameter_smooth ;;
    idx_end <- idxmax relative_timestamp seg ;;
    let t_end := t1 in
    val_end <- seg_loc seg idx_end avg_pupildiameter_smooth ;;
    Ok (fdiv (fsub val_peak val_end) (fsub t_end t_peak)).

Definition compute_negative_rise_speed (filtered_data : FilteredData)
  (time_ranges : gmap string (list float)) (baseline_mean : float)
  : result float :=
  let df := get_data filtered_data in
  v <- dict_getitem time_ranges "negative" ;;
  t <- unpack2 v ;;
  let '(t0, t1) := t in
  df <- subscriptable df ;;
  seg <- loc_phase df t0 t1 ;;
  if Nat.eqb (length seg) 0
  then Raise (ValueError "No valid data in negative")
  else
    idx_peak <- idxmax avg_pupildiameter_smooth seg ;;
    t_peak <- seg_loc seg idx_peak relative_timestamp ;;
    val_peak <- seg_loc seg idx_peak avg_pupildiameter_smooth ;;
    Ok (fdiv (fsub val_peak baseline_mean) (fsub t_peak t0)).

Definition compute_negative_fall_speed (filtered_data : FilteredData)
  (time_ranges : gmap string (list float)) (baseline_mean : float)
  : result float :=
  let df := get_data filtered_data in
  v <- dict_getitem time_ranges "Negative" ;;
  t <- unpack2 v ;;
  let '(t0, t1) := t in
  df <- subscriptable df ;;
  seg <- loc_phase df t0 t1 ;;
  if Nat.eqb (length seg) 0
  then Raise (ValueError "No valid data in negative")
  else
    idx_peak <- idxmax avg_pupildiameter_smooth seg ;;
    t_peak <- seg_loc seg idx_peak relative_timestamp ;;
    val_peak <- seg_loc seg idx_peak avg_pupildiameter_smooth ;;
    idx_end <- idxmax relative_timestamp seg ;;
    let t_end := t1 in
    val_end <- seg_loc seg idx_end avg_pupildiameter_smooth ;;
    Ok (fdiv (fsub val_peak val_end) (fsub t_end t_peak)).

Definition compute_neutral2_recovery_speed (filtered_data : FilteredData)
  (time_ranges : gmap string (list float)) (baseline_mean : float)
  : result float :=
  let df := get_data filtered_data in
  v <- dict_getitem time_ranges "Neutral_2" ;;
  t <- unpack2 v ;;
  let '(t0, t1) := t in
  df <- subscriptable df ;;
  seg <- loc_phase df t0 t1 ;;
  if Nat.eqb (length seg) 0
  then Raise (ValueError "No valid data in neutral2")
  else
    idx_start <- idxmin relative_timestamp seg ;;
    idx_end <- idxmax relative_timestamp seg ;;
    val_start <- seg_loc seg idx_start avg_pupildiameter_smooth ;;
    val_end <- seg_loc seg idx_end avg_pupildiameter_smooth ;;
    Ok (fdiv (fsub val_start val_end) (fsub t1 t0)).

Definition compute_positive_mean_ratio (filtered_data : FilteredData)
  (time_ranges : gmap string (list float)) (baseline_mean : float)
  : result float :=
  let df := get_data filtered_data in
  v <- dict_getitem time_ranges "Positive" ;;
  t <- unpack2 v ;;
  let '(t0, t1) := t in
  df <- subscriptable df ;;
  seg <- loc_phase df t0 t1 ;;
  if Nat.eqb (length seg) 0
  then Raise (ValueError "No valid data in positive")
  else
    Ok (fdiv (series_mean (map (fun p => avg_pupildiameter_smooth (snd p)) seg))
             baseline_mean).

Definition compute_negative_mean_ratio (filtered_data : FilteredData)
  (time_ranges : gmap string (list float)) (baseline_mean : float)
  : result float :=
  let df := get_data filtered_data in
  v <- dict_getitem time_ranges "Positive" ;;
  t <- unpack2 v ;;
  let '(t0, t1) := t in
  df <- subscriptable df ;;
  seg <- loc_phase df t0 t1 ;;
  if Nat.eqb (length seg) 0
  then Raise (ValueError "No valid data in negative")
  else
    Ok (fdiv (series_mean (map (fun p => avg_pupildiameter_smooth (snd p)) seg))
             baseline_mean).

Section Process.

Variable sqrt_Q : Q -> Q.

Definition process (filtered_data : FilteredData) (user_id : Z)
  (all_timings : gmap string (list timing_item))
  : result CalibrationData.CalibrationData :=
  time_ranges <- load_time_ranges all_timings user_id ;;
  b <- compute_baseline sqrt_Q filtered_data time_ranges ;;
  let '(baseline_mean, baseline_std) := b in
  pos_rise <- compute_positive_rise_speed filtered_data time_ranges
                baseline_mean ;;
  pos_fall <- compute_positive_fall_speed filtered_data time_ranges
                baseline_mean ;;
  neg_rise <- compute_negative_rise_speed filtered_data time_ranges
                baseline_mean ;;
  neg_fall <- compute_negative_fall_speed filtered_data time_ranges
                baseline_mean ;;
  neutral2_r <- compute_neutral2_recovery_speed filtered_data time_ranges
                  baseline_mean ;;
  pos_ratio <- compute_positive_mean_ratio filtered_data time_ranges
                 baseline_mean ;;
  neg_ratio <- compute_negative_mean_ratio filtered_data time_ranges
                 baseline_mean ;;
  Ok (CalibrationData.__init__ (PyInt user_id) (PyFloat baseline_mean)
        (PyFloat baseline_std) (PyFloat pos_rise) (PyFloat neg_rise)
        (PyFloat pos_fall) (PyFloat neg_fall) (PyFloat neutral2_r)
        (PyFloat pos_ratio) (PyFloat neg_ratio)).

End Process.

End CalibrationProcessor.

(* ===================================================================== *)
(** * Specifications and sample tables *)
(* ===================================================================== *)

(** ** The code seen row by row and flag by flag *)

(** The frame after the first two steps: names stripped, validity created
    when the column is absent. *)
Definition with_validity (df : DataFrame) : list Row :=
  map (fun r =>
         if has_column "is_valid" (strip_data_prefix df) then r
         else set_is_valid true r)
      (rows df).

Definition valid_timestamps (df : DataFrame) : list float :=
  map timestamp (List.filter is_valid (with_validity df)).

Definition recomputed_row (start : float) (r : Row) : Row :=
  if is_valid r
  then set_relative_timestamp (fsub (timestamp r) start) r
  else set_relative_timestamp NaN r.

Definition or_default (tolerance : option float) : float :=
  match tolerance with None => Main.DEFAULT_TOLERANCE | Some t => t end.

Definition mask_of (strptime_timestamp : string -> result float)
  (c : Main.filter_call) (df : DataFrame) : result (list bool) :=
  match c with
  | Main.OnlyGaze =>
      types <- getitem "type" type_ df ;;
      Ok (map (fun t => match t with
                        | Some s => negb (String.eqb s "gaze")
                        | None => true
                        end) types)
  | Main.InvalidPupils min_size max_size =>
      left <- getitem "eyeleft.pupildiameter" eyeleft_pupildiameter df ;;
      right <- getitem "eyeright.pupildiameter" eyeright_pupildiameter df ;;
      Ok (map (fun p => flt (fst p) min_size || fgt (fst p) max_size
                        || flt (snd p) min_size || fgt (snd p) max_size)
              (combine left right))
  | Main.MissingData =>
      left <- getitem "eyeleft.pupildiameter" eyeleft_pupildiameter df ;;
      right <- getitem "eyeright.pupildiameter" eyeright_pupildiameter df ;;
      ts <- getitem "timestamp" timestamp df ;;
      Ok (map (fun p => isnan (fst (fst p)) || isnan (snd (fst p))
                        || isnan (snd p))
              (combine (combine left right) ts))
  | Main.ByTimestamp min_timestamp current_time =>
      min_timestamp <- match min_timestamp with
                       | inl x => Ok x
                       | inr s => strptime_timestamp s
                       end ;;
      ts <- getitem "timestamp" timestamp df ;;
      Ok (map (fun t => flt t min_timestamp || fgt t current_time) ts)
  | Main.UnrealisticEventSpacing min_interval =>
      ts <- getitem "timestamp" timestamp df ;;
      Ok (map (fun d => flt d min_interval) (diff ts))
  | Main.ConstantPupil max_static_steps tolerance =>
      left <- getitem "eyeleft.pupildiameter" eyeleft_pupildiameter df ;;
      right <- getitem "eyeright.pupildiameter" eyeright_pupildiameter df ;;
      let stable :=
        map (fun p => fst p && snd p)
            (combine
               (map (fun d => flt d (or_default tolerance))
                    (map fabs (diff left)))
               (map (fun d => flt d (or_default tolerance))
                    (map fabs (diff right)))) in
      Ok (map (fun p => fst p && (max_static_steps <=? Z.of_nat (snd p))%Z)
              (combine stable
                 (Main.groupby_transform_size
                    (Main.cumsum (Main.ne_shift stable)))))
  | Main.AsyncPupilSize tolerance =>
      left <- getitem "eyeleft.pupildiameter" eyeleft_pupildiameter df ;;
      right <- getitem "eyeright.pupildiameter" eyeright_pupildiameter df ;;
      Ok (map (fun p => flt (fmul (fst p) (snd p)) (Fin 0)
                        && fgt (fabs (fst p)) (or_default tolerance)
                        && fgt (fabs (snd p)) (or_default tolerance))
              (combine (diff left) (diff right)))
  end.

Definition validity (df : DataFrame) : list bool := map is_valid (rows df).

(** The flags once the masked ones are cleared. *)
Fixpoint cleared (mask flags : list bool) : list bool :=
  match mask, flags with
  | b :: mask', v :: flags' => (if b then false else v) :: cleared mask' flags'
  | _, _ => flags
  end.

(** Two frames with the same cells in the columns that the passes read,
    the second having every such column that the first has. *)
Definition same_raw (df df' : DataFrame) : Prop :=
  map raw_cells (rows df) = map raw_cells (rows df') /\
  forall c, str_remove "data." c = c ->
            has_column c df = true -> has_column c df' = true.

(** Every bit set in the first mask is set in the second. *)
Definition mask_le (m m' : list bool) : Prop :=
  Forall2 (fun b b' => b = true -> b' = true) m m'.

(** A second call of the same pass: the same arguments, and for the
    timestamp-bounds pass a clock that has not gone back. *)
Definition repeated (c c' : Main.filter_call) : Prop :=
  match c, c' with
  | Main.ByTimestamp m now, Main.ByTimestamp m' now' =>
      m = m' /\ fle now now' = true
  | _, _ => c = c'
  end.

(** The columns that the seven passes read. *)
Definition has_raw_columns (df : DataFrame) : Prop :=
  has_column "timestamp" df = true /\
  has_column "type" df = true /\
  has_column "eyeleft.pupildiameter" df = true /\
  has_column "eyeright.pupildiameter" df = true.

(** The date string of a call, if it has one, is accepted. *)
Definition parses (strptime_timestamp : string -> result float)
  (c : Main.filter_call) : Prop :=
  match c with
  | Main.ByTimestamp (inr s) _ => is_Ok (strptime_timestamp s) = true
  | _ => True
  end.

(** Two rows that differ at most in the smoothed diameter. *)
Definition same_but_smooth (r' r : Row) : Prop :=
  raw_cells r' = raw_cells r /\ is_valid r' = is_valid r /\
  relative_timestamp r' = relative_timestamp r /\
  avg_pupildiameter r' = avg_pupildiameter r /\
  std_pupildiameter r' = std_pupildiameter r.

(** The order of [sort_values('timestamp')] on the timestamps themselves:
    ascending, a missing timestamp after every other. *)
Definition ts_le (a b : float) : bool := isnan b || fle a b.

Definition ts_sorted (l : list float) : Prop :=
  Sorted (fun a b => ts_le a b = true) l.

(** The same without ties: of two timestamps that follow one another the
    second is larger, or missing. *)
Definition ts_lt (a b : float) : bool := isnan b || flt a b.

Definition ts_strict (l : list float) : Prop :=
  Sorted (fun a b => ts_lt a b = true) l.

Definition no_timestamp (r : Row) : bool := isnan (timestamp r).

(** What pandas promises of [sort_values('timestamp')], whatever the
    routine: the rows come out rearranged, in ascending order of
    timestamp, and the rows without a timestamp come last in the order
    they had. *)
Definition sorts (sort_values : list Row -> list Row) : Prop :=
  forall rs,
    Permutation (sort_values rs) rs /\
    ts_sorted (map timestamp (sort_values rs)) /\
    List.filter no_timestamp (sort_values rs) = List.filter no_timestamp rs.

(** A routine of that kind, for the concrete tables: insertion sort, which
    keeps rows of equal timestamps in their order. *)
Definition timestamp_le (r1 r2 : Row) : bool :=
  isnan (timestamp r2) || fle (timestamp r1) (timestamp r2).

Fixpoint insert_by_timestamp (r : Row) (rs : list Row) : list Row :=
  match rs with
  | [] => [r]
  | r' :: rs' =>
      if timestamp_le r r' then r :: rs
      else r' :: insert_by_timestamp r rs'
  end.

Definition sort_values_timestamp (rs : list Row) : list Row :=
  fold_right insert_by_timestamp [] rs.

(** What a recomputation has to leave alone: the cells that the supplier
    gave and the validity flag. *)
Definition sample_cells (r : Row)
  : float * option string * float * float * bool :=
  (raw_cells r, is_valid r).

(** Row by row: the supplied cells are the same and no flag is raised. *)
Definition only_clears (rs' rs : list Row) : Prop :=
  Forall2 (fun r' r => raw_cells r' = raw_cells r /\
                       (is_valid r' = true -> is_valid r = true)) rs' rs.

(** What a table of the snapshot class satisfies once it went through
    [_prepare_data]: it has the validity column and is sorted by
    timestamp. *)
Definition prepared (df : DataFrame) : Prop :=
  has_column "is_valid" df = true /\ ts_sorted (map timestamp (rows df)).

(** The same of a table in which no two rows share a timestamp, so that
    sorting leaves no choice. *)
Definition prepared_distinct (df : DataFrame) : Prop :=
  has_column "is_valid" df = true /\ ts_strict (map timestamp (rows df)).

(** Row [i] is the later row of a pair of consecutive rows less than
    [min_interval] apart. *)
Definition close_to_previous (ts : list float) (min_interval : float)
  (i : nat) : bool :=
  match i with
  | O => false
  | S j =>
      match ts !! j, ts !! i with
      | Some a, Some b => flt (fsub b a) min_interval
      | _, _ => false
      end
  end.

(** Row [i] is the earlier row of such a pair. *)
Definition close_to_next (ts : list float) (min_interval : float)
  (i : nat) : bool :=
  close_to_previous ts min_interval (S i).

(** The row at label [i] once the flags of [labels] are cleared. *)
Definition clear_at (labels : list Z) (i : nat) (r : Row) : Row :=
  if existsb (Z.eqb (Z.of_nat i)) labels then set_is_valid false r else r.

(** ** The claims in the words of the specification *)

(** Every timestamp of the table can be turned into a date. *)
Definition in_datetime_bounds (df : DataFrame) : bool :=
  forallb in_datetime_range (map timestamp (rows df)).

(** [_prepare_data] finds the readable time in the table, or can compute
    it. *)
Definition datetime_ready (df : DataFrame) : bool :=
  has_column "timestamp_readable" (strip_data_prefix df)
  || in_datetime_bounds df.

(** The session start in the words of the specification: the timestamp of
    a valid row, below the timestamp of every valid row that has one. *)
Definition is_session_start (df : DataFrame) (start : float) : Prop :=
  (exists r, In r (rows df) /\ is_valid r = true /\ timestamp r = start) /\
  (forall r, In r (rows df) -> is_valid r = true ->
             isnan (timestamp r) = false -> fle start (timestamp r) = true).

(** The result of a construction from [df], or of [set_data] with [df]. *)
Definition recomputation (df : DataFrame) (res : result FilteredData) : Prop :=
  (exists user_id, res = Main.__init__ (Some df) user_id) \/
  (exists fd, res = Main.set_data fd df).

(** The mean ratio of a phase in the words of the specification: the mean
    of the smoothed diameter over the valid rows whose relative time lies
    in the window of the phase, over the baseline mean. *)
Definition mean_ratio_spec (phase : string) (df : DataFrame)
  (time_ranges : gmap string (list float)) (baseline_mean : float)
  : option float :=
  match time_ranges !! phase with
  | Some [t0; t1] =>
      let segment :=
        List.filter
          (fun r => is_valid r && fge (relative_timestamp r) t0
                    && fle (relative_timestamp r) t1)
          (rows df) in
      Some (fdiv (series_mean (map avg_pupildiameter_smooth segment))
                 baseline_mean)
  | _ => None
  end.

(** [std_diameter] of a row in the words of the specification: the sample
    standard deviation (ddof = 1) of [avg_pupildiameter] over the valid
    rows whose relative time lies within 0.5 s of the row's own, and
    undefined when fewer than two rows fall in that window. *)
Definition std_diameter_spec (sqrt_Q : Q -> Q) (df : DataFrame) (r : Row)
  : float :=
  let window :=
    List.filter
      (fun r' =>
         is_valid r'
         && fge (relative_timestamp r')
                (fsub (relative_timestamp r) (Fin (1 # 2)))
         && fle (relative_timestamp r')
                (fadd (relative_timestamp r) (Fin (1 # 2))))
      (rows df) in
  if (2 <=? length window)%nat
  then np_std sqrt_Q (map avg_pupildiameter window) 1
  else NaN.


(** The ten keys of [to_dict]. *)
Definition to_dict_keys : list string :=
  [ "user_id"; "baseline_mean"; "baseline_std"; "positive_rise_speed";
    "negative_rise_speed"; "positive_fall_speed"; "negative_fall_speed";
    "neutral2_recovery_speed"; "positive_mean_ratio"; "negative_mean_ratio" ].

(** ** Concrete inputs *)

(** The value of a computation that returned, [d] otherwise. *)
Definition value_or {A : Type} (d : A) (m : result A) : A :=
  match m with Ok a => a | Raise _ => d end.

Definition no_table : FilteredData := mkFD None None None.

(** [get_data()] as a computation that fails on None. *)
Definition get_data_result (fd : FilteredData) : result DataFrame :=
  subscriptable (get_data fd).

Definition frame_of (fd : FilteredData) : DataFrame :=
  value_or (mkDF [] []) (get_data_result fd).

Definition validity_of (fd : FilteredData) : list bool :=
  validity (value_or (mkDF [] []) (get_data_result fd)).

Definition timestamps_of (fd : FilteredData) : list float :=
  map timestamp (rows (value_or (mkDF [] []) (get_data_result fd))).

(** No date string is accepted. *)
Definition strptime_none (s : string) : result float :=
  Raise (ValueError "time data does not match format '%d/%m/%Y'").

(** A square root for the concrete inputs: rounded down to a multiple of
    [1 / (d * 2^52)] for an argument of denominator [d], hence exact on
    the squares of such multiples. *)
Definition sqrt_down (q : Q) : Q :=
  Z.sqrt (Qnum q * Z.pos (Qden q) * 4 ^ 52) # (Qden q * 2 ^ 52).

(** The pairs of a dict, in place of the text that holds them. *)
Definition dump_pairs (d : gmap string scalar) : list (string * scalar) :=
  map_to_list d.

Definition load_pairs (t : list (string * scalar))
  : result (gmap string scalar) :=
  Ok (list_to_map t).

(** A row as the raw record supplier gives it; the cells of the columns
    that do not exist yet are placeholders. *)
Definition sample (ts : Q) (ty : string) (left right : Q) : Row :=
  mkRow (Fin ts) (Some ty) (Fin left) (Fin right) true NaN NaN NaN NaN.

Definition raw_columns : list string :=
  ["timestamp"; "type";
   "data.eyeleft.pupildiameter"; "data.eyeright.pupildiameter"].

Definition cleaned_columns : list string :=
  ["timestamp"; "type"; "eyeleft.pupildiameter"; "eyeright.pupildiameter";
   "is_valid"; "relative_timestamp"; "avg_pupildiameter";
   "std_pupildiameter"; "avg_pupildiameter_smooth"; "timestamp_readable"].

(** A row of a cleaned table, given by its relative time and its smoothed
    diameter. *)
Definition cleaned (valid : bool) (rel smooth : Q) : Row :=
  mkRow (fadd (Fin (1600000000 # 1)) (Fin rel)) (Some "gaze")
        (Fin smooth) (Fin smooth) valid (Fin rel) (Fin smooth) NaN
        (Fin smooth).

(** Four samples 2 ms, 98 ms and 100 ms apart; the second is a blink
    marker, the fourth has a pupil out of range. *)
Definition raw_four : DataFrame :=
  mkDF raw_columns
    [ sample (1600000000 # 1) "gaze" (3 # 1) (3 # 1);
      sample (1600000000002 # 1000) "blink" (3 # 1) (31 # 10);
      sample (16000000001 # 10) "gaze" (32 # 10) (3 # 1);
      sample (16000000002 # 10) "gaze" (12 # 1) (3 # 1) ].

Definition fd_four : FilteredData :=
  value_or no_table (Main.__init__ (Some raw_four) (Some 704%Z)).

Definition chain_four : list Main.filter_call :=
  [ Main.OnlyGaze;
    Main.InvalidPupils (Fin 1) (Fin 10);
    Main.MissingData;
    Main.ByTimestamp (inl (Fin (1577836800 # 1))) (Fin (1700000000 # 1));
    Main.UnrealisticEventSpacing (Fin (5 # 1000));
    Main.ConstantPupil 100 None;
    Main.AsyncPupilSize None ].

Definition spacing_5ms : Main.filter_call :=
  Main.UnrealisticEventSpacing (Fin (5 # 1000)).

(** The passes of [chain_four] that follow the first one. *)
Definition chain_after_gaze : list Main.filter_call := tl chain_four.

Definition stale_frame : DataFrame :=
  mkDF ["timestamp"; "type"; "eyeleft.pupildiameter";
        "eyeright.pupildiameter"; "is_valid"; "relative_timestamp";
        "timestamp_readable"]
    [ mkRow (Fin (1600000000 # 1)) (Some "gaze") (Fin 3) (Fin 3)
            false (Fin 0) NaN NaN NaN;
      mkRow (Fin (1600000001 # 1)) (Some "gaze") (Fin 3) (Fin 3)
            true (Fin 1) NaN NaN NaN ].

(** Two samples, none of them valid. *)
Definition no_valid_frame : DataFrame :=
  mkDF ["timestamp"; "type"; "eyeleft.pupildiameter";
        "eyeright.pupildiameter"; "is_valid"; "relative_timestamp";
        "timestamp_readable"]
    [ mkRow (Fin (1600000000 # 1)) (Some "blink") (Fin 3) (Fin 3)
            false (Fin 0) NaN NaN NaN;
      mkRow (Fin (1600000001 # 1)) (Some "blink") (Fin 3) (Fin 3)
            false (Fin 1) NaN NaN NaN ].

(** Two samples 1 ms apart. *)
Definition raw_pair : DataFrame :=
  mkDF raw_columns
    [ sample (1600000000 # 1) "gaze" (3 # 1) (3 # 1);
      sample (1600000000001 # 1000) "gaze" (3 # 1) (3 # 1) ].

Definition fd_pair : FilteredData :=
  value_or no_table (Main.__init__ (Some raw_pair) (Some 704%Z)).

Definition fd_pair_checkpoint : FilteredData :=
  value_or no_table
    (Checkpoint.__init__ sort_values_timestamp sqrt_down (Some raw_pair) (Some 704%Z)).

(** Four samples a quarter of a second apart: the pupil grows by 1 unit,
    then by 3, then by 1. *)
Definition raw_ramp : DataFrame :=
  mkDF raw_columns
    [ sample (1600000000 # 1) "gaze" (2 # 1) (2 # 1);
      sample (160000000025 # 100) "gaze" (3 # 1) (3 # 1);
      sample (16000000005 # 10) "gaze" (6 # 1) (6 # 1);
      sample (160000000075 # 100) "gaze" (7 # 1) (7 # 1) ].

Definition fd_ramp : FilteredData :=
  value_or no_table (Checkpoint.__init__ sort_values_timestamp sqrt_down (Some raw_ramp) (Some 704%Z)).

Definition fd_ramp_once : FilteredData :=
  value_or no_table (Checkpoint.filter_pupil_speed sort_values_timestamp sqrt_down fd_ramp (Fin 5)).

Definition fd_ramp_twice : FilteredData :=
  value_or no_table
    (Checkpoint.filter_pupil_speed sort_values_timestamp sqrt_down fd_ramp_once (Fin 5)).

(** Eight samples a quarter of a second apart, with average diameters
    6, 3, 4, 3, 3, 3, 5, 6, built and handed once through [set_data] so
    that the deviation column is filled. *)
Definition raw_eight : DataFrame :=
  mkDF raw_columns
    [ sample (1600000000 # 1) "gaze" (6 # 1) (6 # 1);
      sample (160000000025 # 100) "gaze" (3 # 1) (3 # 1);
      sample (16000000005 # 10) "gaze" (4 # 1) (4 # 1);
      sample (160000000075 # 100) "gaze" (3 # 1) (3 # 1);
      sample (1600000001 # 1) "gaze" (3 # 1) (3 # 1);
      sample (160000000125 # 100) "gaze" (3 # 1) (3 # 1);
      sample (16000000015 # 10) "gaze" (5 # 1) (5 # 1);
      sample (160000000175 # 100) "gaze" (6 # 1) (6 # 1) ].

Definition fd_eight : FilteredData :=
  let fd :=
    value_or no_table
      (Checkpoint.__init__ sort_values_timestamp sqrt_down (Some raw_eight) (Some 704%Z)) in
  value_or no_table (Checkpoint.set_data sort_values_timestamp sqrt_down fd (frame_of fd)).

Definition fd_eight_once : FilteredData :=
  value_or no_table
    (Checkpoint.filter_by_std_outliers sort_values_timestamp sqrt_down fd_eight (Fin 1) (Fin 2)).

Definition fd_eight_twice : FilteredData :=
  value_or no_table
    (Checkpoint.filter_by_std_outliers sort_values_timestamp sqrt_down fd_eight_once (Fin 1) (Fin 2)).

(** Three samples 0.1 s apart with average diameters 2, 3 and 4. *)
Definition raw_three : DataFrame :=
  mkDF raw_columns
    [ sample (1600000000 # 1) "gaze" (2 # 1) (2 # 1);
      sample (16000000001 # 10) "gaze" (3 # 1) (3 # 1);
      sample (16000000002 # 10) "gaze" (4 # 1) (4 # 1) ].

Definition fd_three : FilteredData :=
  value_or no_table
    (Checkpoint.__init__ sort_values_timestamp sqrt_down (Some raw_three) (Some 704%Z)).

(** The same table handed back through [set_data]. *)
Definition fd_three_again : FilteredData :=
  value_or no_table
    (Checkpoint.set_data sort_values_timestamp sqrt_down fd_three
       (value_or (mkDF [] []) (get_data_result fd_three))).

(** The timing file of the docstring of [load_time_ranges]. *)
Definition timings_704 : gmap string (list CalibrationProcessor.timing_item) :=
  {[ "704" :=
       [ CalibrationProcessor.mkItem "Baseline" [Fin 0; Fin (30 # 1)];
         CalibrationProcessor.mkItem "Positive" [Fin (30 # 1); Fin (60 # 1)];
         CalibrationProcessor.mkItem "Neutral_2" [Fin (60 # 1); Fin (90 # 1)];
         CalibrationProcessor.mkItem "Negative" [Fin (90 # 1); Fin (120 # 1)]
       ] ]}.

Definition time_ranges_704 : gmap string (list float) :=
  value_or ∅ (CalibrationProcessor.load_time_ranges timings_704 704).

(** One valid sample in each phase: 2 in Baseline, 4 in Positive, 3 in
    Neutral_2, 2 in Negative. *)
Definition fd_phases : FilteredData :=
  mkFD (Some (mkDF cleaned_columns
                [ cleaned true (10 # 1) (2 # 1);
                  cleaned true (45 # 1) (4 # 1);
                  cleaned true (75 # 1) (3 # 1);
                  cleaned true (100 # 1) (2 # 1) ]))
       (Some (Fin (1600000010 # 1))) (Some 704%Z).



(** The table of the end-to-end scenario of the specification, up to the
    end of its Positive phase: 3.0 over the baseline, 4.0 at t = 45 and 3.5
    at t = 60. *)
Definition fd_scenario : FilteredData :=
  mkFD (Some (mkDF cleaned_columns
                [ cleaned true (0 # 1) (3 # 1);
                  cleaned true (15 # 1) (3 # 1);
                  cleaned true (30 # 1) (3 # 1);
                  cleaned true (45 # 1) (4 # 1);
                  cleaned true (60 # 1) (35 # 10) ]))
       (Some (Fin (1600000000 # 1))) (Some 704%Z).

Definition record_704 : CalibrationData.CalibrationData :=
  CalibrationData.__init__ (PyInt 704) (PyFloat (Fin 3)) (PyFloat (Fin (1 # 10)))
    (PyFloat (Fin (1 # 15))) (PyFloat (Fin (1 # 20))) (PyFloat (Fin (1 # 30)))
    (PyFloat PInf) (PyFloat NaN) (PyFloat (Fin (6 # 5)))
    (PyFloat (Fin (11 # 10))).

(** The type of the row is the string 'gaze'. *)
Definition is_gaze (r : Row) : bool :=
  match type_ r with
  | Some s => String.eqb s "gaze"
  | None => false
  end.

(** A value that is missing, or inside the closed range. *)
Definition in_range (lo hi d : float) : bool :=
  isnan d || (fle lo d && fle d hi).

(** Both diameters and the timestamp are present. *)
Definition complete (r : Row) : bool :=
  negb (isnan (eyeleft_pupildiameter r))
  && negb (isnan (eyeright_pupildiameter r))
  && negb (isnan (timestamp r)).

(** The bit of a mask at a position, false outside the mask. *)
Definition mask_bit (mask : list bool) (i : nat) : bool :=
  default false (mask !! i).

(** The lower bound of [filter_by_timestamp]: the number given, or the
    date string once parsed. *)
Definition date_value (strptime_timestamp : string -> result float)
  (min_timestamp : float + string) : result float :=
  match min_timestamp with
  | inl x => Ok x
  | inr s => strptime_timestamp s
  end.

(** A parser that accepts one date, the default lower bound. *)
Definition strptime_2020 (s : string) : result float :=
  if String.eqb s "01/01/2020" then Ok (Fin (1577836800 # 1))
  else Raise (ValueError "time data does not match format '%d/%m/%Y'").

Definition fd_four_gaze : FilteredData :=
  value_or no_table (Main.filter_only_gaze fd_four).

Definition fd_four_pupils : FilteredData :=
  value_or no_table (Main.filter_invalid_pupils fd_four (Fin 1) (Fin 10)).

Definition fd_four_missing : FilteredData :=
  value_or no_table (Main.filter_missing_data fd_four).

Definition fd_four_bounds : FilteredData :=
  value_or no_table
    (Main.filter_by_timestamp strptime_2020 (Fin (1700000000 # 1)) fd_four
       (inr "01/01/2020")).

(** The rows of a table with the relative time recomputed from the flags
    they carry, as [_prepare_data] of src/filtered_data.py leaves them. *)
Definition recomputed (rs : list Row) : list Row :=
  map (recomputed_row (series_min (map timestamp (List.filter is_valid rs))))
      rs.

(** Two rows that differ at most in the relative time. *)
Definition same_but_relative (r r' : Row) : Prop :=
  set_relative_timestamp NaN r = set_relative_timestamp NaN r'.

(** Row [i] is flagged by the pass [c] on the table [df]. *)
Definition flagged (strptime_timestamp : string -> result float)
  (c : Main.filter_call) (df : DataFrame) (i : nat) : bool :=
  match mask_of strptime_timestamp c df with
  | Ok mask => mask_bit mask i
  | Raise _ => false
  end.

(** The rows that some pass of the chain flags on the table [df]. *)
Definition chain_mask (strptime_timestamp : string -> result float)
  (cs : list Main.filter_call) (df : DataFrame) : list bool :=
  map (fun i => existsb (fun c => flagged strptime_timestamp c df i) cs)
      (seq 0 (length (rows df))).

(** The session start that the flags of the rows give: the smallest
    timestamp of a valid row, None when no row is valid. *)
Definition start_of (rs : list Row) : option float :=
  if Nat.eqb (length (List.filter is_valid rs)) 0 then None
  else Some (series_min (map timestamp (List.filter is_valid rs))).

(** A chain that drops the samples before 1600000000.05. *)
Definition chain_late : list Main.filter_call :=
  [ Main.OnlyGaze;
    Main.ByTimestamp (inl (Fin (160000000005 # 100))) (Fin (1700000000 # 1)) ].


(** The three passes that compare each row with the row before it. *)
Definition difference_filter (c : Main.filter_call) : Prop :=
  match c with
  | Main.UnrealisticEventSpacing _
  | Main.ConstantPupil _ _
  | Main.AsyncPupilSize _ => True
  | _ => False
  end.

(** The first row of the table built from the four samples. *)
Definition first_of_four : Row :=
  set_relative_timestamp (Fin 0)
    (sample (1600000000 # 1) "gaze" (3 # 1) (3 # 1)).

(** A chain with a date string. *)
Definition chain_dated : list Main.filter_call :=
  [ Main.MissingData;
    Main.ByTimestamp (inr "01/01/2020") (Fin (1700000000 # 1));
    Main.AsyncPupilSize None ].

(** [u] lies in the closed window of half-width [w] around [t]. *)
Definition in_window (w t u : float) : bool :=
  fge u (fsub t w) && fle u (fadd t w).

(** The smoothed diameter of a row in the words of the docstring of
    [_smooth_avg_pupildiameter]: the mean of the average diameter over the
    valid rows whose timestamp lies within [w] of the row's own, and the
    row's own average diameter when no row does. *)
Definition smooth_spec (w : float) (rs : list Row) (r : Row) : float :=
  let window :=
    List.filter
      (fun r' => is_valid r' && in_window w (timestamp r) (timestamp r'))
      rs in
  if Nat.eqb (length window) 0 then avg_pupildiameter r
  else mean (map avg_pupildiameter window).

(** The cells that the smoothing reads. *)
Definition smoothing_cells (r : Row) : bool * float * float :=
  (is_valid r, timestamp r, avg_pupildiameter r).

(** The result of a construction of the snapshot class from [df], or of
    its [set_data] with [df]. *)
Definition checkpoint_recomputation (sort_values : list Row -> list Row)
  (sqrt_Q : Q -> Q) (df : DataFrame) (res : result FilteredData) : Prop :=
  (exists user_id,
     res = Checkpoint.__init__ sort_values sqrt_Q (Some df) user_id) \/
  (exists fd, res = Checkpoint.set_data sort_values sqrt_Q fd df).

(** The average of the two diameters, as [_prepare_data] computes it. *)
Definition mean_of_eyes (r : Row) : float :=
  fdiv (fadd (eyeleft_pupildiameter r) (eyeright_pupildiameter r)) (Fin 2).
(** What a row of the table holds when the smoothing starts: the average
    of its two diameters (NaN when one of the two columns is absent) and,
    when it is valid, its time since the session start. *)
Definition averaged (both_eyes : bool) (st : option float) (r : Row) : Prop :=
  avg_pupildiameter r = (if both_eyes then mean_of_eyes r else NaN) /\
  (is_valid r = true ->
   forall start, st = Some start ->
                 relative_timestamp r = fsub (timestamp r) start).

(** The window of the smoothing around a valid row: the valid rows whose
    timestamp lies within [w] of its own. *)
Definition smoothing_window (w : float) (rs : list Row) (r : Row)
  : list Row :=
  List.filter
    (fun r' => is_valid r' && in_window w (timestamp r) (timestamp r')) rs.

(** Three samples that come out of order, the last one without a
    timestamp. *)
Definition raw_shuffled : DataFrame :=
  mkDF raw_columns
    [ sample (16000000002 # 10) "gaze" (4 # 1) (4 # 1);
      mkRow NaN (Some "gaze") (Fin 5) (Fin 5) true NaN NaN NaN NaN;
      sample (1600000000 # 1) "gaze" (2 # 1) (2 # 1);
      sample (16000000001 # 10) "gaze" (3 # 1) (3 # 1) ].

Definition fd_shuffled : FilteredData :=
  value_or no_table (Checkpoint.__init__ sort_values_timestamp sqrt_down (Some raw_shuffled) None).

(** The two RuntimeErrors of [validate_filters]. *)
Definition nothing_filtered : Checkpoint.validate_error :=
  Checkpoint.RuntimeError
    "Ни одна строка не была отфильтрована: проверьте работу фильтров.".

Definition nothing_left : Checkpoint.validate_error :=
  Checkpoint.RuntimeError
    "Все строки оказались невалидными: слишком жёсткие фильтры или ошибка.".

(** The last entry of a subject's list for a shelf. *)
Definition last_entry (s : string)
  (items : list CalibrationProcessor.timing_item)
  : option CalibrationProcessor.timing_item :=
  List.find (fun item => String.eqb (CalibrationProcessor.shelf item) s)
            (rev items).

(** A timing file in which the Positive phase is given twice. *)
Definition timings_twice
  : gmap string (list CalibrationProcessor.timing_item) :=
  {[ "704" :=
       [ CalibrationProcessor.mkItem "Positive" [Fin (30 # 1); Fin (60 # 1)];
         CalibrationProcessor.mkItem "Baseline" [Fin 0; Fin (30 # 1)];
         CalibrationProcessor.mkItem "Positive" [Fin (35 # 1); Fin (55 # 1)]
       ] ]}.

(** The phase names of the docstring, and the Negative phase a second time
    under the lower-case key that [compute_negative_rise_speed] reads. *)
Definition timings_705
  : gmap string (list CalibrationProcessor.timing_item) :=
  {[ "705" :=
       [ CalibrationProcessor.mkItem "Baseline" [Fin 0; Fin (30 # 1)];
         CalibrationProcessor.mkItem "Positive" [Fin (30 # 1); Fin (60 # 1)];
         CalibrationProcessor.mkItem "Neutral_2" [Fin (60 # 1); Fin (90 # 1)];
         CalibrationProcessor.mkItem "Negative" [Fin (90 # 1); Fin (120 # 1)];
         CalibrationProcessor.mkItem "negative" [Fin (90 # 1); Fin (120 # 1)]
       ] ]}.

(** The peak of the Positive phase [30, 60] is its first sample, at 30. *)
Definition fd_peak_at_start : FilteredData :=
  mkFD (Some (mkDF cleaned_columns
                [ cleaned true (10 # 1) (2 # 1);
                  cleaned true (30 # 1) (4 # 1);
                  cleaned true (45 # 1) (3 # 1) ]))
       (Some (Fin (1600000010 # 1))) (Some 704%Z).

(** The smoothed diameters of a segment. *)
Definition smoothed_of (seg : list (nat * Row)) : list float :=
  map (fun p => avg_pupildiameter_smooth (snd p)) seg.

(** The record that [process] returns for the subject 705 on the table
    with one valid sample in each phase. *)
Definition record_705 : CalibrationData.CalibrationData :=
  CalibrationData.__init__ (PyInt 705) (PyFloat (Fin 2)) (PyFloat NaN)
    (PyFloat (Fin (2 # 15))) (PyFloat (Fin 0)) (PyFloat (Fin 0))
    (PyFloat (Fin 0)) (PyFloat (Fin 0)) (PyFloat (Fin 2)) (PyFloat (Fin 2)).

(** The keys of a dict that come before the first missing one, and that
    one. *)
Definition first_missing {V : Type} (d : gmap string V) (keys : list string)
  (k : string) : Prop :=
  exists present rest,
    keys = (present ++ k :: rest)%list /\
    Forall (fun k' => is_Some (d !! k')) present /\
    d !! k = None.

(** At least two valid rows of the table have their relative time within
    [w] of the relative time of [r]. *)
Definition crowded (w : float) (rs : list Row) (r : Row) : bool :=
  (2 <=? length
           (List.filter
              (fun r' => is_valid r'
                         && in_window w (relative_timestamp r)
                              (relative_timestamp r'))
              rs))%nat.

Definition fd_three_outliers : FilteredData :=
  value_or no_table
    (Checkpoint.filter_by_std_outliers sort_values_timestamp sqrt_down fd_three (Fin 1) (Fin 2)).

(** The test of the speed filter on two rows that follow one another
    among the valid rows: time has passed, and the average diameter
    changed by more than [v] per second. *)
Definition too_fast (v : float) (prev cur : Row) : bool :=
  fgt (fsub (relative_timestamp cur) (relative_timestamp prev)) (Fin 0)
  && fgt (fdiv (fabs (fsub (avg_pupildiameter cur) (avg_pupildiameter prev)))
               (fsub (relative_timestamp cur) (relative_timestamp prev)))
         v.

(** Row [i] is one of the two rows of the pair [pq], and the pair is too
    fast. *)
Definition hit (v : float) (i : nat) (pq : (nat * Row) * (nat * Row)) : bool :=
  too_fast v (snd (fst pq)) (snd (snd pq))
  && (Nat.eqb i (fst (fst pq)) || Nat.eqb i (fst (snd pq))).

(** Row [i] belongs to a pair of neighbours among the valid rows that is
    too fast. *)
Definition in_fast_pair (v : float) (rs : list Row) (i : nat) : bool :=
  let valid := List.filter (fun p => is_valid (snd p)) (labelled rs) in
  existsb (hit v i) (combine valid (tl valid)).

(** [ts_sorted] as a test. *)
Fixpoint ts_sortedb (l : list float) : bool :=
  match l with
  | x :: ((y :: _) as l') => ts_le x y && ts_sortedb l'
  | _ => true
  end.

Fixpoint ts_strictb (l : list float) : bool :=
  match l with
  | x :: ((y :: _) as l') => ts_lt x y && ts_strictb l'
  | _ => true
  end.

(** A test on a row and the row just before it in the table, false on the
    first row. *)
Definition against_previous (test : Row -> Row -> bool) (rs : list Row)
  (i : nat) : bool :=
  match i with
  | O => false
  | S j =>
      match rs !! j, rs !! i with
      | Some prev, Some cur => test prev cur
      | _, _ => false
      end
  end.

(** The two diameters moved in opposite directions, each by more than
    [tolerance]. *)
Definition async_change (tolerance : float) (prev cur : Row) : bool :=
  flt (fmul (fsub (eyeleft_pupildiameter cur) (eyeleft_pupildiameter prev))
            (fsub (eyeright_pupildiameter cur) (eyeright_pupildiameter prev)))
      (Fin 0)
  && fgt (fabs (fsub (eyeleft_pupildiameter cur)
                     (eyeleft_pupildiameter prev))) tolerance
  && fgt (fabs (fsub (eyeright_pupildiameter cur)
                     (eyeright_pupildiameter prev))) tolerance.

(** Four samples: the left pupil grows by 0.5 while the right one shrinks
    by 0.5 between the second and the third. *)
Definition raw_async : DataFrame :=
  mkDF raw_columns
    [ sample (1600000000 # 1) "gaze" (3 # 1) (3 # 1);
      sample (16000000001 # 10) "gaze" (3 # 1) (3 # 1);
      sample (16000000002 # 10) "gaze" (35 # 10) (25 # 10);
      sample (16000000003 # 10) "gaze" (36 # 10) (26 # 10) ].

Definition fd_async : FilteredData :=
  value_or no_table (Main.__init__ (Some raw_async) (Some 704%Z)).

Definition fd_async_filtered : FilteredData :=
  value_or no_table (Main.filter_async_pupil_size fd_async None).

(** The positions [i] and [j] lie in one run of the list [s]: every
    position from the one to the other holds the value that position [i]
    holds. *)
Definition same_run (s : list bool) (i j : nat) : bool :=
  forallb (fun k => Bool.eqb (mask_bit s k) (mask_bit s i))
          (seq (Nat.min i j) (S (Nat.max i j - Nat.min i j))).

(** The length of the run of equal values of [s] around position [i]. *)
Definition run_length (s : list bool) (i : nat) : nat :=
  length (List.filter (same_run s i) (seq 0 (length s))).

(** The number of runs of [s] that start at or before position [j]. *)
Fixpoint run_key (s : list bool) (j : nat) : nat :=
  match j with
  | O => 1
  | S j' =>
      if xorb (mask_bit s j) (mask_bit s j') then S (run_key s j')
      else run_key s j'
  end.

(** Both diameters changed by less than [tolerance]. *)
Definition steady (tolerance : float) (prev cur : Row) : bool :=
  flt (fabs (fsub (eyeleft_pupildiameter cur) (eyeleft_pupildiameter prev)))
      tolerance
  && flt (fabs (fsub (eyeright_pupildiameter cur)
                     (eyeright_pupildiameter prev)))
         tolerance.

(** The stability flag of every row of a table: the row is steady against
    the row before it. *)
Definition stable_flags (tolerance : float) (rs : list Row) : list bool :=
  map (against_previous (steady tolerance) rs) (seq 0 (length rs)).

(** Five samples with the same diameters. *)
Definition raw_still : DataFrame :=
  mkDF raw_columns
    [ sample (1600000000 # 1) "gaze" (3 # 1) (3 # 1);
      sample (16000000001 # 10) "gaze" (3 # 1) (3 # 1);
      sample (16000000002 # 10) "gaze" (3 # 1) (3 # 1);
      sample (16000000003 # 10) "gaze" (4 # 1) (4 # 1);
      sample (16000000004 # 10) "gaze" (4 # 1) (4 # 1) ].

Definition fd_still : FilteredData :=
  value_or no_table (Main.__init__ (Some raw_still) (Some 704%Z)).

Definition fd_still_filtered : FilteredData :=
  value_or no_table (Main.filter_constant_pupil fd_still 2 None).


(** Three valid samples in the Neutral_2 phase [60, 90], given out of
    order: 3.4 at 80, 3.8 at 65 and 3.5 at 70. *)
Definition fd_recovery : FilteredData :=
  mkFD (Some (mkDF cleaned_columns
                [ cleaned true (10 # 1) (3 # 1);
                  cleaned true (80 # 1) (34 # 10);
                  cleaned true (65 # 1) (38 # 10);
                  cleaned false (62 # 1) (5 # 1);
                  cleaned true (70 # 1) (35 # 10) ]))
       (Some (Fin (1600000000 # 1))) (Some 704%Z).




(* ===================================================================== *)
(** * Properties *)
(* ===================================================================== *)

(** ** The order on floats *)

Lemma Qlt_bool_iff (a b : Q) : Qlt_bool a b = true <-> (a < b)%Q.
Proof.
  unfold Qlt_bool. rewrite negb_true_iff.
  split; intros H.
  - apply Qnot_le_lt. intros Hle. apply Qle_bool_iff in Hle. congruence.
  - destruct (Qle_bool b a) eqn:E; [|reflexivity].
    apply Qle_bool_iff in E. exfalso. exact (Qlt_not_le _ _ H E).
Qed.

Lemma fle_refl (x : float) : isnan x = false -> fle x x = true.
Proof.
  destruct x; simpl; try congruence; intros _.
  apply Qle_bool_iff. apply Qle_refl.
Qed.

Lemma flt_fle_trans (x y z : float) :
  flt x y = true -> fle y z = true -> fle x z = true.
Proof.
  destruct x, y, z; simpl; try congruence; intros H1 H2.
  apply Qlt_bool_iff in H1. apply Qle_bool_iff in H2.
  apply Qle_bool_iff. apply Qlt_le_weak. eapply Qlt_le_trans; eassumption.
Qed.

Lemma fle_flt_trans (x y z : float) :
  fle x y = true -> flt y z = true -> flt x z = true.
Proof.
  destruct x, y, z; simpl; try congruence; intros H1 H2.
  apply Qle_bool_iff in H1. apply Qlt_bool_iff in H2.
  apply Qlt_bool_iff. eapply Qle_lt_trans; eassumption.
Qed.

Lemma fle_trans (x y z : float) :
  fle x y = true -> fle y z = true -> fle x z = true.
Proof.
  destruct x, y, z; simpl; try congruence; intros H1 H2.
  apply Qle_bool_iff in H1. apply Qle_bool_iff in H2.
  apply Qle_bool_iff. eapply Qle_trans; eassumption.
Qed.

Lemma flt_false_fle (x y : float) :
  isnan x = false -> isnan y = false -> flt x y = false -> fle y x = true.
Proof.
  destruct x, y; simpl; try congruence; intros _ _ H.
  unfold Qlt_bool in H. apply negb_false_iff in H. exact H.
Qed.

Lemma flt_fle (x y : float) : flt x y = true -> fle x y = true.
Proof.
  destruct x, y; simpl; try congruence; intros H.
  apply Qlt_bool_iff in H. apply Qle_bool_iff. apply Qlt_le_weak. exact H.
Qed.

Lemma flt_not_nan (x y : float) :
  flt x y = true -> isnan x = false /\ isnan y = false.
Proof. destruct x, y; simpl; intros; try congruence; auto. Qed.

Lemma fle_not_nan (x y : float) :
  fle x y = true -> isnan x = false /\ isnan y = false.
Proof. destruct x, y; simpl; intros; try congruence; auto. Qed.

Lemma fle_total (a b : float) :
  isnan a = false -> isnan b = false -> fle a b = false -> fle b a = true.
Proof.
  destruct a as [p| | |], b as [q| | |]; simpl; try congruence.
  intros _ _ H. apply Qle_bool_iff. apply Qlt_le_weak. apply Qnot_le_lt.
  intros Hle. apply Qle_bool_iff in Hle. congruence.
Qed.

Lemma fdiv_by_zero (x : float) : isfinite (fdiv x (Fin 0)) = false.
Proof.
  destruct x as [a| | |]; simpl; try reflexivity.
  destruct (a ?= 0)%Q; reflexivity.
Qed.

Lemma fsub_same (t : float) : fsub t t = Fin 0 \/ fsub t t = NaN.
Proof.
  destruct t as [a| | |]; simpl; auto.
  left. unfold fsub, fneg, fadd, fin. f_equal.
  change 0%Q with (Qred 0). apply Qred_complete.
  rewrite Qred_correct. apply Qplus_opp_r.
Qed.

Lemma fdiv_degenerate (x t : float) : isfinite (fdiv x (fsub t t)) = false.
Proof.
  destruct (fsub_same t) as [-> | ->]; [apply fdiv_by_zero|].
  destruct x; reflexivity.
Qed.

(** ** Minima *)

Lemma dropna_not_nan (l : list float) (x : float) :
  In x (dropna l) <-> In x l /\ isnan x = false.
Proof.
  unfold dropna. rewrite filter_In. rewrite negb_true_iff. tauto.
Qed.

Lemma min_fold_spec (l : list float) (m0 : float) :
  isnan m0 = false ->
  (forall x, In x l -> isnan x = false) ->
  let m := fold_left (fun m y => if flt y m then y else m) l m0 in
  (m = m0 \/ In m l) /\ fle m m0 = true /\
  (forall x, In x l -> fle m x = true).
Proof.
  revert m0. induction l as [|y l IH]; intros m0 Hm0 Hl; simpl.
  - split; [auto|]. split; [apply fle_refl; assumption|]. intros x [].
  - assert (Hy : isnan y = false) by (apply Hl; left; reflexivity).
    assert (Hl' : forall x, In x l -> isnan x = false)
      by (intros x Hx; apply Hl; right; exact Hx).
    destruct (flt y m0) eqn:E.
    + destruct (IH y Hy Hl') as (Hin & Hle & Hall).
      split; [destruct Hin as [-> | Hin]; auto|].
      split.
      * eapply fle_trans; [exact Hle|]. apply flt_fle. exact E.
      * intros x [<- | Hx]; [exact Hle | apply Hall; exact Hx].
    + destruct (IH m0 Hm0 Hl') as (Hin & Hle & Hall).
      split; [destruct Hin as [-> | Hin]; auto|].
      split; [exact Hle|].
      intros x [<- | Hx]; [|apply Hall; exact Hx].
      eapply fle_trans; [exact Hle|].
      apply flt_false_fle; assumption.
Qed.

(** [series_min] returns one of the values that are not NaN, below all
    the others; it is NaN exactly when there is no such value. *)
Lemma series_min_spec (s : list float) :
  (dropna s = [] /\ series_min s = NaN) \/
  (In (series_min s) s /\ isnan (series_min s) = false /\
   forall x, In x s -> isnan x = false -> fle (series_min s) x = true).
Proof.
  unfold series_min. destruct (dropna s) as [|m0 l] eqn:E.
  - left. split; reflexivity.
  - right. simpl.
    assert (Hm0 : In m0 s /\ isnan m0 = false).
    { apply dropna_not_nan. rewrite E. left. reflexivity. }
    assert (Hl : forall x, In x l -> isnan x = false).
    { intros x Hx. apply (dropna_not_nan s x). rewrite E. right. exact Hx. }
    destruct (min_fold_spec l m0 (proj2 Hm0) Hl) as (Hin & Hle & Hall).
    set (m := fold_left _ l m0) in *.
    assert (Hmin : In m (m0 :: l)).
    { destruct Hin as [-> | Hin]; [left; reflexivity | right; exact Hin]. }
    split; [rewrite <- E in Hmin; apply dropna_not_nan in Hmin; tauto|].
    split; [rewrite <- E in Hmin; apply dropna_not_nan in Hmin; tauto|].
    intros x Hx Hnan.
    assert (Hx' : In x (m0 :: l))
      by (rewrite <- E; apply dropna_not_nan; auto).
    destruct Hx' as [<- | Hx']; [exact Hle | apply Hall; exact Hx'].
Qed.

(** ** Frames, masks and labels *)

Lemma rows_add_column (c : string) (df : DataFrame) :
  rows (add_column c df) = rows df.
Proof. unfold add_column. destruct (has_column c df); reflexivity. Qed.

Lemma has_column_add_column (c c' : string) (df : DataFrame) :
  has_column c (add_column c' df) = has_column c df || String.eqb c c'.
Proof.
  unfold add_column. destruct (has_column c' df) eqn:E.
  - destruct (String.eqb c c') eqn:Ec.
    + apply String.eqb_eq in Ec. subst. rewrite E. reflexivity.
    + rewrite orb_false_r. reflexivity.
  - unfold has_column. simpl. rewrite existsb_app. simpl.
    rewrite orb_false_r. reflexivity.
Qed.

Lemma has_column_add_same (c : string) (df : DataFrame) :
  has_column c (add_column c df) = true.
Proof.
  rewrite has_column_add_column, String.eqb_refl. apply orb_true_r.
Qed.

Lemma has_column_add_mono (c c' : string) (df : DataFrame) :
  has_column c df = true -> has_column c (add_column c' df) = true.
Proof. intros H. rewrite has_column_add_column, H. reflexivity. Qed.

Lemma has_column_rows (c : string) (cols : list string) (rs rs' : list Row) :
  has_column c (mkDF cols rs) = has_column c (mkDF cols rs').
Proof. reflexivity. Qed.

Lemma has_column_columns (c : string) (d df : DataFrame) :
  columns d = columns df -> has_column c d = has_column c df.
Proof. unfold has_column. intros ->. reflexivity. Qed.

(** A name that the prefix stripping leaves alone stays a column. *)
Lemma has_column_strip (c : string) (df : DataFrame) :
  str_remove "data." c = c ->
  has_column c df = true -> has_column c (strip_data_prefix df) = true.
Proof.
  intros Hc H. unfold has_column, strip_data_prefix in *. simpl.
  apply existsb_exists in H. destruct H as (x & Hx & Hxc).
  apply String.eqb_eq in Hxc. subst x.
  apply existsb_exists. exists (str_remove "data." c).
  split; [apply in_map; exact Hx|]. rewrite Hc. apply String.eqb_refl.
Qed.

Lemma getitem_Ok {A : Type} (c : string) (f : Row -> A) (df : DataFrame)
  (l : list A) :
  getitem c f df = Ok l -> has_column c df = true /\ l = map f (rows df).
Proof.
  unfold getitem. destruct (has_column c df); intros H; inversion H; auto.
Qed.

Lemma getitem_has {A : Type} (c : string) (f : Row -> A) (df : DataFrame) :
  has_column c df = true -> getitem c f df = Ok (map f (rows df)).
Proof. unfold getitem. intros ->. reflexivity. Qed.

Lemma map_where_length (mask : list bool) (f : Row -> Row) (rs : list Row) :
  length (map_where mask f rs) = length rs.
Proof.
  revert rs. induction mask as [|b mask IH]; intros [|r rs]; simpl; auto.
Qed.

Lemma assign_valid_map (upd : float -> Row -> Row) (g : Row -> float)
  (rs : list Row) :
  assign_valid upd (map g rs) rs =
  map (fun r => if is_valid r then upd (g r) r else r) rs.
Proof. induction rs as [|r rs IH]; simpl; [reflexivity|]. rewrite IH. reflexivity. Qed.

Lemma filter_is_valid_nil (rs : list Row) :
  length (List.filter is_valid rs) = 0 ->
  forall r, In r rs -> is_valid r = false.
Proof.
  intros H r Hr. destruct (is_valid r) eqn:E; [|reflexivity].
  assert (Hin : In r (List.filter is_valid rs)) by (apply filter_In; auto).
  destruct (List.filter is_valid rs); [destruct Hin | discriminate].
Qed.

Lemma filter_is_valid_map (f : Row -> Row) (rs : list Row) :
  (forall r, is_valid (f r) = is_valid r) ->
  List.filter is_valid (map f rs) = map f (List.filter is_valid rs).
Proof.
  intros Hf. induction rs as [|r rs IH]; simpl; [reflexivity|].
  rewrite Hf. destruct (is_valid r); simpl; rewrite IH; reflexivity.
Qed.

Lemma filter_is_valid_length (rs rs' : list Row) :
  map is_valid rs = map is_valid rs' ->
  length (List.filter is_valid rs) = length (List.filter is_valid rs').
Proof.
  revert rs'. induction rs as [|r rs IH]; intros [|r' rs'] H; simpl in *;
    try discriminate; [reflexivity|].
  inversion H as [[H1 H2]]. rewrite H1.
  destruct (is_valid r'); simpl; rewrite (IH rs' H2); reflexivity.
Qed.

Lemma assign_valid_is_valid (upd : float -> Row -> Row) (values : list float)
  (rs : list Row) :
  (forall v r, is_valid (upd v r) = is_valid r) ->
  map is_valid (assign_valid upd values rs) = map is_valid rs.
Proof.
  intros Hupd. revert values. induction rs as [|r rs IH]; intros [|v values];
    simpl; try reflexivity.
  rewrite IH. destruct (is_valid r) eqn:E; [rewrite Hupd|]; congruence.
Qed.

Lemma assign_valid_list_In (upd : float -> Row -> Row) (values : list float)
  (rs : list Row) (r' : Row) :
  In r' (assign_valid_list upd values rs) ->
  exists r, In r rs /\ (r' = r \/ exists v, In v values /\ r' = upd v r).
Proof.
  revert values. induction rs as [|r rs IH]; intros values; simpl.
  - intros [].
  - destruct (is_valid r).
    + destruct values as [|v values]; simpl.
      * intros [<- | H]; eauto.
      * intros [<- | H].
        -- exists r. split; [auto|]. right. exists v. simpl. auto.
        -- destruct (IH _ H) as (r0 & Hr0 & [-> | (v0 & Hv0 & ->)]).
           ++ eauto.
           ++ exists r0. split; [auto|]. right. exists v0. simpl. auto.
    + intros [<- | H]; [eauto|].
      destruct (IH _ H) as (r0 & Hr0 & Hc). eauto.
Qed.

(** When there is a value for every valid row, every valid row of the
    result carries one of the values. *)
Lemma assign_valid_list_valid (upd : float -> Row -> Row)
  (values : list float) (rs : list Row) (r' : Row) :
  (forall v r, is_valid (upd v r) = is_valid r) ->
  length (List.filter is_valid rs) <= length values ->
  In r' (assign_valid_list upd values rs) -> is_valid r' = true ->
  exists v r, In v values /\ In r rs /\ r' = upd v r.
Proof.
  intros Hupd. revert values. induction rs as [|r rs IH]; intros values;
    simpl.
  - intros _ [].
  - destruct (is_valid r) eqn:E; simpl.
    + destruct values as [|v values]; simpl; [lia|].
      intros Hlen [<- | H] Hv.
      * exists v, r. auto.
      * destruct (IH values ltac:(lia) H Hv) as (v0 & r0 & ? & ? & ?).
        exists v0, r0. auto.
    + intros Hlen [<- | H] Hv; [congruence|].
      destruct (IH values Hlen H Hv) as (v0 & r0 & ? & ? & ?).
      exists v0, r0. auto.
Qed.

Lemma map_lookup_Some {A B : Type} (f : A -> B) (l : list A) (i : nat)
  (y : B) :
  map f l !! i = Some y -> exists x, l !! i = Some x /\ y = f x.
Proof.
  rewrite list_lookup_fmap. destruct (l !! i) as [x|]; simpl; intros H;
    inversion H. eauto.
Qed.

Lemma diff_length (s : list float) : length (diff s) = length s.
Proof.
  destruct s as [|x s]; simpl; [reflexivity|].
  rewrite length_map. f_equal. revert x.
  induction s as [|y s IH]; intros x; simpl; [reflexivity|].
  rewrite IH. reflexivity.
Qed.

Lemma diff_tail_lookup (x : float) (s : list float) (j : nat) :
  map (fun p => fsub (snd p) (fst p)) (combine (x :: s) s) !! j =
  match (x :: s) !! j, s !! j with
  | Some a, Some b => Some (fsub b a)
  | _, _ => None
  end.
Proof.
  revert x j. induction s as [|y s IH]; intros x j; simpl.
  - destruct j; reflexivity.
  - destruct j as [|j]; simpl; [reflexivity|]. apply IH.
Qed.

Lemma compress_mask_In {A : Type} (g : Row -> bool) (ls : list A)
  (rs : list Row) (p : A * Row) :
  In p (compress (map g rs) (combine ls rs)) -> g (snd p) = true.
Proof.
  revert ls. induction rs as [|r rs IH]; intros [|l ls]; simpl;
    try (intros []).
  destruct (g r) eqn:E.
  - intros [<- | H]; [exact E | eapply IH; exact H].
  - intros H. eapply IH; exact H.
Qed.

Lemma compress_all_false {A B : Type} (l : list B) (a : list A) :
  compress (map (fun _ => false) l) a = [].
Proof.
  revert a. induction l as [|x l IH]; intros [|y a]; simpl; auto.
Qed.

Lemma labelled_map_lookup (F : nat -> Row -> Row) (rs : list Row) (i : nat) :
  map (fun p => F (fst p) (snd p)) (labelled rs) !! i = F i <$> rs !! i.
Proof.
  unfold labelled.
  assert (G : forall s, map (fun p => F (fst p) (snd p))
                          (combine (seq s (length rs)) rs) !! i
                        = F (s + i) <$> rs !! i).
  { revert i. induction rs as [|r rs IH]; intros i s; simpl.
    - destruct i; reflexivity.
    - destruct i as [|i]; simpl.
      + rewrite Nat.add_0_r. reflexivity.
      + rewrite IH. rewrite Nat.add_succ_r. reflexivity. }
  apply (G 0).
Qed.

(** The labels taken by a mask are the positions where it is set. *)
Lemma compress_labels_mem (mask : list bool) (s i : nat) :
  existsb (Z.eqb (Z.of_nat i))
    (compress mask (map Z.of_nat (seq s (length mask))))
  = if (s <=? i)%nat
    then match mask !! (i - s) with Some b => b | None => false end
    else false.
Proof.
  revert s. induction mask as [|b mask IH]; intros s; simpl.
  - destruct (s <=? i)%nat; [|reflexivity]. destruct (i - s); reflexivity.
  - assert (Hrest :
      existsb (Z.eqb (Z.of_nat i))
        (compress mask (map Z.of_nat (seq (S s) (length mask))))
      = if (S s <=? i)%nat
        then match mask !! (i - S s) with Some b => b | None => false end
        else false) by apply IH.
    destruct (Nat.leb_spec s i) as [Hle | Hgt].
    + destruct (Nat.eq_dec i s) as [-> | Hne].
      * rewrite Nat.sub_diag. simpl.
        destruct (Nat.leb_spec (S s) s) as [? | _]; [lia|].
        destruct b; simpl.
        -- rewrite Z.eqb_refl. reflexivity.
        -- exact Hrest.
      * destruct (Nat.leb_spec (S s) i) as [_ | ?]; [|lia].
        replace (i - s) with (S (i - S s)) by lia. simpl.
        destruct b; simpl; [|exact Hrest].
        rewrite Hrest.
        destruct (Z.eqb_spec (Z.of_nat i) (Z.of_nat s)) as [E | _]; [lia|].
        reflexivity.
    + destruct (Nat.leb_spec (S s) i) as [? | _]; [lia|].
      destruct b; simpl; [|exact Hrest].
      rewrite Hrest.
      destruct (Z.eqb_spec (Z.of_nat i) (Z.of_nat s)) as [E | _]; [lia|].
      reflexivity.
Qed.

Lemma existsb_pred (i : nat) (labels : list Z) :
  existsb (Z.eqb (Z.of_nat i)) (map (fun l => (l - 1)%Z) labels)
  = existsb (Z.eqb (Z.of_nat (S i))) labels.
Proof.
  induction labels as [|l labels IH]; cbn [existsb map]; [reflexivity|].
  rewrite IH. f_equal.
  destruct (Z.eqb_spec (Z.of_nat i) (l - 1)), (Z.eqb_spec (Z.of_nat (S i)) l);
    try reflexivity; lia.
Qed.

(** ** [_prepare_data] of src/filtered_data.py, row by row *)

Lemma reset_rows_main (df : DataFrame) :
  rows (Main._reset_calculated_fields df) =
  map (set_relative_timestamp NaN) (rows df).
Proof.
  unfold Main._reset_calculated_fields. simpl. unfold setitem_scalar.
  rewrite rows_add_column. reflexivity.
Qed.

Lemma reset_has_column_main (c : string) (df : DataFrame) :
  has_column c (Main._reset_calculated_fields df) =
  has_column c df || String.eqb c "relative_timestamp".
Proof.
  unfold Main._reset_calculated_fields. simpl. unfold setitem_scalar.
  rewrite has_column_add_column. reflexivity.
Qed.

Lemma timestamp_assign_valid (values : list float) (rs : list Row) :
  map timestamp (assign_valid set_relative_timestamp values rs)
  = map timestamp rs.
Proof.
  revert values. induction rs as [|r rs IH]; intros [|v values]; simpl;
    try reflexivity.
  rewrite IH. destruct (is_valid r); reflexivity.
Qed.

Lemma with_validity_timestamps (df : DataFrame) :
  map timestamp (with_validity df) = map timestamp (rows df).
Proof.
  unfold with_validity. rewrite map_map. apply map_ext. intros r.
  destruct (has_column "is_valid" (strip_data_prefix df)); reflexivity.
Qed.

Lemma has_column_same_columns (c : string) (d d' : DataFrame) :
  columns d = columns d' -> has_column c d = has_column c d'.
Proof. unfold has_column. intros ->. reflexivity. Qed.

(** When [_prepare_data] returns on a table that has the timestamp
    column: when the readable time is there already or every timestamp
    can be turned into a date; otherwise [to_datetime] raises. *)
Lemma Main_prepare_data_outcome (self : FilteredData) (df : DataFrame) :
  _data self = Some df ->
  has_column "timestamp" (strip_data_prefix df) = true ->
  if datetime_ready df
  then exists self', Main._prepare_data self = Ok self'
  else Main._prepare_data self
       = Raise (OutOfBoundsDatetime "cannot convert input with unit 's'").
Proof.
  intros Hd H1. unfold Main._prepare_data. rewrite Hd.
  set (df1 := strip_data_prefix df) in *.
  set (df2 := if negb (has_column "is_valid" df1) then _ else _).
  assert (Hrows2 : rows df2 = with_validity df).
  { subst df2. unfold with_validity. fold df1.
    destruct (has_column "is_valid" df1); simpl.
    - rewrite map_id. reflexivity.
    - unfold setitem_scalar. rewrite rows_add_column. reflexivity. }
  assert (Hcol2 : forall c, String.eqb c "is_valid" = false ->
                            has_column c df2 = has_column c df1).
  { intros c Hc. subst df2.
    destruct (negb (has_column "is_valid" df1)); [|reflexivity].
    unfold setitem_scalar. rewrite has_column_add_column, Hc.
    apply orb_false_r. }
  set (df3 := Main._reset_calculated_fields df2).
  assert (Hts3 : has_column "timestamp" df3 = true).
  { subst df3. rewrite reset_has_column_main, Hcol2, H1; reflexivity. }
  assert (Hrd3 : has_column "timestamp_readable" df3
                 = has_column "timestamp_readable" df1).
  { subst df3. rewrite reset_has_column_main, Hcol2; [|reflexivity].
    apply orb_false_r. }
  assert (Hrows3 : map timestamp (rows df3) = map timestamp (rows df)).
  { subst df3. rewrite reset_rows_main, Hrows2, map_map.
    rewrite <- with_validity_timestamps. reflexivity. }
  assert (Hfinish : forall (d : DataFrame) (st : option float),
    columns d = columns df3 ->
    map timestamp (rows d) = map timestamp (rows df) ->
    let m := (df5 <- (if negb (has_column "timestamp_readable" d) then
                        ts <- getitem "timestamp" timestamp d ;;
                        _ <- to_datetime_strftime ts ;;
                        Ok (add_column "timestamp_readable" d)
                      else Ok d) ;;
              Ok (mkFD (Some df5) st (_user_id self))) in
    if datetime_ready df
    then exists self', m = Ok self'
    else m = Raise (OutOfBoundsDatetime "cannot convert input with unit 's'")).
  { intros d st Hcols Hts m. subst m.
    rewrite (has_column_same_columns "timestamp_readable" d df3 Hcols), Hrd3.
    unfold datetime_ready. fold df1.
    destruct (has_column "timestamp_readable" df1); cbn [negb orb bind].
    - eexists; reflexivity.
    - rewrite (getitem_has "timestamp" timestamp d)
        by (rewrite (has_column_same_columns _ d df3 Hcols); exact Hts3).
      cbn [bind]. unfold to_datetime_strftime, in_datetime_bounds.
      rewrite Hts.
      destruct (forallb in_datetime_range (map timestamp (rows df)));
        cbn [bind]; [eexists; reflexivity | reflexivity]. }
  destruct (negb (length (List.filter is_valid (rows df3)) =? 0)%nat).
  - rewrite (getitem_has "timestamp" timestamp
               (mkDF (columns df3) (List.filter is_valid (rows df3))))
      by exact Hts3.
    cbn [bind]. rewrite (getitem_has _ _ _ Hts3). cbn [bind].
    apply Hfinish; [reflexivity|].
    cbn [rows]. rewrite timestamp_assign_valid. exact Hrows3.
  - cbn [bind]. apply Hfinish; [reflexivity | exact Hrows3].
Qed.

Lemma Main_prepare_data_returns (self : FilteredData) (df : DataFrame) :
  _data self = Some df ->
  has_column "timestamp" (strip_data_prefix df) = true ->
  datetime_ready df = true ->
  exists self', Main._prepare_data self = Ok self'.
Proof.
  intros Hd Hts Hr.
  pose proof (Main_prepare_data_outcome self df Hd Hts) as H.
  rewrite Hr in H. exact H.
Qed.

Lemma Main_prepare_data_Ok (self : FilteredData) (df : DataFrame) :
  _data self = Some df ->
  has_column "timestamp" df = true ->
  datetime_ready df = true ->
  exists self', Main._prepare_data self = Ok self'.
Proof.
  intros Hd Hts Hr. apply (Main_prepare_data_returns self df Hd); [|exact Hr].
  apply has_column_strip; [reflexivity | exact Hts].
Qed.

Lemma Main_prepare_data_spec (self self' : FilteredData) (df : DataFrame) :
  _data self = Some df ->
  Main._prepare_data self = Ok self' ->
  let start := series_min (valid_timestamps df) in
  exists df',
    _data self' = Some df' /\
    rows df' = map (recomputed_row start) (with_validity df) /\
    _start_timestamp self' =
      (if Nat.eqb (length (valid_timestamps df)) 0 then None else Some start) /\
    _user_id self' = _user_id self /\
    has_column "is_valid" df' = true /\
    has_column "relative_timestamp" df' = true /\
    (forall c, has_column c (strip_data_prefix df) = true ->
               has_column c df' = true).
Proof.
  intros Hd Hp start. unfold Main._prepare_data in Hp. rewrite Hd in Hp.
  set (df1 := strip_data_prefix df) in *.
  set (df2 := if negb (has_column "is_valid" df1) then _ else _) in *.
  assert (Hrows2 : rows df2 = with_validity df).
  { subst df2. unfold with_validity. fold df1.
    destruct (has_column "is_valid" df1); simpl.
    - rewrite map_id. reflexivity.
    - unfold setitem_scalar. rewrite rows_add_column. reflexivity. }
  assert (Hv2 : has_column "is_valid" df2 = true).
  { subst df2. destruct (has_column "is_valid" df1) eqn:E; simpl; [exact E|].
    unfold setitem_scalar. apply has_column_add_same. }
  assert (Hc2 : forall c, has_column c df1 = true -> has_column c df2 = true).
  { intros c Hc. subst df2.
    destruct (negb (has_column "is_valid" df1)); [|exact Hc].
    unfold setitem_scalar. apply has_column_add_mono. exact Hc. }
  set (df3 := Main._reset_calculated_fields df2) in *.
  assert (Hrows3 : rows df3 = map (set_relative_timestamp NaN) (with_validity df)).
  { subst df3. rewrite reset_rows_main, Hrows2. reflexivity. }
  assert (Hc3 : forall c, has_column c df2 = true -> has_column c df3 = true).
  { intros c Hc. subst df3. rewrite reset_has_column_main, Hc. reflexivity. }
  assert (Hr3 : has_column "relative_timestamp" df3 = true).
  { subst df3. rewrite reset_has_column_main. apply orb_true_r. }
  assert (Hvalid : List.filter is_valid (rows df3) =
                   map (set_relative_timestamp NaN)
                       (List.filter is_valid (with_validity df))).
  { rewrite Hrows3. apply filter_is_valid_map. reflexivity. }
  assert (Hlen : length (List.filter is_valid (rows df3)) =
                 length (valid_timestamps df)).
  { rewrite Hvalid. unfold valid_timestamps. rewrite !length_map. reflexivity. }
  rewrite Hlen in Hp.
  assert (Hfinish : forall (d : DataFrame) (st : option float),
    (forall c, has_column c df3 = true -> has_column c d = true) ->
    (df5 <- (if negb (has_column "timestamp_readable" d) then
               ts <- getitem "timestamp" timestamp d ;;
               _ <- to_datetime_strftime ts ;;
               Ok (add_column "timestamp_readable" d)
             else Ok d) ;;
     Ok (mkFD (Some df5) st (_user_id self))) = Ok self' ->
    exists df', _data self' = Some df' /\ rows df' = rows d /\
      _start_timestamp self' = st /\ _user_id self' = _user_id self /\
      (forall c, has_column c df3 = true -> has_column c df' = true)).
  { intros d st Hcd H.
    destruct (has_column "timestamp_readable" d); simpl in H.
    - inversion H; subst; clear H. exists d. simpl. auto.
    - destruct (getitem "timestamp" timestamp d) as [ts|]; simpl in H;
        [|discriminate].
      destruct (to_datetime_strftime ts); simpl in H; [|discriminate].
      inversion H; subst; clear H. eexists. simpl. split; [reflexivity|].
      rewrite rows_add_column. repeat split; auto.
      intros c Hc. apply has_column_add_mono. auto. }
  destruct (Nat.eqb (length (valid_timestamps df)) 0) eqn:Elen; simpl in Hp.
  - (* no valid row *)
    apply Hfinish in Hp; [|auto].
    destruct Hp as (df' & Hd' & Hrows' & Hst & Hu & Hc').
    exists df'. split; [exact Hd'|]. split.
    { rewrite Hrows', Hrows3. apply map_ext_in. intros r Hr.
      unfold recomputed_row.
      rewrite (filter_is_valid_nil (with_validity df)); [reflexivity| |exact Hr].
      apply Nat.eqb_eq in Elen. unfold valid_timestamps in Elen.
      rewrite length_map in Elen. exact Elen. }
    repeat split; auto.
  - (* some valid row *)
    destruct (getitem "timestamp" timestamp
                (mkDF (columns df3) (List.filter is_valid (rows df3))))
      as [ts_valid|] eqn:E1; simpl in Hp; [|discriminate].
    apply getitem_Ok in E1. destruct E1 as [_ E1]. simpl in E1.
    destruct (getitem "timestamp" timestamp df3) as [ts|] eqn:E2;
      simpl in Hp; [|discriminate].
    apply getitem_Ok in E2. destruct E2 as [_ E2].
    assert (Hstart : series_min ts_valid = start).
    { subst ts_valid start. unfold valid_timestamps. rewrite Hvalid.
      rewrite map_map. reflexivity. }
    rewrite Hstart in Hp.
    apply Hfinish in Hp; [|auto].
    destruct Hp as (df' & Hd' & Hrows' & Hst & Hu & Hc').
    exists df'. split; [exact Hd'|]. split.
    { rewrite Hrows'. simpl. subst ts. rewrite map_map.
      rewrite (assign_valid_map set_relative_timestamp
                 (fun r => fsub (timestamp r) start)).
      rewrite Hrows3, map_map. apply map_ext. intros r.
      unfold recomputed_row. simpl. destruct (is_valid r); reflexivity. }
    repeat split; auto.
Qed.

Lemma recomputed_row_is_valid (start : float) (r : Row) :
  is_valid (recomputed_row start r) = is_valid r.
Proof. unfold recomputed_row. destruct (is_valid r) eqn:E; simpl; auto. Qed.

Lemma recomputed_row_timestamp (start : float) (r : Row) :
  timestamp (recomputed_row start r) = timestamp r.
Proof. unfold recomputed_row. destruct (is_valid r); reflexivity. Qed.

Lemma in_valid_timestamps (df : DataFrame) (x : float) :
  In x (valid_timestamps df) <->
  exists r, In r (with_validity df) /\ is_valid r = true /\ timestamp r = x.
Proof.
  unfold valid_timestamps. rewrite in_map_iff. split.
  - intros (r & Hx & Hr). apply filter_In in Hr. exists r. tauto.
  - intros (r & Hr & Hv & Hx). exists r. split; [exact Hx|].
    apply filter_In. auto.
Qed.

Lemma with_validity_length (df : DataFrame) :
  length (with_validity df) = length (rows df).
Proof. unfold with_validity. apply length_map. Qed.

(** Both ways into [_prepare_data] come down to it. *)
Lemma recomputation_prepare (df : DataFrame) (res : result FilteredData)
  (fd' : FilteredData) :
  recomputation df res -> res = Ok fd' ->
  exists self self',
    _data self = Some df /\ Main._prepare_data self = Ok self' /\
    _data fd' = _data self' /\ _start_timestamp fd' = _start_timestamp self'.
Proof.
  intros [[uid ->] | [fd ->]] H.
  - unfold Main.__init__ in H.
    destruct (Main._prepare_data (mkFD (Some df) None None)) as [self'|] eqn:E;
      simpl in H; [|discriminate].
    inversion H; subst fd'; clear H.
    exists (mkFD (Some df) None None), self'. auto.
  - unfold Main.set_data in H.
    exists (mkFD (Some df) (_start_timestamp fd) (_user_id fd)), fd'.
    auto.
Qed.

(** A table that [_prepare_data] returns has the readable time. *)
Lemma Main_prepare_data_readable (self self' : FilteredData) :
  Main._prepare_data self = Ok self' ->
  exists df', _data self' = Some df' /\
              has_column "timestamp_readable" df' = true.
Proof.
  unfold Main._prepare_data. destruct (_data self) as [df|]; [|discriminate].
  match goal with
  | |- (st <- ?m ;; _) = _ -> _ => destruct m as [[df4 st]|]
  end; cbn [bind]; [|discriminate].
  destruct (has_column "timestamp_readable" df4) eqn:E; cbn [negb bind].
  - intros H. inversion H; subst. exists df4. auto.
  - destruct (getitem "timestamp" timestamp df4) as [ts|]; cbn [bind];
      [|discriminate].
    destruct (to_datetime_strftime ts); cbn [bind]; [|discriminate].
    intros H. inversion H; subst. eexists. split; [reflexivity|].
    apply has_column_add_same.
Qed.

Lemma recomputation_readable (df : DataFrame) (fd' : FilteredData) :
  recomputation df (Ok fd') ->
  exists df', get_data fd' = Some df' /\
              has_column "timestamp_readable" df' = true.
Proof.
  intros H.
  destruct (recomputation_prepare df (Ok fd') fd' H eq_refl)
    as (self & self' & _ & Hp & Hd & _).
  destruct (Main_prepare_data_readable _ _ Hp) as (df' & Hd' & Hc).
  exists df'. unfold get_data. rewrite Hd. auto.
Qed.

Lemma recomputation_Ok (df : DataFrame) (res : result FilteredData) :
  recomputation df res ->
  has_column "timestamp" (strip_data_prefix df) = true ->
  datetime_ready df = true ->
  exists fd', res = Ok fd'.
Proof.
  intros [[uid ->] | [fd ->]] Hts Hr.
  - unfold Main.__init__.
    destruct (Main_prepare_data_returns (mkFD (Some df) None None) df
                eq_refl Hts Hr) as (self' & ->).
    simpl. eauto.
  - unfold Main.set_data.
    eapply Main_prepare_data_returns; [reflexivity | exact Hts | exact Hr].
Qed.

(** A table with the readable time is ready, whatever its timestamps. *)
Lemma datetime_ready_readable (df : DataFrame) :
  has_column "timestamp_readable" df = true -> datetime_ready df = true.
Proof.
  intros H. unfold datetime_ready.
  rewrite (has_column_strip "timestamp_readable" df eq_refl H). reflexivity.
Qed.

(** ** The passes of src/raw_data_filter.py as masks

    Each pass computes a boolean mask from the frame, clears the flag of
    the masked rows and hands the frame to [set_data]. *)

Lemma call_as_mask (strptime_timestamp : string -> result float)
  (c : Main.filter_call) (fd : FilteredData) (df : DataFrame) :
  get_data fd = Some df ->
  Main.call strptime_timestamp c fd =
  (mask <- mask_of strptime_timestamp c df ;;
   Main.set_data fd (loc_set_is_valid_false mask df)).
Proof.
  intros Hd.
  destruct c as [| lo hi | | m now | d | n tol | tol]; simpl;
    unfold Main.filter_only_gaze, Main.filter_invalid_pupils,
      Main.filter_missing_data, Main.filter_by_timestamp,
      Main.filter_unrealistic_event_spacing, Main.filter_constant_pupil,
      Main.filter_async_pupil_size;
    rewrite Hd; simpl;
    repeat match goal with
      | |- context [getitem ?c ?f df] => destruct (getitem c f df); simpl
      | |- context [match m with inl _ => _ | inr _ => _ end] =>
          destruct m as [x | s]; simpl
      | |- context [strptime_timestamp ?s] =>
          destruct (strptime_timestamp s); simpl
      end;
    try reflexivity.
Qed.

Lemma validity_loc_set (mask : list bool) (df : DataFrame) :
  validity (loc_set_is_valid_false mask df) = cleared mask (validity df).
Proof.
  unfold validity, loc_set_is_valid_false. rewrite rows_add_column. simpl.
  generalize (rows df). induction mask as [|b mask IH]; intros [|r rs];
    simpl; try reflexivity.
  rewrite IH. destruct b; reflexivity.
Qed.

Lemma raw_cells_loc_set (mask : list bool) (df : DataFrame) :
  map raw_cells (rows (loc_set_is_valid_false mask df)) =
  map raw_cells (rows df).
Proof.
  unfold loc_set_is_valid_false. rewrite rows_add_column. simpl.
  generalize (rows df). induction mask as [|b mask IH]; intros [|r rs];
    simpl; try reflexivity.
  rewrite IH. destruct b; reflexivity.
Qed.

Lemma has_column_loc_set (mask : list bool) (df : DataFrame) (c : string) :
  has_column c df = true ->
  has_column c (loc_set_is_valid_false mask df) = true.
Proof.
  intros H. unfold loc_set_is_valid_false. apply has_column_add_mono.
  exact H.
Qed.

Lemma has_is_valid_loc_set (mask : list bool) (df : DataFrame) :
  has_column "is_valid" (loc_set_is_valid_false mask df) = true.
Proof. unfold loc_set_is_valid_false. apply has_column_add_same. Qed.

Lemma cleared_length (mask flags : list bool) :
  length (cleared mask flags) = length flags.
Proof.
  revert flags. induction mask as [|b mask IH]; intros [|v flags]; simpl;
    auto.
Qed.

(** Clearing never raises a flag. *)
Lemma cleared_false (mask flags : list bool) (i : nat) :
  flags !! i = Some false -> cleared mask flags !! i = Some false.
Proof.
  revert flags i. induction mask as [|b mask IH]; intros [|v flags] i;
    simpl; auto.
  destruct i as [|i]; simpl.
  - intros H. inversion H. destruct b; reflexivity.
  - apply IH.
Qed.

(** Clearing a second time, by a mask that is no larger, changes nothing. *)
Lemma cleared_again (m m' flags : list bool) :
  mask_le m' m -> cleared m' (cleared m flags) = cleared m flags.
Proof.
  intros H. revert flags. induction H as [|b' b m' m Hb H IH];
    intros flags.
  - destruct (cleared [] flags); reflexivity.
  - destruct flags as [|v flags]; simpl; [reflexivity|].
    rewrite IH. destruct b'; [rewrite Hb; reflexivity|].
    reflexivity.
Qed.

Lemma cleared_lookup (mask flags : list bool) (i : nat) :
  cleared mask flags !! i =
  (fun v => match mask !! i with
            | Some true => false
            | _ => v
            end) <$> flags !! i.
Proof.
  revert flags i. induction mask as [|b mask IH]; intros [|v flags] i;
    try reflexivity.
  - cbn [cleared]. destruct ((v :: flags) !! i); reflexivity.
  - cbn [cleared]. destruct i as [|i]; cbn.
    + destruct b; reflexivity.
    + apply IH.
Qed.

Lemma mask_le_refl (m : list bool) : mask_le m m.
Proof. induction m; constructor; auto. Qed.

(** What [set_data] of src/filtered_data.py does to a frame that has the
    validity column: the flags and the cells read by the passes stay. *)
Lemma Main_set_data_effect (fd fd' : FilteredData) (new_data : DataFrame) :
  Main.set_data fd new_data = Ok fd' ->
  has_column "is_valid" new_data = true ->
  exists df',
    get_data fd' = Some df' /\
    validity df' = validity new_data /\
    same_raw new_data df' /\
    has_column "is_valid" df' = true.
Proof.
  intros Hs Hv. unfold Main.set_data in Hs.
  eapply Main_prepare_data_spec in Hs; [|reflexivity].
  destruct Hs as (df' & Hd & Hrows & _ & _ & Hv' & _ & Hc).
  assert (Hw : with_validity new_data = rows new_data).
  { unfold with_validity.
    rewrite (has_column_strip "is_valid" new_data eq_refl Hv).
    apply map_id. }
  rewrite Hw in Hrows.
  exists df'. split; [exact Hd|]. split; [|split; [split|exact Hv']].
  - unfold validity. rewrite Hrows, map_map. apply map_ext. intros r.
    unfold recomputed_row. destruct (is_valid r) eqn:E; simpl; auto.
  - rewrite Hrows, map_map. apply map_ext. intros r.
    unfold recomputed_row. destruct (is_valid r); reflexivity.
  - intros c Hc1 Hc2. apply Hc. apply has_column_strip; assumption.
Qed.

Lemma same_raw_columns (a b : list Row) :
  map raw_cells a = map raw_cells b ->
  map timestamp a = map timestamp b /\
  map type_ a = map type_ b /\
  map eyeleft_pupildiameter a = map eyeleft_pupildiameter b /\
  map eyeright_pupildiameter a = map eyeright_pupildiameter b.
Proof.
  intros H.
  assert (H1 : forall l, map timestamp l =
                 map (fun c => fst (fst (fst c))) (map raw_cells l))
    by (intros l; rewrite map_map; reflexivity).
  assert (H2 : forall l, map type_ l =
                 map (fun c => snd (fst (fst c))) (map raw_cells l))
    by (intros l; rewrite map_map; reflexivity).
  assert (H3 : forall l, map eyeleft_pupildiameter l =
                 map (fun c => snd (fst c)) (map raw_cells l))
    by (intros l; rewrite map_map; reflexivity).
  assert (H4 : forall l, map eyeright_pupildiameter l =
                 map (fun c => snd c) (map raw_cells l))
    by (intros l; rewrite map_map; reflexivity).
  rewrite (H1 a), (H1 b), (H2 a), (H2 b), (H3 a), (H3 b), (H4 a), (H4 b), H.
  auto.
Qed.

Lemma same_raw_trans (a b c : DataFrame) :
  same_raw a b -> same_raw b c -> same_raw a c.
Proof.
  intros [H1 H2] [H3 H4]. split; [congruence|]. auto.
Qed.

Lemma same_raw_loc_set (mask : list bool) (df : DataFrame) :
  same_raw df (loc_set_is_valid_false mask df).
Proof.
  split; [symmetry; apply raw_cells_loc_set|].
  intros c _ H. apply has_column_loc_set. exact H.
Qed.

(** The mask of a pass is a function of the cells that the passes read. *)
Lemma mask_of_same_raw (strptime_timestamp : string -> result float)
  (c : Main.filter_call) (df df' : DataFrame) (mask : list bool) :
  same_raw df df' ->
  mask_of strptime_timestamp c df = Ok mask ->
  mask_of strptime_timestamp c df' = Ok mask.
Proof.
  intros [Hraw Hcols] H.
  destruct (same_raw_columns _ _ Hraw) as (Hts & Hty & Hl & Hr).
  assert (G : forall {A : Type} (n : string) (f : Row -> A) (l : list A),
             str_remove "data." n = n ->
             map f (rows df) = map f (rows df') ->
             getitem n f df = Ok l -> getitem n f df' = Ok l).
  { intros A n f l Hn Hf Hg. apply getitem_Ok in Hg. destruct Hg as [Hc ->].
    rewrite (getitem_has n f df' (Hcols n Hn Hc)), Hf. reflexivity. }
  destruct c as [| lo hi | | m now | d | n tol | tol]; simpl in *;
    repeat match type of H with
      | context [getitem ?n ?f df] =>
          let E := fresh "E" in
          destruct (getitem n f df) eqn:E; simpl in H; [|discriminate];
          rewrite (G _ n f _ eq_refl ltac:(assumption) E); simpl
      | context [match m with inl _ => _ | inr _ => _ end] =>
          destruct m as [x | s]; simpl in H |- *
      | context [strptime_timestamp ?s] =>
          destruct (strptime_timestamp s); simpl in H |- *; [|discriminate]
      end;
    exact H.
Qed.

(** One pass, seen from the flags. *)
Lemma call_effect (strptime_timestamp : string -> result float)
  (c : Main.filter_call) (fd fd1 : FilteredData) (df : DataFrame) :
  get_data fd = Some df ->
  Main.call strptime_timestamp c fd = Ok fd1 ->
  exists df1 mask,
    mask_of strptime_timestamp c df = Ok mask /\
    get_data fd1 = Some df1 /\
    validity df1 = cleared mask (validity df) /\
    same_raw df df1 /\
    has_column "is_valid" df1 = true.
Proof.
  intros Hd Hc. rewrite (call_as_mask _ _ _ _ Hd) in Hc.
  destruct (mask_of strptime_timestamp c df) as [mask|] eqn:Em;
    simpl in Hc; [|discriminate].
  apply Main_set_data_effect in Hc; [|apply has_is_valid_loc_set].
  destruct Hc as (df1 & Hd1 & Hv & Hraw & Hv1).
  exists df1, mask. split; [reflexivity|]. split; [exact Hd1|].
  split; [rewrite Hv; apply validity_loc_set|].
  split; [|exact Hv1].
  eapply same_raw_trans; [apply same_raw_loc_set | exact Hraw].
Qed.

Lemma validity_lookup (df : DataFrame) (i : nat) (b : bool) :
  validity df !! i = Some b <->
  exists r, rows df !! i = Some r /\ is_valid r = b.
Proof.
  unfold validity. rewrite list_lookup_fmap.
  destruct (rows df !! i) as [r|]; simpl; split.
  - intros H. inversion H. eauto.
  - intros (r' & H & <-). inversion H. reflexivity.
  - discriminate.
  - intros (r' & H & _). discriminate.
Qed.

Lemma validity_length (df : DataFrame) :
  length (validity df) = length (rows df).
Proof. unfold validity. apply length_map. Qed.

Lemma mask_of_repeated (strptime_timestamp : string -> result float)
  (c c' : Main.filter_call) (df : DataFrame) (mask : list bool) :
  repeated c c' ->
  mask_of strptime_timestamp c df = Ok mask ->
  exists mask', mask_of strptime_timestamp c' df = Ok mask' /\
                mask_le mask' mask.
Proof.
  intros Hr Hm.
  destruct c as [| lo hi | | m now | d | n tol | tol];
    try (simpl in Hr; subst c'; exists mask; split;
         [exact Hm | apply mask_le_refl]).
  destruct c' as [| lo' hi' | | m' now' | d' | n' tol' | tol'];
    try (simpl in Hr; discriminate).
  destruct Hr as [<- Hnow]. simpl in *.
  destruct (match m with inl x => Ok x | inr s => strptime_timestamp s end)
    as [mt|]; simpl in *; [|discriminate].
  destruct (getitem "timestamp" timestamp df) as [ts|]; simpl in *;
    [|discriminate].
  inversion Hm; subst mask; clear Hm.
  eexists. split; [reflexivity|].
  unfold mask_le. induction ts as [|t ts IH]; simpl; constructor; auto.
  intros H. apply orb_true_iff in H. apply orb_true_iff.
  destruct H as [H | H]; [left; exact H | right].
  unfold fgt in *. eapply fle_flt_trans; eassumption.
Qed.

Lemma mask_of_Ok (strptime_timestamp : string -> result float)
  (c : Main.filter_call) (df : DataFrame) :
  has_raw_columns df -> parses strptime_timestamp c ->
  exists mask, mask_of strptime_timestamp c df = Ok mask.
Proof.
  intros (Hts & Hty & Hl & Hr) Hp.
  destruct c as [| lo hi | | m now | d | n tol | tol]; simpl;
    rewrite ?(getitem_has _ _ _ Hts), ?(getitem_has _ _ _ Hty),
      ?(getitem_has _ _ _ Hl), ?(getitem_has _ _ _ Hr); simpl;
    try (eexists; reflexivity).
  destruct m as [x | s]; simpl in *.
  - eexists; reflexivity.
  - destruct (strptime_timestamp s); simpl in *; [|discriminate].
    eexists; reflexivity.
Qed.

Lemma has_raw_columns_same_raw (df df' : DataFrame) :
  same_raw df df' -> has_raw_columns df -> has_raw_columns df'.
Proof.
  intros [_ H] (H1 & H2 & H3 & H4).
  repeat split; apply H; auto.
Qed.

Lemma datetime_ready_loc_set (mask : list bool) (df : DataFrame) :
  datetime_ready df = true ->
  datetime_ready (loc_set_is_valid_false mask df) = true.
Proof.
  unfold datetime_ready. intros H. apply orb_true_iff in H.
  apply orb_true_iff. destruct H as [H | H]; [left | right].
  - unfold loc_set_is_valid_false, add_column.
    destruct (has_column "is_valid" _).
    + exact H.
    + unfold has_column, strip_data_prefix in *. cbn [columns] in *.
      rewrite map_app, existsb_app, H. reflexivity.
  - unfold in_datetime_bounds in *.
    destruct (same_raw_columns _ _ (raw_cells_loc_set mask df)) as [-> _].
    exact H.
Qed.

(** One call returns as soon as its mask can be computed and the table is
    ready; the table that comes out has the readable time. *)
Lemma call_returns (strptime_timestamp : string -> result float)
  (c : Main.filter_call) (fd : FilteredData) (df : DataFrame) :
  get_data fd = Some df ->
  has_raw_columns df -> datetime_ready df = true ->
  parses strptime_timestamp c ->
  exists fd1 df1,
    Main.call strptime_timestamp c fd = Ok fd1 /\
    get_data fd1 = Some df1 /\
    has_column "timestamp_readable" df1 = true.
Proof.
  intros Hd Hraw Hr Hc.
  destruct (mask_of_Ok _ c df Hraw Hc) as (mask & Hm).
  assert (Hts : has_column "timestamp" (loc_set_is_valid_false mask df)
                = true)
    by (apply has_column_loc_set; apply Hraw).
  destruct (Main_prepare_data_Ok
              (mkFD (Some (loc_set_is_valid_false mask df))
                    (_start_timestamp fd) (_user_id fd))
              _ eq_refl Hts (datetime_ready_loc_set mask df Hr))
    as (fd1 & Hfd1).
  destruct (Main_prepare_data_readable _ _ Hfd1) as (df1 & Hd1 & Hc1).
  exists fd1, df1. split; [|split; [exact Hd1 | exact Hc1]].
  rewrite (call_as_mask _ _ _ _ Hd), Hm. exact Hfd1.
Qed.

(** [_prepare_data] returns on ready tables only. *)
Lemma Main_prepare_data_ready (self self' : FilteredData) (df : DataFrame) :
  _data self = Some df ->
  has_column "timestamp" (strip_data_prefix df) = true ->
  Main._prepare_data self = Ok self' ->
  datetime_ready df = true.
Proof.
  intros Hd Hts Hp.
  pose proof (Main_prepare_data_outcome self df Hd Hts) as H.
  destruct (datetime_ready df); [reflexivity|]. congruence.
Qed.

Lemma datetime_ready_loc_set_inv (mask : list bool) (df : DataFrame) :
  datetime_ready (loc_set_is_valid_false mask df) = true ->
  datetime_ready df = true.
Proof.
  unfold datetime_ready. intros H. apply orb_true_iff in H.
  apply orb_true_iff. destruct H as [H | H]; [left | right].
  - unfold loc_set_is_valid_false, add_column in H.
    destruct (has_column "is_valid" _).
    + exact H.
    + unfold has_column, strip_data_prefix in *. cbn [columns] in *.
      rewrite map_app, existsb_app in H. cbn in H.
      rewrite !orb_false_r in H. exact H.
  - unfold in_datetime_bounds in *.
    destruct (same_raw_columns _ _ (raw_cells_loc_set mask df)) as [E _].
    rewrite <- E. exact H.
Qed.

(** A call returns on ready tables only. *)
Lemma call_ready (strptime_timestamp : string -> result float)
  (c : Main.filter_call) (fd fd1 : FilteredData) (df : DataFrame) :
  get_data fd = Some df ->
  has_column "timestamp" df = true ->
  Main.call strptime_timestamp c fd = Ok fd1 ->
  datetime_ready df = true.
Proof.
  intros Hd Hts Hc. rewrite (call_as_mask _ _ _ _ Hd) in Hc.
  destruct (mask_of strptime_timestamp c df) as [mask|]; cbn [bind] in Hc;
    [|discriminate].
  apply (datetime_ready_loc_set_inv mask).
  apply (Main_prepare_data_ready
           (mkFD (Some (loc_set_is_valid_false mask df))
                 (_start_timestamp fd) (_user_id fd)) fd1 _ eq_refl);
    [|exact Hc].
  apply has_column_strip; [reflexivity|].
  apply has_column_loc_set. exact Hts.
Qed.

(** The table that a call returns has the readable time, so the next call
    has no date to compute. *)
Lemma call_readable (strptime_timestamp : string -> result float)
  (c : Main.filter_call) (fd fd1 : FilteredData) (df : DataFrame) :
  get_data fd = Some df ->
  Main.call strptime_timestamp c fd = Ok fd1 ->
  exists df1, get_data fd1 = Some df1 /\
              has_column "timestamp_readable" df1 = true.
Proof.
  intros Hd Hc. rewrite (call_as_mask _ _ _ _ Hd) in Hc.
  destruct (mask_of strptime_timestamp c df) as [mask|]; cbn [bind] in Hc;
    [|discriminate].
  exact (Main_prepare_data_readable _ _ Hc).
Qed.

(** On a table that has the columns of the data model and is ready, every
    sequence of calls whose date strings are accepted returns. *)
Lemma call_all_returns (strptime_timestamp : string -> result float)
  (cs : list Main.filter_call) (fd : FilteredData) (df : DataFrame) :
  get_data fd = Some df ->
  has_raw_columns df -> datetime_ready df = true ->
  Forall (parses strptime_timestamp) cs ->
  exists fd', Main.call_all strptime_timestamp cs fd = Ok fd'.
Proof.
  intros Hd Hraw Hr Hcs. revert fd df Hd Hraw Hr.
  induction Hcs as [|c cs Hc Hcs IH]; intros fd df Hd Hraw Hr; simpl.
  - eauto.
  - destruct (call_returns _ c fd df Hd Hraw Hr Hc)
      as (fd1 & df1' & Hcall & Hd1' & Hc1).
    rewrite Hcall. simpl.
    destruct (call_effect _ _ _ _ _ Hd Hcall)
      as (df1 & _ & _ & Hd1 & _ & Hsame & _).
    apply (IH fd1 df1 Hd1).
    + eapply has_raw_columns_same_raw; eassumption.
    + apply datetime_ready_readable. congruence.
Qed.

Lemma spacing_mask_lookup (ts : list float) (min_interval : float) (i : nat) :
  i < length ts ->
  map (fun d => flt d min_interval) (diff ts) !! i
  = Some (close_to_previous ts min_interval i).
Proof.
  intros Hi. rewrite list_lookup_fmap.
  destruct ts as [|x s]; simpl in Hi; [lia|].
  destruct i as [|j]; [reflexivity|].
  change (diff (x :: s) !! S j)
    with (map (fun p : float * float => fsub (snd p) (fst p))
              (combine (x :: s) s) !! j).
  rewrite diff_tail_lookup. unfold close_to_previous.
  change ((x :: s) !! S j) with (s !! j).
  destruct (lookup_lt_is_Some_2 (x :: s) j ltac:(simpl; lia)) as (a & Ha).
  destruct (lookup_lt_is_Some_2 s j ltac:(lia)) as (b & Hb).
  rewrite Ha, Hb. reflexivity.
Qed.

Lemma spacing_mask_default (ts : list float) (min_interval : float) (i : nat) :
  match map (fun d => flt d min_interval) (diff ts) !! i with
  | Some b => b
  | None => false
  end = close_to_previous ts min_interval i.
Proof.
  destruct (Nat.lt_ge_cases i (length ts)) as [Hlt | Hge].
  - rewrite spacing_mask_lookup by exact Hlt. reflexivity.
  - rewrite (lookup_ge_None_2 (map _ (diff ts)) i)
      by (rewrite length_map, diff_length; exact Hge).
    unfold close_to_previous. destruct i as [|j]; [reflexivity|].
    rewrite (lookup_ge_None_2 ts (S j)) by exact Hge.
    destruct (ts !! j); reflexivity.
Qed.

(** ** Sorting by timestamp *)

Lemma In_insert_by_timestamp (r x : Row) (rs : list Row) :
  In x (insert_by_timestamp r rs) <-> x = r \/ In x rs.
Proof.
  induction rs as [|r' rs IH]; simpl.
  - split; intros [H | H]; auto.
  - destruct (timestamp_le r r'); simpl.
    + split; intros [H | H]; auto.
    + rewrite IH. split; intros H; tauto.
Qed.

Lemma In_sort_values_timestamp (x : Row) (rs : list Row) :
  In x (sort_values_timestamp rs) <-> In x rs.
Proof.
  unfold sort_values_timestamp. induction rs as [|r rs IH]; simpl.
  - tauto.
  - rewrite In_insert_by_timestamp, IH. split; intros [H | H]; auto.
Qed.

Lemma ts_le_total (a b : float) : ts_le a b = false -> ts_le b a = true.
Proof.
  unfold ts_le. intros H. apply orb_false_iff in H. destruct H as [Hb Hab].
  destruct (isnan a) eqn:Ha; [reflexivity|]. simpl.
  apply fle_total; assumption.
Qed.

Lemma insert_by_timestamp_sorted (r : Row) (rs : list Row) :
  ts_sorted (map timestamp rs) ->
  ts_sorted (map timestamp (insert_by_timestamp r rs)).
Proof.
  unfold ts_sorted. induction rs as [|r' rs IH]; simpl; intros H.
  - repeat constructor.
  - change (timestamp_le r r') with (ts_le (timestamp r) (timestamp r')).
    destruct (ts_le (timestamp r) (timestamp r')) eqn:E; simpl.
    + constructor; [exact H|]. constructor. exact E.
    + inversion H as [|? ? Hs Hh]; subst.
      constructor; [apply IH; exact Hs|].
      destruct rs as [|r'' rs]; simpl.
      * constructor. apply ts_le_total. exact E.
      * change (timestamp_le r r'')
          with (ts_le (timestamp r) (timestamp r'')).
        destruct (ts_le (timestamp r) (timestamp r'')); simpl.
        -- constructor. apply ts_le_total. exact E.
        -- inversion Hh; subst. constructor. assumption.
Qed.

Lemma sort_values_timestamp_sorted (rs : list Row) :
  ts_sorted (map timestamp (sort_values_timestamp rs)).
Proof.
  unfold sort_values_timestamp. induction rs as [|r rs IH]; simpl.
  - constructor.
  - apply insert_by_timestamp_sorted. exact IH.
Qed.

(** Sorting a table that is sorted leaves every row in its place. *)
Lemma sort_values_timestamp_of_sorted (rs : list Row) :
  ts_sorted (map timestamp rs) -> sort_values_timestamp rs = rs.
Proof.
  unfold ts_sorted, sort_values_timestamp.
  induction rs as [|r rs IH]; simpl; intros H; [reflexivity|].
  inversion H as [|? ? Hs Hh]; subst. rewrite (IH Hs).
  destruct rs as [|r' rs]; simpl; [reflexivity|].
  inversion Hh as [|? ? Hle]; subst.
  change (timestamp_le r r') with (ts_le (timestamp r) (timestamp r')).
  rewrite Hle. reflexivity.
Qed.

Lemma insert_by_timestamp_Permutation (r : Row) (rs : list Row) :
  Permutation (insert_by_timestamp r rs) (r :: rs).
Proof.
  induction rs as [|r' rs IH]; simpl; [reflexivity|].
  destruct (timestamp_le r r'); [reflexivity|].
  rewrite IH. apply perm_swap.
Qed.

Lemma sort_values_timestamp_Permutation (rs : list Row) :
  Permutation (sort_values_timestamp rs) rs.
Proof.
  induction rs as [|r rs IH]; simpl; [reflexivity|].
  rewrite insert_by_timestamp_Permutation, IH. reflexivity.
Qed.

Lemma insert_by_timestamp_missing (r : Row) (rs : list Row) :
  List.filter no_timestamp (insert_by_timestamp r rs)
  = List.filter no_timestamp (r :: rs).
Proof.
  induction rs as [|r' rs IH]; [reflexivity|].
  cbn [insert_by_timestamp]. unfold timestamp_le.
  destruct (isnan (timestamp r')) eqn:E'; cbn [orb]; [reflexivity|].
  destruct (fle (timestamp r) (timestamp r')) eqn:Ele; [reflexivity|].
  assert (E2 : no_timestamp r' = false) by exact E'.
  cbn [List.filter]. rewrite E2, IH. reflexivity.
Qed.

(** Insertion sort is a sorting routine in the sense of [sorts]. *)
Lemma sort_values_timestamp_sorts : sorts sort_values_timestamp.
Proof.
  intros rs. split; [apply sort_values_timestamp_Permutation|].
  split; [apply sort_values_timestamp_sorted|].
  unfold sort_values_timestamp. induction rs as [|r rs IH]; [reflexivity|].
  cbn [fold_right]. rewrite insert_by_timestamp_missing.
  cbn [List.filter]. rewrite IH. reflexivity.
Qed.

(** *** What every sorting routine does *)

Lemma sorts_In (sort_values : list Row -> list Row) (rs : list Row)
  (x : Row) :
  sorts sort_values -> In x (sort_values rs) <-> In x rs.
Proof.
  intros Hs. destruct (Hs rs) as (Hp & _). split.
  - apply Permutation_in. exact Hp.
  - apply Permutation_in. symmetry. exact Hp.
Qed.

Lemma ts_le_trans (a b c : float) :
  ts_le a b = true -> ts_le b c = true -> ts_le a c = true.
Proof.
  unfold ts_le. intros H1 H2. destruct (isnan c) eqn:Ec; [reflexivity|].
  cbn [orb] in *. destruct (fle_not_nan _ _ H2) as [Hb _].
  rewrite Hb in H1. cbn [orb] in H1. eapply fle_trans; eassumption.
Qed.

Lemma ts_lt_trans (a b c : float) :
  ts_lt a b = true -> ts_lt b c = true -> ts_lt a c = true.
Proof.
  unfold ts_lt. intros H1 H2. destruct (isnan c) eqn:Ec; [reflexivity|].
  cbn [orb] in *. destruct (flt_not_nan _ _ H2) as [Hb _].
  rewrite Hb in H1. cbn [orb] in H1.
  eapply fle_flt_trans; [apply flt_fle; exact H1 | exact H2].
Qed.

Lemma ts_lt_le (a b : float) : ts_lt a b = true -> ts_le a b = true.
Proof.
  unfold ts_lt, ts_le. intros H. apply orb_true_iff in H.
  apply orb_true_iff. destruct H as [H | H]; [left; exact H|].
  right. apply flt_fle. exact H.
Qed.

Lemma ts_strict_sorted (l : list float) : ts_strict l -> ts_sorted l.
Proof.
  unfold ts_strict, ts_sorted. induction 1 as [|a l Hs IH Hh]; constructor.
  - exact IH.
  - destruct Hh; constructor. apply ts_lt_le. assumption.
Qed.

Lemma ts_sortedb_correct (l : list float) :
  ts_sortedb l = true -> ts_sorted l.
Proof.
  induction l as [|x l IH]; intros H; [constructor|].
  destruct l as [|y l]; [repeat constructor|].
  cbn [ts_sortedb] in H. apply andb_true_iff in H. destruct H as [H1 H2].
  constructor; [apply IH; exact H2|]. constructor. exact H1.
Qed.

Lemma ts_strictb_correct (l : list float) :
  ts_strictb l = true -> ts_strict l.
Proof.
  induction l as [|x l IH]; intros H; [constructor|].
  destruct l as [|y l]; [repeat constructor|].
  cbn [ts_strictb] in H. apply andb_true_iff in H. destruct H as [H1 H2].
  constructor; [apply IH; exact H2|]. constructor. exact H1.
Qed.

Lemma flt_fle_asym (x y : float) : flt x y = true -> fle y x = true -> False.
Proof.
  destruct x as [a| | |], y as [b| | |]; cbn; try discriminate.
  unfold Qlt_bool. destruct (Qle_bool b a); discriminate.
Qed.

Lemma Sorted_map_inv {A B : Type} (R : B -> B -> Prop) (f : A -> B)
  (l : list A) :
  Sorted R (map f l) -> Sorted (fun a b => R (f a) (f b)) l.
Proof.
  induction l as [|a l IH]; cbn [map]; intros H; [constructor|].
  inversion H as [|? ? Hs Hh]; subst. constructor; [apply IH; exact Hs|].
  destruct l as [|b l]; cbn [map] in *; constructor.
  inversion Hh; subst. assumption.
Qed.

Lemma ts_sorted_strongly (rs : list Row) :
  ts_sorted (map timestamp rs) ->
  StronglySorted (fun a b => ts_le (timestamp a) (timestamp b) = true) rs.
Proof.
  intros H. apply Sorted_StronglySorted.
  - intros a b c. apply ts_le_trans.
  - exact (Sorted_map_inv (fun a b => ts_le a b = true) timestamp rs H).
Qed.

Lemma ts_strict_strongly (rs : list Row) :
  ts_strict (map timestamp rs) ->
  StronglySorted (fun a b => ts_lt (timestamp a) (timestamp b) = true) rs.
Proof.
  intros H. apply Sorted_StronglySorted.
  - intros a b c. apply ts_lt_trans.
  - exact (Sorted_map_inv (fun a b => ts_lt a b = true) timestamp rs H).
Qed.

Lemma filter_all {A : Type} (p : A -> bool) (l : list A) :
  Forall (fun x => p x = true) l -> List.filter p l = l.
Proof.
  induction 1 as [|x l Hx _ IH]; [reflexivity|].
  cbn [List.filter]. rewrite Hx, IH. reflexivity.
Qed.

Lemma filter_none {A : Type} (p : A -> bool) (l : list A) :
  Forall (fun x => p x = false) l -> List.filter p l = [].
Proof.
  induction 1 as [|x l Hx _ IH]; [reflexivity|].
  cbn [List.filter]. rewrite Hx, IH. reflexivity.
Qed.

(** In a sorted table the rows without a timestamp come last. *)
Lemma sorted_missing_last (rs : list Row) :
  ts_sorted (map timestamp rs) ->
  rs = (List.filter (fun r => negb (no_timestamp r)) rs
        ++ List.filter no_timestamp rs)%list.
Proof.
  intros H. apply ts_sorted_strongly in H.
  induction H as [|a l Hs IH Hall]; [reflexivity|].
  cbn [List.filter]. destruct (no_timestamp a) eqn:Ea; cbn [negb].
  - assert (Hl : Forall (fun b => no_timestamp b = true) l).
    { eapply List.Forall_impl; [|exact Hall]. intros b Hb. cbn beta in Hb.
      unfold no_timestamp in *. unfold ts_le in Hb.
      destruct (timestamp a); try discriminate.
      destruct (isnan (timestamp b)); [reflexivity | discriminate]. }
    rewrite (filter_all _ _ Hl).
    rewrite (filter_none (fun r => negb (no_timestamp r)) l).
    + reflexivity.
    + eapply List.Forall_impl; [|exact Hl]. intros b Hb. cbn beta in *.
      rewrite Hb. reflexivity.
  - cbn [app]. f_equal. exact IH.
Qed.

Lemma Permutation_list_filter {A : Type} (p : A -> bool) (l l' : list A) :
  Permutation l l' -> Permutation (List.filter p l) (List.filter p l').
Proof.
  induction 1 as [|x l l' _ IH|x y l|l l' l'' _ IH1 _ IH2]; cbn [List.filter].
  - constructor.
  - destruct (p x); [constructor|]; exact IH.
  - destruct (p x), (p y); try reflexivity. apply perm_swap.
  - etransitivity; eassumption.
Qed.

Lemma StronglySorted_list_filter {A : Type} (R : A -> A -> Prop)
  (p : A -> bool) (l : list A) :
  StronglySorted R l -> StronglySorted R (List.filter p l).
Proof.
  induction 1 as [|a l Hs IH Hall]; cbn [List.filter]; [constructor|].
  destruct (p a); [|exact IH]. constructor; [exact IH|].
  apply List.Forall_forall. intros x Hx. apply filter_In in Hx.
  rewrite List.Forall_forall in Hall. apply Hall. tauto.
Qed.

Lemma StronglySorted_impl_In {A : Type} (R R' : A -> A -> Prop)
  (l : list A) :
  (forall a b, In a l -> In b l -> R a b -> R' a b) ->
  StronglySorted R l -> StronglySorted R' l.
Proof.
  intros Himp H. induction H as [|a l Hs IH Hall]; constructor.
  - apply IH. intros x y Hx Hy. apply Himp; right; assumption.
  - apply List.Forall_forall. intros x Hx.
    rewrite List.Forall_forall in Hall.
    apply Himp; [left; reflexivity | right; exact Hx | apply Hall; exact Hx].
Qed.

(** Of the rows of a table in strictly ascending order there is one
    sorted arrangement only. *)
Lemma sorted_permutation_unique (a' a : list Row) :
  Permutation a' a ->
  StronglySorted (fun r1 r2 => fle (timestamp r1) (timestamp r2) = true) a' ->
  StronglySorted (fun r1 r2 => flt (timestamp r1) (timestamp r2) = true) a ->
  a' = a.
Proof.
  revert a. induction a' as [|x' a' IH]; intros a Hp Hs' Hs.
  - apply Permutation_nil in Hp. auto.
  - destruct a as [|x a];
      [apply Permutation_sym, Permutation_nil in Hp; discriminate|].
    inversion Hs' as [|? ? Hs'0 Hall']; subst.
    inversion Hs as [|? ? Hs0 Hall]; subst.
    rewrite List.Forall_forall in Hall, Hall'.
    assert (Heq : x' = x).
    { assert (Hin' : In x' (x :: a))
        by (eapply Permutation_in; [exact Hp | left; reflexivity]).
      destruct Hin' as [-> | Hin']; [reflexivity|].
      assert (Hin : In x (x' :: a'))
        by (eapply Permutation_in;
            [apply Permutation_sym; exact Hp | left; reflexivity]).
      destruct Hin as [<- | Hin]; [reflexivity|].
      exfalso. exact (flt_fle_asym _ _ (Hall _ Hin') (Hall' _ Hin)). }
    subst x'. f_equal.
    apply IH; [eapply Permutation_cons_inv; exact Hp | assumption..].
Qed.

(** A table in strictly ascending order of timestamp, the rows without a
    timestamp last, comes out of every sorting routine as it went in. *)
Lemma sorts_of_strict (sort_values : list Row -> list Row) (rs : list Row) :
  sorts sort_values -> ts_strict (map timestamp rs) ->
  sort_values rs = rs.
Proof.
  intros Hsorts Hstrict. destruct (Hsorts rs) as (Hperm & Hsorted & Hnan).
  transitivity
    (List.filter (fun r => negb (no_timestamp r)) (sort_values rs)
     ++ List.filter no_timestamp (sort_values rs))%list;
    [apply sorted_missing_last; exact Hsorted|].
  rewrite Hnan.
  rewrite (sorted_permutation_unique
             (List.filter (fun r => negb (no_timestamp r)) (sort_values rs))
             (List.filter (fun r => negb (no_timestamp r)) rs)).
  - symmetry. apply sorted_missing_last. apply ts_strict_sorted.
    exact Hstrict.
  - apply Permutation_list_filter. exact Hperm.
  - apply (StronglySorted_impl_In
             (fun a b => ts_le (timestamp a) (timestamp b) = true)).
    + intros x y _ Hy Hle. apply filter_In in Hy. destruct Hy as [_ Hy].
      unfold no_timestamp, ts_le in *.
      destruct (isnan (timestamp y)); [discriminate | exact Hle].
    + apply StronglySorted_list_filter, ts_sorted_strongly. exact Hsorted.
  - apply (StronglySorted_impl_In
             (fun a b => ts_lt (timestamp a) (timestamp b) = true)).
    + intros x y _ Hy Hlt. apply filter_In in Hy. destruct Hy as [_ Hy].
      unfold no_timestamp, ts_lt in *.
      destruct (isnan (timestamp y)); [discriminate | exact Hlt].
    + apply StronglySorted_list_filter, ts_strict_strongly. exact Hstrict.
Qed.

(** ** [_prepare_data] of the snapshot, row by row *)

Lemma sample_cells_timestamps (a b : list Row) :
  map sample_cells a = map sample_cells b ->
  map timestamp a = map timestamp b.
Proof.
  intros H.
  assert (G : forall l, map timestamp l =
                map (fun c => fst (fst (fst (fst c)))) (map sample_cells l))
    by (intros l; rewrite map_map; reflexivity).
  rewrite (G a), (G b), H. reflexivity.
Qed.

Lemma sample_cells_validity (a b : list Row) :
  map sample_cells a = map sample_cells b ->
  map is_valid a = map is_valid b.
Proof.
  intros H.
  assert (G : forall l, map is_valid l = map snd (map sample_cells l))
    by (intros l; rewrite map_map; reflexivity).
  rewrite (G a), (G b), H. reflexivity.
Qed.

Lemma sample_cells_raw (a b : list Row) :
  map sample_cells a = map sample_cells b ->
  map raw_cells a = map raw_cells b.
Proof.
  intros H.
  assert (G : forall l, map raw_cells l = map fst (map sample_cells l))
    by (intros l; rewrite map_map; reflexivity).
  rewrite (G a), (G b), H. reflexivity.
Qed.

Lemma assign_valid_list_cells (upd : float -> Row -> Row)
  (values : list float) (rs : list Row) :
  (forall v r, sample_cells (upd v r) = sample_cells r) ->
  map sample_cells (assign_valid_list upd values rs) = map sample_cells rs.
Proof.
  intros Hupd. revert values. induction rs as [|r rs IH]; intros values;
    simpl; [reflexivity|].
  destruct (is_valid r).
  - destruct values as [|v values]; simpl; [reflexivity|].
    rewrite Hupd, IH. reflexivity.
  - simpl. rewrite IH. reflexivity.
Qed.

Lemma assign_valid_cells (upd : float -> Row -> Row) (values : list float)
  (rs : list Row) :
  (forall v r, sample_cells (upd v r) = sample_cells r) ->
  map sample_cells (assign_valid upd values rs) = map sample_cells rs.
Proof.
  intros Hupd. revert values. induction rs as [|r rs IH]; intros [|v values];
    simpl; try reflexivity.
  rewrite IH. destruct (is_valid r); [rewrite Hupd|]; reflexivity.
Qed.

Lemma reset_checkpoint_keeps (d : DataFrame) :
  map sample_cells (rows (Checkpoint._reset_calculated_fields d))
    = map sample_cells (rows d) /\
  forall c, has_column c d = true ->
            has_column c (Checkpoint._reset_calculated_fields d) = true.
Proof.
  unfold Checkpoint._reset_calculated_fields, Checkpoint._calculated_fields.
  cbn [fold_left].
  repeat match goal with
    | |- context [negb (has_column ?c ?x)] => destruct (has_column c x)
    end; cbn [negb];
    unfold setitem_scalar; rewrite ?rows_add_column; cbn [rows];
    rewrite ?map_map;
    (split; [reflexivity |
             intros c Hc; repeat apply has_column_add_mono; exact Hc]).
Qed.

Lemma reset_checkpoint_rows (d : DataFrame) :
  has_column "relative_timestamp" d = false ->
  exists g,
    rows (Checkpoint._reset_calculated_fields d) = map g (rows d) /\
    forall r, relative_timestamp (g r) = NaN /\ is_valid (g r) = is_valid r.
Proof.
  intros H.
  unfold Checkpoint._reset_calculated_fields, Checkpoint._calculated_fields.
  cbn [fold_left]. rewrite H. cbn [negb].
  repeat match goal with
    | |- context [negb (has_column ?c ?x)] => destruct (has_column c x)
    end; cbn [negb];
    unfold setitem_scalar; rewrite ?rows_add_column; simpl;
    rewrite ?map_map; (eexists; split; [reflexivity|]);
    intros r; split; reflexivity.
Qed.

(** The window of a missing time is empty. *)
Lemma window_mask_nan (timestamps : list float) (w : float) :
  Checkpoint.window_mask timestamps NaN w = map (fun _ => false) timestamps.
Proof. unfold Checkpoint.window_mask. apply map_ext. intros u. destruct u; reflexivity. Qed.

Lemma smooth_rows
  (sort_values : list Row -> list Row) (self fd' : FilteredData) (w : float) :
  sorts sort_values ->
  Checkpoint._smooth_avg_pupildiameter sort_values self w = Ok fd' ->
  exists df df',
    _data self = Some df /\ _data fd' = Some df' /\
    forall r', In r' (rows df') ->
      exists r, In r (rows df) /\ same_but_smooth r' r.
Proof.
  unfold Checkpoint._smooth_avg_pupildiameter. intros Hsorts H.
  destruct (_data self) as [df|]; simpl in H; [|discriminate].
  destruct (negb (has_column "timestamp" df)
            || negb (has_column "avg_pupildiameter" df)); [discriminate|].
  inversion H; subst fd'; clear H. simpl.
  eexists df, _. split; [reflexivity|]. split; [reflexivity|].
  intros r' Hr'. simpl in Hr'.
  apply assign_valid_list_In in Hr'.
  destruct Hr' as (r1 & Hr1 & Hc).
  unfold setitem_scalar in Hr1. rewrite rows_add_column in Hr1.
  simpl in Hr1. apply in_map_iff in Hr1. destruct Hr1 as (r & <- & Hr).
  apply (proj1 (sorts_In _ _ _ Hsorts)) in Hr.
  exists r. split; [exact Hr|].
  destruct Hc as [-> | (v & _ & ->)]; repeat split; reflexivity.
Qed.

Lemma smooth_rows_sorted
  (sort_values : list Row -> list Row) (self fd' : FilteredData) (w : float) :
  Checkpoint._smooth_avg_pupildiameter sort_values self w = Ok fd' ->
  exists df df',
    _data self = Some df /\ _data fd' = Some df' /\
    map sample_cells (rows df')
      = map sample_cells (sort_values (rows df)) /\
    forall c, has_column c df = true -> has_column c df' = true.
Proof.
  unfold Checkpoint._smooth_avg_pupildiameter. intros H.
  destruct (_data self) as [df|]; cbn [bind subscriptable] in H;
    [|discriminate].
  destruct (negb (has_column "timestamp" df)
            || negb (has_column "avg_pupildiameter" df)); [discriminate|].
  inversion H; subst fd'; clear H. cbn [_data].
  eexists df, _. split; [reflexivity|]. split; [reflexivity|].
  cbn [rows columns]. split.
  - rewrite assign_valid_list_cells by reflexivity.
    unfold setitem_scalar. rewrite rows_add_column. cbn [rows].
    rewrite map_map. reflexivity.
  - intros c Hc. unfold setitem_scalar.
    change (has_column c (mkDF ?cols ?r))
      with (existsb (String.eqb c) cols).
    change (existsb (String.eqb c)
              (columns (add_column "avg_pupildiameter_smooth"
                 (mkDF (columns df)
                    (map (set_avg_pupildiameter_smooth NaN)
                       (sort_values (rows df)))))))
      with (has_column c (add_column "avg_pupildiameter_smooth"
                 (mkDF (columns df)
                    (map (set_avg_pupildiameter_smooth NaN)
                       (sort_values (rows df)))))).
    apply has_column_add_mono. exact Hc.
Qed.

(** The snapshot of [_prepare_data] on a table that has the validity
    column: the result is sorted by timestamp, and when the table was in
    strictly ascending order every row keeps its place, its supplied cells
    and its flag. *)
Lemma checkpoint_prepare_keeps
  (sort_values : list Row -> list Row) (sqrt_Q : Q -> Q)
  (self fd' : FilteredData) (df : DataFrame) (w : float) :
  sorts sort_values ->
  _data self = Some df ->
  Checkpoint._prepare_data sort_values sqrt_Q self w = Ok fd' ->
  exists df',
    _data fd' = Some df' /\
    has_column "is_valid" df' = true /\
    ts_sorted (map timestamp (rows df')) /\
    (has_column "is_valid" df = true ->
     ts_strict (map timestamp (rows df)) ->
     map sample_cells (rows df') = map sample_cells (rows df)) /\
    (has_column "is_valid" df = true ->
     Permutation (map sample_cells (rows df')) (map sample_cells (rows df))).
Proof.
  intros Hsorts Hd Hp. unfold Checkpoint._prepare_data in Hp. rewrite Hd in Hp.
  set (df0 := strip_data_prefix df) in *.
  set (df1 := if negb (has_column "is_valid" df0)
              then setitem_scalar "is_valid" (set_is_valid true) df0
              else df0) in *.
  assert (Hv1 : has_column "is_valid" df1 = true).
  { subst df1. destruct (has_column "is_valid" df0) eqn:E; cbn [negb];
      [exact E|]. unfold setitem_scalar. apply has_column_add_same. }
  assert (Hc1 : has_column "is_valid" df = true ->
                map sample_cells (rows df1) = map sample_cells (rows df)).
  { intros Hv. subst df1. unfold df0.
    rewrite (has_column_strip "is_valid" df eq_refl Hv). reflexivity. }
  destruct (reset_checkpoint_keeps df1) as (Hc3 & Hcol3).
  set (df3 := Checkpoint._reset_calculated_fields df1) in *.
  set (valid_data := List.filter is_valid (rows df3)) in *.
  match type of Hp with
  | (st <- ?m ;; _) = _ => destruct m as [[df4 start]|] eqn:E4
  end; cbn [bind] in Hp; [|discriminate].
  assert (H4 : map sample_cells (rows df4) = map sample_cells (rows df3) /\
               has_column "is_valid" df4 = true).
  { destruct (negb (Nat.eqb (length valid_data) 0)).
    - destruct (getitem "timestamp" timestamp
                  (mkDF (columns df3) valid_data)); cbn [bind] in E4;
        [|discriminate].
      destruct (getitem "timestamp" timestamp df3); cbn [bind] in E4;
        [|discriminate].
      inversion E4; subst; clear E4. cbn [rows]. split.
      + apply assign_valid_cells. reflexivity.
      + apply (Hcol3 _ Hv1).
    - inversion E4; subst. split; [reflexivity | apply (Hcol3 _ Hv1)]. }
  clear E4. destruct H4 as [Hc4 Hv4].
  match type of Hp with
  | (df5 <- ?m ;; _) = _ => destruct m as [df5|] eqn:E5
  end; cbn [bind] in Hp; [|discriminate].
  assert (H5 : rows df5 = rows df4 /\ has_column "is_valid" df5 = true).
  { destruct (negb (has_column "timestamp_readable" df4)).
    - destruct (getitem "timestamp" timestamp df4) as [ts5|]; cbn [bind] in E5;
        [|discriminate].
      destruct (to_datetime_strftime ts5); cbn [bind] in E5; [|discriminate].
      inversion E5; subst. split; [apply rows_add_column|].
      apply has_column_add_mono. exact Hv4.
    - inversion E5; subst. auto. }
  clear E5. destruct H5 as [Hr5 Hv5].
  set (df6 := if has_column "eyeleft.pupildiameter" df5
                 && has_column "eyeright.pupildiameter" df5
              then _ else _) in *.
  assert (H6 : map sample_cells (rows df6) = map sample_cells (rows df5) /\
               has_column "is_valid" df6 = true).
  { subst df6.
    destruct (has_column "eyeleft.pupildiameter" df5
              && has_column "eyeright.pupildiameter" df5).
    - cbn [rows]. rewrite map_map. split; [reflexivity | exact Hv5].
    - unfold setitem_scalar. rewrite rows_add_column. cbn [rows].
      rewrite map_map. split; [reflexivity|].
      apply has_column_add_mono. exact Hv5. }
  destruct H6 as [Hc6 Hv6].
  set (df7 := if negb (Nat.eqb (length valid_data) 0) then _ else _) in *.
  assert (H7 : map sample_cells (rows df7) = map sample_cells (rows df6) /\
               has_column "is_valid" df7 = true).
  { subst df7. destruct (negb (Nat.eqb (length valid_data) 0)).
    - cbn [rows]. split; [|exact Hv6].
      apply assign_valid_list_cells. reflexivity.
    - unfold setitem_scalar. rewrite rows_add_column. cbn [rows].
      rewrite map_map. split; [reflexivity|].
      apply has_column_add_mono. exact Hv6. }
  destruct H7 as [Hc7 Hv7].
  assert (Hcells : has_column "is_valid" df = true ->
            map sample_cells (rows df7) = map sample_cells (rows df)).
  { intros Hv. rewrite Hc7, Hc6, Hr5, Hc4, Hc3. apply Hc1. exact Hv. }
  apply smooth_rows_sorted in Hp.
  destruct Hp as (d & df' & Hd7 & Hd' & Hrows & Hcols).
  cbn [_data] in Hd7. inversion Hd7; subst d; clear Hd7.
  exists df'. split; [exact Hd'|]. split; [apply Hcols; exact Hv7|].
  split.
  - rewrite (sample_cells_timestamps _ _ Hrows). apply Hsorts.
  - split.
    + intros Hv Hs.
      rewrite Hrows, sorts_of_strict; [exact (Hcells Hv) | exact Hsorts |].
      rewrite (sample_cells_timestamps _ _ (Hcells Hv)). exact Hs.
    + intros Hv. rewrite Hrows, <- (Hcells Hv).
      apply Permutation_map. apply Hsorts.
Qed.

(** A table built by the constructor of the snapshot is prepared. *)
Lemma checkpoint_init_prepared
  (sort_values : list Row -> list Row) (sqrt_Q : Q -> Q) (raw_df : DataFrame)
  (user_id : option Z) (fd : FilteredData) :
  sorts sort_values ->
  Checkpoint.__init__ sort_values sqrt_Q (Some raw_df) user_id = Ok fd ->
  exists df, get_data fd = Some df /\ prepared df.
Proof.
  unfold Checkpoint.__init__. intros Hsorts H.
  destruct (Checkpoint._prepare_data sort_values sqrt_Q (mkFD (Some raw_df) None None)
              Checkpoint.default_time_window_smooth) as [self|] eqn:E;
    cbn [bind] in H; [|discriminate].
  inversion H; subst fd; clear H. cbn [get_data _data].
  eapply checkpoint_prepare_keeps in E; [|exact Hsorts | reflexivity].
  destruct E as (df' & Hd' & Hv' & Hs' & _).
  exists df'. split; [exact Hd'|]. split; assumption.
Qed.

(** After [_prepare_data] of the snapshot on a table that comes without
    the column 'relative_timestamp', as every table of the raw record
    supplier does, the deviation of every valid row is NaN, whatever the
    samples and whatever the square root. *)
Lemma std_nan_on_fresh_table
  (sort_values : list Row -> list Row) (sqrt_Q : Q -> Q)
  (self fd' : FilteredData) (df : DataFrame) (w : float) :
  sorts sort_values ->
  _data self = Some df ->
  has_column "relative_timestamp" (strip_data_prefix df) = false ->
  Checkpoint._prepare_data sort_values sqrt_Q self w = Ok fd' ->
  exists df', _data fd' = Some df' /\
    forall r, In r (rows df') -> is_valid r = true ->
              std_pupildiameter r = NaN.
Proof.
  intros Hsorts Hd Hrel Hp.
  unfold Checkpoint._prepare_data in Hp. rewrite Hd in Hp.
  set (df1 := strip_data_prefix df) in *.
  set (df2 := if negb (has_column "is_valid" df1)
              then setitem_scalar "is_valid" (set_is_valid true) df1
              else df1) in *.
  assert (Hrel2 : has_column "relative_timestamp" df2 = false).
  { subst df2. destruct (negb (has_column "is_valid" df1)); [|exact Hrel].
    unfold setitem_scalar. rewrite has_column_add_column.
    rewrite (has_column_rows _ _ _ (rows df1)).
    replace (mkDF (columns df1) (rows df1)) with df1
      by (destruct df1; reflexivity).
    rewrite Hrel. reflexivity. }
  destruct (reset_checkpoint_rows df2 Hrel2) as (g & Hrows3 & Hg).
  set (df3 := Checkpoint._reset_calculated_fields df2) in *.
  set (valid_data := List.filter is_valid (rows df3)) in *.
  assert (Hnan : forall r, In r valid_data -> relative_timestamp r = NaN).
  { intros r Hr. subst valid_data. apply filter_In in Hr.
    destruct Hr as [Hr _]. rewrite Hrows3 in Hr. apply in_map_iff in Hr.
    destruct Hr as (r0 & <- & _). apply Hg. }
  (* the first block: the relative time *)
  match type of Hp with
  | (st <- ?m ;; _) = _ => destruct m as [[df4 start]|] eqn:E4
  end; cbn [bind] in Hp; [|discriminate].
  assert (Hv4 : map is_valid (rows df4) = map is_valid (rows df3)).
  { destruct (negb (Nat.eqb (length valid_data) 0)).
    - destruct (getitem "timestamp" timestamp
                  (mkDF (columns df3) valid_data)); simpl in E4;
        [|discriminate].
      destruct (getitem "timestamp" timestamp df3); simpl in E4;
        [|discriminate].
      inversion E4; subst; clear E4. simpl.
      apply assign_valid_is_valid. reflexivity.
    - inversion E4; subst; reflexivity. }
  clear E4.
  match type of Hp with
  | (df5 <- ?m ;; _) = _ => destruct m as [df5|] eqn:E5
  end; cbn [bind] in Hp; [|discriminate].
  assert (Hv5 : rows df5 = rows df4).
  { destruct (negb (has_column "timestamp_readable" df4)).
    - destruct (getitem "timestamp" timestamp df4) as [ts5|]; simpl in E5;
        [|discriminate].
      destruct (to_datetime_strftime ts5); simpl in E5; [|discriminate].
      inversion E5; subst. apply rows_add_column.
    - inversion E5; subst; reflexivity. }
  clear E5.
  set (df6 := if has_column "eyeleft.pupildiameter" df5
                 && has_column "eyeright.pupildiameter" df5
              then _ else _) in *.
  assert (Hv6 : map is_valid (rows df6) = map is_valid (rows df3)).
  { rewrite <- Hv4, <- Hv5. subst df6.
    destruct (has_column "eyeleft.pupildiameter" df5
              && has_column "eyeright.pupildiameter" df5); simpl.
    - rewrite map_map. reflexivity.
    - unfold setitem_scalar. rewrite rows_add_column. simpl.
      rewrite map_map. reflexivity. }
  set (df7 := if negb (Nat.eqb (length valid_data) 0) then _ else _) in *.
  assert (H7 : forall r, In r (rows df7) -> is_valid r = true ->
                         std_pupildiameter r = NaN).
  { subst df7. destruct (negb (Nat.eqb (length valid_data) 0)).
    - cbn [rows]. intros r Hr Hv.
      apply assign_valid_list_valid in Hr; [| reflexivity | | exact Hv].
      + destruct Hr as (v & r0 & Hvin & _ & ->). simpl.
        apply in_map_iff in Hvin. destruct Hvin as (t & <- & Ht).
        apply in_map_iff in Ht. destruct Ht as (r1 & <- & Hr1).
        rewrite (Hnan r1 Hr1), window_mask_nan, compress_all_false.
        reflexivity.
      + rewrite (filter_is_valid_length _ _ Hv6). fold valid_data.
        rewrite !length_map. lia.
    - unfold setitem_scalar. rewrite rows_add_column. simpl.
      intros r Hr _. apply in_map_iff in Hr.
      destruct Hr as (r0 & <- & _). reflexivity. }
  apply smooth_rows in Hp; [|exact Hsorts].
  destruct Hp as (d & df' & Hd7 & Hd' & Hrows).
  simpl in Hd7. inversion Hd7; subst d; clear Hd7.
  exists df'. split; [exact Hd'|].
  intros r' Hr' Hv'.
  destruct (Hrows r' Hr') as (r & Hr & (_ & Hv & _ & _ & Hstd)).
  rewrite Hstd. apply H7; [exact Hr | congruence].
Qed.

(** ** The nine passes of the snapshot only clear flags *)

Lemma only_clears_refl (rs : list Row) : only_clears rs rs.
Proof. induction rs; constructor; auto. Qed.

Lemma only_clears_trans (a b c : list Row) :
  only_clears a b -> only_clears b c -> only_clears a c.
Proof.
  intros H. revert c. induction H as [|x y a b [H1 H2] H IH]; intros c Hc.
  - inversion Hc. constructor.
  - inversion Hc as [|? z ? c' [H3 H4] Hc']; subst.
    constructor; [split; [congruence | auto]|]. apply IH. exact Hc'.
Qed.


Lemma only_clears_map_where (mask : list bool) (rs : list Row) :
  only_clears (map_where mask (set_is_valid false) rs) rs.
Proof.
  revert rs. induction mask as [|b mask IH]; intros [|r rs]; simpl;
    try apply only_clears_refl.
  constructor; [|apply IH].
  destruct b; simpl; split; auto; discriminate.
Qed.

Lemma only_clears_by_label (sel : nat -> bool) (ls : list nat)
  (rs : list Row) :
  length ls = length rs ->
  only_clears
    (map (fun p => if sel (fst p) then set_is_valid false (snd p) else snd p)
         (combine ls rs)) rs.
Proof.
  revert ls. induction rs as [|r rs IH]; intros [|l ls] H; simpl in *;
    try discriminate; constructor.
  - destruct (sel l); simpl; split; auto; discriminate.
  - apply IH. lia.
Qed.

Lemma only_clears_timestamps (a b : list Row) :
  only_clears a b -> map timestamp a = map timestamp b.
Proof.
  induction 1 as [|x y a b [H1 _] H IH]; simpl; [reflexivity|].
  rewrite IH. inversion H1. reflexivity.
Qed.


Lemma only_clears_length (a b : list Row) :
  only_clears a b -> length a = length b.
Proof. induction 1; simpl; auto. Qed.

Lemma at_set_only_clears (label : nat) (df : DataFrame) :
  only_clears (rows (at_set_is_valid_false label df)) (rows df) /\
  columns (at_set_is_valid_false label df) = columns df.
Proof.
  split; [|reflexivity]. unfold at_set_is_valid_false, labelled. cbn [rows].
  apply (only_clears_by_label (fun l => Nat.eqb l label)).
  apply length_seq.
Qed.

Lemma loc_labels_only_clears (labels : list Z) (df d : DataFrame) :
  loc_labels_set_is_valid_false labels df = Ok d ->
  only_clears (rows d) (rows df) /\ columns d = columns df.
Proof.
  unfold loc_labels_set_is_valid_false. intros H.
  destruct (forallb _ labels); [|discriminate].
  inversion H; subst d; clear H. split; [|reflexivity].
  unfold labelled. cbn [rows].
  apply (only_clears_by_label
           (fun l => existsb (Z.eqb (Z.of_nat l)) labels)).
  apply length_seq.
Qed.

Lemma loc_labels_rows (labels : list Z) (df d : DataFrame) :
  loc_labels_set_is_valid_false labels df = Ok d ->
  columns d = columns df /\
  rows d = map (fun p => clear_at labels (fst p) (snd p))
               (labelled (rows df)).
Proof.
  unfold loc_labels_set_is_valid_false. intros H.
  destruct (forallb _ labels); [|discriminate].
  inversion H; subst d; clear H. split; reflexivity.
Qed.

Lemma pupil_speed_loop_only_clears (v : float) (rest : list (nat * Row))
  (prev : nat * Row) (df : DataFrame) :
  only_clears (rows (Checkpoint.pupil_speed_loop v prev rest df)) (rows df)
  /\ columns (Checkpoint.pupil_speed_loop v prev rest df) = columns df.
Proof.
  revert prev df. induction rest as [|cur rest IH]; intros prev df;
    cbn [Checkpoint.pupil_speed_loop].
  - split; [apply only_clears_refl | reflexivity].
  - match goal with
    | |- context [Checkpoint.pupil_speed_loop v cur rest ?d] =>
        destruct (IH cur d) as [H1 H2];
        assert (Hd : only_clears (rows d) (rows df) /\ columns d = columns df)
    end.
    { destruct (fgt _ (Fin 0)); [|split; [apply only_clears_refl|reflexivity]].
      destruct (fgt _ v); [|split; [apply only_clears_refl|reflexivity]].
      destruct (at_set_only_clears (fst cur) df) as [A1 A2].
      destruct (at_set_only_clears (fst prev)
                  (at_set_is_valid_false (fst cur) df)) as [B1 B2].
      split; [eapply only_clears_trans; eassumption | congruence]. }
    destruct Hd as [H3 H4].
    split; [eapply only_clears_trans; eassumption | congruence].
Qed.







(** ** The segment of a phase *)

Lemma phase_mask_as_map (t0 t1 : float) (rs : list Row) :
  map (fun p : bool * float => fst p && fge (snd p) t0 && fle (snd p) t1)
      (combine (map is_valid rs) (map relative_timestamp rs)) =
  map (fun r => is_valid r && fge (relative_timestamp r) t0
                && fle (relative_timestamp r) t1) rs.
Proof. induction rs as [|r rs IH]; simpl; [reflexivity|]. rewrite IH. reflexivity. Qed.

(** Every selected row is valid and inside the window. *)
Lemma loc_phase_In (df : DataFrame) (t0 t1 : float)
  (seg : list (nat * Row)) (p : nat * Row) :
  CalibrationProcessor.loc_phase df t0 t1 = Ok seg -> In p seg ->
  is_valid (snd p) = true /\
  fge (relative_timestamp (snd p)) t0 = true /\
  fle (relative_timestamp (snd p)) t1 = true.
Proof.
  unfold CalibrationProcessor.loc_phase. intros H Hp.
  destruct (getitem "is_valid" is_valid df) as [valid|] eqn:E1;
    simpl in H; [|discriminate].
  destruct (getitem "relative_timestamp" relative_timestamp df) as [rel|] eqn:E2;
    simpl in H; [|discriminate].
  apply getitem_Ok in E1. apply getitem_Ok in E2.
  destruct E1 as [_ ->]. destruct E2 as [_ ->].
  destruct (has_column "avg_pupildiameter_smooth" df); [|discriminate].
  inversion H; subst seg; clear H.
  rewrite phase_mask_as_map in Hp. unfold labelled in Hp.
  apply compress_mask_In in Hp.
  apply andb_true_iff in Hp. destruct Hp as [Hp H3].
  apply andb_true_iff in Hp. tauto.
Qed.

Lemma fold_left_choice_In {A : Type} (choose : A -> A -> bool)
  (l : list A) (a : A) :
  In (fold_left (fun best q => if choose q best then q else best) l a)
     (a :: l).
Proof.
  revert a. induction l as [|x l IH]; intros a; simpl; [auto|].
  destruct (IH (if choose x a then x else a)) as [H | H].
  - rewrite <- H. destruct (choose x a); auto.
  - auto.
Qed.

(** [idxmax] and [idxmin] return the label of a row of the segment, and
    they return as soon as one value is not missing. *)
Lemma idx_extreme_label (better : float -> float -> bool) (f : Row -> float)
  (seg : list (nat * Row)) (label : nat) :
  CalibrationProcessor.idx_extreme better f seg = Ok label ->
  exists q, In q seg /\ fst q = label.
Proof.
  unfold CalibrationProcessor.idx_extreme.
  destruct (List.filter (fun p => negb (isnan (f (snd p)))) seg)
    as [|p l] eqn:E; [discriminate|].
  intros H. inversion H as [Hl]; clear H.
  pose proof (fold_left_choice_In
                (fun q best : nat * Row => better (f (snd q)) (f (snd best)))
                l p) as Hin.
  rewrite <- E in Hin. apply filter_In in Hin. destruct Hin as [Hin _].
  eexists. split; [exact Hin | reflexivity].
Qed.

Lemma idx_extreme_Ok (better : float -> float -> bool) (f : Row -> float)
  (seg : list (nat * Row)) (p : nat * Row) :
  In p seg -> isnan (f (snd p)) = false ->
  exists label, CalibrationProcessor.idx_extreme better f seg = Ok label.
Proof.
  intros Hp Hn. unfold CalibrationProcessor.idx_extreme.
  destruct (List.filter (fun p => negb (isnan (f (snd p)))) seg)
    as [|p0 l] eqn:E; [|eauto].
  assert (Hin : In p (List.filter (fun p => negb (isnan (f (snd p)))) seg)).
  { apply filter_In. rewrite Hn. auto. }
  rewrite E in Hin. destruct Hin.
Qed.

Lemma seg_loc_Ok (seg : list (nat * Row)) (label : nat) (f : Row -> float)
  (q : nat * Row) :
  In q seg -> fst q = label ->
  exists v, CalibrationProcessor.seg_loc seg label f = Ok v.
Proof.
  intros Hq Hl. unfold CalibrationProcessor.seg_loc.
  destruct (List.find (fun p => Nat.eqb (fst p) label) seg) as [p|] eqn:E;
    [eauto|].
  exfalso. eapply find_none in E; [|exact Hq]. simpl in E.
  rewrite Hl, Nat.eqb_refl in E. discriminate.
Qed.

(** ** C1: the spacing filter *)

(** C1 against src/raw_data_filter.py. On two valid samples 1 ms apart
    and the default interval of 5 ms, the pass returns with the later row
    invalid and the earlier row still valid. *)
Theorem spacing_filter_keeps_earlier_row :
  timestamps_of fd_pair =
    [Fin (1600000000 # 1); Fin (1600000000001 # 1000)] /\
  flt (fsub (Fin (1600000000001 # 1000)) (Fin (1600000000 # 1)))
      (Fin (5 # 1000)) = true /\
  validity_of fd_pair = [true; true] /\
  exists fd',
    Main.filter_unrealistic_event_spacing fd_pair (Fin (5 # 1000)) = Ok fd' /\
    validity_of fd' = [true; false].
Proof.
  split; [vm_compute; reflexivity|].
  split; [vm_compute; reflexivity|].
  split; [vm_compute; reflexivity|].
  eexists. split; vm_compute; reflexivity.
Qed.

(** What [filter_unrealistic_event_spacing] of src/raw_data_filter.py does
    on every table: a row is valid afterwards exactly when it was valid
    before and is not the later row of a close pair. Being the earlier row
    of a close pair changes nothing. *)
Lemma main_spacing_marks_later_row_only
  (fd fd1 : FilteredData) (df : DataFrame) (min_interval : float) :
  get_data fd = Some df ->
  Main.filter_unrealistic_event_spacing fd min_interval = Ok fd1 ->
  exists df1,
    get_data fd1 = Some df1 /\
    length (rows df1) = length (rows df) /\
    forall i r1, rows df1 !! i = Some r1 ->
      exists r,
        rows df !! i = Some r /\
        is_valid r1 =
          is_valid r
          && negb (close_to_previous (map timestamp (rows df)) min_interval i).
Proof.
  intros Hd Hc.
  change (Main.call strptime_none (Main.UnrealisticEventSpacing min_interval)
            fd = Ok fd1) in Hc.
  destruct (call_effect _ _ _ _ _ Hd Hc) as (df1 & mask & Hm & Hd1 & Hval & _).
  cbn [mask_of] in Hm.
  destruct (getitem "timestamp" timestamp df) as [ts|] eqn:Ets;
    cbn [bind] in Hm; [|discriminate].
  apply getitem_Ok in Ets. destruct Ets as [_ ->].
  inversion Hm; subst mask; clear Hm.
  exists df1. split; [exact Hd1|]. split.
  { rewrite <- !validity_length, Hval. apply cleared_length. }
  intros i r1 Hr1.
  assert (H1 : validity df1 !! i = Some (is_valid r1))
    by (apply validity_lookup; eauto).
  rewrite Hval, cleared_lookup in H1.
  destruct (validity df !! i) as [v|] eqn:Ev; [|discriminate].
  apply validity_lookup in Ev. destruct Ev as (r & Hr & <-).
  exists r. split; [exact Hr|].
  cbn in H1. inversion H1 as [H2]; clear H1.
  pose proof (spacing_mask_default (map timestamp (rows df)) min_interval i)
    as Hmask.
  destruct (map (fun d => flt d min_interval)
                (diff (map timestamp (rows df))) !! i) as [[|]|];
    rewrite <- Hmask; destruct (is_valid r); reflexivity.
Qed.

(** The snapshot of the same method marks both rows on that input. *)
Lemma spacing_filter_checkpoint_marks_both :
  validity_of fd_pair_checkpoint = [true; true] /\
  exists fd',
    Checkpoint.filter_unrealistic_event_spacing sort_values_timestamp
      sqrt_down fd_pair_checkpoint (Fin (5 # 1000)) = Ok fd' /\
    validity_of fd' = [false; false].
Proof.
  split; [vm_compute; reflexivity|].
  eexists. split; vm_compute; reflexivity.
Qed.

(** C1 holds for the snapshot of the method. On a table that went through
    [_prepare_data] and in which no two rows share a timestamp, when
    [filter_unrealistic_event_spacing] returns, every row keeps its place
    and its supplied cells, and it is valid afterwards exactly when it was
    valid before and is neither the later nor the earlier row of a pair of
    consecutive rows whose timestamps differ by less than
    [min_interval]. *)
Theorem checkpoint_spacing_marks_both
  (sort_values : list Row -> list Row) (sqrt_Q : Q -> Q)
  (fd fd1 : FilteredData) (df : DataFrame) (min_interval : float) :
  sorts sort_values ->
  get_data fd = Some df -> prepared_distinct df ->
  Checkpoint.filter_unrealistic_event_spacing sort_values sqrt_Q fd
    min_interval = Ok fd1 ->
  exists df1,
    get_data fd1 = Some df1 /\
    length (rows df1) = length (rows df) /\
    forall i r1, rows df1 !! i = Some r1 ->
      exists r,
        rows df !! i = Some r /\ raw_cells r1 = raw_cells r /\
        is_valid r1 =
          is_valid r
          && negb (close_to_previous (map timestamp (rows df)) min_interval i)
          && negb (close_to_next (map timestamp (rows df)) min_interval i).
Proof.
  intros Hsorts Hd [Hv Hs] Hc.
  unfold Checkpoint.filter_unrealistic_event_spacing in Hc.
  rewrite Hd in Hc. cbn [bind subscriptable] in Hc.
  destruct (getitem "timestamp" timestamp df) as [ts|] eqn:Ets;
    cbn [bind] in Hc; [|discriminate].
  apply getitem_Ok in Ets. destruct Ets as [_ ->].
  set (ts := map timestamp (rows df)) in *.
  set (mask := map (fun d => flt d min_interval) (diff ts)) in *.
  assert (Hlen : length (rows df) = length mask).
  { subst mask ts. rewrite length_map, diff_length, length_map. reflexivity. }
  rewrite Hlen in Hc.
  set (bad := compress mask (map Z.of_nat (seq 0 (length mask)))) in *.
  destruct (loc_labels_set_is_valid_false bad df) as [d1|] eqn:E1;
    cbn [bind] in Hc; [|discriminate].
  destruct (loc_labels_set_is_valid_false
              (map (fun i => (i - 1)%Z) bad) d1) as [d2|] eqn:E2;
    cbn [bind] in Hc; [|discriminate].
  destruct (loc_labels_only_clears _ _ _ E1) as [A1 A2].
  destruct (loc_labels_only_clears _ _ _ E2) as [B1 B2].
  destruct (loc_labels_rows _ _ _ E1) as [_ R1].
  destruct (loc_labels_rows _ _ _ E2) as [_ R2].
  unfold Checkpoint.set_data in Hc.
  eapply checkpoint_prepare_keeps in Hc; [|exact Hsorts | reflexivity].
  destruct Hc as (df1 & Hd1 & _ & _ & Hkeep & _).
  assert (Hcells : map sample_cells (rows df1) = map sample_cells (rows d2)).
  { apply Hkeep.
    - rewrite (has_column_columns _ d2 d1 B2),
        (has_column_columns _ d1 df A2). exact Hv.
    - rewrite (only_clears_timestamps _ _ B1),
        (only_clears_timestamps _ _ A1). exact Hs. }
  exists df1. split; [exact Hd1|]. split.
  { rewrite <- (length_map sample_cells (rows df1)), Hcells, length_map.
    rewrite (only_clears_length _ _ B1). apply (only_clears_length _ _ A1). }
  intros i r1 Hr1.
  assert (H2 : map sample_cells (rows d2) !! i = Some (sample_cells r1)).
  { rewrite <- Hcells, list_lookup_fmap, Hr1. reflexivity. }
  apply map_lookup_Some in H2. destruct H2 as (r2 & Hr2 & Hc2).
  rewrite R2, labelled_map_lookup in Hr2.
  destruct (rows d1 !! i) as [r1'|] eqn:Hr1'; [|discriminate].
  cbn in Hr2. inversion Hr2 as [Hr2']; clear Hr2.
  rewrite R1, labelled_map_lookup in Hr1'.
  destruct (rows df !! i) as [r|] eqn:Hr; [|discriminate].
  cbn in Hr1'. inversion Hr1' as [Hr1'']; clear Hr1'.
  exists r. split; [reflexivity|].
  assert (Hsel1 : existsb (Z.eqb (Z.of_nat i)) bad
                  = close_to_previous ts min_interval i).
  { subst bad. rewrite compress_labels_mem. cbn [Nat.leb].
    rewrite Nat.sub_0_r. apply spacing_mask_default. }
  assert (Hsel2 : existsb (Z.eqb (Z.of_nat i)) (map (fun l => (l - 1)%Z) bad)
                  = close_to_next ts min_interval i).
  { rewrite existsb_pred. subst bad. rewrite compress_labels_mem.
    cbn [Nat.leb]. rewrite Nat.sub_0_r. apply spacing_mask_default. }
  unfold clear_at in Hr2', Hr1''.
  rewrite Hsel2 in Hr2'. rewrite Hsel1 in Hr1''.
  pose proof (f_equal fst Hc2) as Hraw. cbn in Hraw.
  pose proof (f_equal snd Hc2) as Hval. cbn in Hval.
  rewrite Hraw, Hval. subst r2 r1'.
  destruct (close_to_previous ts min_interval i),
    (close_to_next ts min_interval i), (is_valid r) eqn:Er;
    cbn; rewrite ?Er; split; reflexivity.
Qed.

(** ** C2: the mean ratio of the Negative phase *)

(** C2 against the code. With the four phases of the docstring and one
    valid sample in each (smoothed 4 in Positive, 2 in Negative) and a
    baseline mean of 2, [compute_negative_mean_ratio] returns 2, the ratio
    of the Positive window, where the Negative window gives 1. *)
Theorem negative_mean_ratio_reads_positive :
  CalibrationProcessor.load_time_ranges timings_704 704 = Ok time_ranges_704 /\
  time_ranges_704 !! "Negative" = Some [Fin (90 # 1); Fin (120 # 1)] /\
  CalibrationProcessor.compute_negative_mean_ratio fd_phases time_ranges_704
    (Fin 2) = Ok (Fin 2) /\
  mean_ratio_spec "Negative"
    (value_or (mkDF [] []) (get_data_result fd_phases)) time_ranges_704 (Fin 2)
    = Some (Fin 1) /\
  mean_ratio_spec "Positive"
    (value_or (mkDF [] []) (get_data_result fd_phases)) time_ranges_704 (Fin 2)
    = Some (Fin 2).
Proof.
  split; [vm_compute; reflexivity|].
  split; [vm_compute; reflexivity|].
  split; [vm_compute; reflexivity|].
  split; vm_compute; reflexivity.
Qed.

(** The method never looks the Negative phase up: with only that phase in
    the map it raises KeyError for 'Positive'. *)
Lemma negative_mean_ratio_needs_positive
  (fd : FilteredData) (time_ranges : gmap string (list float))
  (baseline_mean : float) :
  time_ranges !! "Positive" = None ->
  CalibrationProcessor.compute_negative_mean_ratio fd time_ranges baseline_mean
  = Raise (KeyError "Positive").
Proof.
  intros H. unfold CalibrationProcessor.compute_negative_mean_ratio.
  unfold dict_getitem. rewrite H. reflexivity.
Qed.

(** ** C3: the rise speed of the Negative phase *)

(** C3 against the code. With the phase map loaded from the timing file of
    the docstring, which holds the 'Negative' phase, and a valid sample
    inside its window, [compute_negative_rise_speed] raises KeyError for the
    key 'negative'; [compute_negative_fall_speed], which reads 'Negative',
    returns on the same input. *)
Theorem negative_rise_speed_key_error :
  CalibrationProcessor.load_time_ranges timings_704 704 = Ok time_ranges_704 /\
  time_ranges_704 !! "Negative" = Some [Fin (90 # 1); Fin (120 # 1)] /\
  (exists seg,
     CalibrationProcessor.loc_phase
       (value_or (mkDF [] []) (get_data_result fd_phases))
       (Fin (90 # 1)) (Fin (120 # 1)) = Ok seg /\ length seg = 1) /\
  CalibrationProcessor.compute_negative_rise_speed fd_phases time_ranges_704
    (Fin 2) = Raise (KeyError "negative") /\
  CalibrationProcessor.compute_negative_fall_speed fd_phases time_ranges_704
    (Fin 2) = Ok (Fin 0).
Proof.
  split; [vm_compute; reflexivity|].
  split; [vm_compute; reflexivity|].
  split; [eexists; split; vm_compute; reflexivity|].
  split; vm_compute; reflexivity.
Qed.

(** Whatever the table, a phase map without the key 'negative' makes the
    method raise. *)
Lemma negative_rise_speed_needs_lowercase
  (fd : FilteredData) (time_ranges : gmap string (list float))
  (baseline_mean : float) :
  time_ranges !! "negative" = None ->
  CalibrationProcessor.compute_negative_rise_speed fd time_ranges baseline_mean
  = Raise (KeyError "negative").
Proof.
  intros H. unfold CalibrationProcessor.compute_negative_rise_speed.
  unfold dict_getitem. rewrite H. reflexivity.
Qed.

(** ** C4: validity only ever goes from true to false *)

(** C4. Along any sequence of calls of the seven filter methods of
    src/raw_data_filter.py, on a table that has the validity column, the
    number of rows stays and a row that is invalid stays invalid; and a
    recomputation through [set_data] returns the flags of the table it is
    given, so it never sets an invalid row back to valid. *)
Theorem validity_monotone
  (strptime_timestamp : string -> result float)
  (cs : list Main.filter_call) (fd fd' : FilteredData) (df : DataFrame) :
  get_data fd = Some df ->
  has_column "is_valid" df = true ->
  Main.call_all strptime_timestamp cs fd = Ok fd' ->
  exists df',
    get_data fd' = Some df' /\
    has_column "is_valid" df' = true /\
    length (rows df') = length (rows df) /\
    (forall i r, rows df !! i = Some r -> is_valid r = false ->
       exists r', rows df' !! i = Some r' /\ is_valid r' = false) /\
    (forall new_data fd'',
       has_column "is_valid" new_data = true ->
       Main.set_data fd' new_data = Ok fd'' ->
       exists df'', get_data fd'' = Some df'' /\
                    validity df'' = validity new_data).
Proof.
  revert fd df. induction cs as [|c cs IH]; intros fd df Hd Hv Hc;
    simpl in Hc.
  - inversion Hc; subst fd'; clear Hc. exists df.
    split; [exact Hd|]. split; [exact Hv|]. split; [reflexivity|].
    split; [intros i r Hr Hf; exists r; auto|].
    intros new_data fd'' Hn Hs.
    destruct (Main_set_data_effect _ _ _ Hs Hn) as (df'' & H1 & H2 & _).
    exists df''. auto.
  - destruct (Main.call strptime_timestamp c fd) as [fd1|] eqn:E1;
      simpl in Hc; [|discriminate].
    destruct (call_effect _ _ _ _ _ Hd E1)
      as (df1 & mask & _ & Hd1 & Hval & _ & Hv1).
    destruct (IH fd1 df1 Hd1 Hv1 Hc) as (df' & Hd' & Hv' & Hlen & Hmono & Hset).
    exists df'. split; [exact Hd'|]. split; [exact Hv'|].
    split.
    { rewrite Hlen, <- (validity_length df1), Hval, cleared_length.
      apply validity_length. }
    split; [|exact Hset].
    intros i r Hr Hf.
    assert (H1 : validity df1 !! i = Some false).
    { rewrite Hval. apply cleared_false. apply validity_lookup. eauto. }
    apply validity_lookup in H1. destruct H1 as (r1 & Hr1 & Hf1).
    exact (Hmono i r1 Hr1 Hf1).
Qed.

Lemma validity_monotone_witness :
  validity (frame_of fd_four_gaze) = [true; false; true; true] /\
  exists df',
    get_data (value_or no_table
                (Main.call_all strptime_none chain_after_gaze fd_four_gaze))
    = Some df' /\
    has_column "is_valid" df' = true /\
    length (rows df') = length (rows (frame_of fd_four_gaze)) /\
    (forall i r,
       rows (frame_of fd_four_gaze) !! i = Some r ->
       is_valid r = false ->
       exists r', rows df' !! i = Some r' /\ is_valid r' = false) /\
    (forall new_data fd'',
       has_column "is_valid" new_data = true ->
       Main.set_data
         (value_or no_table
            (Main.call_all strptime_none chain_after_gaze fd_four_gaze))
         new_data = Ok fd'' ->
       exists df'', get_data fd'' = Some df'' /\
                    validity df'' = validity new_data).
Proof.
  split; [vm_compute; reflexivity|].
  apply (validity_monotone strptime_none chain_after_gaze fd_four_gaze
           (value_or no_table
              (Main.call_all strptime_none chain_after_gaze fd_four_gaze))
           (frame_of fd_four_gaze)).
  - vm_compute. reflexivity.
  - vm_compute. reflexivity.
  - vm_compute. reflexivity.
Defined.



(** ** C5: the recomputed relative time *)

(** C5. After a construction and after every recomputation through
    [set_data] (src/filtered_data.py), on a table that has the timestamp
    column and whose timestamps can be turned into dates (or that has the
    readable time already): the call returns; the rows that come out are
    the rows that went in, each in its place with its supplied cells and
    its flag (true when the table came without the validity column);
    every valid row has [relative_timestamp = timestamp - session_start]
    where the stored session start is the minimum timestamp among the
    valid rows; and when no row is valid the session start is None and the
    relative time is NaN on every row. *)
Theorem relative_timestamp_consistent
  (df : DataFrame) (res : result FilteredData) :
  recomputation df res ->
  has_column "timestamp" (strip_data_prefix df) = true ->
  datetime_ready df = true ->
  exists fd' df',
    res = Ok fd' /\
    get_data fd' = Some df' /\
    length (rows df') = length (rows df) /\
    has_column "is_valid" df' = true /\
    has_column "relative_timestamp" df' = true /\
    (forall i r', rows df' !! i = Some r' ->
       exists r,
         rows df !! i = Some r /\ raw_cells r' = raw_cells r /\
         is_valid r' =
           (if has_column "is_valid" (strip_data_prefix df)
            then is_valid r else true)) /\
    (forall r, In r (rows df') -> is_valid r = true ->
       exists start,
         get_start_timestamp fd' = Some start /\
         is_session_start df' start /\
         relative_timestamp r = fsub (timestamp r) start) /\
    ((forall r, In r (rows df') -> is_valid r = false) ->
       get_start_timestamp fd' = None /\
       forall r, In r (rows df') -> relative_timestamp r = NaN).
Proof.
  intros Hrec Hts Hready.
  destruct (recomputation_Ok df res Hrec Hts Hready) as (fd' & Hres).
  destruct (recomputation_prepare df res fd' Hrec Hres)
    as (self & self' & Hd & Hp & Hd' & Hst').
  pose proof (Main_prepare_data_spec self self' df Hd Hp) as Hspec.
  cbv zeta in Hspec.
  destruct Hspec as (df' & Hdf' & Hrows & Hst & _ & Hv & Hr & _).
  set (start := series_min (valid_timestamps df)) in *.
  exists fd', df'. split; [exact Hres|].
  split; [unfold get_data; congruence|].
  split; [rewrite Hrows, length_map; apply with_validity_length|].
  split; [exact Hv|]. split; [exact Hr|].
  split.
  { intros i r' Hi. rewrite Hrows in Hi. unfold with_validity in Hi.
    rewrite !list_lookup_fmap in Hi.
    destruct (rows df !! i) as [r|]; [|discriminate].
    cbn [fmap option_fmap option_map] in Hi.
    injection Hi as Hr'. subst r'.
    exists r. split; [reflexivity|].
    rewrite recomputed_row_is_valid.
    destruct (has_column "is_valid" (strip_data_prefix df));
      (split; [|reflexivity]); unfold recomputed_row;
      match goal with |- context [if ?b then _ else _] => destruct b end;
      reflexivity. }
  unfold get_start_timestamp. rewrite Hst', Hst.
  split.
  - intros r' Hr' Hv'. rewrite Hrows in Hr'. apply in_map_iff in Hr'.
    destruct Hr' as (r & <- & Hin).
    rewrite recomputed_row_is_valid in Hv'.
    assert (Hx : In (timestamp r) (valid_timestamps df))
      by (apply in_valid_timestamps; eauto).
    exists start. split.
    { destruct (valid_timestamps df); [destruct Hx | reflexivity]. }
    split.
    + unfold is_session_start. rewrite Hrows.
      pose proof (series_min_spec (valid_timestamps df)) as Hmspec.
      fold start in Hmspec.
      destruct Hmspec as [[Hnone Hnan] | (Hmin & Hnn & Hall)].
      * (* every valid timestamp is missing *)
        assert (Hallnan : forall x, In x (valid_timestamps df) ->
                                    isnan x = true).
        { intros x Hx0. destruct (isnan x) eqn:E; [reflexivity|].
          assert (In x (dropna (valid_timestamps df)))
            by (apply dropna_not_nan; auto).
          rewrite Hnone in H. destruct H. }
        split.
        -- exists (recomputed_row start r).
           split; [apply in_map; exact Hin|].
           rewrite recomputed_row_is_valid, recomputed_row_timestamp.
           split; [exact Hv'|].
           specialize (Hallnan _ Hx). rewrite Hnan.
           destruct (timestamp r); simpl in Hallnan; congruence.
        -- intros r2 Hr2 Hv2 Hn2. apply in_map_iff in Hr2.
           destruct Hr2 as (r0 & <- & Hin0).
           rewrite recomputed_row_is_valid in Hv2.
           rewrite recomputed_row_timestamp in Hn2.
           assert (Hx0 : In (timestamp r0) (valid_timestamps df))
             by (apply in_valid_timestamps; eauto).
           rewrite (Hallnan _ Hx0) in Hn2. discriminate.
      * split.
        -- apply in_valid_timestamps in Hmin.
           destruct Hmin as (r0 & Hin0 & Hv0 & Ht0).
           exists (recomputed_row start r0).
           split; [apply in_map; exact Hin0|].
           rewrite recomputed_row_is_valid, recomputed_row_timestamp. auto.
        -- intros r2 Hr2 Hv2 Hn2. apply in_map_iff in Hr2.
           destruct Hr2 as (r0 & <- & Hin0).
           rewrite recomputed_row_is_valid in Hv2.
           rewrite recomputed_row_timestamp in Hn2 |- *.
           apply Hall; [|exact Hn2].
           apply in_valid_timestamps. eauto.
    + unfold recomputed_row. rewrite Hv'. reflexivity.
  - intros Hnone.
    assert (Hempty : valid_timestamps df = []).
    { destruct (valid_timestamps df) as [|x l] eqn:E; [reflexivity|].
      assert (Hx : In x (valid_timestamps df)) by (rewrite E; left; auto).
      apply in_valid_timestamps in Hx. destruct Hx as (r & Hin & Hv0 & _).
      specialize (Hnone (recomputed_row start r)).
      rewrite recomputed_row_is_valid, Hrows in Hnone.
      rewrite Hnone in Hv0; [discriminate|]. apply in_map. exact Hin. }
    rewrite Hempty. split; [reflexivity|].
    intros r' Hr'. specialize (Hnone r' Hr').
    rewrite Hrows in Hr'. apply in_map_iff in Hr'.
    destruct Hr' as (r & <- & Hin).
    rewrite recomputed_row_is_valid in Hnone.
    unfold recomputed_row. rewrite Hnone. reflexivity.
Qed.

Lemma relative_timestamp_consistent_witness :
  exists fd' df',
    Main.set_data fd_four stale_frame = Ok fd' /\
    get_data fd' = Some df' /\
    length (rows df') = length (rows stale_frame) /\
    has_column "is_valid" df' = true /\
    has_column "relative_timestamp" df' = true /\
    (forall i r', rows df' !! i = Some r' ->
       exists r,
         rows stale_frame !! i = Some r /\ raw_cells r' = raw_cells r /\
         is_valid r' =
           (if has_column "is_valid" (strip_data_prefix stale_frame)
            then is_valid r else true)) /\
    (forall r, In r (rows df') -> is_valid r = true ->
       exists start,
         get_start_timestamp fd' = Some start /\
         is_session_start df' start /\
         relative_timestamp r = fsub (timestamp r) start) /\
    ((forall r, In r (rows df') -> is_valid r = false) ->
       get_start_timestamp fd' = None /\
       forall r, In r (rows df') -> relative_timestamp r = NaN).
Proof.
  apply (relative_timestamp_consistent stale_frame
           (Main.set_data fd_four stale_frame)).
  - right. exists fd_four. reflexivity.
  - vm_compute. reflexivity.
  - vm_compute. reflexivity.
Defined.

(** With no valid row, [set_data] of src/filtered_data.py returns, the
    session start is None and the relative time is NaN on every row. *)
Lemma set_data_without_valid_rows :
  exists fd',
    Main.set_data fd_four no_valid_frame = Ok fd' /\
    get_start_timestamp fd' = None /\
    validity_of fd' = [false; false] /\
    map relative_timestamp (rows (frame_of fd')) = [NaN; NaN].
Proof.
  eexists. split; [vm_compute; reflexivity|].
  split; [reflexivity|]. split; reflexivity.
Qed.

(** ** C6: the fall speed when the peak sits at the end of the phase *)




(** ** C7: applying a pass twice *)

(** C7, as the code has it. For each of the seven filter methods of
    src/raw_data_filter.py, whose masks are computed from the timestamp,
    type and diameter columns alone, a second call with the same arguments
    (and, for the timestamp-bounds pass, a clock reading that is not
    earlier) succeeds and leaves the validity flags as the first call left
    them. *)
Theorem pass_twice_same_partition
  (strptime_timestamp : string -> result float)
  (c c' : Main.filter_call) (fd fd1 : FilteredData) (df : DataFrame) :
  get_data fd = Some df ->
  has_column "timestamp" df = true ->
  repeated c c' ->
  Main.call strptime_timestamp c fd = Ok fd1 ->
  exists fd2 df1 df2,
    Main.call strptime_timestamp c' fd1 = Ok fd2 /\
    get_data fd1 = Some df1 /\
    get_data fd2 = Some df2 /\
    validity df2 = validity df1.
Proof.
  intros Hd Hts Hrep Hc.
  destruct (call_effect _ _ _ _ _ Hd Hc)
    as (df1 & mask & Hm & Hd1 & Hval & Hraw & Hv1).
  destruct (mask_of_repeated _ _ _ _ _ Hrep Hm) as (mask' & Hm' & Hle).
  pose proof (mask_of_same_raw _ _ _ _ _ Hraw Hm') as Hm1.
  assert (Hts1 : has_column "timestamp" df1 = true)
    by (apply (proj2 Hraw); [reflexivity | exact Hts]).
  assert (Hcall : Main.call strptime_timestamp c' fd1 =
                  Main.set_data fd1 (loc_set_is_valid_false mask' df1)).
  { rewrite (call_as_mask _ _ _ _ Hd1), Hm1. reflexivity. }
  assert (Hready : datetime_ready (loc_set_is_valid_false mask' df1) = true).
  { apply datetime_ready_loc_set, datetime_ready_readable.
    destruct (call_readable _ _ _ _ _ Hd Hc) as (d & Hd1' & Hrd).
    congruence. }
  destruct (Main_prepare_data_Ok
              (mkFD (Some (loc_set_is_valid_false mask' df1))
                    (_start_timestamp fd1) (_user_id fd1))
              (loc_set_is_valid_false mask' df1) eq_refl
              (has_column_loc_set mask' df1 _ Hts1) Hready) as (fd2 & Hfd2).
  change (Main.set_data fd1 (loc_set_is_valid_false mask' df1) = Ok fd2)
    in Hfd2.
  destruct (Main_set_data_effect _ _ _ Hfd2 (has_is_valid_loc_set _ _))
    as (df2 & Hd2 & Hval2 & _ & _).
  exists fd2, df1, df2. rewrite Hcall.
  split; [exact Hfd2|]. split; [exact Hd1|]. split; [exact Hd2|].
  rewrite Hval2, validity_loc_set, Hval. apply cleared_again. exact Hle.
Qed.

Lemma pass_twice_same_partition_witness :
  exists fd2 df1 df2,
    Main.call strptime_none spacing_5ms
      (value_or no_table (Main.call strptime_none spacing_5ms fd_four))
      = Ok fd2 /\
    get_data (value_or no_table (Main.call strptime_none spacing_5ms fd_four))
      = Some df1 /\
    get_data fd2 = Some df2 /\
    validity df2 = validity df1.
Proof.
  apply (pass_twice_same_partition strptime_none spacing_5ms spacing_5ms
           fd_four
           (value_or no_table (Main.call strptime_none spacing_5ms fd_four))
           (value_or (mkDF [] []) (get_data_result fd_four))).
  - vm_compute. reflexivity.
  - vm_compute. reflexivity.
  - reflexivity.
  - vm_compute. reflexivity.
Defined.

(** C7 fails for the speed filter. On four valid samples at 0, 0.25, 0.5
    and 0.75 s with average diameters 2, 3, 6 and 7, the first call with
    the default 5 units/s marks the middle pair (12 units/s); the second
    call then meets the two outer samples as neighbours (6.67 units/s) and
    marks them too. *)
Lemma speed_filter_twice_differs :
  Checkpoint.__init__ sort_values_timestamp sqrt_down (Some raw_ramp) (Some 704%Z) = Ok fd_ramp /\
  Checkpoint.filter_pupil_speed sort_values_timestamp sqrt_down fd_ramp (Fin 5) = Ok fd_ramp_once /\
  Checkpoint.filter_pupil_speed sort_values_timestamp sqrt_down fd_ramp_once (Fin 5)
    = Ok fd_ramp_twice /\
  validity_of fd_ramp = [true; true; true; true] /\
  validity_of fd_ramp_once = [true; false; false; true] /\
  validity_of fd_ramp_twice = [false; false; false; false] /\
  validity_of fd_ramp_twice <> validity_of fd_ramp_once.
Proof.
  split; [vm_compute; reflexivity|].
  split; [vm_compute; reflexivity|].
  split; [vm_compute; reflexivity|].
  split; [vm_compute; reflexivity|].
  split; [vm_compute; reflexivity|].
  split; [vm_compute; reflexivity|].
  vm_compute. discriminate.
Qed.

(** The windowed std-outlier filter is not idempotent either. With the
    default window of 1 s and threshold of 2 sigma, the first call marks
    the fourth sample, whose local deviation is the lowest of its window;
    the deviations are then recomputed without it, and the second call
    marks the fifth. *)
Lemma std_outlier_filter_twice_differs :
  Checkpoint.filter_by_std_outliers sort_values_timestamp sqrt_down fd_eight (Fin 1) (Fin 2)
    = Ok fd_eight_once /\
  Checkpoint.filter_by_std_outliers sort_values_timestamp sqrt_down fd_eight_once (Fin 1) (Fin 2)
    = Ok fd_eight_twice /\
  validity_of fd_eight = [true; true; true; true; true; true; true; true] /\
  validity_of fd_eight_once
    = [true; true; true; false; true; true; true; true] /\
  validity_of fd_eight_twice
    = [true; true; true; false; false; true; true; true].
Proof.
  split; [vm_compute; reflexivity|].
  split; [vm_compute; reflexivity|].
  split; [vm_compute; reflexivity|].
  split; vm_compute; reflexivity.
Qed.

(** ** C8: the windowed standard deviation *)

(** C8 against the code. After the construction from three valid samples
    0.1 s apart with average diameters 2, 3 and 4, every window holds the
    three rows and the sample standard deviation is 1, but the column
    [std_pupildiameter] is NaN on every row: the windows are read from the
    copy of the valid rows taken before the relative time and the average
    were filled in. Once the table goes through [set_data] again, the copy
    holds the values of the previous round and the column is 1. *)
Theorem std_after_construction_is_nan :
  Checkpoint.__init__ sort_values_timestamp sqrt_down (Some raw_three) (Some 704%Z) = Ok fd_three /\
  validity_of fd_three = [true; true; true] /\
  map relative_timestamp (rows (frame_of fd_three))
    = [Fin 0; Fin (1 # 10); Fin (1 # 5)] /\
  map avg_pupildiameter (rows (frame_of fd_three)) = [Fin 2; Fin 3; Fin 4] /\
  map (std_diameter_spec sqrt_down (frame_of fd_three))
      (rows (frame_of fd_three)) = [Fin 1; Fin 1; Fin 1] /\
  map std_pupildiameter (rows (frame_of fd_three)) = [NaN; NaN; NaN] /\
  map std_pupildiameter (rows (frame_of fd_three_again))
    = [Fin 1; Fin 1; Fin 1].
Proof.
  split; [vm_compute; reflexivity|].
  split; [vm_compute; reflexivity|].
  split; [vm_compute; reflexivity|].
  split; [vm_compute; reflexivity|].
  split; [vm_compute; reflexivity|].
  split; vm_compute; reflexivity.
Qed.

(** The outcome does not depend on the square root: no window is ever
    passed to [numpy.std]. *)
Lemma std_after_construction_any_sqrt (sqrt_Q : Q -> Q) :
  map std_pupildiameter
      (rows (frame_of (value_or no_table
         (Checkpoint.__init__ sort_values_timestamp sqrt_Q (Some raw_three)
            (Some 704%Z)))))
  = [NaN; NaN; NaN].
Proof. vm_compute. reflexivity. Qed.

(** ** C9: the calibration record as a flat dict *)




(** ** C10: no stale relative time on an invalid row *)

(** C10. [_reset_calculated_fields] of src/filtered_data.py returns the
    table it is given with the relative-time column and, on every row, NaN
    in that column and every other cell as it was. After a construction or
    a recomputation through [set_data], every row of the table that came
    in stands at its place in the table that comes out, with its supplied
    cells and its flag (true when the table came without the validity
    column), and when it is not valid it holds NaN as its relative time,
    whatever it held before. *)
Theorem invalid_rows_hold_no_relative_timestamp
  (df : DataFrame) (res : result FilteredData) (fd' : FilteredData) :
  recomputation df res ->
  res = Ok fd' ->
  (forall d,
     has_column "relative_timestamp" (Main._reset_calculated_fields d) = true
     /\ rows (Main._reset_calculated_fields d)
        = map (set_relative_timestamp NaN) (rows d)) /\
  exists df',
    get_data fd' = Some df' /\
    length (rows df') = length (rows df) /\
    forall i r, rows df !! i = Some r ->
      exists r',
        rows df' !! i = Some r' /\
        raw_cells r' = raw_cells r /\
        is_valid r' =
          (if has_column "is_valid" (strip_data_prefix df)
           then is_valid r else true) /\
        (is_valid r' = false -> relative_timestamp r' = NaN).
Proof.
  intros Hrec Hres. split.
  - intros d. split; [|apply reset_rows_main].
    unfold Main._reset_calculated_fields, setitem_scalar.
    apply has_column_add_same.
  - destruct (recomputation_prepare df res fd' Hrec Hres)
      as (self & self' & Hd & Hp & Hd' & _).
    pose proof (Main_prepare_data_spec self self' df Hd Hp) as Hspec.
    cbv zeta in Hspec. destruct Hspec as (df' & Hdf' & Hrows & _).
    exists df'. split; [unfold get_data; congruence|].
    split; [rewrite Hrows, length_map; apply with_validity_length|].
    intros i r Hi. rewrite Hrows. unfold with_validity.
    rewrite !list_lookup_fmap, Hi. cbn [fmap option_fmap option_map].
    eexists. split; [reflexivity|].
    rewrite recomputed_row_is_valid.
    destruct (has_column "is_valid" (strip_data_prefix df)).
    + split; [|split; [reflexivity|]].
      * unfold recomputed_row. destruct (is_valid r); reflexivity.
      * intros Hv. unfold recomputed_row. rewrite Hv. reflexivity.
    + split; [|split; [reflexivity|]].
      * unfold recomputed_row. reflexivity.
      * intros Hv. discriminate.
Qed.

Lemma invalid_rows_hold_no_relative_timestamp_witness :
  (map is_valid (rows stale_frame) = [false; true] /\
   map relative_timestamp (rows stale_frame) = [Fin 0; Fin 1]) /\
  (forall d,
     has_column "relative_timestamp" (Main._reset_calculated_fields d) = true
     /\ rows (Main._reset_calculated_fields d)
        = map (set_relative_timestamp NaN) (rows d)) /\
  exists df',
    get_data (value_or no_table (Main.set_data fd_four stale_frame))
      = Some df' /\
    length (rows df') = length (rows stale_frame) /\
    forall i r, rows stale_frame !! i = Some r ->
      exists r',
        rows df' !! i = Some r' /\
        raw_cells r' = raw_cells r /\
        is_valid r' =
          (if has_column "is_valid" (strip_data_prefix stale_frame)
           then is_valid r else true) /\
        (is_valid r' = false -> relative_timestamp r' = NaN).
Proof.
  split; [split; reflexivity|].
  apply (invalid_rows_hold_no_relative_timestamp stale_frame
           (Main.set_data fd_four stale_frame)).
  - right. exists fd_four. reflexivity.
  - vm_compute. reflexivity.
Defined.

(** The snapshot of [_reset_calculated_fields] creates the calculated
    columns that are absent and leaves the others as they are: after the
    speed filter marked the two middle rows of the ramp, these rows still
    hold the relative time computed while they were valid. *)
Lemma checkpoint_keeps_stale_relative_timestamp :
  validity_of fd_ramp_once = [true; false; false; true] /\
  map relative_timestamp (rows (frame_of fd_ramp_once))
    = [Fin 0; Fin (1 # 4); Fin (1 # 2); Fin (3 # 4)].
Proof. split; vm_compute; reflexivity. Qed.

(** ** Further evaluations *)

(** The prefix of the supplier's column names is removed, wherever it
    stands. *)
Lemma strip_data_prefix_raw_columns :
  map (str_remove "data.") raw_columns
  = ["timestamp"; "type"; "eyeleft.pupildiameter"; "eyeright.pupildiameter"].
Proof. reflexivity. Qed.

(** The run lengths that the constant-pupil filter compares with
    [max_static_steps]. *)
Lemma stable_streak_example :
  Main.groupby_transform_size
    (Main.cumsum (Main.ne_shift [false; true; true; true; false; false; true]))
  = [1; 3; 3; 3; 2; 2; 1].
Proof. reflexivity. Qed.

(** The end-to-end scenario of the specification on its Positive phase: a
    rise to 4.0 at t = 45 and a fall to 3.5 at t = 60 over the baseline
    3.0 give the rise speed 1/15 and the fall speed 1/30. *)
Lemma scenario_positive_phase :
  CalibrationProcessor.compute_baseline sqrt_down fd_scenario time_ranges_704
    = Ok (Fin 3, Fin 0) /\
  CalibrationProcessor.compute_positive_rise_speed fd_scenario
    time_ranges_704 (Fin 3) = Ok (Fin (1 # 15)) /\
  CalibrationProcessor.compute_positive_fall_speed fd_scenario
    time_ranges_704 (Fin 3) = Ok (Fin (1 # 30)).
Proof.
  split; [vm_compute; reflexivity|]. split; vm_compute; reflexivity.
Qed.

(** ** One pass of src/raw_data_filter.py, row by row *)

Lemma combine_map {A B C : Type} (f : A -> B) (g : A -> C) (l : list A) :
  combine (map f l) (map g l) = map (fun x => (f x, g x)) l.
Proof. induction l as [|x l IH]; simpl; [reflexivity|]. rewrite IH. reflexivity. Qed.

Lemma mask_bit_map {A : Type} (g : A -> bool) (l : list A) (i : nat) (x : A) :
  l !! i = Some x -> mask_bit (map g l) i = g x.
Proof.
  intros H. unfold mask_bit. rewrite list_lookup_fmap, H. reflexivity.
Qed.

Lemma call_rows (strptime_timestamp : string -> result float)
  (c : Main.filter_call) (fd fd1 : FilteredData) (df : DataFrame) :
  get_data fd = Some df ->
  Main.call strptime_timestamp c fd = Ok fd1 ->
  exists df1 mask,
    mask_of strptime_timestamp c df = Ok mask /\
    get_data fd1 = Some df1 /\
    length (rows df1) = length (rows df) /\
    forall i r1, rows df1 !! i = Some r1 ->
      exists r,
        rows df !! i = Some r /\ raw_cells r1 = raw_cells r /\
        is_valid r1 = is_valid r && negb (mask_bit mask i).
Proof.
  intros Hd Hc.
  destruct (call_effect _ _ _ _ _ Hd Hc)
    as (df1 & mask & Hm & Hd1 & Hval & [Hraw _] & _).
  exists df1, mask. split; [exact Hm|]. split; [exact Hd1|]. split.
  { rewrite <- !validity_length, Hval. apply cleared_length. }
  intros i r1 Hr1.
  assert (H1 : validity df1 !! i = Some (is_valid r1))
    by (apply validity_lookup; eauto).
  rewrite Hval, cleared_lookup in H1.
  destruct (validity df !! i) as [v|] eqn:Ev; [|discriminate].
  apply validity_lookup in Ev. destruct Ev as (r & Hr & <-).
  exists r. split; [exact Hr|]. split.
  - assert (H2 : map raw_cells (rows df) !! i = map raw_cells (rows df1) !! i)
      by (rewrite Hraw; reflexivity).
    rewrite !list_lookup_fmap, Hr, Hr1 in H2. simpl in H2.
    injection H2 as E1 E2 E3 E4. unfold raw_cells. congruence.
  - cbn in H1. inversion H1 as [H2]. unfold mask_bit.
    destruct (mask !! i) as [[|]|]; simpl; destruct (is_valid r); reflexivity.
Qed.

Lemma flt_negb_fle (x y : float) :
  isnan x = false -> isnan y = false -> flt x y = negb (fle y x).
Proof. destruct x, y; simpl; try congruence; reflexivity. Qed.

Lemma out_of_range (lo hi d : float) :
  isnan lo = false -> isnan hi = false ->
  negb (flt d lo || fgt d hi) = in_range lo hi d.
Proof.
  intros Hlo Hhi. unfold in_range, fgt.
  destruct (isnan d) eqn:E.
  - destruct d; try discriminate. destruct lo, hi; reflexivity.
  - rewrite (flt_negb_fle d lo E Hlo), (flt_negb_fle hi d Hhi E).
    simpl. rewrite negb_orb, !negb_involutive. reflexivity.
Qed.

(** ** The four passes that look at one row at a time *)

(** X1. [filter_only_gaze] followed by the recomputation of [set_data]:
    the rows keep their places and their supplied cells, and a row is valid
    afterwards exactly when it was valid before and its type is the string
    'gaze'; a row whose type is missing becomes invalid. *)
Theorem only_gaze_keeps_valid_gaze_rows
  (fd fd1 : FilteredData) (df : DataFrame) :
  get_data fd = Some df ->
  Main.filter_only_gaze fd = Ok fd1 ->
  exists df1,
    get_data fd1 = Some df1 /\
    length (rows df1) = length (rows df) /\
    forall i r1, rows df1 !! i = Some r1 ->
      exists r,
        rows df !! i = Some r /\ raw_cells r1 = raw_cells r /\
        is_valid r1 = is_valid r && is_gaze r.
Proof.
  intros Hd Hc.
  change (Main.call strptime_none Main.OnlyGaze fd = Ok fd1) in Hc.
  destruct (call_rows _ _ _ _ _ Hd Hc) as (df1 & mask & Hm & Hd1 & Hlen & H).
  cbn [mask_of] in Hm.
  destruct (getitem "type" type_ df) as [types|] eqn:E;
    cbn [bind] in Hm; [|discriminate].
  apply getitem_Ok in E. destruct E as [_ ->].
  inversion Hm; subst mask; clear Hm.
  exists df1. split; [exact Hd1|]. split; [exact Hlen|].
  intros i r1 Hr1. destruct (H i r1 Hr1) as (r & Hr & Hraw & Hv).
  exists r. split; [exact Hr|]. split; [exact Hraw|].
  rewrite Hv, map_map, (mask_bit_map _ _ _ _ Hr). unfold is_gaze.
  destruct (type_ r) as [s|]; simpl; [|reflexivity].
  rewrite negb_involutive. reflexivity.
Qed.

Lemma only_gaze_keeps_valid_gaze_rows_witness :
  exists df1,
    get_data fd_four_gaze = Some df1 /\
    length (rows df1) = length (rows (frame_of fd_four)) /\
    forall i r1, rows df1 !! i = Some r1 ->
      exists r,
        rows (frame_of fd_four) !! i = Some r /\ raw_cells r1 = raw_cells r /\
        is_valid r1 = is_valid r && is_gaze r.
Proof.
  apply (only_gaze_keeps_valid_gaze_rows fd_four fd_four_gaze
           (frame_of fd_four)).
  - vm_compute. reflexivity.
  - vm_compute. reflexivity.
Defined.

(** X2. [filter_invalid_pupils] with bounds that are numbers: a row is
    valid afterwards exactly when it was valid before and each of its two
    diameters is missing or lies in the closed range from [min_size] to
    [max_size]. A missing diameter is never out of range. *)
Theorem invalid_pupils_keeps_rows_in_range
  (fd fd1 : FilteredData) (df : DataFrame) (min_size max_size : float) :
  get_data fd = Some df ->
  isnan min_size = false -> isnan max_size = false ->
  Main.filter_invalid_pupils fd min_size max_size = Ok fd1 ->
  exists df1,
    get_data fd1 = Some df1 /\
    length (rows df1) = length (rows df) /\
    forall i r1, rows df1 !! i = Some r1 ->
      exists r,
        rows df !! i = Some r /\ raw_cells r1 = raw_cells r /\
        is_valid r1 =
          is_valid r
          && in_range min_size max_size (eyeleft_pupildiameter r)
          && in_range min_size max_size (eyeright_pupildiameter r).
Proof.
  intros Hd Hlo Hhi Hc.
  change (Main.call strptime_none (Main.InvalidPupils min_size max_size) fd
          = Ok fd1) in Hc.
  destruct (call_rows _ _ _ _ _ Hd Hc) as (df1 & mask & Hm & Hd1 & Hlen & H).
  cbn [mask_of] in Hm.
  destruct (getitem "eyeleft.pupildiameter" eyeleft_pupildiameter df)
    as [left|] eqn:El; cbn [bind] in Hm; [|discriminate].
  destruct (getitem "eyeright.pupildiameter" eyeright_pupildiameter df)
    as [right|] eqn:Er; cbn [bind] in Hm; [|discriminate].
  apply getitem_Ok in El. destruct El as [_ ->].
  apply getitem_Ok in Er. destruct Er as [_ ->].
  inversion Hm; subst mask; clear Hm.
  exists df1. split; [exact Hd1|]. split; [exact Hlen|].
  intros i r1 Hr1. destruct (H i r1 Hr1) as (r & Hr & Hraw & Hv).
  exists r. split; [exact Hr|]. split; [exact Hraw|].
  rewrite Hv, combine_map, map_map, (mask_bit_map _ _ _ _ Hr). cbn [fst snd].
  rewrite <- (out_of_range min_size max_size (eyeleft_pupildiameter r) Hlo Hhi).
  rewrite <- (out_of_range min_size max_size (eyeright_pupildiameter r) Hlo Hhi).
  rewrite <- andb_assoc, <- negb_orb, !orb_assoc. reflexivity.
Qed.

Lemma invalid_pupils_keeps_rows_in_range_witness :
  exists df1,
    get_data fd_four_pupils = Some df1 /\
    length (rows df1) = length (rows (frame_of fd_four)) /\
    forall i r1, rows df1 !! i = Some r1 ->
      exists r,
        rows (frame_of fd_four) !! i = Some r /\ raw_cells r1 = raw_cells r /\
        is_valid r1 =
          is_valid r
          && in_range (Fin 1) (Fin 10) (eyeleft_pupildiameter r)
          && in_range (Fin 1) (Fin 10) (eyeright_pupildiameter r).
Proof.
  apply (invalid_pupils_keeps_rows_in_range fd_four fd_four_pupils
           (frame_of fd_four) (Fin 1) (Fin 10)).
  - vm_compute. reflexivity.
  - reflexivity.
  - reflexivity.
  - vm_compute. reflexivity.
Defined.

(** X3. [filter_missing_data]: a row is valid afterwards exactly when it
    was valid before and holds both diameters and the timestamp. *)
Theorem missing_data_keeps_complete_rows
  (fd fd1 : FilteredData) (df : DataFrame) :
  get_data fd = Some df ->
  Main.filter_missing_data fd = Ok fd1 ->
  exists df1,
    get_data fd1 = Some df1 /\
    length (rows df1) = length (rows df) /\
    forall i r1, rows df1 !! i = Some r1 ->
      exists r,
        rows df !! i = Some r /\ raw_cells r1 = raw_cells r /\
        is_valid r1 = is_valid r && complete r.
Proof.
  intros Hd Hc.
  change (Main.call strptime_none Main.MissingData fd = Ok fd1) in Hc.
  destruct (call_rows _ _ _ _ _ Hd Hc) as (df1 & mask & Hm & Hd1 & Hlen & H).
  cbn [mask_of] in Hm.
  destruct (getitem "eyeleft.pupildiameter" eyeleft_pupildiameter df)
    as [left|] eqn:El; cbn [bind] in Hm; [|discriminate].
  destruct (getitem "eyeright.pupildiameter" eyeright_pupildiameter df)
    as [right|] eqn:Er; cbn [bind] in Hm; [|discriminate].
  destruct (getitem "timestamp" timestamp df)
    as [ts|] eqn:Et; cbn [bind] in Hm; [|discriminate].
  apply getitem_Ok in El. destruct El as [_ ->].
  apply getitem_Ok in Er. destruct Er as [_ ->].
  apply getitem_Ok in Et. destruct Et as [_ ->].
  inversion Hm; subst mask; clear Hm.
  exists df1. split; [exact Hd1|]. split; [exact Hlen|].
  intros i r1 Hr1. destruct (H i r1 Hr1) as (r & Hr & Hraw & Hv).
  exists r. split; [exact Hr|]. split; [exact Hraw|].
  rewrite Hv, combine_map, combine_map, map_map,
    (mask_bit_map _ _ _ _ Hr). cbn [fst snd]. unfold complete.
  rewrite !negb_orb. reflexivity.
Qed.

Lemma missing_data_keeps_complete_rows_witness :
  exists df1,
    get_data fd_four_missing = Some df1 /\
    length (rows df1) = length (rows (frame_of fd_four)) /\
    forall i r1, rows df1 !! i = Some r1 ->
      exists r,
        rows (frame_of fd_four) !! i = Some r /\ raw_cells r1 = raw_cells r /\
        is_valid r1 = is_valid r && complete r.
Proof.
  apply (missing_data_keeps_complete_rows fd_four fd_four_missing
           (frame_of fd_four)).
  - vm_compute. reflexivity.
  - vm_compute. reflexivity.
Defined.

(** X4. [filter_by_timestamp] with a lower bound that is a number, or a
    date string that the parser turns into one, and a clock reading
    [current_time]: a row is valid afterwards exactly when it was valid
    before and its timestamp is missing or lies between the lower bound and
    the clock reading, both included. *)
Theorem by_timestamp_keeps_rows_in_bounds
  (strptime_timestamp : string -> result float)
  (fd fd1 : FilteredData) (df : DataFrame)
  (min_timestamp : float + string) (lower current_time : float) :
  get_data fd = Some df ->
  date_value strptime_timestamp min_timestamp = Ok lower ->
  isnan lower = false -> isnan current_time = false ->
  Main.filter_by_timestamp strptime_timestamp current_time fd min_timestamp
    = Ok fd1 ->
  exists df1,
    get_data fd1 = Some df1 /\
    length (rows df1) = length (rows df) /\
    forall i r1, rows df1 !! i = Some r1 ->
      exists r,
        rows df !! i = Some r /\ raw_cells r1 = raw_cells r /\
        is_valid r1 = is_valid r && in_range lower current_time (timestamp r).
Proof.
  intros Hd Hdate Hlo Hnow Hc.
  change (Main.call strptime_timestamp
            (Main.ByTimestamp min_timestamp current_time) fd = Ok fd1) in Hc.
  destruct (call_rows _ _ _ _ _ Hd Hc) as (df1 & mask & Hm & Hd1 & Hlen & H).
  cbn [mask_of] in Hm. unfold date_value in Hdate. rewrite Hdate in Hm.
  cbn [bind] in Hm.
  destruct (getitem "timestamp" timestamp df)
    as [ts|] eqn:Et; cbn [bind] in Hm; [|discriminate].
  apply getitem_Ok in Et. destruct Et as [_ ->].
  inversion Hm; subst mask; clear Hm.
  exists df1. split; [exact Hd1|]. split; [exact Hlen|].
  intros i r1 Hr1. destruct (H i r1 Hr1) as (r & Hr & Hraw & Hv).
  exists r. split; [exact Hr|]. split; [exact Hraw|].
  rewrite Hv, map_map, (mask_bit_map _ _ _ _ Hr).
  rewrite (out_of_range lower current_time (timestamp r) Hlo Hnow).
  reflexivity.
Qed.

Lemma by_timestamp_keeps_rows_in_bounds_witness :
  exists df1,
    get_data fd_four_bounds = Some df1 /\
    length (rows df1) = length (rows (frame_of fd_four)) /\
    forall i r1, rows df1 !! i = Some r1 ->
      exists r,
        rows (frame_of fd_four) !! i = Some r /\ raw_cells r1 = raw_cells r /\
        is_valid r1 =
          is_valid r
          && in_range (Fin (1577836800 # 1)) (Fin (1700000000 # 1))
               (timestamp r).
Proof.
  apply (by_timestamp_keeps_rows_in_bounds strptime_2020 fd_four
           fd_four_bounds (frame_of fd_four) (inr "01/01/2020")
           (Fin (1577836800 # 1)) (Fin (1700000000 # 1))).
  - vm_compute. reflexivity.
  - reflexivity.
  - reflexivity.
  - reflexivity.
  - vm_compute. reflexivity.
Defined.

(** ** [set_data] of src/filtered_data.py on a table that has the flags *)

Lemma Main_set_data_rows (fd fd' : FilteredData) (new_data : DataFrame) :
  Main.set_data fd new_data = Ok fd' ->
  has_column "is_valid" new_data = true ->
  exists df',
    get_data fd' = Some df' /\
    rows df' = recomputed (rows new_data) /\
    get_start_timestamp fd' =
      (if Nat.eqb (length (List.filter is_valid (rows new_data))) 0 then None
       else Some (series_min
                    (map timestamp (List.filter is_valid (rows new_data))))) /\
    get_user_id fd' = get_user_id fd /\
    has_column "is_valid" df' = true.
Proof.
  intros Hs Hv. unfold Main.set_data in Hs.
  eapply Main_prepare_data_spec in Hs; [|reflexivity].
  cbv zeta in Hs.
  destruct Hs as (df' & Hd & Hrows & Hst & Hu & Hv' & _ & _).
  assert (Hw : with_validity new_data = rows new_data).
  { unfold with_validity.
    rewrite (has_column_strip "is_valid" new_data eq_refl Hv).
    apply map_id. }
  unfold valid_timestamps in Hrows, Hst. rewrite Hw in Hrows, Hst.
  rewrite length_map in Hst.
  exists df'. split; [exact Hd|]. split; [exact Hrows|].
  split; [exact Hst|]. split; [exact Hu|exact Hv'].
Qed.

Lemma same_but_relative_cells (r r' : Row) :
  same_but_relative r r' ->
  is_valid r = is_valid r' /\ timestamp r = timestamp r'.
Proof.
  unfold same_but_relative. intros H.
  split.
  - exact (f_equal is_valid H).
  - exact (f_equal timestamp H).
Qed.

Lemma same_but_relative_recomputed_row (s : float) (r r' : Row) :
  same_but_relative r r' -> recomputed_row s r = recomputed_row s r'.
Proof.
  intros H. destruct (same_but_relative_cells r r' H) as [Hv Ht].
  unfold same_but_relative in H.
  unfold recomputed_row. rewrite Hv, Ht.
  destruct r, r'. simpl in *. unfold set_relative_timestamp in *. simpl in *.
  inversion H; subst. reflexivity.
Qed.

Lemma recomputed_row_same (s : float) (r : Row) :
  same_but_relative (recomputed_row s r) r.
Proof.
  unfold same_but_relative, recomputed_row.
  destruct (is_valid r); reflexivity.
Qed.

Lemma same_but_relative_valid_timestamps (a b : list Row) :
  Forall2 same_but_relative a b ->
  map timestamp (List.filter is_valid a)
  = map timestamp (List.filter is_valid b).
Proof.
  induction 1 as [|r r' a b H _ IH]; [reflexivity|].
  destruct (same_but_relative_cells r r' H) as [Hv Ht].
  simpl. rewrite Hv. destruct (is_valid r'); simpl; rewrite IH; congruence.
Qed.

Lemma recomputed_same (a b : list Row) :
  Forall2 same_but_relative a b -> recomputed a = recomputed b.
Proof.
  intros H. unfold recomputed.
  rewrite (same_but_relative_valid_timestamps a b H).
  generalize (series_min (map timestamp (List.filter is_valid b))).
  intros s. induction H as [|r r' a b Hr _ IH]; [reflexivity|].
  simpl. rewrite IH, (same_but_relative_recomputed_row s r r' Hr).
  reflexivity.
Qed.

Lemma recomputed_related (rs : list Row) :
  Forall2 same_but_relative (recomputed rs) rs.
Proof.
  unfold recomputed.
  generalize (series_min (map timestamp (List.filter is_valid rs))).
  intros s. induction rs as [|r rs IH]; simpl; constructor; auto.
  apply recomputed_row_same.
Qed.

Lemma map_where_related (mask : list bool) (a b : list Row) :
  Forall2 same_but_relative a b ->
  Forall2 same_but_relative (map_where mask (set_is_valid false) a)
                            (map_where mask (set_is_valid false) b).
Proof.
  intros H. revert mask.
  induction H as [|r r' a b Hr H IH]; intros [|m mask]; simpl;
    try constructor; auto.
  destruct m; [|exact Hr].
  unfold same_but_relative in *. destruct r, r'. simpl in *.
  unfold set_relative_timestamp, set_is_valid in *. simpl in *.
  inversion Hr; subst. reflexivity.
Qed.

Lemma rows_loc_set (mask : list bool) (df : DataFrame) :
  rows (loc_set_is_valid_false mask df)
  = map_where mask (set_is_valid false) (rows df).
Proof. unfold loc_set_is_valid_false. rewrite rows_add_column. reflexivity. Qed.

Lemma map_where_lookup (m : list bool) (f : Row -> Row) (rs : list Row)
  (i : nat) :
  map_where m f rs !! i
  = (fun r => if mask_bit m i then f r else r) <$> rs !! i.
Proof.
  revert rs i. induction m as [|b m IH]; intros [|r rs] i; try reflexivity.
  - cbn [map_where]. unfold mask_bit. rewrite lookup_nil. simpl.
    destruct ((r :: rs) !! i); reflexivity.
  - cbn [map_where]. destruct i as [|i]; [reflexivity|].
    exact (IH rs i).
Qed.

(** Two masks that agree on the positions of the rows clear the same
    flags. *)
Lemma map_where_ext (m m' : list bool) (f : Row -> Row) (rs : list Row) :
  (forall i, i < length rs -> mask_bit m i = mask_bit m' i) ->
  map_where m f rs = map_where m' f rs.
Proof.
  intros H. apply list_eq. intros i. rewrite !map_where_lookup.
  destruct (rs !! i) as [r|] eqn:E; [|reflexivity].
  simpl. rewrite (H i); [reflexivity|].
  apply lookup_lt_Some in E. exact E.
Qed.

Lemma mask_bit_seq (g : nat -> bool) (n i : nat) :
  i < n -> mask_bit (map g (seq 0 n)) i = g i.
Proof.
  intros Hi. unfold mask_bit. rewrite list_lookup_fmap.
  rewrite (lookup_seq_lt 0 n i Hi). reflexivity.
Qed.

Lemma map_where_twice (m m' : list bool) (rs : list Row) :
  map_where m' (set_is_valid false) (map_where m (set_is_valid false) rs)
  = map_where (map (fun i => mask_bit m i || mask_bit m' i)
                   (seq 0 (length rs)))
      (set_is_valid false) rs.
Proof.
  apply list_eq. intros i. rewrite !map_where_lookup.
  destruct (rs !! i) as [r|] eqn:E; [|reflexivity].
  simpl. rewrite mask_bit_seq by (apply lookup_lt_Some in E; exact E).
  destruct (mask_bit m i), (mask_bit m' i); reflexivity.
Qed.

(** ** A chain of passes of src/raw_data_filter.py, row by row *)

Lemma start_of_same (a b : list Row) :
  Forall2 same_but_relative a b -> start_of a = start_of b.
Proof.
  intros H. unfold start_of.
  pose proof (same_but_relative_valid_timestamps a b H) as E.
  pose proof (f_equal (@length float) E) as El. rewrite !length_map in El.
  rewrite E, El. reflexivity.
Qed.

(** On a table that has the four columns, the mask of a pass is the same
    on every table with the same supplied cells. *)
Lemma mask_of_raw (strptime_timestamp : string -> result float)
  (c : Main.filter_call) (df df1 : DataFrame) :
  has_raw_columns df -> same_raw df df1 ->
  mask_of strptime_timestamp c df1 = mask_of strptime_timestamp c df.
Proof.
  intros Hraw Hsame.
  pose proof (has_raw_columns_same_raw _ _ Hsame Hraw) as Hraw1.
  destruct Hraw as (Hts & Hty & Hl & Hr).
  destruct Hraw1 as (Hts1 & Hty1 & Hl1 & Hr1).
  destruct (same_raw_columns _ _ (proj1 Hsame)) as (Ets & Ety & El & Er).
  destruct c as [| lo hi | | m now | d | n tol | tol]; simpl;
    rewrite ?(getitem_has _ _ _ Hts), ?(getitem_has _ _ _ Hty),
      ?(getitem_has _ _ _ Hl), ?(getitem_has _ _ _ Hr),
      ?(getitem_has _ _ _ Hts1), ?(getitem_has _ _ _ Hty1),
      ?(getitem_has _ _ _ Hl1), ?(getitem_has _ _ _ Hr1);
    rewrite ?Ets, ?Ety, ?El, ?Er; reflexivity.
Qed.

Lemma call_canonical (strptime_timestamp : string -> result float)
  (c : Main.filter_call) (fd fd1 : FilteredData) (df : DataFrame) :
  get_data fd = Some df ->
  Main.call strptime_timestamp c fd = Ok fd1 ->
  exists df1 mask,
    mask_of strptime_timestamp c df = Ok mask /\
    get_data fd1 = Some df1 /\
    rows df1 = recomputed (map_where mask (set_is_valid false) (rows df)) /\
    same_raw df df1 /\
    get_start_timestamp fd1 = start_of (rows df1) /\
    get_user_id fd1 = get_user_id fd /\
    has_column "is_valid" df1 = true.
Proof.
  intros Hd Hc.
  destruct (call_effect _ _ _ _ _ Hd Hc)
    as (df1 & mask & Hm & Hd1 & _ & Hsame & _).
  rewrite (call_as_mask _ _ _ _ Hd) in Hc. rewrite Hm in Hc.
  cbn [bind] in Hc.
  destruct (Main_set_data_rows _ _ _ Hc (has_is_valid_loc_set _ _))
    as (df1' & Hd1' & Hrows & Hst & Hu & Hv).
  rewrite Hd1 in Hd1'. inversion Hd1'; subst df1'; clear Hd1'.
  rewrite rows_loc_set in Hrows, Hst.
  exists df1, mask. repeat split; try assumption; try apply Hsame.
  rewrite Hst, Hrows. symmetry.
  apply (start_of_same _ _ (recomputed_related _)).
Qed.

Lemma chain_mask_raw (strptime_timestamp : string -> result float)
  (cs : list Main.filter_call) (df df1 : DataFrame) :
  has_raw_columns df -> same_raw df df1 ->
  chain_mask strptime_timestamp cs df1 = chain_mask strptime_timestamp cs df.
Proof.
  intros Hraw Hsame. unfold chain_mask.
  assert (Hlen : length (rows df1) = length (rows df)).
  { pose proof (f_equal (@length _) (proj1 Hsame)) as E.
    rewrite !length_map in E. symmetry. exact E. }
  rewrite Hlen. apply map_ext. intros i.
  induction cs as [|c cs IH]; [reflexivity|].
  simpl. rewrite IH. unfold flagged.
  rewrite (mask_of_raw _ c df df1 Hraw Hsame). reflexivity.
Qed.

Lemma call_all_canonical (strptime_timestamp : string -> result float)
  (cs : list Main.filter_call) (c : Main.filter_call)
  (fd fd' : FilteredData) (df : DataFrame) :
  get_data fd = Some df -> has_raw_columns df ->
  Main.call_all strptime_timestamp (c :: cs) fd = Ok fd' ->
  exists df',
    get_data fd' = Some df' /\
    rows df' =
      recomputed (map_where (chain_mask strptime_timestamp (c :: cs) df)
                    (set_is_valid false) (rows df)) /\
    get_start_timestamp fd' = start_of (rows df') /\
    get_user_id fd' = get_user_id fd.
Proof.
  revert c fd df. induction cs as [|c2 cs IH]; intros c fd df Hd Hraw Hc.
  - cbn [Main.call_all] in Hc.
    destruct (Main.call strptime_timestamp c fd) as [fd1|] eqn:E;
      cbn [bind] in Hc; [|discriminate].
    inversion Hc; subst fd1; clear Hc.
    destruct (call_canonical _ _ _ _ _ Hd E)
      as (df1 & mask & Hm & Hd1 & Hrows & _ & Hst & Hu & _).
    exists df1. split; [exact Hd1|]. split; [|split; assumption].
    rewrite Hrows. f_equal. apply map_where_ext. intros i Hi.
    unfold chain_mask. rewrite mask_bit_seq by exact Hi.
    simpl. unfold flagged. rewrite Hm, orb_false_r. reflexivity.
  - change (Main.call_all strptime_timestamp (c :: c2 :: cs) fd)
      with (fd1 <- Main.call strptime_timestamp c fd ;;
            Main.call_all strptime_timestamp (c2 :: cs) fd1) in Hc.
    destruct (Main.call strptime_timestamp c fd) as [fd1|] eqn:E;
      cbn [bind] in Hc; [|discriminate].
    destruct (call_canonical _ _ _ _ _ Hd E)
      as (df1 & mask & Hm & Hd1 & Hrows & Hsame & _ & Hu & _).
    destruct (IH c2 fd1 df1 Hd1 (has_raw_columns_same_raw _ _ Hsame Hraw) Hc)
      as (df' & Hd' & Hrows' & Hst' & Hu').
    exists df'. split; [exact Hd'|]. split; [|split; [exact Hst'|congruence]].
    rewrite Hrows', (chain_mask_raw _ _ _ _ Hraw Hsame), Hrows.
    rewrite (recomputed_same _ _
               (map_where_related _ _ _ (recomputed_related _))).
    f_equal. rewrite map_where_twice. apply map_where_ext. intros i Hi.
    rewrite mask_bit_seq by exact Hi.
    unfold chain_mask at 2. rewrite mask_bit_seq by exact Hi.
    change (existsb (fun c0 => flagged strptime_timestamp c0 df i)
              (c :: c2 :: cs))
      with (flagged strptime_timestamp c df i
            || existsb (fun c0 => flagged strptime_timestamp c0 df i)
                 (c2 :: cs)).
    unfold flagged at 1. rewrite Hm. f_equal.
    unfold chain_mask. rewrite mask_bit_seq by exact Hi. reflexivity.
Qed.

Lemma recomputed_lookup (rs : list Row) (i : nat) (r' : Row) :
  recomputed rs !! i = Some r' ->
  exists r, rs !! i = Some r /\ raw_cells r' = raw_cells r /\
            is_valid r' = is_valid r.
Proof.
  unfold recomputed. rewrite list_lookup_fmap.
  destruct (rs !! i) as [r|]; simpl; [|discriminate].
  intros H. inversion H; subst r'; clear H. exists r.
  split; [reflexivity|]. unfold recomputed_row.
  destruct (is_valid r) eqn:E; simpl; auto.
Qed.

Lemma call_parses (strptime_timestamp : string -> result float)
  (c : Main.filter_call) (df : DataFrame) (mask : list bool) :
  mask_of strptime_timestamp c df = Ok mask -> parses strptime_timestamp c.
Proof.
  destruct c as [| lo hi | | m now | d | n tol | tol]; simpl; auto.
  destruct m as [x | s]; [auto|].
  destruct (strptime_timestamp s); simpl; [reflexivity|discriminate].
Qed.

Lemma call_all_parses (strptime_timestamp : string -> result float)
  (cs : list Main.filter_call) (fd fd' : FilteredData) (df : DataFrame) :
  get_data fd = Some df ->
  Main.call_all strptime_timestamp cs fd = Ok fd' ->
  Forall (parses strptime_timestamp) cs.
Proof.
  revert fd df. induction cs as [|c cs IH]; intros fd df Hd Hc;
    constructor.
  - simpl in Hc.
    destruct (Main.call strptime_timestamp c fd) as [fd1|] eqn:E;
      cbn [bind] in Hc; [|discriminate].
    destruct (call_canonical _ _ _ _ _ Hd E) as (df1 & mask & Hm & _).
    eapply call_parses; exact Hm.
  - simpl in Hc.
    destruct (Main.call strptime_timestamp c fd) as [fd1|] eqn:E;
      cbn [bind] in Hc; [|discriminate].
    destruct (call_canonical _ _ _ _ _ Hd E) as (df1 & mask & _ & Hd1 & _).
    exact (IH fd1 df1 Hd1 Hc).
Qed.

Lemma existsb_Permutation {A : Type} (f : A -> bool) (l l' : list A) :
  Permutation l l' -> existsb f l = existsb f l'.
Proof.
  induction 1 as [|x l l' _ IH|x y l|l l' l'' _ IH1 _ IH2]; simpl.
  - reflexivity.
  - rewrite IH. reflexivity.
  - destruct (f x), (f y); reflexivity.
  - congruence.
Qed.

(** X5. On a table that has the four columns of the data model, a row is
    valid after a sequence of calls of the seven filter methods exactly
    when it was valid before and none of the calls flags it on the table
    the sequence started from: the passes do not influence one another.
    Rows keep their places and their supplied cells. *)
Theorem chain_flags_rows_independently
  (strptime_timestamp : string -> result float)
  (cs : list Main.filter_call) (fd fd' : FilteredData) (df : DataFrame) :
  get_data fd = Some df -> has_raw_columns df ->
  Main.call_all strptime_timestamp cs fd = Ok fd' ->
  exists df',
    get_data fd' = Some df' /\
    length (rows df') = length (rows df) /\
    forall i r', rows df' !! i = Some r' ->
      exists r,
        rows df !! i = Some r /\ raw_cells r' = raw_cells r /\
        is_valid r' =
          is_valid r
          && negb (existsb (fun c => flagged strptime_timestamp c df i) cs).
Proof.
  intros Hd Hraw Hc. destruct cs as [|c cs].
  - simpl in Hc. inversion Hc; subst fd'; clear Hc.
    exists df. split; [exact Hd|]. split; [reflexivity|].
    intros i r' Hr'. exists r'. split; [exact Hr'|]. split; [reflexivity|].
    simpl. rewrite andb_true_r. reflexivity.
  - destruct (call_all_canonical _ _ _ _ _ _ Hd Hraw Hc)
      as (df' & Hd' & Hrows & _ & _).
    exists df'. split; [exact Hd'|]. split.
    { rewrite Hrows. unfold recomputed.
      rewrite length_map, map_where_length. reflexivity. }
    intros i r' Hr'. rewrite Hrows in Hr'.
    destruct (recomputed_lookup _ _ _ Hr') as (r1 & Hr1 & Hraw1 & Hv1).
    rewrite map_where_lookup in Hr1.
    destruct (rows df !! i) as [r|] eqn:Er; [|discriminate].
    simpl in Hr1. inversion Hr1 as [Hr1']; clear Hr1.
    exists r. split; [reflexivity|].
    assert (Hi : i < length (rows df)) by (apply lookup_lt_Some in Er; exact Er).
    unfold chain_mask in Hr1'. rewrite mask_bit_seq in Hr1' by exact Hi.
    rewrite Hraw1, Hv1, <- Hr1'.
    destruct (existsb (fun c0 => flagged strptime_timestamp c0 df i) (c :: cs));
      simpl.
    + split; [reflexivity|]. rewrite andb_false_r. reflexivity.
    + split; [reflexivity|]. rewrite andb_true_r. reflexivity.
Qed.

Lemma chain_flags_rows_independently_witness :
  exists df',
    get_data (value_or no_table
                (Main.call_all strptime_none chain_four fd_four)) = Some df' /\
    length (rows df') = length (rows (frame_of fd_four)) /\
    forall i r', rows df' !! i = Some r' ->
      exists r,
        rows (frame_of fd_four) !! i = Some r /\
        raw_cells r' = raw_cells r /\
        is_valid r' =
          is_valid r
          && negb (existsb
                     (fun c => flagged strptime_none c (frame_of fd_four) i)
                     chain_four).
Proof.
  apply (chain_flags_rows_independently strptime_none chain_four fd_four
           (value_or no_table
              (Main.call_all strptime_none chain_four fd_four))
           (frame_of fd_four)).
  - vm_compute. reflexivity.
  - repeat split; vm_compute; reflexivity.
  - vm_compute. reflexivity.
Defined.

(** X6. The order of the passes does not matter. On a table that has the
    four columns of the data model, when a sequence of calls returns, every
    reordering of it (each call with the same arguments and the same clock
    reading) returns too, with the same rows, cell by cell, the same
    session start and the same user. *)
Theorem chain_order_irrelevant
  (strptime_timestamp : string -> result float)
  (cs cs' : list Main.filter_call) (fd fd1 : FilteredData) (df : DataFrame) :
  get_data fd = Some df -> has_raw_columns df ->
  Permutation cs cs' ->
  Main.call_all strptime_timestamp cs fd = Ok fd1 ->
  exists fd2 df1 df2,
    Main.call_all strptime_timestamp cs' fd = Ok fd2 /\
    get_data fd1 = Some df1 /\ get_data fd2 = Some df2 /\
    rows df2 = rows df1 /\
    get_start_timestamp fd2 = get_start_timestamp fd1 /\
    get_user_id fd2 = get_user_id fd1.
Proof.
  intros Hd Hraw Hperm Hc.
  pose proof (call_all_parses _ _ _ _ _ Hd Hc) as Hp.
  assert (Hp' : Forall (parses strptime_timestamp) cs').
  { rewrite <- Hperm. exact Hp. }
  destruct cs as [|c cs].
  - apply Permutation_nil in Hperm. subst cs'.
    simpl in Hc. inversion Hc; subst.
    exists fd1, df, df. repeat split; auto.
  - assert (Hready : datetime_ready df = true).
    { cbn [Main.call_all] in Hc.
      destruct (Main.call strptime_timestamp c fd) as [fd0|] eqn:E;
        [|discriminate].
      exact (call_ready _ _ _ _ _ Hd (proj1 Hraw) E). }
    destruct (call_all_returns _ _ _ _ Hd Hraw Hready Hp') as (fd2 & Hc2).
    exists fd2.
    destruct cs' as [|c' cs'].
    { symmetry in Hperm. apply Permutation_nil in Hperm. discriminate. }
    destruct (call_all_canonical _ _ _ _ _ _ Hd Hraw Hc)
      as (df1 & Hd1 & Hrows1 & Hst1 & Hu1).
    destruct (call_all_canonical _ _ _ _ _ _ Hd Hraw Hc2)
      as (df2 & Hd2 & Hrows2 & Hst2 & Hu2).
    assert (E : rows df2 = rows df1).
    { rewrite Hrows1, Hrows2. unfold chain_mask. f_equal. f_equal.
      apply map_ext. intros i. symmetry. apply existsb_Permutation.
      exact Hperm. }
    exists df1, df2. repeat split; try assumption; congruence.
Qed.

Lemma chain_order_irrelevant_witness :
  exists fd2 df1 df2,
    Main.call_all strptime_none (rev chain_four) fd_four = Ok fd2 /\
    get_data (value_or no_table
                (Main.call_all strptime_none chain_four fd_four)) = Some df1 /\
    get_data fd2 = Some df2 /\
    rows df2 = rows df1 /\
    get_start_timestamp fd2 =
      get_start_timestamp
        (value_or no_table (Main.call_all strptime_none chain_four fd_four)) /\
    get_user_id fd2 =
      get_user_id
        (value_or no_table (Main.call_all strptime_none chain_four fd_four)).
Proof.
  apply (chain_order_irrelevant strptime_none chain_four (rev chain_four)
           fd_four
           (value_or no_table
              (Main.call_all strptime_none chain_four fd_four))
           (frame_of fd_four)).
  - vm_compute. reflexivity.
  - repeat split; vm_compute; reflexivity.
  - apply Permutation_rev.
  - vm_compute. reflexivity.
Defined.

(** ** The session start and the relative time *)

Lemma recomputed_row_related_map (s : float) (rs : list Row) :
  Forall2 same_but_relative (map (recomputed_row s) rs) rs.
Proof.
  induction rs as [|r rs IH]; simpl; constructor; auto.
  apply recomputed_row_same.
Qed.

Lemma recomputation_start (df0 : DataFrame) (fd : FilteredData) :
  recomputation df0 (Ok fd) ->
  exists df, get_data fd = Some df /\
             get_start_timestamp fd = start_of (rows df).
Proof.
  intros H.
  destruct (recomputation_prepare df0 (Ok fd) fd H eq_refl)
    as (self & self' & Hd & Hp & Hdata & Hstart).
  pose proof (Main_prepare_data_spec self self' df0 Hd Hp) as Hspec.
  cbv zeta in Hspec.
  destruct Hspec as (df & Hd' & Hrows & Hst & _).
  exists df. split; [unfold get_data; congruence|].
  unfold get_start_timestamp. rewrite Hstart, Hst, Hrows.
  rewrite (start_of_same _ _ (recomputed_row_related_map _ _)).
  unfold start_of, valid_timestamps. rewrite length_map. reflexivity.
Qed.

Lemma only_clears_related (a b : list Row) :
  Forall2 same_but_relative a b -> only_clears a b.
Proof.
  induction 1 as [|r r' a b H _ IH]; constructor; auto.
  destruct (same_but_relative_cells r r' H) as [Hv Ht].
  unfold same_but_relative in H. split; [|congruence].
  unfold raw_cells.
  rewrite Ht, (f_equal type_ H : type_ r = type_ r'),
    (f_equal eyeleft_pupildiameter H
       : eyeleft_pupildiameter r = eyeleft_pupildiameter r'),
    (f_equal eyeright_pupildiameter H
       : eyeright_pupildiameter r = eyeright_pupildiameter r').
  reflexivity.
Qed.

Lemma call_all_only_clears (strptime_timestamp : string -> result float)
  (cs : list Main.filter_call) (fd fd' : FilteredData) (df : DataFrame) :
  get_data fd = Some df ->
  get_start_timestamp fd = start_of (rows df) ->
  Main.call_all strptime_timestamp cs fd = Ok fd' ->
  exists df',
    get_data fd' = Some df' /\
    get_start_timestamp fd' = start_of (rows df') /\
    only_clears (rows df') (rows df).
Proof.
  revert fd df. induction cs as [|c cs IH]; intros fd df Hd Hst Hc.
  - simpl in Hc. inversion Hc; subst fd'; clear Hc.
    exists df. split; [exact Hd|]. split; [exact Hst|].
    apply only_clears_refl.
  - simpl in Hc.
    destruct (Main.call strptime_timestamp c fd) as [fd1|] eqn:E;
      cbn [bind] in Hc; [|discriminate].
    destruct (call_canonical _ _ _ _ _ Hd E)
      as (df1 & mask & _ & Hd1 & Hrows & _ & Hst1 & _).
    destruct (IH fd1 df1 Hd1 Hst1 Hc) as (df' & Hd' & Hst' & Hoc).
    exists df'. split; [exact Hd'|]. split; [exact Hst'|].
    eapply only_clears_trans; [exact Hoc|].
    rewrite Hrows.
    eapply only_clears_trans;
      [apply only_clears_related; apply recomputed_related|].
    apply only_clears_map_where.
Qed.

Lemma only_clears_valid_timestamps (a b : list Row) (x : float) :
  only_clears a b ->
  In x (map timestamp (List.filter is_valid a)) ->
  In x (map timestamp (List.filter is_valid b)).
Proof.
  induction 1 as [|r r' a b [Hraw Hv] _ IH]; simpl; [tauto|].
  assert (Ht : timestamp r = timestamp r')
    by (unfold raw_cells in Hraw; congruence).
  destruct (is_valid r) eqn:Er.
  - rewrite (Hv eq_refl). simpl. rewrite Ht. tauto.
  - intros Hin. destruct (is_valid r'); simpl; auto.
Qed.

Lemma start_of_only_clears (a b : list Row) (s' : float) :
  only_clears a b ->
  start_of a = Some s' -> isnan s' = false ->
  exists s, start_of b = Some s /\ fle s s' = true.
Proof.
  intros Hoc Ha Hnan. unfold start_of in *.
  destruct (Nat.eqb (length (List.filter is_valid a)) 0) eqn:Ea;
    [discriminate|].
  inversion Ha as [Hs']; clear Ha.
  set (La := map timestamp (List.filter is_valid a)) in *.
  set (Lb := map timestamp (List.filter is_valid b)) in *.
  assert (Hin : In s' Lb).
  { apply (only_clears_valid_timestamps a b s' Hoc). fold La.
    destruct (series_min_spec La) as [[_ E] | [Hin _]].
    - rewrite Hs' in E. rewrite E in Hnan. discriminate.
    - rewrite Hs' in Hin. exact Hin. }
  assert (Hb : Nat.eqb (length (List.filter is_valid b)) 0 = false).
  { apply Nat.eqb_neq. intros E.
    assert (E' : length Lb = 0) by (unfold Lb; rewrite length_map; exact E).
    destruct Lb; [destruct Hin | discriminate]. }
  rewrite Hb. eexists. split; [reflexivity|].
  destruct (series_min_spec Lb) as [[E _] | (_ & _ & Hmin)].
  - assert (Hd : In s' (dropna Lb)) by (apply dropna_not_nan; auto).
    rewrite E in Hd. destruct Hd.
  - rewrite Hs'. apply Hmin; assumption.
Qed.

(** X7. Filtering never moves the session start back. After a
    construction or a [set_data], along any sequence of calls of the seven
    filter methods, a session start that is a number is not earlier than
    the session start before the calls. *)
Theorem session_start_never_moves_back
  (strptime_timestamp : string -> result float)
  (cs : list Main.filter_call) (df0 : DataFrame) (fd fd' : FilteredData)
  (start' : float) :
  recomputation df0 (Ok fd) ->
  Main.call_all strptime_timestamp cs fd = Ok fd' ->
  get_start_timestamp fd' = Some start' -> isnan start' = false ->
  exists start,
    get_start_timestamp fd = Some start /\ fle start start' = true.
Proof.
  intros Hrec Hc Hs' Hnan.
  destruct (recomputation_start df0 fd Hrec) as (df & Hd & Hst).
  destruct (call_all_only_clears _ _ _ _ _ Hd Hst Hc)
    as (df' & Hd' & Hst' & Hoc).
  rewrite Hst' in Hs'.
  destruct (start_of_only_clears _ _ _ Hoc Hs' Hnan) as (s & Hs & Hle).
  exists s. split; [congruence | exact Hle].
Qed.

Lemma session_start_never_moves_back_witness :
  exists start,
    get_start_timestamp fd_four = Some start /\
    fle start (Fin (16000000001 # 10)) = true.
Proof.
  apply (session_start_never_moves_back strptime_none chain_late raw_four
           fd_four
           (value_or no_table
              (Main.call_all strptime_none chain_late fd_four))
           (Fin (16000000001 # 10))).
  - left. exists (Some 704%Z). vm_compute. reflexivity.
  - vm_compute. reflexivity.
  - vm_compute. reflexivity.
  - reflexivity.
Defined.

Lemma fsub_not_negative (s t : float) :
  fle s t = true -> flt (fsub t s) (Fin 0) = false.
Proof.
  destruct s as [b| | |], t as [a| | |]; simpl; try congruence;
    try reflexivity.
  intros H. apply Qle_bool_iff in H.
  unfold Qlt_bool. apply negb_false_iff. apply Qle_bool_iff.
  rewrite !Qred_correct. apply (proj1 (Qle_minus_iff b a)) in H.
  exact H.
Qed.

Lemma fsub_self_finite (q : Q) : fsub (Fin q) (Fin q) = Fin 0.
Proof.
  simpl. unfold fin. f_equal.
  change 0%Q with (Qred 0). apply Qred_complete.
  rewrite Qred_correct. apply Qplus_opp_r.
Qed.

(** X8. After a construction and after every [set_data] of
    src/filtered_data.py, no valid row has a negative relative time, and
    when the session start is a finite number some valid row sits at the
    session start with relative time 0. *)
Theorem relative_timestamp_not_negative
  (df : DataFrame) (res : result FilteredData) (fd' : FilteredData) :
  recomputation df res ->
  res = Ok fd' ->
  exists df',
    get_data fd' = Some df' /\
    (forall r, In r (rows df') -> is_valid r = true ->
               flt (relative_timestamp r) (Fin 0) = false) /\
    (forall start,
       get_start_timestamp fd' = Some start -> isfinite start = true ->
       exists r, In r (rows df') /\ is_valid r = true /\
                 timestamp r = start /\ relative_timestamp r = Fin 0).
Proof.
  intros Hrec Hres.
  destruct (recomputation_prepare df res fd' Hrec Hres)
    as (self & self' & Hd & Hp & Hdata & Hstart).
  pose proof (Main_prepare_data_spec self self' df Hd Hp) as Hspec.
  cbv zeta in Hspec.
  destruct Hspec as (df' & Hd' & Hrows & Hst & _).
  set (start := series_min (valid_timestamps df)) in *.
  exists df'. split; [unfold get_data; congruence|]. split.
  - intros r' Hin Hv. rewrite Hrows in Hin. apply in_map_iff in Hin.
    destruct Hin as (r & <- & Hin).
    rewrite recomputed_row_is_valid in Hv.
    unfold recomputed_row. rewrite Hv. simpl.
    destruct (isnan (timestamp r)) eqn:En.
    { destruct (timestamp r); try discriminate. reflexivity. }
    apply fsub_not_negative.
    assert (Hts : In (timestamp r) (valid_timestamps df))
      by (apply in_valid_timestamps; eauto).
    destruct (series_min_spec (valid_timestamps df))
      as [[E _] | (_ & _ & Hmin)].
    + assert (Hdn : In (timestamp r) (dropna (valid_timestamps df)))
        by (apply dropna_not_nan; auto).
      rewrite E in Hdn. destruct Hdn.
    + apply Hmin; assumption.
  - intros s Hs Hfin. unfold get_start_timestamp in Hs.
    rewrite Hstart, Hst in Hs.
    destruct (Nat.eqb (length (valid_timestamps df)) 0); [discriminate|].
    inversion Hs as [Hs']; clear Hs.
    destruct (series_min_spec (valid_timestamps df))
      as [[_ E] | (Hin & _ & _)].
    + fold start in E. rewrite <- Hs', E in Hfin. discriminate Hfin.
    + fold start in Hin. apply in_valid_timestamps in Hin.
      destruct Hin as (r & Hin & Hv & Ht).
      exists (recomputed_row start r).
      split; [rewrite Hrows; apply in_map; exact Hin|].
      split; [rewrite recomputed_row_is_valid; exact Hv|].
      split; [rewrite recomputed_row_timestamp; congruence|].
      unfold recomputed_row. rewrite Hv. simpl. rewrite Ht, Hs'.
      destruct s; try discriminate. apply fsub_self_finite.
Qed.

Lemma relative_timestamp_not_negative_witness :
  exists df',
    get_data fd_four = Some df' /\
    (forall r, In r (rows df') -> is_valid r = true ->
               flt (relative_timestamp r) (Fin 0) = false) /\
    (forall start,
       get_start_timestamp fd_four = Some start -> isfinite start = true ->
       exists r, In r (rows df') /\ is_valid r = true /\
                 timestamp r = start /\ relative_timestamp r = Fin 0).
Proof.
  apply (relative_timestamp_not_negative raw_four
           (Main.__init__ (Some raw_four) (Some 704%Z)) fd_four).
  - left. exists (Some 704%Z). reflexivity.
  - vm_compute. reflexivity.
Defined.

(** ** Construction *)


(** [_prepare_data] returns as soon as the table, its names stripped, has
    the timestamp column. *)
Lemma with_validity_fresh (df : DataFrame) :
  has_column "is_valid" (strip_data_prefix df) = false ->
  with_validity df = map (set_is_valid true) (rows df).
Proof. intros H. unfold with_validity. rewrite H. reflexivity. Qed.






(** ** Chains that return *)

(** X11. On a table that has the four columns of the data model, a
    sequence of calls of the seven filter methods returns exactly when
    every date string among its arguments is accepted by the parser and,
    unless the sequence is empty, pd.to_datetime converts the timestamps
    of the table. On a table that has the readable time, as every table
    has that the class prepared, no date is converted and the sequence
    returns exactly when the date strings are accepted. *)
Theorem chain_returns_iff_dates_parse
  (strptime_timestamp : string -> result float)
  (cs : list Main.filter_call) (fd : FilteredData) (df : DataFrame) :
  get_data fd = Some df -> has_raw_columns df ->
  ((exists fd', Main.call_all strptime_timestamp cs fd = Ok fd') <->
   Forall (parses strptime_timestamp) cs /\
   (cs = [] \/ datetime_ready df = true)) /\
  (has_column "timestamp_readable" df = true ->
   (exists fd', Main.call_all strptime_timestamp cs fd = Ok fd') <->
   Forall (parses strptime_timestamp) cs).
Proof.
  intros Hd Hraw.
  assert (Hfwd : (exists fd', Main.call_all strptime_timestamp cs fd = Ok fd')
                 -> cs = [] \/ datetime_ready df = true).
  { intros (fd' & Hc). destruct cs as [|c cs]; [left; reflexivity | right].
    cbn [Main.call_all] in Hc.
    destruct (Main.call strptime_timestamp c fd) as [fd0|] eqn:E;
      [|discriminate].
    exact (call_ready _ _ _ _ _ Hd (proj1 Hraw) E). }
  split; [|intros Hread]; split.
  - intros H. split; [|exact (Hfwd H)].
    destruct H as (fd' & Hc). exact (call_all_parses _ _ _ _ _ Hd Hc).
  - intros (Hp & [-> | Hready]).
    + exists fd. reflexivity.
    + exact (call_all_returns _ _ _ _ Hd Hraw Hready Hp).
  - intros (fd' & Hc). exact (call_all_parses _ _ _ _ _ Hd Hc).
  - intros Hp.
    exact (call_all_returns _ _ _ _ Hd Hraw
             (datetime_ready_readable df Hread) Hp).
Qed.

Lemma chain_returns_iff_dates_parse_witness :
  ((exists fd', Main.call_all strptime_2020 chain_dated fd_four = Ok fd') <->
   Forall (parses strptime_2020) chain_dated) /\
  ((exists fd', Main.call_all strptime_none chain_dated fd_four = Ok fd') <->
   Forall (parses strptime_none) chain_dated).
Proof.
  split.
  - apply (chain_returns_iff_dates_parse strptime_2020 chain_dated fd_four
             (frame_of fd_four)).
    + vm_compute. reflexivity.
    + repeat split; vm_compute; reflexivity.
    + vm_compute. reflexivity.
  - apply (chain_returns_iff_dates_parse strptime_none chain_dated fd_four
             (frame_of fd_four)).
    + vm_compute. reflexivity.
    + repeat split; vm_compute; reflexivity.
    + vm_compute. reflexivity.
Defined.

(** ** The passes that compare a row with the row before it *)

Lemma mask_bit_first_false {A : Type} (g : bool * A -> bool)
  (s : list bool) (l : list A) :
  (forall x, g (false, x) = false) ->
  mask_bit (map g (combine (false :: s) l)) 0 = false.
Proof. intros H. destruct l; [reflexivity|]. unfold mask_bit. simpl. apply H. Qed.

(** X13. The first row of a table is never flagged by the spacing, the
    constant-pupil and the async-pupil filters, whatever their arguments:
    the difference to the row before is missing there, and every
    comparison with a missing value is false. *)
Theorem first_row_survives_difference_filters
  (strptime_timestamp : string -> result float)
  (c : Main.filter_call) (fd fd1 : FilteredData) (df : DataFrame) (r : Row) :
  get_data fd = Some df ->
  difference_filter c ->
  Main.call strptime_timestamp c fd = Ok fd1 ->
  rows df !! 0 = Some r ->
  exists df1 r1,
    get_data fd1 = Some df1 /\ rows df1 !! 0 = Some r1 /\
    raw_cells r1 = raw_cells r /\ is_valid r1 = is_valid r.
Proof.
  intros Hd Hdiff Hc Hr.
  destruct (call_rows _ _ _ _ _ Hd Hc) as (df1 & mask & Hm & Hd1 & Hlen & H).
  assert (Hbit : mask_bit mask 0 = false).
  { destruct (rows df) as [|r0 rs] eqn:Erows; [discriminate|].
    destruct c as [| lo hi | | m now | d | n tol | tol];
      try (destruct Hdiff); cbn [mask_of] in Hm;
      repeat match type of Hm with
        | context [getitem ?n ?f df] =>
            let E := fresh "E" in
            destruct (getitem n f df) eqn:E; cbn [bind] in Hm;
            [apply getitem_Ok in E; destruct E as [_ ->]|discriminate]
        end;
      inversion Hm; subst mask; clear Hm; rewrite Erows.
    - reflexivity.
    - cbn [map diff]. cbn [combine map fabs flt fst snd andb].
      apply mask_bit_first_false. reflexivity.
    - reflexivity. }
  destruct (lookup_lt_is_Some_2 (rows df1) 0) as (r1 & Hr1).
  { rewrite Hlen. apply lookup_lt_Some in Hr. exact Hr. }
  destruct (H 0 r1 Hr1) as (r' & Hr' & Hraw & Hv).
  rewrite Hr in Hr'. inversion Hr'; subst r'; clear Hr'.
  exists df1, r1. split; [exact Hd1|]. split; [exact Hr1|].
  split; [exact Hraw|]. rewrite Hv, Hbit, andb_true_r. reflexivity.
Qed.

Lemma first_row_survives_difference_filters_witness :
  exists df1 r1,
    get_data (value_or no_table
                (Main.call strptime_none (Main.ConstantPupil 1 None) fd_four))
      = Some df1 /\
    rows df1 !! 0 = Some r1 /\
    raw_cells r1 = raw_cells first_of_four /\
    is_valid r1 = is_valid first_of_four.
Proof.
  apply (first_row_survives_difference_filters strptime_none
           (Main.ConstantPupil 1 None) fd_four
           (value_or no_table
              (Main.call strptime_none (Main.ConstantPupil 1 None) fd_four))
           (frame_of fd_four) first_of_four).
  - vm_compute. reflexivity.
  - exact I.
  - vm_compute. reflexivity.
  - vm_compute. reflexivity.
Defined.

(** ** The snapshot of [_prepare_data], step by step *)

Lemma assign_valid_list_map (upd : float -> Row -> Row) (G : Row -> float)
  (rs : list Row) :
  assign_valid_list upd (map G (List.filter is_valid rs)) rs
  = map (fun r => if is_valid r then upd (G r) r else r) rs.
Proof.
  induction rs as [|r rs IH]; [reflexivity|].
  cbn [List.filter assign_valid_list map].
  destruct (is_valid r); cbn [map]; rewrite IH; reflexivity.
Qed.

Lemma compress_map_filter {A B : Type} (g : A -> bool) (f : A -> B)
  (l : list A) :
  compress (map g l) (map f l) = map f (List.filter g l).
Proof.
  induction l as [|x l IH]; [reflexivity|].
  simpl. destruct (g x); simpl; rewrite IH; reflexivity.
Qed.

Lemma existsb_id_map {A : Type} (g : A -> bool) (l : list A) :
  existsb id (map g l) = negb (Nat.eqb (length (List.filter g l)) 0).
Proof.
  induction l as [|x l IH]; [reflexivity|].
  simpl. destruct (g x); simpl; [reflexivity | exact IH].
Qed.

Lemma filter_and {A : Type} (p q : A -> bool) (l : list A) :
  List.filter (fun x => p x && q x) l = List.filter q (List.filter p l).
Proof.
  induction l as [|x l IH]; [reflexivity|].
  simpl. destruct (p x); simpl; [destruct (q x)|]; rewrite IH; reflexivity.
Qed.

Lemma window_mask_as_map (rs : list Row) (t w : float) :
  Checkpoint.window_mask (map timestamp rs) t w
  = map (fun r => in_window w t (timestamp r)) rs.
Proof. unfold Checkpoint.window_mask. rewrite map_map. reflexivity. Qed.

(** What the loop of [_smooth_avg_pupildiameter] computes for a valid row
    is the mean over its window. *)
Lemma smoothed_value_spec (w : float) (S : list Row) (r : Row) :
  (let mask :=
     Checkpoint.window_mask (map timestamp (List.filter is_valid S))
       (timestamp r) w in
   if existsb id mask
   then mean (compress mask (map avg_pupildiameter (List.filter is_valid S)))
   else avg_pupildiameter r)
  = smooth_spec w S r.
Proof.
  cbv zeta. unfold smooth_spec. rewrite window_mask_as_map.
  rewrite existsb_id_map, compress_map_filter, filter_and.
  destruct (Nat.eqb _ 0); reflexivity.
Qed.

Lemma smooth_spec_cells (w : float) (a b : list Row) (r r' : Row) :
  map smoothing_cells a = map smoothing_cells b ->
  smoothing_cells r = smoothing_cells r' ->
  smooth_spec w a r = smooth_spec w b r'.
Proof.
  intros Hab Hr. unfold smooth_spec.
  assert (Ht : timestamp r = timestamp r')
    by exact (f_equal (fun c : bool * float * float => snd (fst c)) Hr).
  assert (Ha : avg_pupildiameter r = avg_pupildiameter r')
    by exact (f_equal (fun c : bool * float * float => snd c) Hr).
  rewrite Ht, Ha.
  assert (E : map avg_pupildiameter
                (List.filter
                   (fun x => is_valid x
                             && in_window w (timestamp r') (timestamp x)) a)
              = map avg_pupildiameter
                  (List.filter
                     (fun x => is_valid x
                               && in_window w (timestamp r') (timestamp x))
                     b)).
  { clear Hr Ht Ha. revert b Hab.
    induction a as [|x a IH]; intros [|y b] Hab; try discriminate;
      [reflexivity|].
    simpl in Hab. injection Hab as Hv Hts Havg Hab.
    simpl. rewrite Hv, Hts.
    destruct (is_valid y && in_window w (timestamp r') (timestamp y));
      simpl; rewrite (IH b Hab); congruence. }
  pose proof (f_equal (@length float) E) as El. rewrite !length_map in El.
  rewrite E, El. reflexivity.
Qed.

(** The rows that [_smooth_avg_pupildiameter] returns. *)
Lemma smooth_exact
  (sort_values : list Row -> list Row) (self fd' : FilteredData) (w : float) :
  Checkpoint._smooth_avg_pupildiameter sort_values self w = Ok fd' ->
  exists df df',
    _data self = Some df /\ _data fd' = Some df' /\
    _start_timestamp fd' = _start_timestamp self /\
    _user_id fd' = _user_id self /\
    rows df' =
      map (fun r =>
             set_avg_pupildiameter_smooth
               (if is_valid r
                then smooth_spec w (sort_values (rows df)) r
                else NaN) r)
          (sort_values (rows df)).
Proof.
  unfold Checkpoint._smooth_avg_pupildiameter. intros H.
  destruct (_data self) as [df|]; cbn [bind subscriptable] in H;
    [|discriminate].
  destruct (negb (has_column "timestamp" df)
            || negb (has_column "avg_pupildiameter" df)); [discriminate|].
  inversion H; subst fd'; clear H. cbn [_data _start_timestamp _user_id].
  eexists df, _. split; [reflexivity|]. split; [reflexivity|].
  split; [reflexivity|]. split; [reflexivity|].
  cbn [rows columns]. unfold setitem_scalar. rewrite rows_add_column.
  cbn [rows].
  set (S := sort_values (rows df)).
  transitivity
    (assign_valid_list set_avg_pupildiameter_smooth
       (map (smooth_spec w S)
            (List.filter is_valid
               (map (set_avg_pupildiameter_smooth NaN) S)))
       (map (set_avg_pupildiameter_smooth NaN) S)).
  { f_equal.
    rewrite (filter_is_valid_map (set_avg_pupildiameter_smooth NaN) S)
      by reflexivity.
    rewrite !map_map.
    rewrite (combine_map (fun x => timestamp (set_avg_pupildiameter_smooth NaN x))
               (fun x => avg_pupildiameter (set_avg_pupildiameter_smooth NaN x))),
      map_map.
    apply map_ext. intros r. apply (smoothed_value_spec w S r). }
  rewrite assign_valid_list_map, map_map. apply map_ext. intros r.
  change (is_valid (set_avg_pupildiameter_smooth NaN r)) with (is_valid r).
  destruct (is_valid r); reflexivity.
Qed.

Lemma assign_valid_list_Forall (P : Row -> Prop) (upd : float -> Row -> Row)
  (values : list float) (rs : list Row) :
  (forall v r, P r -> P (upd v r)) ->
  Forall P rs -> Forall P (assign_valid_list upd values rs).
Proof.
  intros Hupd H. revert values.
  induction H as [|r rs Hr H IH]; intros values; [constructor|].
  cbn [assign_valid_list]. destruct (is_valid r).
  - destruct values as [|v values]; constructor; auto.
  - constructor; auto.
Qed.

Lemma sample_cells_valid_timestamps (a b : list Row) :
  map sample_cells a = map sample_cells b ->
  map timestamp (List.filter is_valid a)
  = map timestamp (List.filter is_valid b).
Proof.
  revert b. induction a as [|x a IH]; intros [|y b] H; try discriminate;
    [reflexivity|].
  simpl in H. injection H as Hts Hty Hl Hr Hv H.
  simpl. rewrite Hv. destruct (is_valid y); simpl; rewrite (IH b H);
    congruence.
Qed.

Lemma start_of_cells (a b : list Row) :
  map sample_cells a = map sample_cells b -> start_of a = start_of b.
Proof.
  intros H. unfold start_of.
  pose proof (sample_cells_valid_timestamps a b H) as E.
  pose proof (f_equal (@length float) E) as El. rewrite !length_map in El.
  rewrite E, El. reflexivity.
Qed.

Lemma has_column_reset_checkpoint (c : string) (d : DataFrame) :
  existsb (String.eqb c) Checkpoint._calculated_fields = false ->
  has_column c (Checkpoint._reset_calculated_fields d) = has_column c d.
Proof.
  intros H. unfold Checkpoint._reset_calculated_fields.
  revert d. induction Checkpoint._calculated_fields as [|f fs IH];
    intros d; [reflexivity|].
  simpl in H. apply orb_false_iff in H. destruct H as [Hf Hfs].
  cbn [fold_left]. rewrite (IH Hfs).
  destruct (negb (has_column f d)); [|reflexivity].
  unfold setitem_scalar. rewrite has_column_add_column.
  rewrite (has_column_rows c (columns d) _ (rows d)).
  replace (mkDF (columns d) (rows d)) with d by (destruct d; reflexivity).
  rewrite Hf. apply orb_false_r.
Qed.

(** The snapshot of [_prepare_data] up to the call of the smoothing. *)
Lemma checkpoint_prepare_steps
  (sort_values : list Row -> list Row) (sqrt_Q : Q -> Q) (self fd' : FilteredData)
  (df : DataFrame) (w : float) :
  _data self = Some df ->
  Checkpoint._prepare_data sort_values sqrt_Q self w = Ok fd' ->
  exists df7,
    Checkpoint._smooth_avg_pupildiameter
      sort_values (mkFD (Some df7) (start_of (with_validity df)) (_user_id self)) w
      = Ok fd' /\
    map sample_cells (rows df7) = map sample_cells (with_validity df) /\
    Forall (averaged
              (has_column "eyeleft.pupildiameter" (strip_data_prefix df)
               && has_column "eyeright.pupildiameter" (strip_data_prefix df))
              (start_of (with_validity df)))
           (rows df7).
Proof.
  intros Hd Hp. unfold Checkpoint._prepare_data in Hp. rewrite Hd in Hp.
  set (df0 := strip_data_prefix df) in *.
  set (df1 := if negb (has_column "is_valid" df0)
              then setitem_scalar "is_valid" (set_is_valid true) df0
              else df0) in *.
  assert (Hrows1 : rows df1 = with_validity df).
  { subst df1. unfold with_validity. fold df0.
    destruct (has_column "is_valid" df0); cbn [negb].
    - rewrite map_id. reflexivity.
    - unfold setitem_scalar. rewrite rows_add_column. reflexivity. }
  assert (Hcol1 : forall c, String.eqb c "is_valid" = false ->
                            has_column c df1 = has_column c df0).
  { intros c Hc. subst df1. destruct (negb (has_column "is_valid" df0));
      [|reflexivity].
    unfold setitem_scalar. rewrite has_column_add_column, Hc, orb_false_r.
    reflexivity. }
  destruct (reset_checkpoint_keeps df1) as (Hc3 & _).
  pose proof (fun c H => has_column_reset_checkpoint c df1 H) as Hcol3.
  set (df3 := Checkpoint._reset_calculated_fields df1) in *.
  rewrite Hrows1 in Hc3.
  set (valid_data := List.filter is_valid (rows df3)) in *.
  assert (Hlen : length valid_data
                 = length (List.filter is_valid (with_validity df))).
  { subst valid_data. apply filter_is_valid_length.
    apply sample_cells_validity. exact Hc3. }
  match type of Hp with
  | (st <- ?m ;; _) = _ => destruct m as [[df4 start]|] eqn:E4
  end; cbn [bind] in Hp; [|discriminate].
  assert (H4 : map sample_cells (rows df4) = map sample_cells (rows df3) /\
               start = start_of (with_validity df) /\
               columns df4 = columns df3 /\
               Forall (fun r => is_valid r = true ->
                         forall s, start = Some s ->
                           relative_timestamp r = fsub (timestamp r) s)
                      (rows df4)).
  { unfold start_of. rewrite <- Hlen.
    destruct (Nat.eqb (length valid_data) 0) eqn:El; cbn [negb] in E4.
    - inversion E4; subst; clear E4. split; [reflexivity|].
      split; [reflexivity|]. split; [reflexivity|].
      apply List.Forall_forall. intros r _ _ s Hs. discriminate.
    - destruct (getitem "timestamp" timestamp
                  (mkDF (columns df3) valid_data)) as [ts_valid|] eqn:G1;
        cbn [bind] in E4; [|discriminate].
      destruct (getitem "timestamp" timestamp df3) as [ts|] eqn:G2;
        cbn [bind] in E4; [|discriminate].
      apply getitem_Ok in G1. destruct G1 as [_ ->].
      apply getitem_Ok in G2. destruct G2 as [_ ->].
      inversion E4; subst; clear E4. cbn [rows columns].
      split; [apply assign_valid_cells; reflexivity|].
      split.
      { f_equal. f_equal. cbn [rows]. subst valid_data.
        apply sample_cells_valid_timestamps. exact Hc3. }
      split; [reflexivity|].
      rewrite map_map.
      rewrite (assign_valid_map set_relative_timestamp
                 (fun r => fsub (timestamp r)
                             (series_min (map timestamp
                                (rows (mkDF (columns df3) valid_data)))))).
      apply List.Forall_forall. intros r' Hin Hv s Hs.
      apply in_map_iff in Hin. destruct Hin as (r & <- & _).
      inversion Hs; subst s; clear Hs.
      destruct (is_valid r) eqn:Er; [reflexivity|].
      simpl in Hv. congruence. }
  clear E4. destruct H4 as (Hc4 & Hst & Hcols4 & Hrel4).
  match type of Hp with
  | (df5 <- ?m ;; _) = _ => destruct m as [df5|] eqn:E5
  end; cbn [bind] in Hp; [|discriminate].
  assert (H5 : rows df5 = rows df4 /\
               forall c, String.eqb c "timestamp_readable" = false ->
                         has_column c df5 = has_column c df4).
  { destruct (negb (has_column "timestamp_readable" df4)).
    - destruct (getitem "timestamp" timestamp df4) as [ts5|]; cbn [bind] in E5;
        [|discriminate].
      destruct (to_datetime_strftime ts5); cbn [bind] in E5; [|discriminate].
      inversion E5; subst. split; [apply rows_add_column|].
      intros c Hc. rewrite has_column_add_column, Hc, orb_false_r.
      reflexivity.
    - inversion E5; subst. auto. }
  clear E5. destruct H5 as [Hr5 Hcol5].
  assert (Heyes : has_column "eyeleft.pupildiameter" df5
                  && has_column "eyeright.pupildiameter" df5
                  = has_column "eyeleft.pupildiameter" df0
                    && has_column "eyeright.pupildiameter" df0).
  { rewrite !Hcol5 by reflexivity.
    rewrite !(has_column_columns _ df4 df3 Hcols4).
    unfold df3. rewrite !Hcol3 by reflexivity.
    rewrite !Hcol1 by reflexivity. reflexivity. }
  set (both := has_column "eyeleft.pupildiameter" df0
               && has_column "eyeright.pupildiameter" df0) in *.
  set (df6 := if has_column "eyeleft.pupildiameter" df5
                 && has_column "eyeright.pupildiameter" df5
              then _ else _) in *.
  assert (H6 : map sample_cells (rows df6) = map sample_cells (rows df5) /\
               Forall (averaged both start) (rows df6)).
  { subst df6. rewrite Heyes. destruct both.
    - cbn [rows]. rewrite map_map. split; [reflexivity|].
      rewrite Hr5. apply List.Forall_forall. intros r' Hin.
      apply in_map_iff in Hin. destruct Hin as (r & <- & Hin).
      split; [reflexivity|]. intros Hv s Hs.
      rewrite List.Forall_forall in Hrel4. exact (Hrel4 r Hin Hv s Hs).
    - unfold setitem_scalar. rewrite rows_add_column. cbn [rows].
      rewrite map_map. split; [reflexivity|].
      rewrite Hr5. apply List.Forall_forall. intros r' Hin.
      apply in_map_iff in Hin. destruct Hin as (r & <- & Hin).
      split; [reflexivity|]. intros Hv s Hs.
      rewrite List.Forall_forall in Hrel4. exact (Hrel4 r Hin Hv s Hs). }
  destruct H6 as [Hc6 Hav6].
  set (df7 := if negb (Nat.eqb (length valid_data) 0) then _ else _) in *.
  assert (H7 : map sample_cells (rows df7) = map sample_cells (rows df6) /\
               Forall (averaged both start) (rows df7)).
  { subst df7. destruct (negb (Nat.eqb (length valid_data) 0)).
    - cbn [rows]. split; [apply assign_valid_list_cells; reflexivity|].
      apply assign_valid_list_Forall; [|exact Hav6].
      intros v r Hr. exact Hr.
    - unfold setitem_scalar. rewrite rows_add_column. cbn [rows].
      rewrite map_map. split; [reflexivity|].
      apply List.Forall_forall. intros r' Hin.
      apply in_map_iff in Hin. destruct Hin as (r & <- & Hin).
      rewrite List.Forall_forall in Hav6. exact (Hav6 r Hin). }
  destruct H7 as [Hc7 Hav7].
  exists df7. rewrite <- Hst. split; [exact Hp|]. split; [|exact Hav7].
  rewrite Hc7, Hc6, Hr5, Hc4. exact Hc3.
Qed.

(** ** The table after a construction or a [set_data] of the snapshot *)

Lemma checkpoint_recomputation_prepare
  (sort_values : list Row -> list Row) (sqrt_Q : Q -> Q) (df : DataFrame)
  (res : result FilteredData) (fd' : FilteredData) :
  checkpoint_recomputation sort_values sqrt_Q df res -> res = Ok fd' ->
  exists self self',
    _data self = Some df /\
    Checkpoint._prepare_data sort_values sqrt_Q self Checkpoint.default_time_window_smooth
      = Ok self' /\
    _data fd' = _data self' /\ _start_timestamp fd' = _start_timestamp self'.
Proof.
  intros [[uid ->] | [fd ->]] H.
  - unfold Checkpoint.__init__ in H.
    destruct (Checkpoint._prepare_data sort_values sqrt_Q (mkFD (Some df) None None)
                Checkpoint.default_time_window_smooth) as [self'|] eqn:E;
      cbn [bind] in H; [|discriminate].
    inversion H; subst fd'; clear H.
    exists (mkFD (Some df) None None), self'. auto.
  - unfold Checkpoint.set_data in H.
    exists (mkFD (Some df) (_start_timestamp fd) (_user_id fd)), fd'.
    auto.
Qed.

Lemma checkpoint_recomputation_rows
  (sort_values : list Row -> list Row) (sqrt_Q : Q -> Q) (df : DataFrame)
  (res : result FilteredData) (fd' : FilteredData) :
  checkpoint_recomputation sort_values sqrt_Q df res -> res = Ok fd' ->
  exists df7 df',
    get_data fd' = Some df' /\
    get_start_timestamp fd' = start_of (with_validity df) /\
    map sample_cells (rows df7) = map sample_cells (with_validity df) /\
    Forall (averaged
              (has_column "eyeleft.pupildiameter" (strip_data_prefix df)
               && has_column "eyeright.pupildiameter" (strip_data_prefix df))
              (start_of (with_validity df)))
           (rows df7) /\
    rows df' =
      map (fun r =>
             set_avg_pupildiameter_smooth
               (if is_valid r
                then smooth_spec Checkpoint.default_time_window_smooth
                       (sort_values (rows df7)) r
                else NaN) r)
          (sort_values (rows df7)).
Proof.
  intros Hrec Hres.
  destruct (checkpoint_recomputation_prepare _ _ _ _ _ Hrec Hres)
    as (self & self' & Hd & Hp & Hdata & Hstart).
  destruct (checkpoint_prepare_steps _ _ _ _ _ _ Hd Hp)
    as (df7 & Hsm & Hcells & Hav).
  destruct (smooth_exact _ _ _ _ Hsm) as (d & df' & Hd7 & Hd' & Hst & _ & Hrows).
  cbn [_data] in Hd7. inversion Hd7; subst d; clear Hd7.
  exists df7, df'. split; [unfold get_data; congruence|].
  split; [unfold get_start_timestamp; rewrite Hstart, Hst; reflexivity|].
  auto.
Qed.

(** X14. A construction and every [set_data] of the snapshot class sort
    the table, whatever the sorting routine behind sort_values and the
    order in which it leaves rows of equal timestamps: the rows come out
    in ascending order of timestamp, rows without a timestamp last, and
    they are the rows that came in, each with its supplied cells and its
    validity flag (every row valid when the table came without the
    validity column). *)
Theorem checkpoint_recomputation_sorts
  (sort_values : list Row -> list Row)
  (sqrt_Q : Q -> Q) (df : DataFrame) (res : result FilteredData)
  (fd' : FilteredData) :
  sorts sort_values ->
  checkpoint_recomputation sort_values sqrt_Q df res -> res = Ok fd' ->
  exists df',
    get_data fd' = Some df' /\
    ts_sorted (map timestamp (rows df')) /\
    Permutation (map sample_cells (rows df'))
                (map sample_cells (with_validity df)).
Proof.
  intros Hsorts Hrec Hres.
  destruct (checkpoint_recomputation_rows _ _ _ _ _ Hrec Hres)
    as (df7 & df' & Hd' & _ & Hcells & _ & Hrows).
  exists df'. split; [exact Hd'|].
  assert (E : map sample_cells (rows df')
              = map sample_cells (sort_values (rows df7))).
  { rewrite Hrows, map_map. reflexivity. }
  destruct (Hsorts (rows df7)) as (Hperm & Hsorted & _).
  split.
  - rewrite (sample_cells_timestamps _ _ E). exact Hsorted.
  - rewrite E, <- Hcells. apply Permutation_map. exact Hperm.
Qed.

(** X15. After a construction and after every [set_data] of the snapshot
    class, every row, valid or not, holds as its average diameter half the
    sum of its two diameters when the table has both diameter columns, and
    NaN when one of the two columns is absent. *)
Theorem checkpoint_average_of_both_eyes
  (sort_values : list Row -> list Row)
  (sqrt_Q : Q -> Q) (df : DataFrame) (res : result FilteredData)
  (fd' : FilteredData) :
  sorts sort_values ->
  checkpoint_recomputation sort_values sqrt_Q df res -> res = Ok fd' ->
  exists df',
    get_data fd' = Some df' /\
    forall r, In r (rows df') ->
      avg_pupildiameter r =
        (if has_column "eyeleft.pupildiameter" (strip_data_prefix df)
            && has_column "eyeright.pupildiameter" (strip_data_prefix df)
         then mean_of_eyes r else NaN).
Proof.
  intros Hsorts Hrec Hres.
  destruct (checkpoint_recomputation_rows _ _ _ _ _ Hrec Hres)
    as (df7 & df' & Hd' & _ & _ & Hav & Hrows).
  exists df'. split; [exact Hd'|].
  intros r' Hin. rewrite Hrows in Hin. apply in_map_iff in Hin.
  destruct Hin as (r & <- & Hin).
  apply (proj1 (sorts_In _ _ _ Hsorts)) in Hin.
  rewrite List.Forall_forall in Hav. destruct (Hav r Hin) as [Ha _].
  exact Ha.
Qed.

Lemma in_window_self (q w : Q) :
  (0 <= w)%Q -> in_window (Fin w) (Fin q) (Fin q) = true.
Proof.
  intros Hw. unfold in_window, fge. simpl. unfold fin.
  apply andb_true_iff. split; apply Qle_bool_iff; rewrite !Qred_correct.
  - apply (proj2 (Qle_minus_iff (q + - w) q)).
    assert (E : (q + - (q + - w) == w)%Q) by ring.
    rewrite E. exact Hw.
  - apply (proj2 (Qle_minus_iff q (q + w))).
    assert (E : (q + w + - q == w)%Q) by ring.
    rewrite E. exact Hw.
Qed.

(** X16. The smoothed diameter after a construction and after every
    [set_data] of the snapshot class. A row that is not valid holds NaN. A
    valid row holds the mean of the average diameter over the valid rows
    whose timestamp lies within 0.3 s of its own (its own average diameter
    if there were no such row); and when its timestamp is a finite number
    that window holds the row itself, so the value is the mean. *)
Theorem checkpoint_smoothed_is_window_mean
  (sort_values : list Row -> list Row)
  (sqrt_Q : Q -> Q) (df : DataFrame) (res : result FilteredData)
  (fd' : FilteredData) :
  checkpoint_recomputation sort_values sqrt_Q df res -> res = Ok fd' ->
  exists df',
    get_data fd' = Some df' /\
    (forall r, In r (rows df') -> is_valid r = false ->
               avg_pupildiameter_smooth r = NaN) /\
    (forall r, In r (rows df') -> is_valid r = true ->
               avg_pupildiameter_smooth r
               = smooth_spec Checkpoint.default_time_window_smooth
                   (rows df') r) /\
    (forall r, In r (rows df') -> is_valid r = true ->
               isfinite (timestamp r) = true ->
               In r (smoothing_window Checkpoint.default_time_window_smooth
                       (rows df') r) /\
               avg_pupildiameter_smooth r
               = mean (map avg_pupildiameter
                         (smoothing_window
                            Checkpoint.default_time_window_smooth
                            (rows df') r))).
Proof.
  intros Hrec Hres.
  destruct (checkpoint_recomputation_rows _ _ _ _ _ Hrec Hres)
    as (df7 & df' & Hd' & _ & _ & _ & Hrows).
  set (S := sort_values (rows df7)) in *.
  set (w := Checkpoint.default_time_window_smooth) in *.
  assert (Hcells : map smoothing_cells (rows df') = map smoothing_cells S).
  { rewrite Hrows, map_map. reflexivity. }
  assert (Hvalid : forall r, In r (rows df') -> is_valid r = true ->
                     avg_pupildiameter_smooth r = smooth_spec w (rows df') r).
  { intros r' Hin Hv. rewrite Hrows in Hin. apply in_map_iff in Hin.
    destruct Hin as (r & <- & Hin).
    change (is_valid r = true) in Hv.
    cbn [avg_pupildiameter_smooth set_avg_pupildiameter_smooth].
    rewrite Hv. symmetry. apply smooth_spec_cells; [exact Hcells|].
    reflexivity. }
  exists df'. split; [exact Hd'|]. split; [|split; [exact Hvalid|]].
  - intros r' Hin Hv. rewrite Hrows in Hin. apply in_map_iff in Hin.
    destruct Hin as (r & <- & Hin).
    change (is_valid r = false) in Hv.
    cbn [avg_pupildiameter_smooth set_avg_pupildiameter_smooth].
    rewrite Hv. reflexivity.
  - intros r Hin Hv Hfin.
    assert (Hmem : In r (smoothing_window w (rows df') r)).
    { unfold smoothing_window. apply filter_In. split; [exact Hin|].
      rewrite Hv. cbn [andb].
      destruct (timestamp r) as [q| | |]; try discriminate.
      apply in_window_self. discriminate. }
    split; [exact Hmem|].
    rewrite (Hvalid r Hin Hv). unfold smooth_spec.
    fold (smoothing_window w (rows df') r).
    destruct (smoothing_window w (rows df') r); [destruct Hmem|].
    reflexivity.
Qed.

Lemma checkpoint_recomputation_sorts_witness :
  exists df',
    get_data fd_shuffled = Some df' /\
    ts_sorted (map timestamp (rows df')) /\
    Permutation (map sample_cells (rows df'))
                (map sample_cells (with_validity raw_shuffled)).
Proof.
  apply (checkpoint_recomputation_sorts sort_values_timestamp sqrt_down
           raw_shuffled
           (Checkpoint.__init__ sort_values_timestamp sqrt_down
              (Some raw_shuffled) None)
           fd_shuffled).
  - exact sort_values_timestamp_sorts.
  - left. exists None. reflexivity.
  - vm_compute. reflexivity.
Defined.

Lemma checkpoint_average_of_both_eyes_witness :
  exists df',
    get_data fd_three = Some df' /\
    forall r, In r (rows df') ->
      avg_pupildiameter r =
        (if has_column "eyeleft.pupildiameter" (strip_data_prefix raw_three)
            && has_column "eyeright.pupildiameter"
                 (strip_data_prefix raw_three)
         then mean_of_eyes r else NaN).
Proof.
  apply (checkpoint_average_of_both_eyes sort_values_timestamp sqrt_down
           raw_three
           (Checkpoint.__init__ sort_values_timestamp sqrt_down
              (Some raw_three) (Some 704%Z))
           fd_three).
  - exact sort_values_timestamp_sorts.
  - left. exists (Some 704%Z). reflexivity.
  - vm_compute. reflexivity.
Defined.

Lemma checkpoint_smoothed_is_window_mean_witness :
  exists df',
    get_data fd_three = Some df' /\
    (forall r, In r (rows df') -> is_valid r = false ->
               avg_pupildiameter_smooth r = NaN) /\
    (forall r, In r (rows df') -> is_valid r = true ->
               avg_pupildiameter_smooth r
               = smooth_spec Checkpoint.default_time_window_smooth
                   (rows df') r) /\
    (forall r, In r (rows df') -> is_valid r = true ->
               isfinite (timestamp r) = true ->
               In r (smoothing_window Checkpoint.default_time_window_smooth
                       (rows df') r) /\
               avg_pupildiameter_smooth r
               = mean (map avg_pupildiameter
                         (smoothing_window
                            Checkpoint.default_time_window_smooth
                            (rows df') r))).
Proof.
  apply (checkpoint_smoothed_is_window_mean sort_values_timestamp sqrt_down
           raw_three
           (Checkpoint.__init__ sort_values_timestamp sqrt_down
              (Some raw_three) (Some 704%Z))
           fd_three).
  - left. exists (Some 704%Z). reflexivity.
  - vm_compute. reflexivity.
Defined.

(** ** [validate_filters] of the snapshot class *)

Lemma filter_split_length {A : Type} (p : A -> bool) (l : list A) :
  length (List.filter p l) + length (List.filter (fun x => negb (p x)) l)
  = length l.
Proof.
  induction l as [|x l IH]; [reflexivity|].
  simpl. destruct (p x); simpl; lia.
Qed.

Lemma filter_nonempty {A : Type} (p : A -> bool) (l : list A) :
  0 < length (List.filter p l) <-> exists x, In x l /\ p x = true.
Proof.
  split.
  - intros H. destruct (List.filter p l) as [|x f] eqn:E; [simpl in H; lia|].
    exists x. apply filter_In. rewrite E. left. reflexivity.
  - intros (x & Hin & Hp).
    assert (Hx : In x (List.filter p l)) by (apply filter_In; auto).
    destruct (List.filter p l); [destruct Hx | simpl; lia].
Qed.

(** X17. [validate_filters] prints its message, with the numbers of valid
    and of invalid rows and the number of rows, exactly when the object
    has a table with the validity column in which some row is valid and
    some row is not. *)
Theorem validate_filters_accepts (self : FilteredData) (v n t : Z) :
  Checkpoint.validate_filters self = inr (v, n, t) <->
  exists df,
    get_data self = Some df /\
    has_column "is_valid" df = true /\
    (exists r, In r (rows df) /\ is_valid r = true) /\
    (exists r, In r (rows df) /\ is_valid r = false) /\
    v = Z.of_nat (length (List.filter is_valid (rows df))) /\
    n = Z.of_nat (length (List.filter (fun r => negb (is_valid r)) (rows df)))
    /\ t = Z.of_nat (length (rows df)).
Proof.
  unfold Checkpoint.validate_filters, get_data.
  destruct (_data self) as [df|].
  2:{ split; [discriminate|]. intros (df & H & _). discriminate. }
  pose proof (filter_split_length is_valid (rows df)) as Hsplit.
  pose proof (filter_nonempty is_valid (rows df)) as Hv.
  pose proof (filter_nonempty (fun r => negb (is_valid r)) (rows df)) as Hn.
  destruct (has_column "is_valid" df) eqn:Ecol; cbn [negb].
  2:{ split; [discriminate|]. intros (d & H & Hc & _).
      inversion H; subst d. congruence. }
  set (V := length (List.filter is_valid (rows df))) in *.
  set (N := length (List.filter (fun r => negb (is_valid r)) (rows df))) in *.
  destruct (Z.of_nat (length (rows df)) - Z.of_nat V =? 0)%Z eqn:E1.
  { apply Z.eqb_eq in E1. split; [discriminate|].
    intros (d & H & _ & _ & (r & Hin & Hr) & _).
    inversion H; subst d; clear H. exfalso.
    assert (0 < N) by (apply Hn; exists r; rewrite Hr; auto). lia. }
  apply Z.eqb_neq in E1.
  destruct (Z.of_nat V =? 0)%Z eqn:E2.
  { apply Z.eqb_eq in E2. split; [discriminate|].
    intros (d & H & _ & (r & Hin & Hr) & _).
    inversion H; subst d; clear H. exfalso.
    assert (0 < V) by (apply Hv; exists r; auto). lia. }
  apply Z.eqb_neq in E2. split.
  - intros H. inversion H; subst v n t; clear H. exists df.
    split; [reflexivity|]. split; [exact Ecol|].
    split; [apply Hv; lia|]. split.
    { destruct (proj1 Hn ltac:(lia)) as (r & Hin & Hr). exists r.
      split; [exact Hin|]. apply negb_true_iff. exact Hr. }
    repeat split; lia.
  - intros (d & H & _ & _ & _ & -> & -> & ->).
    inversion H; subst d; clear H. fold V N. repeat f_equal. lia.
Qed.

(** X18. Right after a construction from a table that comes without the
    validity column, [validate_filters] raises the RuntimeError that says
    that no row was filtered out: every row is valid. *)
Theorem validate_filters_rejects_unfiltered_table
  (sort_values : list Row -> list Row)
  (sqrt_Q : Q -> Q) (raw_df : DataFrame) (user_id : option Z)
  (fd : FilteredData) :
  sorts sort_values ->
  has_column "is_valid" (strip_data_prefix raw_df) = false ->
  Checkpoint.__init__ sort_values sqrt_Q (Some raw_df) user_id = Ok fd ->
  Checkpoint.validate_filters fd = inl nothing_filtered.
Proof.
  intros Hsorts Hv Hinit.
  destruct (checkpoint_init_prepared _ _ _ _ _ Hsorts Hinit)
    as (df & Hd & Hcol & _).
  assert (Hrec : checkpoint_recomputation sort_values sqrt_Q raw_df
                   (Checkpoint.__init__ sort_values sqrt_Q (Some raw_df) user_id))
    by (left; eauto).
  destruct (checkpoint_recomputation_rows _ _ _ _ _ Hrec Hinit)
    as (df7 & df' & Hd' & _ & Hcells & _ & Hrows).
  rewrite Hd in Hd'. inversion Hd'; subst df'; clear Hd'.
  assert (Hall : forall r, In r (rows df) -> is_valid r = true).
  { intros r' Hin. rewrite Hrows in Hin. apply in_map_iff in Hin.
    destruct Hin as (r & <- & Hin).
    change (is_valid r = true).
    apply (proj1 (sorts_In _ _ _ Hsorts)) in Hin.
    apply sample_cells_validity in Hcells.
    rewrite (with_validity_fresh raw_df Hv), map_map in Hcells.
    assert (Hin' : In (is_valid r) (map is_valid (rows df7)))
      by (apply in_map; exact Hin).
    rewrite Hcells in Hin'. apply in_map_iff in Hin'.
    destruct Hin' as (r0 & Hr0 & _). rewrite <- Hr0. reflexivity. }
  unfold Checkpoint.validate_filters. unfold get_data in Hd. rewrite Hd, Hcol.
  cbn [negb].
  assert (Hlen : length (List.filter is_valid (rows df)) = length (rows df)).
  { clear -Hall. induction (rows df) as [|r rs IH]; [reflexivity|].
    simpl. rewrite (Hall r (or_introl eq_refl)). simpl. f_equal.
    apply IH. intros r' Hr'. apply Hall. right. exact Hr'. }
  rewrite Hlen, Z.sub_diag. reflexivity.
Qed.

Lemma validate_filters_rejects_unfiltered_table_witness :
  Checkpoint.validate_filters fd_three = inl nothing_filtered.
Proof.
  apply (validate_filters_rejects_unfiltered_table sort_values_timestamp
           sqrt_down raw_three (Some 704%Z) fd_three).
  - exact sort_values_timestamp_sorts.
  - reflexivity.
  - vm_compute. reflexivity.
Defined.

(** ** The timing file *)

Lemma load_fold_lookup (items : list CalibrationProcessor.timing_item)
  (d0 : gmap string (list float)) (s : string) :
  fold_left (fun d item =>
               <[CalibrationProcessor.shelf item
                 := CalibrationProcessor.time_range item]> d) items d0 !! s
  = match last_entry s items with
    | Some item => Some (CalibrationProcessor.time_range item)
    | None => d0 !! s
    end.
Proof.
  unfold last_entry. induction items as [|item items IH] using rev_ind.
  - reflexivity.
  - rewrite fold_left_app, rev_app_distr. cbn [fold_left rev app List.find].
    destruct (String.eqb (CalibrationProcessor.shelf item) s) eqn:E.
    + apply String.eqb_eq in E. subst s. apply lookup_insert_eq.
    + apply String.eqb_neq in E. rewrite lookup_insert_ne by exact E.
      exact IH.
Qed.

(** X19. [load_time_ranges]: without an entry for the subject it raises
    ValueError; otherwise it returns a dict that maps every shelf name of
    the subject's list to the time range of the last entry of that name,
    and holds no other key. *)
Theorem load_time_ranges_last_entry_wins
  (all_timings : gmap string (list CalibrationProcessor.timing_item))
  (user_id : Z) :
  (all_timings !! pretty user_id = None ->
   CalibrationProcessor.load_time_ranges all_timings user_id
   = Raise (ValueError ("No timings for user " ++ pretty user_id))) /\
  (forall items,
     all_timings !! pretty user_id = Some items ->
     exists time_ranges,
       CalibrationProcessor.load_time_ranges all_timings user_id
       = Ok time_ranges /\
       forall s, time_ranges !! s
                 = CalibrationProcessor.time_range <$> last_entry s items).
Proof.
  unfold CalibrationProcessor.load_time_ranges. split.
  - intros ->. reflexivity.
  - intros items ->. eexists. split; [reflexivity|].
    intros s. rewrite load_fold_lookup.
    destruct (last_entry s items); reflexivity.
Qed.

Lemma load_time_ranges_last_entry_wins_witness :
  exists time_ranges,
    CalibrationProcessor.load_time_ranges timings_twice 704 = Ok time_ranges /\
    forall s, time_ranges !! s
              = CalibrationProcessor.time_range
                  <$> last_entry s
                        [ CalibrationProcessor.mkItem "Positive"
                            [Fin (30 # 1); Fin (60 # 1)];
                          CalibrationProcessor.mkItem "Baseline"
                            [Fin 0; Fin (30 # 1)];
                          CalibrationProcessor.mkItem "Positive"
                            [Fin (35 # 1); Fin (55 # 1)] ].
Proof.
  apply (proj2 (load_time_ranges_last_entry_wins timings_twice 704)).
  vm_compute. reflexivity.
Defined.

(** ** The baseline and the speeds *)

Lemma compute_baseline_unfold (sqrt_Q : Q -> Q) (fd : FilteredData)
  (time_ranges : gmap string (list float)) (df : DataFrame)
  (t0 t1 : float) (seg : list (nat * Row)) :
  get_data fd = Some df ->
  time_ranges !! "Baseline" = Some [t0; t1] ->
  CalibrationProcessor.loc_phase df t0 t1 = Ok seg ->
  CalibrationProcessor.compute_baseline sqrt_Q fd time_ranges
  = if Nat.eqb (length seg) 0
    then Raise (ValueError "No valid data in baseline")
    else Ok (series_mean (smoothed_of seg),
             series_std sqrt_Q (smoothed_of seg) 1).
Proof.
  intros Hd Ht Hseg. unfold CalibrationProcessor.compute_baseline.
  unfold dict_getitem. rewrite Ht. cbn [bind CalibrationProcessor.unpack2].
  rewrite Hd. cbn [bind subscriptable]. rewrite Hseg. cbn [bind].
  reflexivity.
Qed.

(** X20. [compute_baseline]: with no valid row in the Baseline window it
    raises ValueError, and with rows of which fewer than two hold a
    smoothed diameter (a single row, for instance) it returns a baseline
    deviation that is NaN, whatever the square root. *)
Theorem baseline_std_needs_two_samples
  (sqrt_Q : Q -> Q) (fd : FilteredData)
  (time_ranges : gmap string (list float)) (df : DataFrame)
  (t0 t1 : float) (seg : list (nat * Row)) :
  get_data fd = Some df ->
  time_ranges !! "Baseline" = Some [t0; t1] ->
  CalibrationProcessor.loc_phase df t0 t1 = Ok seg ->
  (seg = [] ->
   CalibrationProcessor.compute_baseline sqrt_Q fd time_ranges
   = Raise (ValueError "No valid data in baseline")) /\
  (seg <> [] -> length (dropna (smoothed_of seg)) <= 1 ->
   CalibrationProcessor.compute_baseline sqrt_Q fd time_ranges
   = Ok (series_mean (smoothed_of seg), NaN)).
Proof.
  intros Hd Ht Hseg.
  rewrite (compute_baseline_unfold _ _ _ _ _ _ _ Hd Ht Hseg). split.
  - intros ->. reflexivity.
  - intros Hne Hlen. destruct seg as [|p seg]; [congruence|].
    cbn [length Nat.eqb]. unfold series_std.
    destruct (Z.of_nat (length (dropna (smoothed_of (p :: seg)))) <=? 1)%Z
      eqn:E; [reflexivity|].
    apply Z.leb_gt in E. lia.
Qed.

Lemma baseline_std_needs_two_samples_witness :
  CalibrationProcessor.compute_baseline sqrt_down fd_phases time_ranges_704
  = Ok (series_mean
          (smoothed_of
             (value_or []
                (CalibrationProcessor.loc_phase (frame_of fd_phases)
                   (Fin 0) (Fin (30 # 1))))),
        NaN).
Proof.
  apply (proj2 (baseline_std_needs_two_samples sqrt_down fd_phases
                  time_ranges_704 (frame_of fd_phases) (Fin 0) (Fin (30 # 1))
                  (value_or []
                     (CalibrationProcessor.loc_phase (frame_of fd_phases)
                        (Fin 0) (Fin (30 # 1))))
                  ltac:(vm_compute; reflexivity)
                  ltac:(vm_compute; reflexivity)
                  ltac:(vm_compute; reflexivity))).
  - vm_compute. discriminate.
  - vm_compute. lia.
Defined.

(** X21. The rise speed when the peak sits at the start of the phase.
    When the relative time of the peak row of the Positive window is the
    start of the phase, so that the denominator [t_peak - t0] is zero,
    [compute_positive_rise_speed] raises nothing: it returns a float that
    is not finite (NaN or an infinity). *)
Theorem rise_speed_at_phase_start_not_finite
  (fd : FilteredData) (time_ranges : gmap string (list float))
  (baseline_mean : float) (df : DataFrame)
  (t0 t1 : float) (seg : list (nat * Row)) (idx_peak : nat) (t_peak : float) :
  get_data fd = Some df ->
  time_ranges !! "Positive" = Some [t0; t1] ->
  CalibrationProcessor.loc_phase df t0 t1 = Ok seg ->
  CalibrationProcessor.idxmax avg_pupildiameter_smooth seg = Ok idx_peak ->
  CalibrationProcessor.seg_loc seg idx_peak relative_timestamp = Ok t_peak ->
  t_peak = t0 ->
  exists v,
    CalibrationProcessor.compute_positive_rise_speed fd time_ranges
      baseline_mean = Ok v /\
    isfinite v = false.
Proof.
  intros Hd Hphase Hseg Hpeak Htp Hzero. subst t_peak.
  destruct (idx_extreme_label _ _ _ _ Hpeak) as (q & Hq & Hql).
  destruct (seg_loc_Ok seg idx_peak avg_pupildiameter_smooth q Hq Hql)
    as (val_peak & Hvp).
  assert (Hlen : Nat.eqb (length seg) 0 = false).
  { destruct seg; [destruct Hq | reflexivity]. }
  exists (fdiv (fsub val_peak baseline_mean) (fsub t0 t0)).
  split; [|apply fdiv_degenerate].
  unfold get_data in Hd.
  unfold CalibrationProcessor.compute_positive_rise_speed.
  unfold dict_getitem, get_data. rewrite Hphase, Hd.
  cbn [bind CalibrationProcessor.unpack2 subscriptable].
  rewrite Hseg. cbn [bind]. rewrite Hlen, Hpeak. cbn [bind].
  rewrite Htp. cbn [bind]. rewrite Hvp. reflexivity.
Qed.

Lemma rise_speed_at_phase_start_not_finite_witness :
  exists v,
    CalibrationProcessor.compute_positive_rise_speed fd_peak_at_start
      time_ranges_704 (Fin 2) = Ok v /\
    isfinite v = false.
Proof.
  apply (rise_speed_at_phase_start_not_finite fd_peak_at_start
           time_ranges_704 (Fin 2) (frame_of fd_peak_at_start)
           (Fin (30 # 1)) (Fin (60 # 1))
           (value_or []
              (CalibrationProcessor.loc_phase (frame_of fd_peak_at_start)
                 (Fin (30 # 1)) (Fin (60 # 1))))
           1 (Fin (30 # 1))).
  - vm_compute. reflexivity.
  - vm_compute. reflexivity.
  - vm_compute. reflexivity.
  - vm_compute. reflexivity.
  - vm_compute. reflexivity.
  - reflexivity.
Defined.

(** ** [process] *)

Lemma last_entry_In (s : string)
  (items : list CalibrationProcessor.timing_item)
  (item : CalibrationProcessor.timing_item) :
  last_entry s items = Some item ->
  In item items /\ CalibrationProcessor.shelf item = s.
Proof.
  unfold last_entry. intros H. apply find_some in H. destruct H as [Hin He].
  apply in_rev in Hin. apply String.eqb_eq in He. auto.
Qed.

Lemma mean_ratios_agree (fd : FilteredData)
  (time_ranges : gmap string (list float)) (baseline_mean v v' : float) :
  CalibrationProcessor.compute_positive_mean_ratio fd time_ranges
    baseline_mean = Ok v ->
  CalibrationProcessor.compute_negative_mean_ratio fd time_ranges
    baseline_mean = Ok v' ->
  v' = v.
Proof.
  unfold CalibrationProcessor.compute_positive_mean_ratio,
    CalibrationProcessor.compute_negative_mean_ratio.
  destruct (dict_getitem time_ranges "Positive") as [r|]; cbn [bind];
    [|discriminate].
  destruct (CalibrationProcessor.unpack2 r) as [[t0 t1]|]; cbn [bind];
    [|discriminate].
  destruct (subscriptable (get_data fd)) as [df|]; cbn [bind];
    [|discriminate].
  destruct (CalibrationProcessor.loc_phase df t0 t1) as [seg|]; cbn [bind];
    [|discriminate].
  destruct (Nat.eqb (length seg) 0); [discriminate|].
  intros H1 H2. congruence.
Qed.

(** X22. [process] returns a record only from a timing file whose list
    for the subject has an entry named 'negative' in lower case, beside
    the phases it reads under their documented names; with the documented
    names alone it raises. In a record that it returns, the user is the
    one asked for and the mean ratio of the Negative phase is the mean
    ratio of the Positive phase. *)
Theorem process_needs_lowercase_negative
  (sqrt_Q : Q -> Q) (fd : FilteredData) (user_id : Z)
  (all_timings : gmap string (list CalibrationProcessor.timing_item))
  (record : CalibrationData.CalibrationData) :
  CalibrationProcessor.process sqrt_Q fd user_id all_timings = Ok record ->
  (exists items item,
     all_timings !! pretty user_id = Some items /\
     In item items /\ CalibrationProcessor.shelf item = "negative") /\
  CalibrationData.user_id record = PyInt user_id /\
  CalibrationData.negative_mean_ratio record
  = CalibrationData.positive_mean_ratio record.
Proof.
  unfold CalibrationProcessor.process. intros H.
  destruct (CalibrationProcessor.load_time_ranges all_timings user_id)
    as [tr|] eqn:Eload; cbn [bind] in H; [|discriminate].
  destruct (CalibrationProcessor.compute_baseline sqrt_Q fd tr)
    as [[bm bs]|]; cbn [bind] in H; [|discriminate].
  destruct (CalibrationProcessor.compute_positive_rise_speed fd tr bm)
    as [pos_rise|]; cbn [bind] in H; [|discriminate].
  destruct (CalibrationProcessor.compute_positive_fall_speed fd tr bm)
    as [pos_fall|]; cbn [bind] in H; [|discriminate].
  destruct (CalibrationProcessor.compute_negative_rise_speed fd tr bm)
    as [neg_rise|] eqn:Erise; cbn [bind] in H; [|discriminate].
  destruct (CalibrationProcessor.compute_negative_fall_speed fd tr bm)
    as [neg_fall|]; cbn [bind] in H; [|discriminate].
  destruct (CalibrationProcessor.compute_neutral2_recovery_speed fd tr bm)
    as [neutral2_r|]; cbn [bind] in H; [|discriminate].
  destruct (CalibrationProcessor.compute_positive_mean_ratio fd tr bm)
    as [pos_ratio|] eqn:Epos; cbn [bind] in H; [|discriminate].
  destruct (CalibrationProcessor.compute_negative_mean_ratio fd tr bm)
    as [neg_ratio|] eqn:Eneg; cbn [bind] in H; [|discriminate].
  inversion H; subst record; clear H. cbn.
  split; [|split; [reflexivity|]].
  - destruct (tr !! "negative") as [r|] eqn:Ekey.
    2:{ rewrite (negative_rise_speed_needs_lowercase fd tr bm Ekey) in Erise.
        discriminate. }
    unfold CalibrationProcessor.load_time_ranges in Eload.
    destruct (all_timings !! pretty user_id) as [items|] eqn:Eitems;
      [|discriminate].
    inversion Eload; subst tr; clear Eload.
    rewrite load_fold_lookup in Ekey.
    destruct (last_entry "negative" items) as [item|] eqn:Elast;
      [|rewrite lookup_empty in Ekey; discriminate].
    destruct (last_entry_In _ _ _ Elast) as [Hin Hs].
    exists items, item. auto.
  - f_equal. exact (mean_ratios_agree _ _ _ _ _ Epos Eneg).
Qed.

Lemma process_needs_lowercase_negative_witness :
  (exists items item,
     timings_705 !! pretty 705%Z = Some items /\
     In item items /\ CalibrationProcessor.shelf item = "negative") /\
  CalibrationData.user_id record_705 = PyInt 705 /\
  CalibrationData.negative_mean_ratio record_705
  = CalibrationData.positive_mean_ratio record_705.
Proof.
  apply (process_needs_lowercase_negative sqrt_down fd_phases 705 timings_705
           record_705).
  vm_compute. reflexivity.
Defined.

(** ** Reading a calibration record *)

(** X23. [load] reads the ten keys of [to_dict] and nothing else: from a
    file whose dict holds the ten values of a record, beside any other
    keys, it returns that record; and from a file whose dict lacks one of
    the ten keys it raises KeyError for the first missing key, in the
    order of the arguments of the constructor. *)
Theorem load_reads_the_ten_keys
  (text : Type) (json_load : text -> result (gmap string scalar))
  (path : string) (fs : gmap string text) (f : text)
  (data : gmap string scalar) :
  fs !! path = Some f -> json_load f = Ok data ->
  (forall self, CalibrationData.to_dict self ⊆ data ->
                CalibrationData.load text json_load path fs = Ok self) /\
  (forall k, In k to_dict_keys -> data !! k = None ->
     exists k', first_missing data to_dict_keys k' /\
                CalibrationData.load text json_load path fs
                = Raise (KeyError k')).
Proof.
  intros Hf Hj. split.
  - intros self Hsub. unfold CalibrationData.load. rewrite Hf, Hj.
    cbn [bind].
    assert (G : forall k v, CalibrationData.to_dict self !! k = Some v ->
                            dict_getitem data k = Ok v).
    { intros k v Hk. unfold dict_getitem.
      rewrite (lookup_weaken _ _ _ _ Hk Hsub). reflexivity. }
    destruct self.
    rewrite (G "user_id" user_id) by (vm_compute; reflexivity).
    cbn [bind].
    rewrite (G "baseline_mean" baseline_mean) by (vm_compute; reflexivity).
    cbn [bind].
    rewrite (G "baseline_std" baseline_std) by (vm_compute; reflexivity).
    cbn [bind].
    rewrite (G "positive_rise_speed" positive_rise_speed)
      by (vm_compute; reflexivity).
    cbn [bind].
    rewrite (G "negative_rise_speed" negative_rise_speed)
      by (vm_compute; reflexivity).
    cbn [bind].
    rewrite (G "positive_fall_speed" positive_fall_speed)
      by (vm_compute; reflexivity).
    cbn [bind].
    rewrite (G "negative_fall_speed" negative_fall_speed)
      by (vm_compute; reflexivity).
    cbn [bind].
    rewrite (G "neutral2_recovery_speed" neutral2_recovery_speed)
      by (vm_compute; reflexivity).
    cbn [bind].
    rewrite (G "positive_mean_ratio" positive_mean_ratio)
      by (vm_compute; reflexivity).
    cbn [bind].
    rewrite (G "negative_mean_ratio" negative_mean_ratio)
      by (vm_compute; reflexivity).
    reflexivity.
  - intros k Hk Hnone. unfold CalibrationData.load. rewrite Hf, Hj.
    cbn [bind]. unfold dict_getitem, first_missing, to_dict_keys.
    repeat match goal with
      | |- context [data !! ?key] =>
          let E := fresh "E" in
          destruct (data !! key) eqn:E; cbn [bind];
          [| exists key; split; [|reflexivity];
             match goal with
             | |- exists present rest, ?l = _ /\ _ =>
                 let rec go pre l :=
                   lazymatch l with
                   | key :: ?rest => exists (rev pre), rest
                   | ?x :: ?l' => go (x :: pre) l'
                   end in
                 go (@nil string) l
             end;
             split; [reflexivity|]; split; [|assumption];
             repeat constructor; eauto ]
      end.
    exfalso. unfold to_dict_keys in Hk. simpl in Hk.
    repeat (destruct Hk as [<- | Hk]; [congruence|]). exact Hk.
Qed.

Lemma load_reads_the_ten_keys_witness :
  (forall self,
     CalibrationData.to_dict self
       ⊆ <["comment" := PyNone]> (CalibrationData.to_dict record_704) ->
     CalibrationData.load (list (string * scalar)) load_pairs
       "calibration.json"
       {[ "calibration.json" :=
            dump_pairs (<["comment" := PyNone]>
                          (CalibrationData.to_dict record_704)) ]}
     = Ok self) /\
  (forall k, In k to_dict_keys ->
     <["comment" := PyNone]> (CalibrationData.to_dict record_704) !! k = None ->
     exists k',
       first_missing
         (<["comment" := PyNone]> (CalibrationData.to_dict record_704))
         to_dict_keys k' /\
       CalibrationData.load (list (string * scalar)) load_pairs
         "calibration.json"
         {[ "calibration.json" :=
              dump_pairs (<["comment" := PyNone]>
                            (CalibrationData.to_dict record_704)) ]}
       = Raise (KeyError k')).
Proof.
  apply (load_reads_the_ten_keys (list (string * scalar)) load_pairs
           "calibration.json" _
           (dump_pairs (<["comment" := PyNone]>
                          (CalibrationData.to_dict record_704)))).
  - apply lookup_singleton_eq.
  - unfold load_pairs, dump_pairs. rewrite list_to_map_to_list. reflexivity.
Defined.

(** ** The std-outlier filter on a table that was just built *)

Lemma filter_labelled_as_compress {A : Type} (h : Row -> bool)
  (ls : list A) (rs : list Row) :
  map fst (List.filter (fun p => h (snd p)) (combine ls rs))
  = compress (map h rs) ls.
Proof.
  revert ls. induction rs as [|r rs IH]; intros [|l ls]; try reflexivity.
  cbn [combine List.filter map compress snd].
  destruct (h r); cbn [map fst]; rewrite IH; reflexivity.
Qed.

Lemma compress_map {A B : Type} (f : A -> B) (mask : list bool)
  (a : list A) :
  map f (compress mask a) = compress mask (map f a).
Proof.
  revert a. induction mask as [|b mask IH]; intros [|x a]; try reflexivity.
  cbn [compress map]. destruct b; cbn [map]; rewrite IH; reflexivity.
Qed.

Lemma filter_combine_rows {A : Type} (h : Row -> bool) (ls : list A)
  (rs : list Row) :
  length ls = length rs ->
  map snd (List.filter (fun p => h (snd p)) (combine ls rs))
  = List.filter h rs.
Proof.
  revert ls. induction rs as [|r rs IH]; intros [|l ls] Hlen;
    try discriminate; [reflexivity|].
  cbn [combine List.filter snd]. injection Hlen as Hlen.
  destruct (h r); cbn [map snd]; rewrite (IH ls Hlen); reflexivity.
Qed.

Lemma filter_labelled_rows (h : Row -> bool) (rs : list Row) :
  map snd (List.filter (fun p => h (snd p)) (labelled rs))
  = List.filter h rs.
Proof. apply filter_combine_rows. apply length_seq. Qed.

(** The labels of the rows that satisfy [h], as [loc] reads them. *)
Lemma labels_mem (h : Row -> bool) (rs : list Row) (i : nat) :
  existsb (Z.eqb (Z.of_nat i))
    (map Z.of_nat
       (map fst (List.filter (fun p => h (snd p)) (labelled rs))))
  = match rs !! i with Some r => h r | None => false end.
Proof.
  unfold labelled. rewrite filter_labelled_as_compress, compress_map.
  pose proof (compress_labels_mem (map h rs) 0 i) as H.
  rewrite length_map in H. rewrite H. cbn [Nat.leb].
  rewrite Nat.sub_0_r, list_lookup_fmap.
  destruct (rs !! i); reflexivity.
Qed.

Lemma clear_at_cells (labels : list Z) (i : nat) (r : Row) :
  raw_cells (clear_at labels i r) = raw_cells r /\
  is_valid (clear_at labels i r)
  = is_valid r && negb (existsb (Z.eqb (Z.of_nat i)) labels).
Proof.
  unfold clear_at. destruct (existsb (Z.eqb (Z.of_nat i)) labels); cbn.
  - rewrite andb_false_r. auto.
  - rewrite andb_true_r. auto.
Qed.

(** [set_data] of the snapshot on a table with the validity column of which
    some flags were cleared: the rows come out rearranged at most, and in
    place when no two of them share a timestamp. *)
Lemma checkpoint_set_data_keeps
  (sort_values : list Row -> list Row) (sqrt_Q : Q -> Q) (fd fd1 : FilteredData)
  (df d : DataFrame) :
  sorts sort_values ->
  has_column "is_valid" df = true ->
  only_clears (rows d) (rows df) -> columns d = columns df ->
  Checkpoint.set_data sort_values sqrt_Q fd d = Ok fd1 ->
  exists df1,
    get_data fd1 = Some df1 /\
    Permutation (map sample_cells (rows df1)) (map sample_cells (rows d)) /\
    (ts_strict (map timestamp (rows df)) ->
     map sample_cells (rows df1) = map sample_cells (rows d)).
Proof.
  intros Hsorts Hv Hoc Hcols Hset.
  unfold Checkpoint.set_data in Hset.
  eapply checkpoint_prepare_keeps in Hset; [|exact Hsorts | reflexivity].
  destruct Hset as (df1 & Hd1 & _ & _ & Hcells & Hperm).
  assert (Hvd : has_column "is_valid" d = true)
    by (rewrite (has_column_columns _ d df Hcols); exact Hv).
  exists df1. split; [exact Hd1|]. split; [exact (Hperm Hvd)|].
  intros Hst. apply Hcells; [exact Hvd|].
  rewrite (only_clears_timestamps _ _ Hoc). exact Hst.
Qed.

(** Two tables with the same cells row by row, looked up at a place. *)
Lemma cells_lookup {C : Type} (F : Row -> C) (G : nat -> Row -> C)
  (a b : list Row) (i : nat) (r1 : Row) :
  (forall j, (F <$> a) !! j = (G j <$> b !! j)) ->
  a !! i = Some r1 ->
  exists r, b !! i = Some r /\ F r1 = G i r.
Proof.
  intros H Hr1. specialize (H i). rewrite list_lookup_fmap, Hr1 in H.
  destruct (b !! i) as [r|]; [|discriminate].
  exists r. split; [reflexivity|]. cbn in H. congruence.
Qed.

Lemma checkpoint_init_fresh
  (sort_values : list Row -> list Row) (sqrt_Q : Q -> Q) (raw_df : DataFrame)
  (user_id : option Z) (fd : FilteredData) :
  sorts sort_values ->
  has_column "relative_timestamp" (strip_data_prefix raw_df) = false ->
  Checkpoint.__init__ sort_values sqrt_Q (Some raw_df) user_id = Ok fd ->
  exists df,
    get_data fd = Some df /\ prepared df /\
    forall r, In r (rows df) -> is_valid r = true ->
              std_pupildiameter r = NaN.
Proof.
  intros Hsorts Hrel Hinit.
  destruct (checkpoint_init_prepared _ _ _ _ _ Hsorts Hinit) as (df & Hd & Hp).
  exists df. split; [exact Hd|]. split; [exact Hp|].
  unfold Checkpoint.__init__ in Hinit.
  destruct (Checkpoint._prepare_data sort_values sqrt_Q (mkFD (Some raw_df) None None)
              Checkpoint.default_time_window_smooth) as [self|] eqn:E;
    cbn [bind] in Hinit; [|discriminate].
  inversion Hinit; subst fd; clear Hinit.
  destruct (std_nan_on_fresh_table sort_values sqrt_Q
              (mkFD (Some raw_df) None None)
              self raw_df _ Hsorts eq_refl Hrel E)
    as (df' & Hd' & Hnan).
  unfold get_data in Hd. cbn [_data] in Hd. rewrite Hd' in Hd.
  inversion Hd; subst df'. exact Hnan.
Qed.

(** X24. The std-outlier filter on an object of the snapshot class that
    was just built from a table without the relative-time column, as every
    raw table is. Every deviation is NaN at that point, so the threshold
    plays no role: with any window and any threshold, and whatever the
    sorting routine behind sort_values, the pass invalidates exactly the
    valid rows in whose window of relative time at least two valid rows
    lie, that is every valid row that has a valid neighbour within
    [time_window]. The rows come out with these flags and their supplied
    cells, rearranged at most; when no two rows share a timestamp every
    row keeps its place. *)
Theorem std_outliers_on_fresh_table (sort_values : list Row -> list Row)
  (sqrt_Q : Q -> Q) (raw_df : DataFrame) (user_id : option Z)
  (fd fd1 : FilteredData) (df : DataFrame)
  (time_window sigma_threshold : float) :
  sorts sort_values ->
  has_column "relative_timestamp" (strip_data_prefix raw_df) = false ->
  Checkpoint.__init__ sort_values sqrt_Q (Some raw_df) user_id = Ok fd ->
  get_data fd = Some df ->
  Checkpoint.filter_by_std_outliers sort_values sqrt_Q fd time_window
    sigma_threshold = Ok fd1 ->
  exists df1,
    get_data fd1 = Some df1 /\
    Permutation
      (map sample_cells (rows df1))
      (map (fun r => (raw_cells r,
                      is_valid r && negb (crowded time_window (rows df) r)))
           (rows df)) /\
    (ts_strict (map timestamp (rows df)) ->
     length (rows df1) = length (rows df) /\
     forall i r1, rows df1 !! i = Some r1 ->
       exists r,
         rows df !! i = Some r /\ raw_cells r1 = raw_cells r /\
         is_valid r1 = is_valid r && negb (crowded time_window (rows df) r)).
Proof.
  intros Hsorts Hrel Hinit Hd0 Hc.
  destruct (checkpoint_init_fresh _ _ _ _ _ Hsorts Hrel Hinit)
    as (df' & Hd & Hprep & Hnan).
  assert (df' = df) by congruence. subst df'.
  unfold Checkpoint.filter_by_std_outliers in Hc. rewrite Hd in Hc.
  cbn [bind subscriptable] in Hc.
  destruct (negb (has_column "std_pupildiameter" df)); [discriminate|].
  set (valid_data := List.filter (fun p => is_valid (snd p))
                       (labelled (rows df))) in *.
  assert (HV : map snd valid_data = List.filter is_valid (rows df))
    by apply filter_labelled_rows.
  match type of Hc with
  | (timestamps <- ?m ;; _) = _ => destruct m as [timestamps|] eqn:Ets
  end; cbn [bind] in Hc; [|discriminate].
  apply getitem_Ok in Ets. destruct Ets as [_ Ets]. cbn [rows] in Ets.
  match type of Hc with
  | (d <- loc_labels_set_is_valid_false (map Z.of_nat
                                           (compress ?mask _)) _ ;; _) = _ =>
      assert (Hmask : mask
                = map (fun p => crowded time_window (rows df) (snd p))
                      valid_data)
  end.
  { subst timestamps. rewrite HV.
    rewrite (combine_map relative_timestamp std_pupildiameter), map_map.
    rewrite <- HV, map_map. apply map_ext_in. intros p Hp.
    cbn [fst snd].
    assert (Hin : In (snd p) (List.filter is_valid (rows df)))
      by (rewrite <- HV; apply in_map; exact Hp).
    apply filter_In in Hin. destruct Hin as [Hin Hv].
    rewrite (Hnan _ Hin Hv).
    unfold Checkpoint.window_mask. rewrite HV, !map_map.
    rewrite (compress_map_filter
               (fun r' => fge (relative_timestamp r')
                              (fsub (relative_timestamp (snd p)) time_window)
                          && fle (relative_timestamp r')
                               (fadd (relative_timestamp (snd p)) time_window))
               std_pupildiameter),
      length_map.
    unfold crowded.
    rewrite (filter_and is_valid
               (fun r' => in_window time_window (relative_timestamp (snd p))
                            (relative_timestamp r')) (rows df)).
    unfold in_window.
    destruct (2 <=? _)%nat; [|reflexivity].
    match goal with |- negb (fle ?a NaN && _) = true =>
      destruct a; reflexivity end. }
  rewrite Hmask in Hc. clear Hmask.
  rewrite (compress_map_filter
             (fun p => crowded time_window (rows df) (snd p)) fst valid_data)
    in Hc.
  unfold valid_data in Hc. rewrite <- filter_and in Hc.
  destruct (loc_labels_set_is_valid_false _ df) as [d|] eqn:Eloc;
    cbn [bind] in Hc; [|discriminate].
  destruct (loc_labels_rows _ _ _ Eloc) as [Hcols Hrows].
  destruct (loc_labels_only_clears _ _ _ Eloc) as [Hoc _].
  assert (Hexp : forall i,
            (sample_cells <$> rows d) !! i
            = ((fun r => (raw_cells r,
                          is_valid r
                          && negb (crowded time_window (rows df) r)))
               <$> rows df !! i)).
  { intros i. rewrite list_lookup_fmap, Hrows.
    match goal with
    | |- context [clear_at ?labels] =>
        rewrite (labelled_map_lookup (clear_at labels) (rows df) i);
        destruct (rows df !! i) as [r|] eqn:Er; [|reflexivity];
        destruct (clear_at_cells labels i r) as [Hraw Hval]
    end.
    cbn [fmap option_fmap option_map]. f_equal. unfold sample_cells.
    rewrite Hraw, Hval.
    rewrite (labels_mem (fun r => is_valid r
                                  && crowded time_window (rows df) r)
               (rows df) i), Er.
    destruct (is_valid r); reflexivity. }
  assert (Hexp' : map sample_cells (rows d)
                  = map (fun r => (raw_cells r,
                                   is_valid r
                                   && negb (crowded time_window (rows df) r)))
                        (rows df)).
  { apply list_eq. intros i. rewrite (list_lookup_fmap _ (rows df)).
    apply Hexp. }
  destruct (checkpoint_set_data_keeps _ _ _ _ _ _ Hsorts (proj1 Hprep)
              Hoc Hcols Hc)
    as (df1 & Hd1 & Hperm & Hpos).
  exists df1. split; [exact Hd1|]. split; [rewrite <- Hexp'; exact Hperm|].
  intros Hst. specialize (Hpos Hst). split.
  { pose proof (f_equal (@length _) Hpos) as E.
    rewrite !length_map in E. rewrite E.
    apply (only_clears_length _ _ Hoc). }
  intros i r1 Hr1.
  destruct (cells_lookup sample_cells
              (fun _ r => (raw_cells r,
                           is_valid r
                           && negb (crowded time_window (rows df) r)))
              (rows df1) (rows df) i r1) as (r & Hr & E);
    [|exact Hr1|].
  { intros j. change (sample_cells <$> rows df1)
      with (map sample_cells (rows df1)).
    rewrite Hpos. apply Hexp. }
  exists r. split; [exact Hr|].
  split; [exact (f_equal fst E) | exact (f_equal snd E)].
Qed.

Lemma std_outliers_on_fresh_table_witness :
  exists df1,
    get_data fd_three_outliers = Some df1 /\
    length (rows df1) = length (rows (frame_of fd_three)) /\
    forall i r1, rows df1 !! i = Some r1 ->
      exists r,
        rows (frame_of fd_three) !! i = Some r /\
        raw_cells r1 = raw_cells r /\
        is_valid r1
        = is_valid r && negb (crowded (Fin 1) (rows (frame_of fd_three)) r).
Proof.
  destruct (std_outliers_on_fresh_table sort_values_timestamp sqrt_down
              raw_three (Some 704%Z) fd_three fd_three_outliers
              (frame_of fd_three) (Fin 1) (Fin 2)
              sort_values_timestamp_sorts eq_refl)
    as (df1 & Hd1 & _ & Hpos).
  - vm_compute. reflexivity.
  - vm_compute. reflexivity.
  - vm_compute. reflexivity.
  - exists df1. split; [exact Hd1|]. apply Hpos.
    apply ts_strictb_correct. vm_compute. reflexivity.
Defined.

(** ** The speed filter of the snapshot *)

Lemma at_set_lookup (label : nat) (df : DataFrame) (i : nat) :
  rows (at_set_is_valid_false label df) !! i
  = (fun r => if Nat.eqb i label then set_is_valid false r else r)
      <$> rows df !! i.
Proof.
  unfold at_set_is_valid_false. cbn [rows].
  apply (labelled_map_lookup
           (fun j r => if Nat.eqb j label then set_is_valid false r else r)).
Qed.

Lemma pupil_speed_loop_lookup (v : float) (rest : list (nat * Row))
  (prev : nat * Row) (df : DataFrame) (i : nat) :
  rows (Checkpoint.pupil_speed_loop v prev rest df) !! i
  = (fun r => if existsb (hit v i) (combine (prev :: rest) rest)
              then set_is_valid false r else r)
      <$> rows df !! i.
Proof.
  revert prev df. induction rest as [|cur rest IH]; intros prev df.
  - cbn. destruct (rows df !! i); reflexivity.
  - cbn [Checkpoint.pupil_speed_loop]. rewrite IH.
    change (combine (prev :: cur :: rest) (cur :: rest))
      with ((prev, cur) :: combine (cur :: rest) rest).
    change (existsb (hit v i) ((prev, cur) :: combine (cur :: rest) rest))
      with (hit v i (prev, cur)
            || existsb (hit v i) (combine (cur :: rest) rest)).
    set (later := existsb (hit v i) (combine (cur :: rest) rest)).
    unfold hit, too_fast. cbn [fst snd].
    destruct (fgt (fsub (relative_timestamp (snd cur))
                        (relative_timestamp (snd prev))) (Fin 0)); cbn [andb].
    2:{ destruct (rows df !! i); reflexivity. }
    destruct (fgt (fdiv _ _) v); cbn [andb].
    2:{ destruct (rows df !! i); reflexivity. }
    rewrite !at_set_lookup.
    destruct (rows df !! i) as [r|]; [|reflexivity].
    cbn [fmap option_fmap option_map].
    destruct later, (Nat.eqb i (fst prev)), (Nat.eqb i (fst cur));
      reflexivity.
Qed.

(** X25. The speed filter of the snapshot on a table that went through
    [_prepare_data], whatever the sorting routine behind sort_values. The
    pass looks at the valid rows in order, each with the valid row before
    it, as they were when the pass started; a row is valid afterwards
    exactly when it was valid before and belongs to no such pair in which
    the relative time grows and the average diameter changes by more than
    [max_speed_mm_per_sec] per second. Both rows of such a pair become
    invalid; a pair with no time between its rows is skipped. The rows
    come out with these flags and their supplied cells, rearranged at
    most; when no two rows share a timestamp every row keeps its place. *)
Theorem pupil_speed_marks_both_rows_of_fast_pairs
  (sort_values : list Row -> list Row)
  (sqrt_Q : Q -> Q) (fd fd1 : FilteredData) (df : DataFrame)
  (max_speed_mm_per_sec : float) :
  sorts sort_values ->
  get_data fd = Some df -> prepared df ->
  Checkpoint.filter_pupil_speed sort_values sqrt_Q fd max_speed_mm_per_sec
  = Ok fd1 ->
  exists df1,
    get_data fd1 = Some df1 /\
    Permutation
      (map sample_cells (rows df1))
      (imap (fun i r =>
               (raw_cells r,
                is_valid r
                && negb (in_fast_pair max_speed_mm_per_sec (rows df) i)))
            (rows df)) /\
    (ts_strict (map timestamp (rows df)) ->
     length (rows df1) = length (rows df) /\
     forall i r1, rows df1 !! i = Some r1 ->
       exists r,
         rows df !! i = Some r /\ raw_cells r1 = raw_cells r /\
         is_valid r1
         = is_valid r
           && negb (in_fast_pair max_speed_mm_per_sec (rows df) i)).
Proof.
  intros Hsorts Hd Hprep Hc.
  unfold Checkpoint.filter_pupil_speed in Hc. rewrite Hd in Hc.
  cbn [bind subscriptable] in Hc.
  destruct (negb (has_column "avg_pupildiameter" df)
            || negb (has_column "relative_timestamp" df)); [discriminate|].
  set (valid_data := List.filter (fun p => is_valid (snd p))
                       (labelled (rows df))) in *.
  set (d := match valid_data with
            | [] => df
            | first :: rest =>
                Checkpoint.pupil_speed_loop max_speed_mm_per_sec first rest df
            end) in *.
  assert (Hlook : forall i,
            rows d !! i
            = (fun r => if in_fast_pair max_speed_mm_per_sec (rows df) i
                        then set_is_valid false r else r)
                <$> rows df !! i).
  { intros i. unfold in_fast_pair. cbv zeta. fold valid_data. subst d.
    destruct valid_data as [|first rest].
    - cbn. destruct (rows df !! i); reflexivity.
    - apply pupil_speed_loop_lookup. }
  assert (Hshape : only_clears (rows d) (rows df) /\ columns d = columns df).
  { subst d. destruct valid_data as [|first rest].
    - split; [apply only_clears_refl | reflexivity].
    - apply pupil_speed_loop_only_clears. }
  destruct Hshape as [Hoc Hcols].
  assert (Hexp : forall i,
            (sample_cells <$> rows d) !! i
            = ((fun r => (raw_cells r,
                          is_valid r
                          && negb (in_fast_pair max_speed_mm_per_sec
                                     (rows df) i)))
               <$> rows df !! i)).
  { intros i. rewrite list_lookup_fmap, Hlook.
    destruct (rows df !! i) as [r|]; [|reflexivity].
    cbn [fmap option_fmap option_map]. f_equal. unfold sample_cells.
    destruct (in_fast_pair max_speed_mm_per_sec (rows df) i); cbn.
    - rewrite andb_false_r. reflexivity.
    - rewrite andb_true_r. reflexivity. }
  assert (Hexp' : map sample_cells (rows d)
                  = imap (fun i r =>
                            (raw_cells r,
                             is_valid r
                             && negb (in_fast_pair max_speed_mm_per_sec
                                        (rows df) i)))
                         (rows df)).
  { apply list_eq. intros i. rewrite list_lookup_imap. apply Hexp. }
  destruct (checkpoint_set_data_keeps _ _ _ _ _ _ Hsorts (proj1 Hprep)
              Hoc Hcols Hc)
    as (df1 & Hd1 & Hperm & Hpos).
  exists df1. split; [exact Hd1|]. split; [rewrite <- Hexp'; exact Hperm|].
  intros Hst. specialize (Hpos Hst). split.
  { pose proof (f_equal (@length _) Hpos) as E.
    rewrite !length_map in E. rewrite E.
    apply (only_clears_length _ _ Hoc). }
  intros i r1 Hr1.
  destruct (cells_lookup sample_cells
              (fun i r => (raw_cells r,
                           is_valid r
                           && negb (in_fast_pair max_speed_mm_per_sec
                                      (rows df) i)))
              (rows df1) (rows df) i r1) as (r & Hr & E);
    [|exact Hr1|].
  { intros j. change (sample_cells <$> rows df1)
      with (map sample_cells (rows df1)).
    rewrite Hpos. apply Hexp. }
  exists r. split; [exact Hr|].
  split; [exact (f_equal fst E) | exact (f_equal snd E)].
Qed.

Lemma pupil_speed_marks_both_rows_of_fast_pairs_witness :
  exists df1,
    get_data fd_ramp_once = Some df1 /\
    length (rows df1) = length (rows (frame_of fd_ramp)) /\
    forall i r1, rows df1 !! i = Some r1 ->
      exists r,
        rows (frame_of fd_ramp) !! i = Some r /\ raw_cells r1 = raw_cells r /\
        is_valid r1
        = is_valid r && negb (in_fast_pair (Fin 5) (rows (frame_of fd_ramp)) i).
Proof.
  destruct (pupil_speed_marks_both_rows_of_fast_pairs sort_values_timestamp
              sqrt_down fd_ramp fd_ramp_once (frame_of fd_ramp) (Fin 5)
              sort_values_timestamp_sorts)
    as (df1 & Hd1 & _ & Hpos).
  - vm_compute. reflexivity.
  - split; [vm_compute; reflexivity|].
    apply ts_sortedb_correct. vm_compute. reflexivity.
  - vm_compute. reflexivity.
  - exists df1. split; [exact Hd1|]. apply Hpos.
    apply ts_strictb_correct. vm_compute. reflexivity.
Defined.

(** ** Differences to the row before *)

Lemma combine_lookup {A B : Type} (a : list A) (b : list B) (i : nat) :
  combine a b !! i
  = match a !! i, b !! i with
    | Some x, Some y => Some (x, y)
    | _, _ => None
    end.
Proof.
  revert b i. induction a as [|x a IH]; intros [|y b] [|i]; try reflexivity.
  - cbn. destruct (a !! i); reflexivity.
  - cbn. apply IH.
Qed.

Lemma diff_rows_lookup (f : Row -> float) (rs : list Row) (i : nat) (r : Row) :
  rs !! i = Some r ->
  diff (map f rs) !! i
  = Some (match i with
          | O => NaN
          | S j => match rs !! j with
                   | Some prev => fsub (f r) (f prev)
                   | None => NaN
                   end
          end).
Proof.
  intros Hr. destruct rs as [|x rs]; [discriminate|].
  destruct i as [|j]; [reflexivity|].
  change (diff (map f (x :: rs)) !! S j)
    with (map (fun p : float * float => fsub (snd p) (fst p))
              (combine (f x :: map f rs) (map f rs)) !! j).
  rewrite diff_tail_lookup.
  change ((x :: rs) !! S j) with (rs !! j) in Hr.
  change (f x :: map f rs) with (map f (x :: rs)).
  rewrite !list_lookup_fmap, Hr.
  destruct (lookup_lt_is_Some_2 (x :: rs) j) as (prev & Hprev).
  { apply lookup_lt_Some in Hr. simpl. lia. }
  rewrite Hprev. reflexivity.
Qed.

(** The mask of a pass that combines the differences of the two diameter
    columns. *)
Lemma pair_of_diffs_bit (G : float * float -> bool) (rs : list Row)
  (i : nat) (r : Row) :
  rs !! i = Some r ->
  mask_bit
    (map G (combine (diff (map eyeleft_pupildiameter rs))
                    (diff (map eyeright_pupildiameter rs)))) i
  = match i with
    | O => G (NaN, NaN)
    | S j =>
        match rs !! j with
        | Some prev =>
            G (fsub (eyeleft_pupildiameter r) (eyeleft_pupildiameter prev),
               fsub (eyeright_pupildiameter r) (eyeright_pupildiameter prev))
        | None => G (NaN, NaN)
        end
    end.
Proof.
  intros Hr. unfold mask_bit.
  rewrite list_lookup_fmap, combine_lookup.
  rewrite (diff_rows_lookup eyeleft_pupildiameter rs i r Hr).
  rewrite (diff_rows_lookup eyeright_pupildiameter rs i r Hr).
  destruct i as [|j]; [reflexivity|].
  destruct (rs !! j); reflexivity.
Qed.

(** X27. [filter_async_pupil_size] compares every row with the row just
    before it in the table, valid or not: a row is valid afterwards
    exactly when it was valid before and it is not true that, against that
    row, its two diameters moved in opposite directions, each by more
    than the tolerance (0.02 by default). *)
Theorem async_pupil_compares_with_previous_row
  (fd fd1 : FilteredData) (df : DataFrame) (tolerance : option float) :
  get_data fd = Some df ->
  Main.filter_async_pupil_size fd tolerance = Ok fd1 ->
  exists df1,
    get_data fd1 = Some df1 /\
    length (rows df1) = length (rows df) /\
    forall i r1, rows df1 !! i = Some r1 ->
      exists r,
        rows df !! i = Some r /\ raw_cells r1 = raw_cells r /\
        is_valid r1
        = is_valid r
          && negb (against_previous (async_change (or_default tolerance))
                     (rows df) i).
Proof.
  intros Hd Hc.
  change (Main.call strptime_none (Main.AsyncPupilSize tolerance) fd = Ok fd1)
    in Hc.
  destruct (call_rows _ _ _ _ _ Hd Hc) as (df1 & mask & Hm & Hd1 & Hlen & H).
  cbn [mask_of] in Hm.
  destruct (getitem "eyeleft.pupildiameter" eyeleft_pupildiameter df)
    as [left|] eqn:El; cbn [bind] in Hm; [|discriminate].
  destruct (getitem "eyeright.pupildiameter" eyeright_pupildiameter df)
    as [right|] eqn:Er; cbn [bind] in Hm; [|discriminate].
  apply getitem_Ok in El. destruct El as [_ ->].
  apply getitem_Ok in Er. destruct Er as [_ ->].
  inversion Hm; subst mask; clear Hm.
  exists df1. split; [exact Hd1|]. split; [exact Hlen|].
  intros i r1 Hr1. destruct (H i r1 Hr1) as (r & Hr & Hraw & Hv).
  exists r. split; [exact Hr|]. split; [exact Hraw|].
  rewrite Hv. f_equal. f_equal.
  rewrite (pair_of_diffs_bit _ (rows df) i r Hr).
  unfold against_previous. destruct i as [|j]; [reflexivity|].
  rewrite Hr. destruct (rows df !! j) as [prev|]; reflexivity.
Qed.

Lemma async_pupil_compares_with_previous_row_witness :
  exists df1,
    get_data fd_async_filtered = Some df1 /\
    length (rows df1) = length (rows (frame_of fd_async)) /\
    forall i r1, rows df1 !! i = Some r1 ->
      exists r,
        rows (frame_of fd_async) !! i = Some r /\ raw_cells r1 = raw_cells r /\
        is_valid r1
        = is_valid r
          && negb (against_previous (async_change (or_default None))
                     (rows (frame_of fd_async)) i).
Proof.
  apply (async_pupil_compares_with_previous_row fd_async fd_async_filtered
           (frame_of fd_async) None).
  - vm_compute. reflexivity.
  - vm_compute. reflexivity.
Defined.

(** ** Runs of equal values: what the group sizes of the constant-pupil
    filter are *)

Lemma pairs_lookup {A B : Type} (F : A * A -> B) (x : A) (s : list A)
  (j : nat) :
  map F (combine (x :: s) s) !! j
  = match (x :: s) !! j, s !! j with
    | Some a, Some b => Some (F (a, b))
    | _, _ => None
    end.
Proof.
  revert x j. induction s as [|y s IH]; intros x j.
  - destruct j; reflexivity.
  - destruct j as [|j]; [reflexivity|]. apply (IH y j).
Qed.

Lemma ne_shift_cons (x : bool) (s : list bool) :
  Main.ne_shift (x :: s)
  = true :: map (fun p => xorb (snd p) (fst p)) (combine (x :: s) s).
Proof.
  unfold Main.ne_shift, Main.shift.
  change (combine (x :: s) (None :: map Some (removelast (x :: s))))
    with ((x, @None bool) :: combine s (map Some (removelast (x :: s)))).
  cbn [map snd fst]. f_equal.
  revert x. induction s as [|y s IH]; intros x; [reflexivity|].
  change (removelast (x :: y :: s)) with (x :: removelast (y :: s)).
  cbn [map combine fst snd]. f_equal. apply IH.
Qed.

Lemma ne_shift_lookup (s : list bool) (k : nat) :
  k < length s ->
  Main.ne_shift s !! k
  = Some (match k with
          | O => true
          | S k' => xorb (mask_bit s k) (mask_bit s k')
          end).
Proof.
  intros Hk. destruct s as [|x s]; [simpl in Hk; lia|].
  rewrite ne_shift_cons. destruct k as [|k]; [reflexivity|].
  change ((true :: map (fun p : bool * bool => xorb (snd p) (fst p))
                       (combine (x :: s) s)) !! S k)
    with (map (fun p : bool * bool => xorb (snd p) (fst p))
              (combine (x :: s) s) !! k).
  rewrite pairs_lookup. unfold mask_bit.
  change ((x :: s) !! S k) with (s !! k).
  destruct (lookup_lt_is_Some_2 (x :: s) k) as (a & Ha);
    [simpl in *; lia|].
  destruct (lookup_lt_is_Some_2 s k) as (b & Hb); [simpl in *; lia|].
  rewrite Ha, Hb. reflexivity.
Qed.

Lemma cumsum_from_lookup_0 (acc : nat) (c : list bool) :
  Main.cumsum_from acc c !! 0
  = (fun b : bool => if b then S acc else acc) <$> c !! 0.
Proof. destruct c; reflexivity. Qed.

Lemma cumsum_from_lookup_S (acc : nat) (c : list bool) (j : nat) :
  Main.cumsum_from acc c !! S j
  = match Main.cumsum_from acc c !! j, c !! S j with
    | Some a, Some b => Some (if (b : bool) then S a else a)
    | _, _ => None
    end.
Proof.
  revert acc j. induction c as [|b c IH]; intros acc j.
  - cbn. rewrite !lookup_nil. reflexivity.
  - cbn [Main.cumsum_from].
    set (acc' := if b then S acc else acc).
    change ((acc' :: Main.cumsum_from acc' c) !! S j)
      with (Main.cumsum_from acc' c !! j).
    change ((b :: c) !! S j) with (c !! j).
    destruct j as [|j].
    + rewrite cumsum_from_lookup_0. cbn. destruct (c !! 0); reflexivity.
    + rewrite IH.
      change ((acc' :: Main.cumsum_from acc' c) !! S j)
        with (Main.cumsum_from acc' c !! j).
      reflexivity.
Qed.

Lemma keys_lookup (s : list bool) (j : nat) :
  j < length s ->
  Main.cumsum (Main.ne_shift s) !! j = Some (run_key s j).
Proof.
  unfold Main.cumsum. induction j as [|j IH]; intros Hj.
  - rewrite cumsum_from_lookup_0, (ne_shift_lookup s 0 Hj). reflexivity.
  - rewrite cumsum_from_lookup_S, (IH ltac:(lia)),
      (ne_shift_lookup s (S j) Hj).
    cbn [run_key]. reflexivity.
Qed.

Lemma cumsum_from_length (acc : nat) (c : list bool) :
  length (Main.cumsum_from acc c) = length c.
Proof.
  revert acc. induction c as [|b c IH]; intros acc; [reflexivity|].
  cbn. rewrite IH. reflexivity.
Qed.

Lemma ne_shift_length (s : list bool) : length (Main.ne_shift s) = length s.
Proof.
  destruct s as [|x s]; [reflexivity|].
  rewrite ne_shift_cons. cbn [length]. f_equal.
  rewrite length_map, length_combine. cbn [length]. lia.
Qed.

Lemma run_key_step (s : list bool) (j : nat) :
  run_key s (S j)
  = if xorb (mask_bit s (S j)) (mask_bit s j)
    then S (run_key s j) else run_key s j.
Proof. reflexivity. Qed.

Lemma run_key_le (s : list bool) (i j : nat) :
  i <= j -> run_key s i <= run_key s j.
Proof.
  induction 1 as [|j _ IH]; [lia|].
  rewrite run_key_step.
  destruct (xorb (mask_bit s (S j)) (mask_bit s j)); lia.
Qed.

Lemma run_key_eq_iff (s : list bool) (i j : nat) :
  i <= j ->
  run_key s j = run_key s i <->
  forall k, i <= k <= j -> mask_bit s k = mask_bit s i.
Proof.
  induction 1 as [|j Hij IH].
  - split; [|reflexivity]. intros _ k Hk. replace k with i by lia.
    reflexivity.
  - rewrite run_key_step.
    pose proof (run_key_le s i j Hij) as Hle.
    destruct (xorb (mask_bit s (S j)) (mask_bit s j)) eqn:Ex.
    + split; [lia|]. intros H. exfalso.
      assert (H1 := H (S j) ltac:(lia)). assert (H2 := H j ltac:(lia)).
      rewrite H1, H2 in Ex. rewrite xorb_nilpotent in Ex. discriminate.
    + apply xorb_eq in Ex. split.
      * intros H k Hk. destruct (Nat.eq_dec k (S j)) as [-> | Hne].
        -- rewrite Ex. apply (proj1 IH H). lia.
        -- apply (proj1 IH H). lia.
      * intros H. apply (proj2 IH). intros k Hk. apply H. lia.
Qed.

Lemma same_run_spec (s : list bool) (i j : nat) :
  same_run s i j = true <->
  forall k, Nat.min i j <= k <= Nat.max i j -> mask_bit s k = mask_bit s i.
Proof.
  unfold same_run. rewrite forallb_forall. split.
  - intros H k Hk. apply eqb_prop. apply H. apply in_seq. lia.
  - intros H k Hk. apply in_seq in Hk. rewrite (H k ltac:(lia)).
    apply eqb_reflx.
Qed.

Lemma same_run_key (s : list bool) (i j : nat) :
  same_run s i j = Nat.eqb (run_key s j) (run_key s i).
Proof.
  apply eq_true_iff_eq. rewrite same_run_spec, Nat.eqb_eq.
  destruct (Nat.le_ge_cases i j) as [Hij | Hji].
  - rewrite (run_key_eq_iff s i j Hij).
    rewrite Nat.min_l, Nat.max_r by lia. reflexivity.
  - rewrite Nat.min_r, Nat.max_l by lia.
    split.
    + intros H. symmetry. apply (run_key_eq_iff s j i Hji).
      intros k Hk. rewrite (H k Hk). symmetry. apply H. lia.
    + intros H k Hk. symmetry in H.
      pose proof (proj1 (run_key_eq_iff s j i Hji) H) as H'.
      rewrite (H' k Hk). symmetry. apply H'. lia.
Qed.

Lemma count_occ_filter (l : list nat) (k : nat) :
  count_occ Nat.eq_dec l k = length (List.filter (fun x => Nat.eqb x k) l).
Proof.
  induction l as [|x l IH]; [reflexivity|].
  cbn [count_occ List.filter].
  destruct (Nat.eq_dec x k) as [-> | Hne].
  - rewrite Nat.eqb_refl. cbn. rewrite IH. reflexivity.
  - apply Nat.eqb_neq in Hne. rewrite Hne. exact IH.
Qed.

Lemma filter_map_length {A B : Type} (p : B -> bool) (f : A -> B)
  (l : list A) :
  length (List.filter p (map f l))
  = length (List.filter (fun x => p (f x)) l).
Proof.
  induction l as [|x l IH]; [reflexivity|].
  cbn. destruct (p (f x)); cbn; rewrite IH; reflexivity.
Qed.

Lemma filter_positions (p : nat -> bool) (l : list nat) :
  length (List.filter p l)
  = length (List.filter (fun j => match l !! j with
                                  | Some x => p x
                                  | None => false
                                  end)
                        (seq 0 (length l))).
Proof.
  induction l as [|x l IH]; [reflexivity|].
  cbn [length]. change (seq 0 (S (length l))) with (0 :: seq 1 (length l)).
  rewrite <- seq_shift. cbn [List.filter].
  change ((x :: l) !! 0) with (Some x).
  destruct (p x); cbn [length]; rewrite filter_map_length, IH; reflexivity.
Qed.

(** The group sizes that the constant-pupil filter compares with
    [max_static_steps] are the lengths of the runs of equal stability
    flags. *)
Lemma stable_streak_lookup (s : list bool) (i : nat) :
  i < length s ->
  Main.groupby_transform_size (Main.cumsum (Main.ne_shift s)) !! i
  = Some (run_length s i).
Proof.
  intros Hi. unfold Main.groupby_transform_size.
  set (keys := Main.cumsum (Main.ne_shift s)).
  assert (Hlen : length keys = length s).
  { unfold keys, Main.cumsum. rewrite cumsum_from_length.
    apply ne_shift_length. }
  rewrite list_lookup_fmap. unfold keys at 2.
  rewrite (keys_lookup s i Hi). cbn. f_equal.
  rewrite count_occ_filter, filter_positions, Hlen. unfold run_length.
  f_equal. apply filter_ext_in. intros j Hj. apply in_seq in Hj.
  unfold keys. rewrite (keys_lookup s j ltac:(lia)).
  symmetry. apply same_run_key.
Qed.

Lemma stable_as_flags (tolerance : float) (rs : list Row) :
  map (fun p : bool * bool => fst p && snd p)
      (combine
         (map (fun d => flt d tolerance)
              (map fabs (diff (map eyeleft_pupildiameter rs))))
         (map (fun d => flt d tolerance)
              (map fabs (diff (map eyeright_pupildiameter rs)))))
  = stable_flags tolerance rs.
Proof.
  apply list_eq. intros i. unfold stable_flags.
  rewrite !list_lookup_fmap, combine_lookup, !list_lookup_fmap.
  destruct (rs !! i) as [r|] eqn:Hr.
  - rewrite (diff_rows_lookup eyeleft_pupildiameter rs i r Hr).
    rewrite (diff_rows_lookup eyeright_pupildiameter rs i r Hr).
    rewrite (lookup_seq_lt 0 (length rs) i)
      by (apply lookup_lt_Some in Hr; exact Hr).
    cbn. f_equal. unfold against_previous.
    destruct i as [|j]; [reflexivity|].
    rewrite Hr. destruct (rs !! j); reflexivity.
  - apply lookup_ge_None in Hr.
    rewrite (lookup_ge_None_2 (diff (map eyeleft_pupildiameter rs)) i)
      by (rewrite diff_length, length_map; exact Hr).
    rewrite (lookup_seq_ge 0 (length rs) i) by exact Hr. reflexivity.
Qed.

Lemma stable_flags_length (tolerance : float) (rs : list Row) :
  length (stable_flags tolerance rs) = length rs.
Proof. unfold stable_flags. rewrite length_map, length_seq. reflexivity. Qed.

(** X28. [filter_constant_pupil]: a row is stable when each of its two
    diameters differs by less than the tolerance (0.02 by default) from
    that of the row just before it in the table; the first row is not. A
    row is valid afterwards exactly when it was valid before and it is not
    a stable row inside a run of at least [max_static_steps] stable rows
    in a row. *)
Theorem constant_pupil_flags_long_stable_runs
  (fd fd1 : FilteredData) (df : DataFrame) (max_static_steps : Z)
  (tolerance : option float) :
  get_data fd = Some df ->
  Main.filter_constant_pupil fd max_static_steps tolerance = Ok fd1 ->
  exists df1,
    get_data fd1 = Some df1 /\
    length (rows df1) = length (rows df) /\
    forall i r1, rows df1 !! i = Some r1 ->
      exists r,
        rows df !! i = Some r /\ raw_cells r1 = raw_cells r /\
        is_valid r1
        = is_valid r
          && negb (against_previous (steady (or_default tolerance))
                     (rows df) i
                   && (max_static_steps
                       <=? Z.of_nat
                             (run_length
                                (stable_flags (or_default tolerance)
                                   (rows df)) i))%Z).
Proof.
  intros Hd Hc.
  change (Main.call strptime_none
            (Main.ConstantPupil max_static_steps tolerance) fd = Ok fd1)
    in Hc.
  destruct (call_rows _ _ _ _ _ Hd Hc) as (df1 & mask & Hm & Hd1 & Hlen & H).
  cbn [mask_of] in Hm.
  destruct (getitem "eyeleft.pupildiameter" eyeleft_pupildiameter df)
    as [left|] eqn:El; cbn [bind] in Hm; [|discriminate].
  destruct (getitem "eyeright.pupildiameter" eyeright_pupildiameter df)
    as [right|] eqn:Er; cbn [bind] in Hm; [|discriminate].
  apply getitem_Ok in El. destruct El as [_ ->].
  apply getitem_Ok in Er. destruct Er as [_ ->].
  cbv zeta in Hm. rewrite (stable_as_flags (or_default tolerance) (rows df))
    in Hm.
  inversion Hm; subst mask; clear Hm.
  exists df1. split; [exact Hd1|]. split; [exact Hlen|].
  intros i r1 Hr1. destruct (H i r1 Hr1) as (r & Hr & Hraw & Hv).
  exists r. split; [exact Hr|]. split; [exact Hraw|].
  rewrite Hv. f_equal. f_equal.
  assert (Hi : i < length (rows df)) by (apply lookup_lt_Some in Hr; exact Hr).
  unfold mask_bit. rewrite list_lookup_fmap, combine_lookup.
  rewrite (stable_streak_lookup _ i)
    by (rewrite stable_flags_length; exact Hi).
  unfold stable_flags at 1.
  rewrite list_lookup_fmap, (lookup_seq_lt 0 _ i Hi). reflexivity.
Qed.

Lemma constant_pupil_flags_long_stable_runs_witness :
  exists df1,
    get_data fd_still_filtered = Some df1 /\
    length (rows df1) = length (rows (frame_of fd_still)) /\
    forall i r1, rows df1 !! i = Some r1 ->
      exists r,
        rows (frame_of fd_still) !! i = Some r /\ raw_cells r1 = raw_cells r /\
        is_valid r1
        = is_valid r
          && negb (against_previous (steady (or_default None))
                     (rows (frame_of fd_still)) i
                   && (2 <=? Z.of_nat
                               (run_length
                                  (stable_flags (or_default None)
                                     (rows (frame_of fd_still))) i))%Z).
Proof.
  apply (constant_pupil_flags_long_stable_runs fd_still fd_still_filtered
           (frame_of fd_still) 2 None).
  - vm_compute. reflexivity.
  - vm_compute. reflexivity.
Defined.

(** ** The first and the last sample of a phase *)

Lemma flt_asym (x y : float) : flt x y = true -> flt y x = false.
Proof.
  destruct x as [x| | |], y as [y| | |]; simpl; try congruence;
    try reflexivity.
  intros H. apply Qlt_bool_iff in H.
  destruct (Qlt_bool y x) eqn:E; [|reflexivity].
  apply Qlt_bool_iff in E. exfalso.
  exact (Qlt_irrefl _ (Qlt_trans _ _ _ H E)).
Qed.

Lemma flt_between (x y z : float) :
  isnan y = false -> flt x z = true -> flt x y = true \/ flt y z = true.
Proof.
  destruct x as [x| | |], y as [y| | |], z as [z| | |]; simpl;
    try congruence; auto.
  intros _ H. apply Qlt_bool_iff in H.
  destruct (Qlt_bool x y) eqn:E; [auto|]. right.
  apply Qlt_bool_iff.
  assert (Hle : (y <= x)%Q).
  { apply Qnot_lt_le. intros Hlt. apply Qlt_bool_iff in Hlt. congruence. }
  eapply Qle_lt_trans; eassumption.
Qed.

(** The row that the fold of [idx_extreme] keeps is beaten by no row. *)
Lemma fold_extreme_best (better : float -> float -> bool)
  (f : Row -> float) (l : list (nat * Row)) :
  (forall x y, better x y = true -> better y x = false) ->
  (forall x y z, isnan y = false -> better x z = true ->
                 better x y = true \/ better y z = true) ->
  forall (p0 : nat * Row) (P : nat * Row -> Prop),
    (forall q, In q (p0 :: l) -> isnan (f (snd q)) = false) ->
    (forall x, P x -> better (f (snd x)) (f (snd p0)) = false) ->
    let best :=
      fold_left (fun best q => if better (f (snd q)) (f (snd best))
                               then q else best) l p0 in
    In best (p0 :: l) /\
    forall x, P x \/ In x (p0 :: l) ->
              better (f (snd x)) (f (snd best)) = false.
Proof.
  intros Hasym Hbetween.
  assert (Hirr : forall x, better x x = false).
  { intros x. destruct (better x x) eqn:E; [|reflexivity].
    rewrite (Hasym x x E) in E. discriminate. }
  induction l as [|q l IH]; intros p0 P Hnan HP.
  - cbn. split; [auto|]. intros x [Hx | [<- | []]]; [auto | apply Hirr].
  - cbn [fold_left].
    set (p1 := if better (f (snd q)) (f (snd p0)) then q else p0).
    assert (Hp1 : p1 = q \/ p1 = p0)
      by (unfold p1; destruct (better _ _); auto).
    destruct (IH p1 (fun x => P x \/ p0 = x \/ q = x)) as [Hin Hbest].
    { intros x [<- | Hx].
      - destruct Hp1 as [-> | ->]; apply Hnan; cbn; auto.
      - apply Hnan. right. right. exact Hx. }
    { unfold p1. destruct (better (f (snd q)) (f (snd p0))) eqn:E.
      - intros x [Hx | [<- | <-]].
        + destruct (better (f (snd x)) (f (snd q))) eqn:E'; [|reflexivity].
          destruct (Hbetween _ (f (snd p0)) _
                      (Hnan p0 (or_introl eq_refl)) E') as [H | H].
          * rewrite (HP x Hx) in H. discriminate.
          * rewrite (Hasym _ _ E) in H. discriminate.
        + apply Hasym. exact E.
        + apply Hirr.
      - intros x [Hx | [<- | <-]]; [auto | apply Hirr | exact E]. }
    cbv zeta in Hin, Hbest. split.
    + destruct Hin as [<- | Hin].
      * destruct Hp1 as [-> | ->]; cbn; auto.
      * right. right. exact Hin.
    + intros x Hx. apply Hbest. cbn in Hx. cbn. tauto.
Qed.

Lemma idx_extreme_best (better : float -> float -> bool) (f : Row -> float)
  (seg : list (nat * Row)) (label : nat) :
  (forall x y, better x y = true -> better y x = false) ->
  (forall x y z, isnan y = false -> better x z = true ->
                 better x y = true \/ better y z = true) ->
  CalibrationProcessor.idx_extreme better f seg = Ok label ->
  exists q, In q seg /\ fst q = label /\
            forall x, In x seg -> isnan (f (snd x)) = false ->
                      better (f (snd x)) (f (snd q)) = false.
Proof.
  intros Hasym Hbetween. unfold CalibrationProcessor.idx_extreme.
  destruct (List.filter (fun p => negb (isnan (f (snd p)))) seg)
    as [|p0 l] eqn:E; [discriminate|].
  intros H. inversion H as [Hl]; clear H.
  assert (Hnan : forall q, In q (p0 :: l) -> isnan (f (snd q)) = false).
  { intros q Hq. rewrite <- E in Hq. apply filter_In in Hq.
    destruct Hq as [_ Hq]. apply negb_true_iff in Hq. exact Hq. }
  destruct (fold_extreme_best better f l Hasym Hbetween p0 (fun _ => False)
              Hnan ltac:(intros x [])) as [Hin Hbest].
  cbv zeta in Hin, Hbest.
  eexists. split; [|split; [reflexivity|]].
  - rewrite <- E in Hin. apply filter_In in Hin. apply Hin.
  - intros x Hx Hxn. apply Hbest. right. rewrite <- E.
    apply filter_In. split; [exact Hx|]. rewrite Hxn. reflexivity.
Qed.

Lemma compress_labels_bound {A : Type} (mask : list bool) (s n : nat)
  (rs : list A) (p : nat * A) :
  In p (compress mask (combine (seq s n) rs)) -> s <= fst p.
Proof.
  revert mask s rs. induction n as [|n IH]; intros mask s rs Hp.
  - destruct mask; destruct Hp.
  - destruct mask as [|b mask], rs as [|r rs]; try (destruct Hp).
    cbn [seq combine compress] in Hp.
    destruct b; [destruct Hp as [<- | Hp]; [cbn; lia|]|];
      apply IH in Hp; lia.
Qed.

Lemma compress_labels_NoDup {A : Type} (mask : list bool) (s n : nat)
  (rs : list A) :
  NoDup (map fst (compress mask (combine (seq s n) rs))).
Proof.
  revert mask s rs. induction n as [|n IH]; intros mask s rs.
  - destruct mask; constructor.
  - destruct mask as [|b mask], rs as [|r rs]; try constructor.
    cbn [seq combine compress]. destruct b; [|apply IH].
    cbn [map fst]. apply NoDup_cons_2; [|apply IH].
    intros Hin. apply list_elem_of_In, in_map_iff in Hin.
    destruct Hin as (p & Hp & Hin).
    apply compress_labels_bound in Hin. lia.
Qed.

Lemma seg_loc_unique (seg : list (nat * Row)) (q : nat * Row)
  (f : Row -> float) :
  NoDup (map fst seg) -> In q seg ->
  CalibrationProcessor.seg_loc seg (fst q) f = Ok (f (snd q)).
Proof.
  unfold CalibrationProcessor.seg_loc.
  induction seg as [|p seg IH]; intros Hnd Hq; [destruct Hq|].
  cbn [map] in Hnd. apply NoDup_cons in Hnd. destruct Hnd as [Hp Hnd].
  cbn [List.find]. destruct (Nat.eqb (fst p) (fst q)) eqn:E.
  - apply Nat.eqb_eq in E. destruct Hq as [-> | Hq]; [reflexivity|].
    exfalso. apply Hp. rewrite E. apply list_elem_of_In.
    apply in_map. exact Hq.
  - destruct Hq as [-> | Hq]; [rewrite Nat.eqb_refl in E; discriminate|].
    apply IH; assumption.
Qed.

Lemma loc_phase_labels (df : DataFrame) (t0 t1 : float)
  (seg : list (nat * Row)) :
  CalibrationProcessor.loc_phase df t0 t1 = Ok seg -> NoDup (map fst seg).
Proof.
  unfold CalibrationProcessor.loc_phase. intros H.
  destruct (getitem "is_valid" is_valid df); cbn [bind] in H;
    [|discriminate].
  destruct (getitem "relative_timestamp" relative_timestamp df);
    cbn [bind] in H; [|discriminate].
  destruct (has_column "avg_pupildiameter_smooth" df); [|discriminate].
  inversion H; subst seg. apply compress_labels_NoDup.
Qed.

(** X12. [compute_neutral2_recovery_speed] on a Neutral_2 window that
    holds a valid row: it raises nothing, and returns the smoothed
    diameter of an earliest row of the window minus that of a latest row,
    over the length [t1 - t0] of the phase. The baseline mean that it is
    given plays no role. *)
Theorem neutral2_recovery_uses_first_and_last_sample
  (fd : FilteredData) (time_ranges : gmap string (list float))
  (baseline_mean : float) (df : DataFrame) (t0 t1 : float)
  (seg : list (nat * Row)) :
  get_data fd = Some df ->
  time_ranges !! "Neutral_2" = Some [t0; t1] ->
  CalibrationProcessor.loc_phase df t0 t1 = Ok seg ->
  seg <> [] ->
  exists first last,
    In first seg /\ In last seg /\
    (forall p, In p seg ->
       fle (relative_timestamp (snd first)) (relative_timestamp (snd p))
         = true /\
       fle (relative_timestamp (snd p)) (relative_timestamp (snd last))
         = true) /\
    CalibrationProcessor.compute_neutral2_recovery_speed fd time_ranges
      baseline_mean
    = Ok (fdiv (fsub (avg_pupildiameter_smooth (snd first))
                     (avg_pupildiameter_smooth (snd last)))
               (fsub t1 t0)).
Proof.
  intros Hd Hphase Hseg Hne.
  assert (Hnan : forall p, In p seg ->
                   isnan (relative_timestamp (snd p)) = false).
  { intros p Hp. destruct (loc_phase_In _ _ _ _ _ Hseg Hp) as (_ & H & _).
    unfold fge in H. apply fle_not_nan in H. tauto. }
  destruct seg as [|p0 seg0] eqn:Eseg; [congruence|]. rewrite <- Eseg in *.
  assert (Hp0 : In p0 seg) by (rewrite Eseg; left; reflexivity).
  destruct (idx_extreme_Ok flt relative_timestamp seg p0 Hp0 (Hnan p0 Hp0))
    as (idx_start & Hstart).
  destruct (idx_extreme_Ok fgt relative_timestamp seg p0 Hp0 (Hnan p0 Hp0))
    as (idx_end & Hend).
  destruct (idx_extreme_best flt relative_timestamp seg idx_start
              flt_asym flt_between Hstart) as (first & Hf & Hfl & Hfmin).
  destruct (idx_extreme_best fgt relative_timestamp seg idx_end)
    as (last & Hl & Hll & Hlmax).
  { intros x y. unfold fgt. apply flt_asym. }
  { intros x y z Hy H. unfold fgt in *.
    destruct (flt_between z y x Hy H); auto. }
  { exact Hend. }
  pose proof (loc_phase_labels _ _ _ _ Hseg) as Hnd.
  exists first, last. split; [exact Hf|]. split; [exact Hl|]. split.
  - intros p Hp. split.
    + apply flt_false_fle; [apply Hnan; exact Hp | apply Hnan; exact Hf|].
      apply Hfmin; [exact Hp | apply Hnan; exact Hp].
    + apply flt_false_fle; [apply Hnan; exact Hl | apply Hnan; exact Hp|].
      apply (Hlmax p Hp). apply Hnan. exact Hp.
  - unfold CalibrationProcessor.compute_neutral2_recovery_speed.
    unfold dict_getitem. rewrite Hphase.
    cbn [bind CalibrationProcessor.unpack2]. unfold get_data in Hd.
    unfold get_data. rewrite Hd. cbn [bind subscriptable].
    rewrite Hseg. cbn [bind].
    assert (Hlen : Nat.eqb (length seg) 0 = false)
      by (rewrite Eseg; reflexivity).
    rewrite Hlen.
    change (CalibrationProcessor.idxmin relative_timestamp seg)
      with (CalibrationProcessor.idx_extreme flt relative_timestamp seg).
    change (CalibrationProcessor.idxmax relative_timestamp seg)
      with (CalibrationProcessor.idx_extreme fgt relative_timestamp seg).
    rewrite Hstart, Hend. cbn [bind]. rewrite <- Hfl, <- Hll.
    rewrite (seg_loc_unique seg first avg_pupildiameter_smooth Hnd Hf).
    rewrite (seg_loc_unique seg last avg_pupildiameter_smooth Hnd Hl).
    reflexivity.
Qed.

Lemma neutral2_recovery_uses_first_and_last_sample_witness :
  exists first last,
    In first (value_or []
                (CalibrationProcessor.loc_phase (frame_of fd_recovery)
                   (Fin (60 # 1)) (Fin (90 # 1)))) /\
    In last (value_or []
               (CalibrationProcessor.loc_phase (frame_of fd_recovery)
                  (Fin (60 # 1)) (Fin (90 # 1)))) /\
    (forall p,
       In p (value_or []
               (CalibrationProcessor.loc_phase (frame_of fd_recovery)
                  (Fin (60 # 1)) (Fin (90 # 1)))) ->
       fle (relative_timestamp (snd first)) (relative_timestamp (snd p))
         = true /\
       fle (relative_timestamp (snd p)) (relative_timestamp (snd last))
         = true) /\
    CalibrationProcessor.compute_neutral2_recovery_speed fd_recovery
      time_ranges_704 (Fin 3)
    = Ok (fdiv (fsub (avg_pupildiameter_smooth (snd first))
                     (avg_pupildiameter_smooth (snd last)))
               (fsub (Fin (90 # 1)) (Fin (60 # 1)))).
Proof.
  apply (neutral2_recovery_uses_first_and_last_sample fd_recovery
           time_ranges_704 (Fin 3) (frame_of fd_recovery)
           (Fin (60 # 1)) (Fin (90 # 1))).
  - vm_compute. reflexivity.
  - vm_compute. reflexivity.
  - vm_compute. reflexivity.
  - vm_compute. discriminate.
Defined.

(** ** The nine passes of the snapshot, on a concrete chain *)


(** ** Concrete instances *)


Lemma validate_filters_accepts_witness :
  Checkpoint.validate_filters fd_async_filtered = inr (3, 1, 4)%Z /\
  exists df,
    get_data fd_async_filtered = Some df /\
    has_column "is_valid" df = true /\
    (exists r, In r (rows df) /\ is_valid r = true) /\
    (exists r, In r (rows df) /\ is_valid r = false) /\
    3%Z = Z.of_nat (length (List.filter is_valid (rows df))) /\
    1%Z = Z.of_nat (length (List.filter (fun r => negb (is_valid r))
                              (rows df))) /\
    4%Z = Z.of_nat (length (rows df)).
Proof.
  assert (H : Checkpoint.validate_filters fd_async_filtered
              = inr (3, 1, 4)%Z) by (vm_compute; reflexivity).
  split; [exact H|].
  apply (proj1 (validate_filters_accepts fd_async_filtered 3 1 4)).
  exact H.
Defined.
